(** * CIDL-in-Python: gradient descent, MLP and RBF trainers

    A shallow embedding of the numeric core of the notebooks
    (scalar gradient descent, linear least squares by gradient descent,
    the two-layer perceptron and the two RBF networks) and the properties
    their specification states about them.

    Conventions of the embedding:
    - a float64 is idealised as a real number of [R]: rounding, overflow,
      NaN and Inf are not modelled, except for the loop of the linear
      trainer, which is also given in binary64 for inputs of one feature;
    - a 2-D [numpy] array is a record of its shape and its rows, a 1-D
      array is a list;
    - the objects the caller owns (the data arrays, the [model] dict) and
      the arrays written in place live in an explicit store; every
      function is a state-and-exception computation over that store;
    - [np.random] is a generator whose future draws are a tape;
    - [numpy.linalg] and [sklearn.cluster.KMeans] are an interface;
    - [print] has no effect on the store and is left out, except in
      [displayIterations], whose report is the list of the lines written,
      and in [LLS_report], where formatting the printed value can fail;
      plots are left out. *)

From Stdlib Require Import PrimFloat.
From Stdlib Require Uint63.
From Stdlib Require Import Reals Lra Lia List ZArith String Permutation.
From stdpp Require Import gmap strings list.
Import ListNotations.
Local Open Scope R_scope.

(** ** Python exceptions *)

Inductive exn : Type :=
| ValueError (msg : string)
| IndexError (msg : string)
| KeyError (key : string)
| TypeError (msg : string)
| ZeroDivisionError
| LinAlgError
| UnboundLocalError (var : string).

Inductive result (A : Type) : Type :=
| Ok (a : A)
| Raise (e : exn).
Arguments Ok {A} a.
Arguments Raise {A} e.

Definition is_Ok {A} (r : result A) : bool :=
  match r with Ok _ => true | Raise _ => false end.

Definition rbind {A B} (r : result A) (f : A -> result B) : result B :=
  match r with
  | Ok a => f a
  | Raise e => Raise e
  end.

Notation "'let?' x ':=' r 'in' k" := (rbind r (fun x => k))
  (at level 10, x pattern, r at level 100, k at level 200).

(** ** numpy arrays *)

Record ndarray : Type := mk_nd { nrows : nat; ncols : nat; data : list (list R) }.

(** [A[i, j]] for indices inside the shape. *)
Definition get (A : ndarray) (i j : nat) : R := nth j (nth i (data A) []) 0.

(** The array of shape [(r, c)] whose entry [(i, j)] is [f i j]. *)
Definition build (r c : nat) (f : nat -> nat -> R) : ndarray :=
  mk_nd r c (map (fun i => map (fun j => f i j) (seq 0 c)) (seq 0 r)).

(** The rows agree with the shape. *)
Definition wf (A : ndarray) : Prop :=
  length (data A) = nrows A /\ Forall (fun row => length row = ncols A) (data A).

Definition sum_upto (n : nat) (f : nat -> R) : R :=
  fold_right Rplus 0 (map f (seq 0 n)).

(** [np.zeros((r, c))], [np.ones((r, c))] *)
Definition np_zeros (r c : nat) : ndarray := build r c (fun _ _ => 0).
Definition np_ones (r c : nat) : ndarray := build r c (fun _ _ => 1).

(** [A.T] *)
Definition transpose (A : ndarray) : ndarray :=
  build (ncols A) (nrows A) (fun i j => get A j i).

(** [A @ B] *)
Definition matmul (A B : ndarray) : result ndarray :=
  if (ncols A =? nrows B)%nat
  then Ok (build (nrows A) (ncols B)
             (fun i j => sum_upto (ncols A) (fun k => get A i k * get B k j)))
  else Raise (ValueError "matmul: mismatch in core dimension").

(** numpy broadcasting of two 2-D shapes, one axis at a time. *)
Definition broadcast_dim (a b : nat) : option nat :=
  if (a =? b)%nat then Some a
  else if (a =? 1)%nat then Some b
  else if (b =? 1)%nat then Some a
  else None.

Definition bget (A : ndarray) (i j : nat) : R :=
  get A (if (nrows A =? 1)%nat then 0%nat else i)
        (if (ncols A =? 1)%nat then 0%nat else j).

(** [A op B] for an element-wise binary operator. *)
Definition broadcast (op : R -> R -> R) (A B : ndarray) : result ndarray :=
  match broadcast_dim (nrows A) (nrows B), broadcast_dim (ncols A) (ncols B) with
  | Some r, Some c => Ok (build r c (fun i j => op (bget A i j) (bget B i j)))
  | _, _ => Raise (ValueError "operands could not be broadcast together")
  end.

(** A unary element-wise function, and so [s * A], [A ** 2], [np.exp(A)]. *)
Definition map_nd (f : R -> R) (A : ndarray) : ndarray :=
  build (nrows A) (ncols A) (fun i j => f (get A i j)).

(** [np.sum(A)] *)
Definition np_sum (A : ndarray) : R :=
  sum_upto (nrows A) (fun i => sum_upto (ncols A) (fun j => get A i j)).

(** [np.vstack([np.ones(A.shape[1]), A])]: the shapes always agree. *)
Definition vstack_ones (A : ndarray) : ndarray :=
  build (S (nrows A)) (ncols A)
        (fun i j => match i with O => 1 | S i' => get A i' j end).

(** [np.column_stack([np.ones(A.shape[0]), A])] *)
Definition column_stack_ones (A : ndarray) : ndarray :=
  build (nrows A) (S (ncols A))
        (fun i j => match j with O => 1 | S j' => get A i j' end).

(** [A[1:, :]] *)
Definition drop_first_row (A : ndarray) : ndarray :=
  build (nrows A - 1) (ncols A) (fun i j => get A (S i) j).

(** [A[idx, :]] for an array of non-negative indices: a copy. *)
Definition take_rows (A : ndarray) (idx : list nat) : result ndarray :=
  if forallb (fun i => (i <? nrows A)%nat) idx
  then Ok (build (length idx) (ncols A) (fun i j => get A (nth i idx 0%nat) j))
  else Raise (IndexError "index is out of bounds for axis 0").

(** [A[i]] and [A[i, :]] for [0 <= i]: the 1-D row. *)
Definition row (A : ndarray) (i : nat) : result (list R) :=
  if (i <? nrows A)%nat then Ok (map (fun j => get A i j) (seq 0 (ncols A)))
  else Raise (IndexError "index is out of bounds for axis 0").

(** [v.reshape(1, -1)] and [v.reshape(-1, 1)] of a 1-D array; a 1-D array
    broadcasts against a 2-D one as its [reshape(1, -1)]. *)
Definition as_row (v : list R) : ndarray :=
  build 1 (length v) (fun _ j => nth j v 0).
Definition as_column (v : list R) : ndarray :=
  build (length v) 1 (fun i _ => nth i v 0).

(** [A.ravel()] and [A.reshape(-1, 1)], in row-major order. *)
Definition ravel (A : ndarray) : list R :=
  flat_map (fun i => map (fun j => get A i j) (seq 0 (ncols A))) (seq 0 (nrows A)).

(** A Python number that is either a float or an array: [b] and
    [E_current_epoch] of the linear trainer start as the float [0.0] and
    become arrays at their first update. *)
Inductive pynum : Type :=
| PyFloat (x : R)
| NdArray (a : ndarray).

(** A float broadcasts as the 1x1 array of its value does. *)
Definition scalar1 (x : R) : ndarray := build 1 1 (fun _ _ => x).

Definition as_operand (p : pynum) : ndarray :=
  match p with
  | PyFloat x => scalar1 x
  | NdArray a => a
  end.

(** ** The store *)

Abbreviation loc := nat (only parsing).

Inductive obj : Type :=
| Arr1 (v : list R)
| Arr2 (a : ndarray).

(** [a.ravel()] of an array of either rank; [a.reshape(-1, 1)] is the
    column of the same entries. *)
Definition ravel_of (o : obj) : list R :=
  match o with
  | Arr1 v => v
  | Arr2 a => ravel a
  end.

(** The values a [model] dict holds. *)
Inductive pyval : Type :=
| VInt (z : Z)
| VFloat (x : R)
| VStr (s : string)
| VArr (a : ndarray)
| VList (l : list R).

(** The state of [np.random]: the draws to come, and how many were made. *)
Record generator : Type := mk_gen {
  rand_at : nat -> R;
  permutation_at : nat -> nat -> list nat;
  cursor : nat
}.

(** [np.random.permutation(n)] returns a permutation of [range(n)]. *)
Definition valid_generator (g : generator) : Prop :=
  forall pos n, Permutation (permutation_at g pos n) (seq 0 n).

Record state : Type := mk_state {
  heap : list obj;
  model : gmap string pyval;
  rng : generator
}.

Definition set_heap (h : list obj) (s : state) : state :=
  mk_state h (model s) (rng s).
Definition set_model (m : gmap string pyval) (s : state) : state :=
  mk_state (heap s) m (rng s).
Definition set_rng (g : generator) (s : state) : state :=
  mk_state (heap s) (model s) g.

(** ** Computations: state and exceptions *)

Definition M (A : Type) : Type := state -> result A * state.

Definition ret {A} (a : A) : M A := fun s => (Ok a, s).

Definition bind {A B} (m : M A) (f : A -> M B) : M B :=
  fun s => match m s with
           | (Ok a, s') => f a s'
           | (Raise e, s') => (Raise e, s')
           end.

Definition raise {A} (e : exn) : M A := fun s => (Raise e, s).

Definition lift {A} (r : result A) : M A := fun s => (r, s).

Notation "'let*' x ':=' m 'in' k" := (bind m (fun x => k))
  (at level 10, x pattern, m at level 100, k at level 200).
Notation "m ;;; k" := (bind m (fun _ => k))
  (at level 100, k at level 200, right associativity).

(** [for a in l: s = body(a, s)] with the loop-carried variables [s]. *)
Fixpoint for_each {A S} (l : list A) (body : A -> S -> M S) (s : S) : M S :=
  match l with
  | [] => ret s
  | a :: l' => let* s' := body a s in for_each l' body s'
  end.

(** [range(n)] *)
Definition range (n : Z) : list nat := seq 0 (Z.to_nat n).

(** *** Arrays in the store *)

Definition alloc (o : obj) : M loc :=
  fun s => (Ok (length (heap s)), set_heap (heap s ++ [o]) s).

Definition load2 (l : loc) : M ndarray :=
  fun s => match heap s !! l with
           | Some (Arr2 a) => (Ok a, s)
           | _ => (Raise (TypeError "not a 2-D array"), s)
           end.

(** An array of either rank, for the methods that both have. *)
Definition load (l : loc) : M obj :=
  fun s => match heap s !! l with
           | Some o => (Ok o, s)
           | None => (Raise (TypeError "not an array"), s)
           end.

(** [a[k] = x] on a 1-D array, in place. *)
Definition setitem1 (l : loc) (k : nat) (x : R) : M unit :=
  fun s => match heap s !! l with
           | Some (Arr1 v) =>
               if (k <? length v)%nat
               then (Ok tt, set_heap (<[l := Arr1 (<[k := x]> v)]> (heap s)) s)
               else (Raise (IndexError "index is out of bounds for axis 0"), s)
           | _ => (Raise (TypeError "not a 1-D array"), s)
           end.

(** [np.zeros(n)], a fresh 1-D array. *)
Definition np_zeros1 (n : Z) : M loc :=
  if (n <? 0)%Z then raise (ValueError "negative dimensions are not allowed")
  else alloc (Arr1 (repeat 0 (Z.to_nat n))).

(** *** The [model] dict *)

Definition getitem (k : string) : M pyval :=
  fun s => match model s !! k with
           | Some v => (Ok v, s)
           | None => (Raise (KeyError k), s)
           end.

Definition setitem (k : string) (v : pyval) : M unit :=
  fun s => (Ok tt, set_model (<[k := v]> (model s)) s).

(** [model[k].append(x)] *)
Definition list_append (k : string) (x : R) : M unit :=
  let* v := getitem k in
  match v with
  | VList l => setitem k (VList (l ++ [x]))
  | _ => raise (TypeError "object has no attribute append")
  end.

(** The configuration values are used with the Python types the notebooks
    give them; a value of another type is answered [TypeError] at the
    place of its use, without following numpy's coercions. *)
Definition as_int (v : pyval) : result Z :=
  match v with
  | VInt z => Ok z
  | _ => Raise (TypeError "object cannot be interpreted as an integer")
  end.

Definition as_float (v : pyval) : result R :=
  match v with
  | VInt z => Ok (IZR z)
  | VFloat x => Ok x
  | _ => Raise (TypeError "unsupported operand type")
  end.

(** [v == s] for a string literal [s] *)
Definition eq_str (v : pyval) (s : string) : bool :=
  match v with
  | VStr s' => String.eqb s' s
  | _ => false
  end.

(** [v != 3] *)
Definition ne_3 (v : pyval) : bool :=
  match v with
  | VInt z => negb (z =? 3)%Z
  | VFloat x => if Req_dec_T x 3 then false else true
  | _ => true
  end.

(** *** [np.random] *)

Definition advance (n : nat) (g : generator) : generator :=
  mk_gen (rand_at g) (permutation_at g) (cursor g + n).

(** [np.random.rand(r, c)] *)
Definition random_rand (r c : Z) : M ndarray :=
  if ((r <? 0)%Z || (c <? 0)%Z)%bool
  then raise (ValueError "negative dimensions are not allowed")
  else fun s =>
         let g := rng s in
         let r' := Z.to_nat r in
         let c' := Z.to_nat c in
         (Ok (build r' c' (fun i j => rand_at g (cursor g + i * c' + j))),
          set_rng (advance (r' * c') g) s).

(** [np.random.permutation(n)] *)
Definition random_permutation (n : nat) : M (list nat) :=
  fun s => let g := rng s in
           (Ok (permutation_at g (cursor g) n), set_rng (advance 1 g) s).

(** [np.random.choice(a, size, replace=False)]: the head of a permutation. *)
Definition random_choice (a : nat) (size : Z) : M (list nat) :=
  if (size <? 0)%Z then raise (ValueError "negative dimensions are not allowed")
  else if (Z.of_nat a <? size)%Z
  then raise (ValueError "Cannot take a larger sample than population when replace is False")
  else let* p := random_permutation a in ret (firstn (Z.to_nat size) p).

(** *** [numpy.linalg] and [sklearn.cluster.KMeans] *)

Record KMeans_params : Type := mk_KMeans {
  n_clusters : pyval;
  max_iter : option Z;
  tol : option R;
  n_init : option Z;
  random_state : Z
}.

(** [lstsq A b] is [np.linalg.lstsq(A, b, rcond=None)[0]] for a 1-D
    [b], [pinv] is [np.linalg.pinv], and [KMeans_fit p X] is
    [KMeans(...).fit(X).cluster_centers_]; [KMeans] is seeded by its own
    [random_state] and copies its input. Both solvers raise
    [LinAlgError] when their decomposition does not converge, and
    [lstsq] raises it for a right-hand side that has not one entry for
    every row of [A]. *)
Class External : Type := {
  lstsq : ndarray -> list R -> result (list R);
  lstsq_shape : forall A b x, lstsq A b = Ok x -> length x = ncols A;
  lstsq_dims : forall A b, length b <> nrows A -> lstsq A b = Raise LinAlgError;
  pinv : ndarray -> result ndarray;
  pinv_shape : forall A P, pinv A = Ok P -> nrows P = ncols A /\ ncols P = nrows A;
  KMeans_fit : KMeans_params -> ndarray -> result ndarray
}.

(** ** Scalar gradient descent: [minimization_using_GD] *)

Definition minimization_using_GD (pol : R -> R) (x0 : R) (grad : R -> R)
    (eta : R) (num_iters : Z) : M (loc * loc) :=
  let* x_history := np_zeros1 (num_iters + 1) in
  let* pol_history := np_zeros1 (num_iters + 1) in
  setitem1 x_history 0 x0 ;;;
  setitem1 pol_history 0 (pol x0) ;;;
  let* _ := for_each (range num_iters) (fun k old_x =>
         let new_x := old_x - eta * grad old_x in
         let old_x := new_x in
         setitem1 x_history (k + 1) new_x ;;;
         setitem1 pol_history (k + 1) (pol new_x) ;;;
         ret old_x) x0 in
  ret (x_history, pol_history).

(** The iterates as the specification writes them:
    [x_0 = x0] and [x_{k+1} = x_k - eta * f'(x_k)]. *)
Fixpoint gd_iterate (grad : R -> R) (eta x0 : R) (k : nat) : R :=
  match k with
  | O => x0
  | S k' => let x := gd_iterate grad eta x0 k' in x - eta * grad x
  end.

(** ** Linear least squares by gradient descent: [LLS_by_GD] *)

(** [E += t]: a float is rebound to a new array, an array is added to in
    place and keeps its shape. *)
Definition iadd (E : pynum) (t : ndarray) : result pynum :=
  match E with
  | PyFloat x => Ok (NdArray (map_nd (fun v => x + v) t))
  | NdArray a =>
      let? r := broadcast Rplus a t in
      if ((nrows r =? nrows a)%nat && (ncols r =? ncols a)%nat)%bool
      then Ok (NdArray r)
      else Raise (ValueError "non-broadcastable output operand")
  end.

(** [E / N] for the int [N] *)
Definition div_int (E : pynum) (N : nat) : result pynum :=
  match E with
  | PyFloat x => if (N =? 0)%nat then Raise ZeroDivisionError else Ok (PyFloat (x / INR N))
  | NdArray a => Ok (NdArray (map_nd (fun v => v / INR N) a))
  end.

(** [a[k] = v] where [v] is a float or an array of one element *)
Definition setitem1_num (l : loc) (k : nat) (v : pynum) : M unit :=
  match v with
  | PyFloat x => setitem1 l k x
  | NdArray a =>
      if (nrows a * ncols a =? 1)%nat then setitem1 l k (get a 0 0)
      else raise (ValueError "setting an array element with a sequence.")
  end.

(** The body of the loop over the examples. *)
Definition LLS_example (X y : loc) (eta : R) (i : nat)
    (st : ndarray * pynum * pynum) : M (ndarray * pynum * pynum) :=
  let '(w, b, E_current_epoch) := st in
  let* X_ := load2 X in
  let* x_i := lift (row X_ i) in
  let* xw := lift (matmul (as_row x_i) w) in
  let* y_pred := lift (broadcast Rplus xw (as_operand b)) in
  let* y_ := load2 y in
  let* y_i := lift (row y_ i) in
  let* residual := lift (broadcast Rminus y_pred (as_row y_i)) in
  let* E_current_epoch :=
    lift (iadd E_current_epoch
            (map_nd (fun r => (1/2) * r) (map_nd (fun r => r ^ 2) residual))) in
  let* X_ := load2 X in
  let* x_i := lift (row X_ i) in
  let* gradient_w := lift (broadcast Rmult residual (as_column x_i)) in
  let gradient_b := residual in
  let* w := lift (broadcast Rminus w (map_nd (fun g => eta * g) gradient_w)) in
  let* b := lift (broadcast Rminus (as_operand b)
                    (map_nd (fun g => eta * g) gradient_b)) in
  ret (w, NdArray b, E_current_epoch).

(** The body of the loop over the epochs. *)
Definition LLS_epoch (X y : loc) (eta : R) (N : nat) (avg_E_at_each_iteration : loc)
    (k : nat) (st : ndarray * pynum) : M (ndarray * pynum) :=
  let '(w, b) := st in
  let E_current_epoch := PyFloat 0 in
  let* (w, b, E_current_epoch) :=
    for_each (range (Z.of_nat N)) (LLS_example X y eta) (w, b, E_current_epoch) in
  let* avg := lift (div_int E_current_epoch N) in
  setitem1_num avg_E_at_each_iteration k avg ;;;
  ret (w, b).

Definition LLS_by_GD (X y : loc) (eta : R) (num_iters : Z) : M (ndarray * pynum * loc) :=
  let* X_ := load2 X in
  let N := nrows X_ in
  let D := ncols X_ in
  let w := np_zeros D 1 in
  let b := PyFloat 0 in
  let* avg_E_at_each_iteration := np_zeros1 num_iters in
  let* (w, b) :=
    for_each (range num_iters) (LLS_epoch X y eta N avg_E_at_each_iteration) (w, b) in
  ret (w, b, avg_E_at_each_iteration).

(** The same trainer as the specification words it, on a list of
    examples: the prediction [x.w + b], the residual, the loss
    [0.5 * r^2] and the update of [w] and [b], which the next example
    sees. *)
Definition dot (x w : list R) : R :=
  fold_right Rplus 0 (zip_with Rmult x w).

Definition sgd_example (eta : R) (st : list R * R * R) (ex : list R * R)
    : list R * R * R :=
  let '(w, b, E) := st in
  let '(x, y) := ex in
  let r := dot x w + b - y in
  (zip_with (fun wj xj => wj - eta * (r * xj)) w x, b - eta * r, E + (1/2) * r ^ 2).

(** One epoch: a sequential fold over the examples in their order, and
    the average loss appended to the history. *)
Definition sgd_one_epoch (eta : R) (examples : list (list R * R))
    (st : list R * R * list R) : list R * R * list R :=
  let '(w, b, hist) := st in
  let '(w', b', E) := fold_left (sgd_example eta) examples (w, b, 0) in
  (w', b', hist ++ [E / INR (length examples)]).

Definition sgd_train (eta : R) (examples : list (list R * R)) (D n : nat)
    : list R * R * list R :=
  Nat.iter n (sgd_one_epoch eta examples) (repeat 0 D, 0, []).

(** The examples of a data set: row [i] of [X] with the target [y[i]]. *)
Definition examples_of (X y : ndarray) : list (list R * R) :=
  map (fun i => (map (fun j => get X i j) (seq 0 (ncols X)), get y i 0%nat))
      (seq 0 (nrows X)).

(** The loop of [LLS_by_GD] for inputs of one feature, over an
    arithmetic: the operations of the source in their order, where
    [X[i, :].reshape(1, -1) @ w] is the one product [x * w], [b] and
    [E_current_epoch] are numbers, and [residual**2] is the product of
    [residual] with itself. *)
Section Arithmetic.
Context {T : Type} (add sub mul div : T -> T -> T) (zero half : T) (of_nat : nat -> T).

Definition LLS_example_with (eta : T) (st : T * T * T) (ex : T * T) : T * T * T :=
  let '(w, b, E_current_epoch) := st in
  let '(x_i, y_i) := ex in
  let y_pred := add (mul x_i w) b in
  let residual := sub y_pred y_i in
  let E_current_epoch := add E_current_epoch (mul half (mul residual residual)) in
  let gradient_w := mul residual x_i in
  let gradient_b := residual in
  let w := sub w (mul eta gradient_w) in
  let b := sub b (mul eta gradient_b) in
  (w, b, E_current_epoch).

Definition LLS_epoch_with (eta : T) (examples : list (T * T)) (st : T * T * list T)
    : T * T * list T :=
  let '(w, b, avg_E_at_each_iteration) := st in
  let '(w, b, E_current_epoch) :=
    fold_left (LLS_example_with eta) examples (w, b, zero) in
  (w, b, avg_E_at_each_iteration ++ [div E_current_epoch (of_nat (length examples))]).

Definition LLS_by_GD_with (eta : T) (examples : list (T * T)) (num_iters : nat)
    : T * T * list T :=
  Nat.iter num_iters (LLS_epoch_with eta examples) (zero, zero, []).

End Arithmetic.

(** The loop in the arithmetic of the reals, and in IEEE 754 binary64,
    the floats of Python and numpy. *)
Definition LLS_by_GD_exact : R -> list (R * R) -> nat -> R * R * list R :=
  LLS_by_GD_with Rplus Rminus Rmult Rdiv 0 (1/2) INR.

Definition LLS_by_GD_binary64
    : float -> list (float * float) -> nat -> float * float * list float :=
  LLS_by_GD_with PrimFloat.add PrimFloat.sub PrimFloat.mul PrimFloat.div
    0%float 0.5%float (fun n => PrimFloat.of_uint63 (Uint63.of_Z (Z.of_nat n))).

(** ** The two-layer perceptron *)

(** The activation and its derivative as the specification writes them. *)
Definition sigmoid (z : R) : R := 1 / (1 + exp (- z)).
Definition sigmoid' (z : R) : R := sigmoid z * (1 - sigmoid z).

Definition MLP_sigmoid (z : ndarray) : ndarray :=
  map_nd (fun x => 1 / (1 + exp (- x))) z.

Definition MLP_sigmoid_derivative (rZ : ndarray) : result ndarray :=
  let sigma_of_rZ := MLP_sigmoid rZ in
  broadcast Rmult sigma_of_rZ (map_nd (fun s => 1 - s) sigma_of_rZ).

(** [MLP_MSE_cost(y_true, y_pred, model, W1, W2)]: the last three
    arguments are not used, and [y_true] is 2-D at its only call. *)
Definition MLP_MSE_cost (y_true y_pred : ndarray) : result R :=
  let? d := broadcast Rminus y_true y_pred in
  Ok (np_sum (map_nd (fun v => v ^ 2) d) / (2 * INR (ncols y_true))).

Definition MLP_initialize_weights : M (ndarray * ndarray) :=
  let* n_hidden := getitem "n_hidden" in
  let* n_features := getitem "n_features" in
  let* n_output := getitem "n_output" in
  let* h := lift (as_int n_hidden) in
  let* d := lift (as_int n_features) in
  let* r1 := random_rand h (d + 1) in
  let W1 := map_nd (fun u => 2 * u - 1) r1 in
  let* o := lift (as_int n_output) in
  let* r2 := random_rand o (h + 1) in
  let W2 := map_nd (fun u => 2 * u - 1) r2 in
  ret (W1, W2).

Definition MLP_MSELIN_forward (P_input W1 W2 : ndarray)
    : result (ndarray * ndarray * ndarray * ndarray) :=
  let A0 := vstack_ones (transpose P_input) in
  let? rZ1 := matmul W1 A0 in
  let rA1 := MLP_sigmoid rZ1 in
  let A1 := vstack_ones rA1 in
  let? rA2 := matmul W2 A1 in
  Ok (rA2, A1, A0, rZ1).

Definition MLP_MSELIN_backprop (rA2 A1 A0 rZ1 Y_true W1 W2 : ndarray)
    : result (ndarray * ndarray) :=
  let? dL_dZ2 := broadcast Rminus rA2 Y_true in
  let? dL_dW2 := matmul dL_dZ2 (transpose A1) in
  let? dL_dA1 := matmul (transpose W2) dL_dZ2 in
  let? sigma_prime_of_rZ1 := MLP_sigmoid_derivative rZ1 in
  let? dL_drZ1 := broadcast Rmult (drop_first_row dL_dA1) sigma_prime_of_rZ1 in
  let? dL_dW1 := matmul dL_drZ1 (transpose A0) in
  Ok (dL_dW1, dL_dW2).

Definition MLP_MSELIN_predict (P_input W1 W2 : ndarray) : result ndarray :=
  let? (rA2, _, _, _) := MLP_MSELIN_forward P_input W1 W2 in
  Ok rA2.

(** [np.cumsum] of a list of sizes *)
Fixpoint cumsum_from (acc : nat) (l : list nat) : list nat :=
  match l with
  | [] => []
  | x :: l' => (acc + x)%nat :: cumsum_from (acc + x) l'
  end.

(** [np.array_split(np.arange(Ntotal), Nsections)] for an integer number
    of sections, as numpy computes it. *)
Definition array_split (Ntotal : nat) (Nsections : Z) : result (list (list nat)) :=
  if (Nsections <=? 0)%Z
  then Raise (ValueError "number sections must be larger than 0.")
  else
    let n := Z.to_nat Nsections in
    let Neach_section := (Ntotal / n)%nat in
    let extras := (Ntotal mod n)%nat in
    let section_sizes :=
      0%nat :: repeat (Datatypes.S Neach_section) extras ++ repeat Neach_section (n - extras) in
    let div_points := cumsum_from 0 section_sizes in
    Ok (map (fun i =>
               let st := nth i div_points 0%nat in
               let end_ := nth (Datatypes.S i) div_points 0%nat in
               seq st (end_ - st))
            (seq 0 n)).

(** The body of the loop over the mini-batches. *)
Definition MLP_minibatch (current_eta : pyval) (P_shuffled y_shuffled : ndarray)
    (idx : list nat) (W : ndarray * ndarray) : M (ndarray * ndarray) :=
  let '(W1, W2) := W in
  let* P_mini_batch := lift (take_rows P_shuffled idx) in
  let* y_rows := lift (take_rows y_shuffled idx) in
  let y_mini_batch := transpose y_rows in
  let* (rA2, A1, A0, rZ1) := lift (MLP_MSELIN_forward P_mini_batch W1 W2) in
  let* cost := lift (MLP_MSE_cost y_mini_batch rA2) in
  list_append "cost_history" cost ;;;
  let* (delta_W1_unscaled, delta_W2_unscaled) :=
    lift (MLP_MSELIN_backprop rA2 A1 A0 rZ1 y_mini_batch W1 W2) in
  let* eta_ := lift (as_float current_eta) in
  let delta_W1 := map_nd (fun g => eta_ * g) delta_W1_unscaled in
  let delta_W2 := map_nd (fun g => eta_ * g) delta_W2_unscaled in
  let* W1 := lift (broadcast Rminus W1 delta_W1) in
  let* W2 := lift (broadcast Rminus W2 delta_W2) in
  ret (W1, W2).

(** The body of the loop over the epochs. *)
Definition MLP_epoch (P_train y_train : loc) (eta minibatches : pyval)
    (num_observations : nat) (e : nat) (W : ndarray * ndarray)
    : M (ndarray * ndarray) :=
  let current_eta := eta in
  let* shuffled_indices := random_permutation num_observations in
  let* P_ := load2 P_train in
  let* P_shuffled := lift (take_rows P_ shuffled_indices) in
  let* y_ := load2 y_train in
  let* y_shuffled := lift (take_rows y_ shuffled_indices) in
  let* sections := lift (as_int minibatches) in
  let* mini_batch_indices := lift (array_split num_observations sections) in
  for_each mini_batch_indices (MLP_minibatch current_eta P_shuffled y_shuffled) W.

Definition MLP_MSELIN_train (P_train y_train : loc) : M (ndarray * ndarray) :=
  let* (W1, W2) := MLP_initialize_weights in
  let* eta := getitem "eta" in
  let* epochs := getitem "epochs" in
  let* minibatches := getitem "minibatches" in
  setitem "cost_history" (VList []) ;;;
  let* P_ := load2 P_train in
  let num_observations := nrows P_ in
  let* n_epochs := lift (as_int epochs) in
  let* (W1, W2) :=
    for_each (range n_epochs)
      (MLP_epoch P_train y_train eta minibatches num_observations) (W1, W2) in
  setitem "W1" (VArr W1) ;;;
  setitem "W2" (VArr W2) ;;;
  ret (W1, W2).

(** ** RBF networks *)

(** [np.sqrt(np.sum((W1[:, :, np.newaxis] - rA0[np.newaxis, :, :])**2, axis=1))]
    for centres [W1] of shape (H, D') and inputs [rA0] of shape (D, B):
    the feature axes are broadcast against each other. *)
Definition centre_distances (W1 rA0 : ndarray) : result ndarray :=
  match broadcast_dim (ncols W1) (nrows rA0) with
  | Some D =>
      Ok (build (nrows W1) (ncols rA0) (fun i j =>
            sqrt (sum_upto D (fun d =>
                    (get W1 i (if (ncols W1 =? 1)%nat then 0%nat else d)
                     - get rA0 (if (nrows rA0 =? 1)%nat then 0%nat else d) j) ^ 2))))
  | None => Raise (ValueError "operands could not be broadcast together")
  end.

(** [np.sqrt(((X[:, np.newaxis, :] - W1[np.newaxis, :, :])**2).sum(axis=2))]
    for inputs [X] of shape (N, D) and centres [W1] of shape (H, D'). *)
Definition sample_distances (X W1 : ndarray) : result ndarray :=
  match broadcast_dim (ncols X) (ncols W1) with
  | Some D =>
      Ok (build (nrows X) (nrows W1) (fun i j =>
            sqrt (sum_upto D (fun d =>
                    (get X i (if (ncols X =? 1)%nat then 0%nat else d)
                     - get W1 j (if (ncols W1 =? 1)%nat then 0%nat else d)) ^ 2))))
  | None => Raise (ValueError "operands could not be broadcast together")
  end.

(** [v[:k]] for an integer [k] *)
Definition slice_to {A} (v : list A) (k : Z) : list A :=
  if (0 <=? k)%Z then firstn (Z.to_nat k) v
  else firstn (length v - Z.to_nat (- k)) v.

(** The Gaussian activation as the specification writes it:
    [exp(-eps^2 * ||x_j - c_i||^2)] for row [j] of the inputs and row [i]
    of the centres. *)
Definition sq_distance (X W1 : ndarray) (j i : nat) : R :=
  sum_upto (ncols X) (fun d => (get X j d - get W1 i d) ^ 2).

Definition gaussian_rbf (eps : R) (X W1 : ndarray) (j i : nat) : R :=
  exp (- (eps ^ 2 * sq_distance X W1 j i)).

(** The notebook of the 1-D network (week7/RBF_1D.ipynb). *)
Module RBF_1D.
Section Net.
Context `{External}.

Definition RBF_extend (X : ndarray) : ndarray := vstack_ones X.

Definition RBF_forward (P W1 W2 : ndarray) (epsilon : pyval)
    : result (ndarray * ndarray) :=
  let rA0 := transpose P in
  let? rZ1 := centre_distances W1 rA0 in
  let? epsilon_ := as_float epsilon in
  let rA1 := map_nd (fun z => exp (- (epsilon_ ^ 2 * z ^ 2))) rZ1 in
  let A1 := RBF_extend rA1 in
  let? rZ2 := matmul W2 A1 in
  let rA2 := rZ2 in
  Ok (rA2, A1).

Definition debug_centres_1 : ndarray := mk_nd 3 1 [[-8]; [-1]; [7]].
Definition debug_centres_2 : ndarray := mk_nd 3 2 [[-8; -8]; [-1; -1]; [7; 7]].

Definition RBF_initialize_centres (Xtrain ytrain : loc) : M ndarray :=
  let* method := getitem "centres_generation_method" in
  let* n_hidden := getitem "n_hidden" in
  let* W1 :=
    if eq_str method "random" then
      let* X_ := load2 Xtrain in
      let* idx := random_permutation (nrows X_) in
      let* k := lift (as_int n_hidden) in
      let* X_ := load2 Xtrain in
      lift (take_rows X_ (slice_to idx k))
    else if eq_str method "clustering" then
      let* X_ := load2 Xtrain in
      lift (KMeans_fit (mk_KMeans n_hidden (Some 50%Z) (Some (1/1000)) None 42) X_)
    else if eq_str method "debug" then
      (if ne_3 n_hidden then setitem "n_hidden" (VInt 3) else ret tt) ;;;
      let* X_ := load2 Xtrain in
      if (ncols X_ =? 1)%nat then ret debug_centres_1
      else if (ncols X_ =? 2)%nat then ret debug_centres_2
      else raise (ValueError "Unsupported input dimension for debug mode")
    else raise (ValueError "Unrecognized center generation method") in
  setitem "W1" (VArr W1) ;;;
  ret W1.

(** [np.ones((1, n + 1))] for a value of the dict *)
Definition ones_row (n : pyval) : result ndarray :=
  let? n_ := as_int n in
  if (n_ + 1 <? 0)%Z then Raise (ValueError "negative dimensions are not allowed")
  else Ok (np_ones 1 (Z.to_nat (n_ + 1))).

Definition RBF_train_offline (X y : loc) : M (ndarray * ndarray) :=
  let* W1 := RBF_initialize_centres X y in
  let* n_hidden := getitem "n_hidden" in
  let* ones := lift (ones_row n_hidden) in
  let* epsilon := getitem "epsilon" in
  let* X_ := load2 X in
  let* (_, A1) := lift (RBF_forward X_ W1 ones epsilon) in
  let* y_ := load y in
  let y_flat := ravel_of y_ in
  let* W2 := lift (lstsq (transpose A1) y_flat) in
  let W2 := as_row W2 in
  setitem "W2" (VArr W2) ;;;
  ret (W1, W2).

Definition RBF_predict (X W1 W2 : ndarray) (epsilon : pyval) : result ndarray :=
  let? (y_pred, _) := RBF_forward X W1 W2 epsilon in
  Ok y_pred.

End Net.
End RBF_1D.

(** The notebook of the 2-D network. *)
Module RBF_2D.
Section Net.
Context `{External}.

Definition RBF_train_offline (X y : loc) : M (ndarray * ndarray) :=
  let* n_hidden := getitem "n_hidden" in
  let* n_features := getitem "n_features" in
  let* method := getitem "centres_generation_method" in
  let* W1 :=
    if eq_str method "random" then
      let* X_ := load2 X in
      let* size := lift (as_int n_hidden) in
      let* idx := random_choice (nrows X_) size in
      let* X_ := load2 X in
      let* W1 := lift (take_rows X_ idx) in
      ret (Some W1)
    else if eq_str method "clustering" then
      let* X_ := load2 X in
      let* W1 := lift (KMeans_fit (mk_KMeans n_hidden None None (Some 10%Z) 42) X_) in
      ret (Some W1)
    else ret None in
  let* epsilon := getitem "epsilon" in
  let* X_ := load2 X in
  let* W1 := match W1 with
             | Some W1 => ret W1
             | None => raise (UnboundLocalError "W1")
             end in
  let* distances := lift (sample_distances X_ W1) in
  let* epsilon_ := lift (as_float epsilon) in
  let H := map_nd (fun d => exp (- (d * epsilon_) ^ 2)) distances in
  let H := column_stack_ones H in
  let* H_pinv := lift (pinv H) in
  let* y_ := load y in
  let* W2 := lift (matmul H_pinv (as_column (ravel_of y_))) in
  ret (W1, W2).

Definition RBF_predict (X W1 W2 : ndarray) (epsilon : pyval) : result ndarray :=
  let? distances := sample_distances X W1 in
  let? epsilon_ := as_float epsilon in
  let H := map_nd (fun d => exp (- (d * epsilon_) ^ 2)) distances in
  let H := column_stack_ones H in
  let? y_pred := matmul H W2 in
  Ok y_pred.

End Net.
End RBF_2D.

(** ** The data generators *)

(** [np.linspace(start, stop, num)], with the end point included. *)
Definition linspace (start stop : R) (num : Z) : result (list R) :=
  if (num <? 0)%Z then Raise (ValueError "Number of samples must be non-negative.")
  else
    let n := Z.to_nat num in
    let div := (n - 1)%nat in
    let delta := stop - start in
    let step := delta / INR div in
    let y (i : nat) :=
      if (0 <? div)%nat
      then (if Req_dec_T step 0 then INR i / INR div * delta else INR i * step)
      else INR i * delta in
    Ok (map (fun i => if ((1 <? n)%nat && (i =? n - 1)%nat)%bool then stop
                      else y i + start)
            (seq 0 n)).

(** [int(np.sqrt(n))] for a Python int [n]: the square root of a negative
    number is NaN, which [int] refuses. *)
Definition int_sqrt (n : Z) : result Z :=
  if (n <? 0)%Z then Raise (ValueError "cannot convert float NaN to integer")
  else Ok (Z.sqrt n).

(** [np.meshgrid(x1, x2)] *)
Definition meshgrid (x1 x2 : list R) : ndarray * ndarray :=
  (build (length x2) (length x1) (fun _ j => nth j x1 0),
   build (length x2) (length x1) (fun i _ => nth i x2 0)).

(** [np.hstack((A, B))] of two 2-D arrays *)
Definition hstack (A B : ndarray) : result ndarray :=
  if (nrows A =? nrows B)%nat
  then Ok (build (nrows A) (ncols A + ncols B)
             (fun i j => if (j <? ncols A)%nat then get A i j
                         else get B i (j - ncols A)%nat))
  else Raise (ValueError "all the input array dimensions except for the concatenation axis must match exactly").

(** [np.column_stack([a, b])] of two 1-D arrays *)
Definition column_stack2 (a b : list R) : result ndarray :=
  if (length a =? length b)%nat
  then Ok (build (length a) 2
             (fun i j => match j with O => nth i a 0 | _ => nth i b 0 end))
  else Raise (ValueError "all the input array dimensions except for the concatenation axis must match exactly").

(** [np.where(val == 0, 1.0, np.sin(val) / val)] *)
Definition safe_sinc_val (val : ndarray) : ndarray :=
  map_nd (fun v => if Req_dec_T v 0 then 1 else sin v / v) val.

Definition sinc2D_gen (Npatterns : Z)
    : result (ndarray * ndarray * ndarray * ndarray * ndarray) :=
  let? side_length := int_sqrt Npatterns in
  let? x1 := linspace (-5) 5 side_length in
  let? x2 := linspace (-5) 5 side_length in
  let '(XX1, XX2) := meshgrid x1 x2 in
  let? YY := broadcast Rmult (map_nd (fun v => 10 * v) (safe_sinc_val XX1))
               (safe_sinc_val XX2) in
  let? X := hstack (as_column (ravel XX1)) (as_column (ravel XX2)) in
  let y := as_column (ravel YY) in
  Ok (X, y, XX1, XX2, YY).

(** [mog1D_gen(Npatterns, visualize)] of the 1-D notebook; the plot that
    [visualize] asks for is left out. *)
Definition mog1D_gen (Npatterns : Z) : result (ndarray * ndarray) :=
  let? xs := linspace (-10) 10 Npatterns in
  let X := as_column xs in
  let '(centre1, centre2, centre3) := (-8, -1, 7) in
  let '(ampl1, ampl2, ampl3) := (3, -5, 9) in
  let epsilon := 3/10 in
  let k1 := map_nd (fun x => ampl1 * exp (- (((x - centre1) * epsilon) ^ 2))) X in
  let k2 := map_nd (fun x => ampl2 * exp (- (((x - centre2) * epsilon) ^ 2))) X in
  let k3 := map_nd (fun x => ampl3 * exp (- (((x - centre3) * epsilon) ^ 2))) X in
  let? k12 := broadcast Rplus k1 k2 in
  let? y := broadcast Rplus k12 k3 in
  Ok (X, y).

(** [mog2D_gen(Npatterns, visualize)] of the 2-D notebook: the targets
    are returned as a 1-D array. *)
Definition mog2D_gen (Npatterns : Z)
    : result (ndarray * list R * ndarray * ndarray * ndarray) :=
  let? n := int_sqrt Npatterns in
  let? x1 := linspace (-10) 10 n in
  let? x2 := linspace (-10) 10 n in
  let '(XX1, XX2) := meshgrid x1 x2 in
  let '(centre1, centre2, centre3) := (-8, -1, 7) in
  let '(ampl1, ampl2, ampl3) := (3, -5, 9) in
  let epsilon := 3/10 in
  let kernel ampl centre :=
    broadcast Rmult
      (map_nd (fun x => ampl * exp (- (((x - centre) * epsilon) ^ 2))) XX1)
      (map_nd (fun x => exp (- (((x - centre) * epsilon) ^ 2))) XX2) in
  let? k1 := kernel ampl1 centre1 in
  let? k2 := kernel ampl2 centre2 in
  let? k3 := kernel ampl3 centre3 in
  let? k12 := broadcast Rplus k1 k2 in
  let? YY := broadcast Rplus k12 k3 in
  let? X := column_stack2 (ravel XX1) (ravel XX2) in
  let y := ravel YY in
  Ok (X, y, XX1, XX2, YY).

(** ** The polynomial of the scalar notebook: [np.poly1d] *)

Module Sixtic.

(** [np.trim_zeros(c, 'f')] *)
Fixpoint trim_zeros_front (c : list R) : list R :=
  match c with
  | [] => []
  | a :: c' => if Req_dec_T a 0 then trim_zeros_front c' else c
  end.

(** [np.poly1d(c)]: the coefficients from the highest degree down,
    without leading zeros. *)
Definition poly1d (c : list R) : list R :=
  match trim_zeros_front c with
  | [] => [0]
  | c' => c'
  end.

(** [p(x)], which is [np.polyval(p.coeffs, x)]: Horner's rule. *)
Definition polyval (p : list R) (x : R) : R :=
  fold_left (fun y pv => y * x + pv) p 0.

(** [np.polyder(p)]: [p[:-1] * np.arange(n, 0, -1)] for [n = len(p) - 1]. *)
Definition polyder (p : list R) : list R :=
  let n := (length p - 1)%nat in
  zip_with Rmult (removelast p) (map INR (rev (seq 1 n))).

(** [p.deriv()] *)
Definition deriv (p : list R) : list R := poly1d (polyder p).

Definition sixtic_pol_coeffs : list R :=
  map (fun c => 1/10 * c) [1; -4; -26; 56; 253; 20; -300].

Definition P : list R := poly1d sixtic_pol_coeffs.
Definition grad_P : list R := deriv P.

End Sixtic.

(** ** The report of the iterations: [displayIterations] *)

(** What [print] writes, without the layout of the numbers. *)
Inductive line : Type :=
| Header (num_iter_to_display : Z) (x0 : R)
| Row (i : Z) (x pol_x : R)
| Ellipsis.

(** [range(a, b)] *)
Definition range2 (a b : Z) : list Z :=
  map (fun k => (a + Z.of_nat k)%Z) (seq 0 (Z.to_nat (b - a))).

(** [v[i]] on a 1-D array for a Python int [i]: a negative index counts
    from the end. *)
Definition index1 (v : list R) (i : Z) : result R :=
  let n := Z.of_nat (length v) in
  let j := if (i <? 0)%Z then (i + n)%Z else i in
  if ((0 <=? j)%Z && (j <? n)%Z)%bool
  then Ok (nth (Z.to_nat j) v 0)
  else Raise (IndexError "index is out of bounds for axis 0").

(** One loop of [print]: the lines written, and how the loop ended. *)
Fixpoint print_rows (x_his pol_his : list R) (idx : list Z) : list line * result unit :=
  match idx with
  | [] => ([], Ok tt)
  | i :: idx' =>
      match index1 x_his i with
      | Raise e => ([], Raise e)
      | Ok x =>
          match index1 pol_his i with
          | Raise e => ([], Raise e)
          | Ok p =>
              let '(out, r) := print_rows x_his pol_his idx' in
              (Row i x p :: out, r)
          end
      end
  end.

Definition displayIterations (x_his pol_his : list R) (num_iter_to_display : Z) (x0 : R)
    : list line * result unit :=
  let len := Z.of_nat (length x_his) in
  let '(out1, r1) :=
    print_rows x_his pol_his (range2 0 (Z.min (num_iter_to_display + 1) len)) in
  match r1 with
  | Raise e => (Header num_iter_to_display x0 :: out1, Raise e)
  | Ok _ =>
      let dots := if (2 * num_iter_to_display + 1 <? len)%Z then [Ellipsis] else [] in
      let '(out2, r2) :=
        print_rows x_his pol_his
          (range2 (Z.max (num_iter_to_display + 1) (len - num_iter_to_display)) len) in
      (Header num_iter_to_display x0 :: out1 ++ dots ++ out2, r2)
  end.

(** The rows of the report for a list of iterations. *)
Definition rows_of (x_his pol_his : list R) (idx : list Z) : list line :=
  map (fun i => Row i (nth (Z.to_nat i) x_his 0) (nth (Z.to_nat i) pol_his 0)) idx.

(** ** The report of the linear trainer *)

(** [f"{v:.4f}"]: a float is formatted; an array of one dimension or
    more refuses a format specification. *)
Definition format_fixed (v : pynum) : result unit :=
  match v with
  | PyFloat _ => Ok tt
  | NdArray _ =>
      Raise (TypeError "unsupported format string passed to numpy.ndarray.__format__")
  end.

(** The cell that runs the trainer and then prints the learned bias
    with [f"{b_learned:.4f}"]; the print of the weights before it
    formats an array with no specification, which never fails. *)
Definition LLS_report (X y : loc) (eta : R) (num_iters : Z) : M unit :=
  let* (w_learned, b_learned, E_history) := LLS_by_GD X y eta num_iters in
  lift (format_fixed b_learned).

(** ** Data for the examples *)

(** The data of the worked example of the specification:
    [X = [[1], [2]]] and [y = [[1], [2]]]. *)
Definition X_example : ndarray := mk_nd 2 1 [[1]; [2]].
Definition y_example : ndarray := mk_nd 2 1 [[1]; [2]].

(** A target with one row more than [X_example]. *)
Definition y_long : ndarray := mk_nd 3 1 [[1]; [2]; [3]].

(** The generator that always draws 0 and the identity permutation. *)
Definition constant_generator : generator :=
  mk_gen (fun _ => 0) (fun _ n => seq 0 n) 0.

(** A stand-in for the solvers: the zero vector and the zero matrix of
    the shapes numpy returns, and no clustering. *)
#[local] Instance zero_solver : External.
Proof.
  refine {| lstsq := fun A b =>
              if (length b =? nrows A)%nat then Ok (repeat 0 (ncols A))
              else Raise LinAlgError;
            pinv := fun A => Ok (np_zeros (ncols A) (nrows A));
            KMeans_fit := fun _ _ => Raise (ValueError "KMeans is not available") |}.
  - intros A b x. destruct (length b =? nrows A)%nat; [|discriminate].
    intros [= <-]. apply repeat_length.
  - intros A b Hne. destruct (Nat.eqb_spec (length b) (nrows A)); [contradiction|].
    reflexivity.
  - intros A P [= <-]. split; reflexivity.
Defined.

(** A solver that is exact on a regular system of two equations in two
    unknowns (by the inverse of its matrix) and declines every other
    system. *)
Definition det2 (A : ndarray) : R :=
  get A 0 0 * get A 1 1 - get A 0 1 * get A 1 0.

Definition regular2 (A : ndarray) : bool :=
  ((nrows A =? 2)%nat && (ncols A =? 2)%nat
   && (if Req_dec_T (det2 A) 0 then false else true))%bool.

Definition inverse2 (A : ndarray) : ndarray :=
  mk_nd 2 2 [[get A 1 1 / det2 A; - get A 0 1 / det2 A];
             [- get A 1 0 / det2 A; get A 0 0 / det2 A]].

Definition solve2 (A : ndarray) (b : list R) : list R :=
  [get (inverse2 A) 0 0 * nth 0 b 0 + get (inverse2 A) 0 1 * nth 1 b 0;
   get (inverse2 A) 1 0 * nth 0 b 0 + get (inverse2 A) 1 1 * nth 1 b 0].

Definition exact_solver : External.
Proof.
  refine {| lstsq := fun A b =>
              if (regular2 A && (length b =? 2)%nat)%bool then Ok (solve2 A b)
              else Raise LinAlgError;
            pinv := fun A => if regular2 A then Ok (inverse2 A) else Raise LinAlgError;
            KMeans_fit := fun _ _ => Raise (ValueError "KMeans is not available") |}.
  - intros A b x. unfold regular2.
    destruct (Nat.eqb_spec (nrows A) 2); [|discriminate].
    destruct (Nat.eqb_spec (ncols A) 2) as [->|]; [|discriminate].
    destruct (_ && _)%bool; [|discriminate]. intros [= <-]. reflexivity.
  - intros A b Hne. unfold regular2.
    destruct (Nat.eqb_spec (nrows A) 2) as [HA|]; [|reflexivity].
    destruct (Nat.eqb_spec (length b) 2); [congruence|].
    rewrite andb_false_r. reflexivity.
  - intros A P. unfold regular2.
    destruct (Nat.eqb_spec (nrows A) 2) as [->|]; [|discriminate].
    destruct (Nat.eqb_spec (ncols A) 2) as [->|]; [|discriminate].
    destruct (_ && _)%bool; [|discriminate]. intros [= <-]. split; reflexivity.
Defined.

(** A configuration of one centre drawn at random, and the two examples
    with their targets as a column and as a 1-D array. *)
Definition one_centre_model : gmap string pyval :=
  <["n_features" := VInt 1]> (<["n_hidden" := VInt 1]>
  (<["epsilon" := VFloat 1]> (<["centres_generation_method" := VStr "random"]> ∅))).

Definition first_row_centre : ndarray := mk_nd 1 1 [[1]].

Definition one_centre_state : state :=
  mk_state [Arr2 X_example; Arr2 y_example; Arr1 [1; 2]] one_centre_model
    constant_generator.

(** The configuration of the 1-D notebook under the debug policy, with
    five hidden units asked for. *)
Definition debug_model : gmap string pyval :=
  <["n_output" := VInt 1]> (<["n_features" := VInt 1]> (<["n_hidden" := VInt 5]>
  (<["epsilon" := VFloat (3/10)]> (<["centres_generation_method" := VStr "debug"]> ∅)))).

(** The configuration of the 2-D notebook with two centres drawn at
    random. *)
Definition random_model : gmap string pyval :=
  <["n_output" := VInt 1]> (<["n_features" := VInt 1]> (<["n_hidden" := VInt 2]>
  (<["epsilon" := VFloat (1/10)]> (<["centres_generation_method" := VStr "random"]> ∅)))).

Definition random_policy_state : state :=
  mk_state [Arr2 X_example; Arr2 y_example] random_model constant_generator.

(** A small configuration of the perceptron: two epochs of two
    mini-batches on the two examples. *)
Definition mlp_model : gmap string pyval :=
  <["minibatches" := VInt 2]> (<["eta" := VFloat (1/10)]> (<["epochs" := VInt 2]>
  (<["n_hidden" := VInt 2]> (<["n_features" := VInt 1]> (<["n_output" := VInt 1]> ∅))))).

Definition mlp_state : state :=
  mk_state [Arr2 X_example; Arr2 y_example] mlp_model constant_generator.

(** Inputs of three features, and a policy name that is not known. *)
Definition X_three_features : ndarray := mk_nd 1 3 [[1; 2; 3]].

Definition three_features_state : state :=
  mk_state [Arr2 X_three_features; Arr2 y_example] debug_model constant_generator.

Definition unknown_policy_state : state :=
  mk_state [Arr2 X_example; Arr2 y_example]
    (<["centres_generation_method" := VStr "grid"]> debug_model) constant_generator.

Definition debug_state : state :=
  mk_state [Arr2 X_example; Arr2 y_example] debug_model constant_generator.

(** Configurations with too many hidden units for the two examples,
    without [epsilon], and with nothing but [n_hidden]. *)
Definition crowded_state : state :=
  mk_state [Arr2 X_example; Arr2 y_example]
    (<["n_hidden" := VInt 5]> random_model) constant_generator.

Definition no_epsilon_state : state :=
  mk_state [Arr2 X_example; Arr2 y_example]
    (<["n_hidden" := VInt 5]> (<["centres_generation_method" := VStr "debug"]> ∅))
    constant_generator.

Definition no_features_state : state :=
  mk_state [] (<["n_hidden" := VInt 5]> ∅) constant_generator.

Definition no_minibatches_state : state :=
  mk_state [Arr2 X_example; Arr2 y_example]
    (<["minibatches" := VInt 0]> mlp_model) constant_generator.

(** ** Vocabulary of the properties *)

(** [triple P m Q E]: from a state in [P], [m] either returns [a] in a
    state of [Q a], or raises [e] in a state of [E e]. *)
Definition triple {A} (P : state -> Prop) (m : M A)
    (Q : A -> state -> Prop) (E : exn -> state -> Prop) : Prop :=
  forall s, P s ->
    match m s with
    | (Ok a, s') => Q a s'
    | (Raise e, s') => E e s'
    end.

(** [frame h0 m0 K]: the arrays of the store [h0] are where they were and
    hold what they held, and the [model] dict agrees with [m0] outside
    the keys [K]. [keeps h0 m0 K m phi]: [m] maintains the frame whether
    it returns or raises, and [phi] holds of what it returns. *)

Definition frame (h0 : list obj) (m0 : gmap string pyval) (K : list string)
    (s : state) : Prop :=
  h0 `prefix_of` heap s /\ forall k, k ∉ K -> model s !! k = m0 !! k.

Definition keeps {A} (h0 : list obj) (m0 : gmap string pyval) (K : list string)
    (m : M A) (phi : A -> Prop) : Prop :=
  triple (frame h0 m0 K) m
    (fun a s => frame h0 m0 K s /\ phi a) (fun _ s => frame h0 m0 K s).

(** The hidden matrix of the 2-D network as its trainer and its
    predictor both compute it, each in its own lines:
    [np.exp(-(distances * epsilon)**2)] behind a column of ones. *)
Definition hidden_matrix (X W1 : ndarray) (epsilon : pyval) : result ndarray :=
  let? distances := sample_distances X W1 in
  let? epsilon_ := as_float epsilon in
  Ok (column_stack_ones (map_nd (fun d => exp (- (d * epsilon_) ^ 2)) distances)).






(** The state after the debug policy has looked at [n_hidden]. *)
Definition force_n_hidden (nh : pyval) (s : state) : state :=
  if ne_3 nh then set_model (<["n_hidden" := VInt 3]> (model s)) s else s.

(** Where batch [i] starts when [N = M * q + r] examples are split. *)
Definition batch_start (q r i : nat) : nat := (i * q + Nat.min i r)%nat.

(** The shapes of the two weight matrices. *)
Definition MLP_shapes (H D O : nat) (W : ndarray * ndarray) : Prop :=
  nrows W.1 = H /\ ncols W.1 = Datatypes.S D /\
  nrows W.2 = O /\ ncols W.2 = Datatypes.S H.

(** Entry [i] of [n] evenly spaced samples from [start] to [stop], and
    the cardinal sine with its value at 0. *)
Definition grid (start stop : R) (n i : nat) : R :=
  start + INR i * ((stop - start) / INR (n - 1)).

Definition sinc (v : R) : R := if Req_dec_T v 0 then 1 else sin v / v.

(** [W] with its entry [(i, j)] replaced by [t]: the weights as a
    function of one of them. *)
Definition with_entry (W : ndarray) (i j : nat) (t : R) : ndarray :=
  build (nrows W) (ncols W)
    (fun i' j' => if ((i' =? i)%nat && (j' =? j)%nat)%bool then t else get W i' j').

(** Half the sum of the squared errors of a prediction, and the loss of
    the perceptron on a batch as a function of its weights: what the
    forward pass of the code predicts, compared with the targets. *)
Definition half_sse (Yhat Y : ndarray) : R :=
  sum_upto (nrows Y) (fun o => sum_upto (ncols Y) (fun b =>
    (get Yhat o b - get Y o b) ^ 2)) / 2.

(** The forward pass written entry by entry: the input [z] of a hidden
    unit, the output of the hidden layer under its bias row, and the
    output of the network. *)
Definition hidden_input (P W1 : ndarray) (h b : nat) : R :=
  sum_upto (Datatypes.S (ncols P))
    (fun k => get W1 h k * get (vstack_ones (transpose P)) k b).

Definition hidden_output (P W1 : ndarray) (k b : nat) : R :=
  match k with
  | O => 1
  | Datatypes.S h => sigmoid (hidden_input P W1 h b)
  end.

Definition network_output (P W1 W2 : ndarray) (o b : nat) : R :=
  sum_upto (ncols W2) (fun k => get W2 o k * hidden_output P W1 k b).

Definition MLP_loss (P W1 W2 Y : ndarray) : R :=
  match MLP_MSELIN_predict P W1 W2 with
  | Ok Yhat => half_sse Yhat Y
  | Raise _ => 0
  end.

(** The loss of the linear model on one example. *)
Definition example_loss (x : list R) (y : R) (w : list R) (b : R) : R :=
  (dot x w + b - y) ^ 2 / 2.

(** A computation that leaves the state of [np.random] as it was,
    whether it returns or raises. *)
Definition draws_nothing {A} (c : M A) : Prop :=
  forall s, rng (c s).2 = rng s.

(** * Properties *)

(** ** A program logic for the computations *)

Lemma triple_ret {A} (a : A) (P : state -> Prop) Q E :
  (forall s, P s -> Q a s) -> triple P (ret a) Q E.
Proof. intros H s Hs. simpl. auto. Qed.

Lemma triple_bind {A B} (m : M A) (f : A -> M B) P Q1 Q E :
  triple P m Q1 E ->
  (forall a, triple (Q1 a) (f a) Q E) ->
  triple P (bind m f) Q E.
Proof.
  intros Hm Hf s Hs. unfold bind. specialize (Hm s Hs).
  destruct (m s) as [[a|e] s']; [apply Hf, Hm | exact Hm].
Qed.

Lemma triple_conseq {A} (m : M A) (P P' : state -> Prop) (Q Q' : A -> state -> Prop)
    (E E' : exn -> state -> Prop) :
  triple P' m Q' E' ->
  (forall s, P s -> P' s) ->
  (forall a s, Q' a s -> Q a s) ->
  (forall e s, E' e s -> E e s) ->
  triple P m Q E.
Proof.
  intros Hm HP HQ HE s Hs. specialize (Hm s (HP s Hs)).
  destruct (m s) as [[a|e] s']; auto.
Qed.

(** The loop rule: [I k acc] holds before the iteration of index [k]. *)
Lemma triple_for_each {A S} (l : list A) (body : A -> S -> M S)
    (I : nat -> S -> state -> Prop) E :
  (forall k a acc, l !! k = Some a -> triple (I k acc) (body a acc) (I (Datatypes.S k)) E) ->
  forall acc, triple (I 0%nat acc) (for_each l body acc) (I (length l)) E.
Proof.
  revert I. induction l as [|a l IH]; intros I Hbody acc.
  - apply triple_ret. auto.
  - simpl. eapply triple_bind.
    + apply (Hbody 0%nat a acc). reflexivity.
    + intros acc'. apply (IH (fun k => I (Datatypes.S k))).
      intros k b acc'' Hk. apply (Hbody (Datatypes.S k)). exact Hk.
Qed.

(** ** Lists written in place *)

Lemma fill_next (f : nat -> R) (k T : nat) (x : R) :
  (k < T)%nat -> x = f (Datatypes.S k) ->
  <[Datatypes.S k := x]> (map f (seq 0 (Datatypes.S k)) ++ repeat 0 (T - k))
  = map f (seq 0 (Datatypes.S (Datatypes.S k))) ++ repeat 0 (T - Datatypes.S k).
Proof.
  intros Hk ->.
  rewrite insert_app_r_alt by (rewrite length_map, length_seq; lia).
  rewrite length_map, length_seq, Nat.sub_diag.
  replace (T - k)%nat with (Datatypes.S (T - Datatypes.S k)) by lia.
  simpl repeat. simpl insert.
  rewrite (seq_S (Datatypes.S k)), map_app. simpl.
  rewrite <- app_assoc. reflexivity.
Qed.

Lemma heap_lookup_fst (h : list obj) a b : (h ++ [a; b]) !! length h = Some a.
Proof. rewrite lookup_app_r by lia. rewrite Nat.sub_diag. reflexivity. Qed.

Lemma heap_lookup_snd (h : list obj) a b : (h ++ [a; b]) !! Datatypes.S (length h) = Some b.
Proof.
  rewrite lookup_app_r by lia.
  replace (Datatypes.S (length h) - length h)%nat with 1%nat by lia. reflexivity.
Qed.

Lemma heap_insert_fst (h : list obj) a b c : <[length h := c]> (h ++ [a; b]) = h ++ [c; b].
Proof. rewrite insert_app_r_alt by lia. rewrite Nat.sub_diag. reflexivity. Qed.

Lemma heap_insert_snd (h : list obj) a b c :
  <[Datatypes.S (length h) := c]> (h ++ [a; b]) = h ++ [a; c].
Proof.
  rewrite insert_app_r_alt by lia.
  replace (Datatypes.S (length h) - length h)%nat with 1%nat by lia. reflexivity.
Qed.

(** ** Running the primitives *)

Lemma bind_Ok {A B} (m : M A) (f : A -> M B) s a s' :
  m s = (Ok a, s') -> bind m f s = f a s'.
Proof. intros H. unfold bind. rewrite H. reflexivity. Qed.

Lemma bind_Raise {A B} (m : M A) (f : A -> M B) s e s' :
  m s = (Raise e, s') -> bind m f s = (Raise e, s').
Proof. intros H. unfold bind. rewrite H. reflexivity. Qed.

Lemma setitem1_Ok h m g l k x v :
  h !! l = Some (Arr1 v) -> (k < length v)%nat ->
  setitem1 l k x (mk_state h m g)
  = (Ok tt, mk_state (<[l := Arr1 (<[k := x]> v)]> h) m g).
Proof.
  intros Hl Hk. unfold setitem1. cbn [heap]. rewrite Hl.
  destruct (Nat.ltb_spec k (length v)); [reflexivity | lia].
Qed.

Lemma np_zeros1_Ok (n : Z) h m g :
  (0 <= n)%Z ->
  np_zeros1 n (mk_state h m g)
  = (Ok (length h), mk_state (h ++ [Arr1 (repeat 0 (Z.to_nat n))]) m g).
Proof.
  intros Hn. unfold np_zeros1.
  destruct (Z.ltb_spec n 0); [lia | reflexivity].
Qed.

Lemma minimization_using_GD_run pol x0 grad eta (T : Z) h m g :
  (0 <= T)%Z ->
  minimization_using_GD pol x0 grad eta T (mk_state h m g) =
  (Ok (length h, Datatypes.S (length h)),
   mk_state (h ++
     [Arr1 (map (gd_iterate grad eta x0) (seq 0 (Datatypes.S (Z.to_nat T))));
      Arr1 (map (fun k => pol (gd_iterate grad eta x0 k)) (seq 0 (Datatypes.S (Z.to_nat T))))])
     m g).
Proof.
  intros HT.
  set (n := Z.to_nat T).
  set (xs k := map (gd_iterate grad eta x0) (seq 0 (Datatypes.S k)) ++ repeat 0 (n - k)).
  set (ps k := map (fun k => pol (gd_iterate grad eta x0 k)) (seq 0 (Datatypes.S k)) ++ repeat 0 (n - k)).
  assert (Hlx : forall k, (k <= n)%nat -> length (xs k) = Datatypes.S n).
  { intros k Hk. unfold xs. rewrite length_app, length_map, length_seq, repeat_length. lia. }
  assert (Hlp : forall k, (k <= n)%nat -> length (ps k) = Datatypes.S n).
  { intros k Hk. unfold ps. rewrite length_app, length_map, length_seq, repeat_length. lia. }
  assert (Hloop : triple (fun s => s = mk_state (h ++ [Arr1 (xs 0%nat); Arr1 (ps 0%nat)]) m g)
            (for_each (range T) (fun k old_x =>
               let new_x := old_x - eta * grad old_x in
               let old_x := new_x in
               setitem1 (length h) (k + 1) new_x ;;;
               setitem1 (Datatypes.S (length h)) (k + 1) (pol new_x) ;;;
               ret old_x) x0)
            (fun _ s => s = mk_state (h ++ [Arr1 (xs n); Arr1 (ps n)]) m g)
            (fun _ _ => False)).
  { eapply triple_conseq.
    - apply (triple_for_each (range T) _
        (fun k old_x s => (k <= n)%nat /\ old_x = gd_iterate grad eta x0 k /\
                          s = mk_state (h ++ [Arr1 (xs k); Arr1 (ps k)]) m g)
        (fun _ _ => False)).
      intros k a acc Hk s (Hle & -> & ->).
      unfold range in Hk. apply lookup_seq in Hk as [-> Hlt]. fold n in Hlt. simpl in Hlt.
      cbv zeta.
      erewrite bind_Ok by
        (apply setitem1_Ok; [apply heap_lookup_fst | rewrite Hlx; lia]).
      rewrite heap_insert_fst.
      erewrite bind_Ok by
        (apply setitem1_Ok; [apply heap_lookup_snd | rewrite Hlp; lia]).
      rewrite heap_insert_snd. unfold ret.
      split; [lia|]. split; [reflexivity|].
      replace (0 + k + 1)%nat with (Datatypes.S k) by lia.
      unfold xs, ps.
      rewrite (fill_next (gd_iterate grad eta x0) k n) by (lia || reflexivity).
      rewrite (fill_next (fun k => pol (gd_iterate grad eta x0 k)) k n)
        by (lia || reflexivity).
      reflexivity.
    - intros s ->. split; [lia|]. split; reflexivity.
    - intros a s (_ & _ & ->). unfold range. rewrite length_seq. reflexivity.
    - auto. }
  unfold minimization_using_GD.
  erewrite bind_Ok by (apply np_zeros1_Ok; lia).
  erewrite bind_Ok by (apply np_zeros1_Ok; lia).
  rewrite <- app_assoc. cbn [app].
  rewrite length_app. cbn [length].
  replace (length h + 1)%nat with (Datatypes.S (length h)) by lia.
  replace (Z.to_nat (T + 1)) with (Datatypes.S n) by lia.
  erewrite bind_Ok by
    (apply setitem1_Ok; [apply heap_lookup_fst | rewrite repeat_length; lia]).
  rewrite heap_insert_fst.
  erewrite bind_Ok by
    (apply setitem1_Ok; [apply heap_lookup_snd | rewrite repeat_length; lia]).
  rewrite heap_insert_snd.
  specialize (Hloop (mk_state (h ++ [Arr1 (xs 0%nat); Arr1 (ps 0%nat)]) m g) eq_refl).
  unfold xs at 1, ps at 1 in Hloop. cbn [seq map app gd_iterate] in Hloop.
  rewrite Nat.sub_0_r in Hloop.
  cbn [repeat insert list_insert].
  unfold bind.
  destruct (for_each _ _ _ _) as [[a|e] s']; [|contradiction].
  subst s'. unfold ret, xs, ps.
  rewrite Nat.sub_diag. cbn [repeat]. rewrite !app_nil_r. reflexivity.
Qed.

(** C6. The scalar minimizer returns two arrays of [T + 1] entries, with
    [x_0 = x0], [x_{k+1} = x_k - eta * f'(x_k)] and the [k]-th function
    value [f(x_k)]: exactly [T] steps and no convergence test, so that
    [T = 0] leaves the initial point alone; and for [f(x) = x^2],
    [f'(x) = 2x], [x0 = 10], [eta = 0.1], [T = 1] the iterate [x_1] is 8. *)
Theorem minimization_using_GD_iterates :
  (forall pol grad x0 eta (T : Z) s, (0 <= T)%Z ->
     exists x_history pol_history s' xs ps,
       minimization_using_GD pol x0 grad eta T s = (Ok (x_history, pol_history), s') /\
       heap s' !! x_history = Some (Arr1 xs) /\
       heap s' !! pol_history = Some (Arr1 ps) /\
       length xs = Z.to_nat (T + 1) /\
       length ps = Z.to_nat (T + 1) /\
       xs !! 0%nat = Some x0 /\
       (forall k x, (k < Z.to_nat T)%nat -> xs !! k = Some x ->
                    xs !! Datatypes.S k = Some (x - eta * grad x)) /\
       (forall k x, xs !! k = Some x -> ps !! k = Some (pol x))) /\
  (forall s, exists x_history pol_history s',
       minimization_using_GD (fun x => x ^ 2) 10 (fun x => 2 * x) (1/10) 1 s
       = (Ok (x_history, pol_history), s') /\
       heap s' !! x_history = Some (Arr1 [10; 8])).
Proof.
  split.
  - intros pol grad x0 eta T [h m g] HT.
    eexists _, _, _, _, _. split; [apply minimization_using_GD_run, HT|].
    cbn [heap]. split; [apply heap_lookup_fst|]. split; [apply heap_lookup_snd|].
    rewrite !length_map, !length_seq.
    split; [lia|]. split; [lia|]. split; [reflexivity|]. split.
    + intros k x Hk Hx.
      rewrite list_lookup_fmap, lookup_seq_lt in Hx by lia.
      rewrite list_lookup_fmap, lookup_seq_lt by lia.
      cbn in Hx |- *. inversion Hx; subst. reflexivity.
    + intros k x Hx.
      rewrite list_lookup_fmap in Hx. rewrite list_lookup_fmap.
      destruct (seq 0 (Datatypes.S (Z.to_nat T)) !! k) as [i|]; [|discriminate].
      cbn in Hx |- *. inversion Hx; subst. reflexivity.
  - intros [h m g]. eexists _, _, _.
    split; [apply minimization_using_GD_run; lia|].
    cbn [heap]. rewrite heap_lookup_fst.
    change (Z.to_nat 1) with 1%nat. cbn [seq map gd_iterate].
    do 3 f_equal. f_equal. lra.
Qed.

Lemma minimization_using_GD_iterates_witness :
  exists x_history pol_history s' xs ps,
    minimization_using_GD (fun x => x ^ 2) 10 (fun x => 2 * x) (1/10) 0
      (mk_state [] ∅ (mk_gen (fun _ => 0) (fun _ n => seq 0 n) 0))
    = (Ok (x_history, pol_history), s') /\
    heap s' !! x_history = Some (Arr1 xs) /\
    heap s' !! pol_history = Some (Arr1 ps) /\
    length xs = Z.to_nat (0 + 1) /\
    length ps = Z.to_nat (0 + 1) /\
    xs !! 0%nat = Some 10 /\
    (forall k x, (k < Z.to_nat 0)%nat -> xs !! k = Some x ->
                 xs !! Datatypes.S k = Some (x - 1/10 * (2 * x))) /\
    (forall k x, xs !! k = Some x -> ps !! k = Some (x ^ 2)).
Proof.
  apply (proj1 minimization_using_GD_iterates
           (fun x => x ^ 2) (fun x => 2 * x) 10 (1/10) 0%Z
           (mk_state [] ∅ (mk_gen (fun _ => 0) (fun _ n => seq 0 n) 0))).
  lia.
Defined.

(** ** Arrays, entry by entry *)

Lemma get_build r c f i j :
  (i < r)%nat -> (j < c)%nat -> get (build r c f) i j = f i j.
Proof.
  intros Hi Hj. unfold get, build; cbn [data].
  rewrite (nth_indep _ [] (map (fun j => f 0%nat j) (seq 0 c)))
    by (rewrite length_map, length_seq; lia).
  rewrite (map_nth (fun i => map (fun j => f i j) (seq 0 c)) (seq 0 r) 0%nat i).
  rewrite seq_nth by lia. cbn [Nat.add].
  rewrite (nth_indep _ 0 (f i 0%nat)) by (rewrite length_map, length_seq; lia).
  rewrite (map_nth (fun j => f i j) (seq 0 c) 0%nat j).
  rewrite seq_nth by lia. reflexivity.
Qed.

Lemma build_ext r c f g :
  (forall i j, (i < r)%nat -> (j < c)%nat -> f i j = g i j) ->
  build r c f = build r c g.
Proof.
  intros Hfg. unfold build. f_equal.
  apply map_ext_in. intros i Hi. apply in_seq in Hi.
  apply map_ext_in. intros j Hj. apply in_seq in Hj.
  apply Hfg; lia.
Qed.

Lemma wf_build r c f : wf (build r c f).
Proof.
  split; cbn.
  - rewrite length_map, length_seq. reflexivity.
  - apply List.Forall_forall. intros row Hrow.
    apply in_map_iff in Hrow as (i & <- & _).
    rewrite length_map, length_seq. reflexivity.
Qed.

Lemma bget_in_range A i j :
  (i < nrows A)%nat -> (j < ncols A)%nat -> bget A i j = get A i j.
Proof.
  intros Hi Hj. unfold bget.
  destruct (Nat.eqb_spec (nrows A) 1), (Nat.eqb_spec (ncols A) 1);
    repeat match goal with
    | H : (?i < ?n)%nat, E : ?n = 1%nat |- _ =>
        assert (i = 0%nat) by lia; subst i; clear H
    end; reflexivity.
Qed.

Lemma broadcast_dim_same a : broadcast_dim a a = Some a.
Proof. unfold broadcast_dim. rewrite Nat.eqb_refl. reflexivity. Qed.

Lemma broadcast_dim_1_l a : broadcast_dim 1 a = Some a.
Proof.
  unfold broadcast_dim. destruct (Nat.eqb_spec 1 a); [subst|]; reflexivity.
Qed.

(** Two arrays of the same shape. *)
Lemma broadcast_same op A B :
  nrows A = nrows B -> ncols A = ncols B ->
  broadcast op A B
  = Ok (build (nrows A) (ncols A) (fun i j => op (get A i j) (get B i j))).
Proof.
  intros Hr Hc. unfold broadcast.
  rewrite <- Hr, <- Hc, !broadcast_dim_same. f_equal.
  apply build_ext. intros i j Hi Hj.
  rewrite !bget_in_range by lia. reflexivity.
Qed.

Lemma sum_upto_S n f : sum_upto (Datatypes.S n) f = sum_upto n f + f n.
Proof.
  unfold sum_upto. rewrite seq_S, map_app, fold_right_app. cbn.
  generalize (map f (seq 0 n)). intros l.
  induction l as [|x l IH]; cbn; [lra | rewrite IH; lra].
Qed.

Lemma sum_upto_ext n f g :
  (forall k, (k < n)%nat -> f k = g k) -> sum_upto n f = sum_upto n g.
Proof.
  intros Hfg. unfold sum_upto. f_equal.
  apply map_ext_in. intros k Hk. apply in_seq in Hk. apply Hfg. lia.
Qed.

Lemma sum_upto_dot (x w : list R) :
  length x = length w ->
  sum_upto (length x) (fun k => nth k x 0 * nth k w 0) = dot x w.
Proof.
  revert w. induction x as [|a x IH]; intros [|b w] Hlen; try discriminate.
  - reflexivity.
  - cbn [length] in *. injection Hlen as Hlen.
    unfold sum_upto. cbn [seq map fold_right]. rewrite <- seq_shift, map_map.
    unfold dot. cbn [zip_with fold_right nth].
    f_equal. apply IH, Hlen.
Qed.

Lemma sum_upto_nonneg n f : (forall k, (k < n)%nat -> 0 <= f k) -> 0 <= sum_upto n f.
Proof.
  induction n as [|n IH]; intros Hf.
  - unfold sum_upto. cbn. lra.
  - rewrite sum_upto_S. specialize (IH (fun k Hk => Hf k (Nat.lt_lt_succ_r _ _ Hk))).
    specialize (Hf n (Nat.lt_succ_diag_r n)). lra.
Qed.

Lemma sum_upto_zero n f : (forall k, (k < n)%nat -> f k = 0) -> sum_upto n f = 0.
Proof.
  intros Hf. induction n as [|n IH]; [reflexivity|].
  rewrite sum_upto_S, IH, Hf by (intros; try apply Hf; lia). lra.
Qed.

Lemma sum_upto_mult_r n f c : sum_upto n f * c = sum_upto n (fun k => f k * c).
Proof.
  induction n as [|n IH]; [unfold sum_upto; cbn; ring|].
  rewrite !sum_upto_S, <- IH. ring.
Qed.

Lemma sum_upto_shift n f :
  sum_upto (Datatypes.S n) f = f 0%nat + sum_upto n (fun k => f (Datatypes.S k)).
Proof.
  unfold sum_upto. cbn [seq map fold_right]. rewrite <- seq_shift, map_map. reflexivity.
Qed.

Lemma sum_upto_delta n k0 (c : bool) g :
  (k0 < n)%nat ->
  sum_upto n (fun k => (if (c && (k =? k0)%nat)%bool then 1 else 0) * g k)
  = if c then g k0 else 0.
Proof.
  intros Hk. destruct c; cbn [andb].
  - induction n as [|n IH]; [lia|]. rewrite sum_upto_S.
    destruct (Nat.eq_dec k0 n) as [->|Hne].
    + rewrite Nat.eqb_refl. rewrite sum_upto_zero; [ring|].
      intros k Hk'. destruct (Nat.eqb_spec k n); [lia | ring].
    + rewrite IH by lia. destruct (Nat.eqb_spec n k0); [lia | ring].
  - apply sum_upto_zero. intros; ring.
Qed.

Lemma sum_upto_plus n f g :
  sum_upto n (fun k => f k + g k) = sum_upto n f + sum_upto n g.
Proof.
  induction n as [|n IH]; [unfold sum_upto; cbn; ring|].
  rewrite !sum_upto_S, IH. ring.
Qed.

Lemma sum_upto_swap n m (f : nat -> nat -> R) :
  sum_upto n (fun i => sum_upto m (fun j => f i j))
  = sum_upto m (fun j => sum_upto n (fun i => f i j)).
Proof.
  induction n as [|n IH].
  - unfold sum_upto at 1. cbn. symmetry. apply sum_upto_zero. reflexivity.
  - rewrite sum_upto_S, IH.
    rewrite (sum_upto_ext m (fun j => sum_upto (Datatypes.S n) (fun i => f i j))
               (fun j => sum_upto n (fun i => f i j) + f n j)).
    + rewrite sum_upto_plus. reflexivity.
    + intros j _. exact (sum_upto_S n (fun i => f i j)).
Qed.

Lemma sum_upto_1 f : sum_upto 1 f = f 0%nat.
Proof. unfold sum_upto. cbn. lra. Qed.


Lemma nth_map_seq {A} (f : nat -> A) n i d : (i < n)%nat -> nth i (map f (seq 0 n)) d = f i.
Proof.
  intros Hi. rewrite (nth_indep _ d (f 0%nat)) by (rewrite length_map, length_seq; lia).
  rewrite (map_nth f (seq 0 n) 0%nat i), seq_nth by lia. reflexivity.
Qed.

Lemma length_ravel A : length (ravel A) = (nrows A * ncols A)%nat.
Proof.
  unfold ravel.
  enough (Hgen : forall r s,
            length (flat_map (fun i => map (fun j => get A i j) (seq 0 (ncols A))) (seq s r))
            = (r * ncols A)%nat) by apply Hgen.
  induction r as [|r IH]; intros s; [reflexivity|].
  cbn [seq flat_map]. rewrite length_app, length_map, length_seq, IH. lia.
Qed.

Lemma nth_ravel A i j :
  (i < nrows A)%nat -> (j < ncols A)%nat ->
  nth (i * ncols A + j) (ravel A) 0 = get A i j.
Proof.
  unfold ravel. intros Hi Hj.
  enough (Hgen : forall r s i, (i < r)%nat ->
            nth (i * ncols A + j)
              (flat_map (fun i => map (fun j => get A i j) (seq 0 (ncols A))) (seq s r)) 0
            = get A (s + i) j) by (apply (Hgen (nrows A) 0%nat i Hi)).
  clear i Hi. induction r as [|r IH]; intros s i Hi; [lia|].
  cbn [seq flat_map]. destruct i as [|i].
  - rewrite app_nth1 by (rewrite length_map, length_seq; lia).
    cbn [Nat.mul Nat.add]. rewrite nth_map_seq by lia. f_equal. lia.
  - rewrite app_nth2 by (rewrite length_map, length_seq; lia).
    rewrite length_map, length_seq.
    replace (Datatypes.S i * ncols A + j - ncols A)%nat with (i * ncols A + j)%nat by lia.
    rewrite IH by lia. f_equal. lia.
Qed.

(** ** The linear trainer, example by example *)

Lemma load2_Ok l s a : heap s !! l = Some (Arr2 a) -> load2 l s = (Ok a, s).
Proof. intros Hl. unfold load2. rewrite Hl. reflexivity. Qed.

Lemma load_Ok l s o : heap s !! l = Some o -> load l s = (Ok o, s).
Proof. intros Hl. unfold load. rewrite Hl. reflexivity. Qed.

Lemma lift_Ok {A} (r : result A) a s : r = Ok a -> lift r s = (Ok a, s).
Proof. intros ->. reflexivity. Qed.

Lemma row_Ok A i :
  (i < nrows A)%nat -> row A i = Ok (map (fun j => get A i j) (seq 0 (ncols A))).
Proof. intros Hi. unfold row. destruct (Nat.ltb_spec i (nrows A)); [reflexivity|lia]. Qed.

Lemma matmul_Ok A B :
  ncols A = nrows B ->
  matmul A B = Ok (build (nrows A) (ncols B)
                     (fun i j => sum_upto (ncols A) (fun k => get A i k * get B k j))).
Proof. intros Hs. unfold matmul. rewrite Hs, Nat.eqb_refl. reflexivity. Qed.

(** Values of the operations on scalars and columns. *)

Lemma nrows_build r c f : nrows (build r c f) = r.
Proof. reflexivity. Qed.

Lemma ncols_build r c f : ncols (build r c f) = c.
Proof. reflexivity. Qed.

Ltac shapes :=
  unfold MLP_sigmoid, scalar1, as_row, as_column, map_nd, transpose, vstack_ones,
    column_stack_ones, drop_first_row, np_zeros, np_ones in *;
  rewrite ?nrows_build, ?ncols_build in *.

Ltac shape_goal :=
  unfold MLP_sigmoid, scalar1, as_row, as_column, map_nd, transpose, vstack_ones,
    column_stack_ones, drop_first_row, np_zeros, np_ones;
  rewrite ?nrows_build, ?ncols_build.

Lemma matmul_row_column x w :
  length x = length w -> matmul (as_row x) (as_column w) = Ok (scalar1 (dot x w)).
Proof.
  intros Hlen. rewrite matmul_Ok by (shapes; lia). shapes.
  apply f_equal. apply build_ext. intros i j Hi Hj.
  rewrite <- sum_upto_dot by exact Hlen.
  apply sum_upto_ext. intros k Hk.
  rewrite !get_build by lia. reflexivity.
Qed.

Lemma broadcast_scalars op a b :
  broadcast op (scalar1 a) (scalar1 b) = Ok (scalar1 (op a b)).
Proof.
  rewrite broadcast_same by reflexivity. shapes.
  apply f_equal. apply build_ext. intros i j Hi Hj.
  rewrite !get_build by lia. reflexivity.
Qed.

Lemma map_nd_scalar f a : map_nd f (scalar1 a) = scalar1 (f a).
Proof.
  shapes. apply build_ext. intros i j Hi Hj.
  rewrite get_build by lia. reflexivity.
Qed.

Lemma map_nd_column f x : map_nd f (as_column x) = as_column (map f x).
Proof.
  shapes. rewrite length_map.
  apply build_ext. intros i j Hi Hj.
  rewrite get_build by lia.
  rewrite (nth_indep (map f x) 0 (f 0)) by (rewrite length_map; lia).
  rewrite map_nth. reflexivity.
Qed.

Lemma nth_zip_with (op : R -> R -> R) a b i :
  (i < length a)%nat -> length a = length b ->
  nth i (zip_with op a b) 0 = op (nth i a 0) (nth i b 0).
Proof.
  revert b i. induction a as [|u a IH]; intros [|v b] [|i] Hi Hlen;
    cbn in *; try lia; try reflexivity.
  apply IH; lia.
Qed.

Lemma broadcast_columns op a b :
  length a = length b ->
  broadcast op (as_column a) (as_column b) = Ok (as_column (zip_with op a b)).
Proof.
  intros Hlen. rewrite broadcast_same by (shapes; lia). shapes.
  rewrite length_zip_with.
  replace (length a `min` length b)%nat with (length a) by lia.
  apply f_equal. apply build_ext. intros i j Hi Hj.
  rewrite !get_build by lia.
  rewrite nth_zip_with by lia. reflexivity.
Qed.

Lemma broadcast_scalar_column op r x :
  broadcast op (scalar1 r) (as_column x) = Ok (as_column (map (op r) x)).
Proof.
  unfold broadcast, bget. shapes.
  rewrite broadcast_dim_1_l, broadcast_dim_same, length_map.
  apply f_equal. apply build_ext. intros i j Hi Hj.
  assert (j = 0%nat) as -> by lia.
  cbn [Nat.eqb].
  rewrite get_build by lia.
  rewrite (nth_indep (map (op r) x) 0 (op r 0)) by (rewrite length_map; lia).
  rewrite map_nth.
  destruct (Nat.eqb_spec (length x) 1).
  - assert (i = 0%nat) as -> by lia. rewrite get_build by lia. reflexivity.
  - rewrite get_build by lia. reflexivity.
Qed.

Lemma as_row_singleton v : as_row [v] = scalar1 v.
Proof. reflexivity. Qed.

Lemma scalar1_inj a b : scalar1 a = scalar1 b -> a = b.
Proof. intros Hab. apply (f_equal (fun A => get A 0 0)) in Hab. exact Hab. Qed.

Lemma iadd_scalar E Es v :
  as_operand E = scalar1 Es ->
  iadd E (scalar1 v) = Ok (NdArray (scalar1 (Es + v))).
Proof.
  intros HE. destruct E as [x|a]; cbn [as_operand iadd] in *.
  - rewrite map_nd_scalar. apply scalar1_inj in HE. subst x. reflexivity.
  - subst a. rewrite broadcast_scalars. reflexivity.
Qed.

Lemma LLS_example_step h m g lX lY X y eta i wl bs Es b E :
  h !! lX = Some (Arr2 X) -> h !! lY = Some (Arr2 y) ->
  (i < nrows X)%nat -> (i < nrows y)%nat -> ncols y = 1%nat ->
  length wl = ncols X ->
  as_operand b = scalar1 bs -> as_operand E = scalar1 Es ->
  exists wl' bs' Es',
    sgd_example eta (wl, bs, Es)
      (map (fun j => get X i j) (seq 0 (ncols X)), get y i 0%nat) = (wl', bs', Es') /\
    length wl' = ncols X /\
    LLS_example lX lY eta i (as_column wl, b, E) (mk_state h m g)
    = (Ok (as_column wl', NdArray (scalar1 bs'), NdArray (scalar1 Es')), mk_state h m g).
Proof.
  intros HX Hy Hi Hiy Hcy Hwl Hb HE.
  set (x := map (fun j => get X i j) (seq 0 (ncols X))).
  assert (Hx : length x = ncols X) by (unfold x; rewrite length_map, length_seq; reflexivity).
  set (r := dot x wl + bs - get y i 0%nat).
  eexists _, _, _. split; [reflexivity|]. split.
  { rewrite length_zip_with. lia. }
  unfold LLS_example.
  erewrite bind_Ok by (apply load2_Ok, HX).
  erewrite bind_Ok by (apply lift_Ok, row_Ok, Hi).
  fold x.
  erewrite bind_Ok by (apply lift_Ok, matmul_row_column; lia).
  rewrite Hb.
  erewrite bind_Ok by (apply lift_Ok, broadcast_scalars).
  erewrite bind_Ok by (apply load2_Ok, Hy).
  erewrite bind_Ok by (apply lift_Ok, row_Ok, Hiy).
  rewrite Hcy. cbn [seq map]. rewrite as_row_singleton.
  erewrite bind_Ok by (apply lift_Ok, broadcast_scalars).
  rewrite !map_nd_scalar.
  erewrite bind_Ok by (apply lift_Ok, iadd_scalar, HE).
  erewrite bind_Ok by (apply load2_Ok, HX).
  erewrite bind_Ok by (apply lift_Ok, row_Ok, Hi).
  fold x.
  erewrite bind_Ok by (apply lift_Ok, broadcast_scalar_column).
  rewrite map_nd_column, map_map.
  erewrite bind_Ok by (apply lift_Ok, broadcast_columns; rewrite length_map; lia).
  erewrite bind_Ok by (apply lift_Ok, broadcast_scalars).
  unfold ret. do 3 f_equal. f_equal.
  rewrite zip_with_fmap_r. reflexivity.
Qed.

Lemma examples_of_lookup X y i :
  (i < nrows X)%nat ->
  examples_of X y !! i
  = Some (map (fun j => get X i j) (seq 0 (ncols X)), get y i 0%nat).
Proof.
  intros Hi. unfold examples_of.
  rewrite list_lookup_fmap, lookup_seq_lt by lia. reflexivity.
Qed.

Lemma LLS_examples_run h m g lX lY X y eta n wl0 bs0 Es0 b0 E0 :
  h !! lX = Some (Arr2 X) -> h !! lY = Some (Arr2 y) ->
  (n <= nrows X)%nat -> (n <= nrows y)%nat -> ncols y = 1%nat ->
  length wl0 = ncols X ->
  as_operand b0 = scalar1 bs0 -> as_operand E0 = scalar1 Es0 ->
  exists wl bs Es b E,
    fold_left (sgd_example eta) (take n (examples_of X y)) (wl0, bs0, Es0) = (wl, bs, Es) /\
    length wl = ncols X /\
    as_operand b = scalar1 bs /\ as_operand E = scalar1 Es /\
    ((0 < n)%nat -> b = NdArray (scalar1 bs) /\ E = NdArray (scalar1 Es)) /\
    for_each (seq 0 n) (LLS_example lX lY eta) (as_column wl0, b0, E0) (mk_state h m g)
    = (Ok (as_column wl, b, E), mk_state h m g).
Proof.
  intros HX Hy HnX Hny Hcy Hwl0 Hb0 HE0.
  pose (I := fun (k : nat) (st : ndarray * pynum * pynum) (s : state) =>
    s = mk_state h m g /\
    exists wl bs Es,
      fold_left (sgd_example eta) (take k (examples_of X y)) (wl0, bs0, Es0) = (wl, bs, Es) /\
      length wl = ncols X /\
      st.1.1 = as_column wl /\
      as_operand st.1.2 = scalar1 bs /\ as_operand st.2 = scalar1 Es /\
      ((0 < k)%nat -> st.1.2 = NdArray (scalar1 bs) /\ st.2 = NdArray (scalar1 Es))).
  assert (Hloop : triple (I 0%nat (as_column wl0, b0, E0))
            (for_each (seq 0 n) (LLS_example lX lY eta) (as_column wl0, b0, E0))
            (I (length (seq 0 n))) (fun _ _ => False)).
  { apply triple_for_each.
    intros k a [[w b] E] Hk s (-> & wl & bs & Es & Hfold & Hlen & Hw & Hb & HE & _).
    apply lookup_seq in Hk as [-> Hk]. cbn [fst snd Nat.add] in *. subst w.
    destruct (LLS_example_step h m g lX lY X y eta k wl bs Es b E)
      as (wl' & bs' & Es' & Hstep & Hlen' & Hrun); try assumption; try lia.
    rewrite Hrun. split; [reflexivity|].
    exists wl', bs', Es'. cbn [fst snd].
    split.
    { rewrite (take_S_r _ _ _ (examples_of_lookup X y k ltac:(lia))).
      rewrite fold_left_app, Hfold. exact Hstep. }
    repeat split; auto. }
  specialize (Hloop (mk_state h m g)).
  destruct (for_each _ _ _ _) as [[[[w b] E]|e] s'].
  - destruct Hloop as (-> & wl & bs & Es & Hfold & Hlen & Hw & Hb & HE & Hpos).
    + split; [reflexivity|]. exists wl0, bs0, Es0. cbn [fst snd].
      repeat split; auto; lia.
    + rewrite length_seq in *. cbn [fst snd] in *. subst w.
      exists wl, bs, Es, b, E. repeat split; auto; apply Hpos; assumption.
  - exfalso. apply Hloop. split; [reflexivity|]. exists wl0, bs0, Es0. cbn [fst snd].
    repeat split; auto; lia.
Qed.

Lemma heap_lookup_last (h : list obj) o : (h ++ [o]) !! length h = Some o.
Proof. rewrite lookup_app_r by lia. rewrite Nat.sub_diag. reflexivity. Qed.

Lemma heap_insert_last (h : list obj) o o' : <[length h := o']> (h ++ [o]) = h ++ [o'].
Proof. rewrite insert_app_r_alt by lia. rewrite Nat.sub_diag. reflexivity. Qed.

Lemma heap_lookup_old (h : list obj) extra l o :
  h !! l = Some o -> (h ++ extra) !! l = Some o.
Proof. intros Hl. apply lookup_app_l_Some, Hl. Qed.

Lemma np_zeros_column D : np_zeros D 1 = as_column (repeat 0 D).
Proof.
  unfold np_zeros, as_column. rewrite repeat_length.
  apply build_ext. intros i j Hi Hj. rewrite nth_repeat. reflexivity.
Qed.

Lemma LLS_epoch_run h m g lX lY X y eta k wl bs b hist :
  h !! lX = Some (Arr2 X) -> h !! lY = Some (Arr2 y) ->
  (1 <= nrows X)%nat -> (nrows X <= nrows y)%nat -> ncols y = 1%nat ->
  length wl = ncols X -> as_operand b = scalar1 bs -> (k < length hist)%nat ->
  exists wl' bs' Es',
    fold_left (sgd_example eta) (examples_of X y) (wl, bs, 0) = (wl', bs', Es') /\
    length wl' = ncols X /\
    LLS_epoch lX lY eta (nrows X) (length h) k (as_column wl, b)
      (mk_state (h ++ [Arr1 hist]) m g)
    = (Ok (as_column wl', NdArray (scalar1 bs')),
       mk_state (h ++ [Arr1 (<[k := Es' / INR (nrows X)]> hist)]) m g).
Proof.
  intros HX Hy HN HNy Hcy Hwl Hb Hk.
  destruct (LLS_examples_run (h ++ [Arr1 hist]) m g lX lY X y eta (nrows X)
              wl bs 0 b (PyFloat 0))
    as (wl' & bs' & Es' & b' & E' & Hfold & Hlen & _ & _ & Hpos & Hrun);
    try (apply heap_lookup_old; assumption); try assumption; try lia; try reflexivity.
  destruct Hpos as [-> ->]; [lia|].
  rewrite take_ge in Hfold
    by (unfold examples_of; rewrite length_map, length_seq; lia).
  exists wl', bs', Es'. split; [exact Hfold|]. split; [exact Hlen|].
  unfold LLS_epoch, range. rewrite Nat2Z.id.
  erewrite bind_Ok by exact Hrun.
  cbn [div_int]. rewrite map_nd_scalar.
  erewrite bind_Ok by (apply lift_Ok; reflexivity).
  unfold setitem1_num. cbn [nrows ncols scalar1 build Nat.mul Nat.add Nat.eqb].
  erewrite bind_Ok by (apply setitem1_Ok; [apply heap_lookup_last | exact Hk]).
  rewrite heap_insert_last. reflexivity.
Qed.

Lemma LLS_by_GD_run h m g lX lY X y eta (n : Z) :
  h !! lX = Some (Arr2 X) -> h !! lY = Some (Arr2 y) ->
  (1 <= nrows X)%nat -> (nrows X <= nrows y)%nat -> ncols y = 1%nat ->
  (0 <= n)%Z ->
  exists wl bs hist,
    sgd_train eta (examples_of X y) (ncols X) (Z.to_nat n) = (wl, bs, hist) /\
    LLS_by_GD lX lY eta n (mk_state h m g)
    = (Ok (as_column wl,
           if (Z.to_nat n =? 0)%nat then PyFloat 0 else NdArray (scalar1 bs),
           length h),
       mk_state (h ++ [Arr1 hist]) m g).
Proof.
  intros HX Hy HN HNy Hcy Hn.
  set (N := Z.to_nat n).
  pose (I := fun (k : nat) (st : ndarray * pynum) (s : state) =>
    (k <= N)%nat /\
    exists wl bs hist,
      sgd_train eta (examples_of X y) (ncols X) k = (wl, bs, hist) /\
      length wl = ncols X /\ length hist = k /\
      st.1 = as_column wl /\
      st.2 = (if (k =? 0)%nat then PyFloat bs else NdArray (scalar1 bs)) /\
      (k = 0%nat -> bs = 0) /\
      s = mk_state (h ++ [Arr1 (hist ++ repeat 0 (N - k))]) m g).
  assert (Hloop : triple (I 0%nat (np_zeros (ncols X) 1, PyFloat 0))
            (for_each (range n) (LLS_epoch lX lY eta (nrows X) (length h))
               (np_zeros (ncols X) 1, PyFloat 0))
            (I (length (range n))) (fun _ _ => False)).
  { apply triple_for_each.
    intros k a [w b] Hk s (Hle & wl & bs & hist & Htrain & Hlen & Hhist & Hw & Hb & _ & ->).
    apply lookup_seq in Hk as [-> Hk]. fold N in Hk. cbn [fst snd Nat.add] in *. subst w.
    destruct (LLS_epoch_run h m g lX lY X y eta k wl bs b (hist ++ repeat 0 (N - k)))
      as (wl' & bs' & Es' & Hfold & Hlen' & Hrun); try assumption.
    { subst b. destruct (k =? 0)%nat; reflexivity. }
    { rewrite length_app, repeat_length. lia. }
    rewrite Hrun. split; [lia|].
    exists wl', bs', (hist ++ [Es' / INR (nrows X)]). cbn [fst snd].
    split.
    { unfold sgd_train in *. rewrite Nat.iter_succ, Htrain.
      unfold sgd_one_epoch. rewrite Hfold.
      unfold examples_of. rewrite length_map, length_seq. reflexivity. }
    split; [exact Hlen'|]. split; [rewrite length_app; cbn; lia|].
    split; [reflexivity|]. split; [reflexivity|]. split; [discriminate|].
    do 3 f_equal.
    rewrite insert_app_r_alt by lia. rewrite Hhist, Nat.sub_diag.
    replace (N - k)%nat with (Datatypes.S (N - Datatypes.S k)) by lia.
    cbn. rewrite <- app_assoc. reflexivity. }
  assert (HI0 : I 0%nat (np_zeros (ncols X) 1, PyFloat 0)
                  (mk_state (h ++ [Arr1 (repeat 0 N)]) m g)).
  { split; [lia|]. exists (repeat 0 (ncols X)), 0, []. cbn [fst snd].
    split; [reflexivity|]. split; [apply repeat_length|]. split; [reflexivity|].
    split; [apply np_zeros_column|]. split; [reflexivity|]. split; [reflexivity|].
    rewrite Nat.sub_0_r. reflexivity. }
  specialize (Hloop _ HI0).
  unfold LLS_by_GD.
  erewrite bind_Ok by (apply load2_Ok, HX).
  erewrite bind_Ok by (apply np_zeros1_Ok, Hn).
  fold N. unfold bind.
  destruct (for_each _ _ _ _) as [[[w b]|e] s']; [|contradiction].
  destruct Hloop as (_ & wl & bs & hist & Htrain & Hlen & Hhist & Hw & Hb & Hbs & ->).
  unfold range in *. rewrite length_seq in *. fold N in Htrain, Hhist, Hb, Hbs |- *.
  cbn [fst snd] in *. subst w b.
  rewrite Nat.sub_diag, app_nil_r.
  exists wl, bs, hist. split; [exact Htrain|].
  unfold ret. destruct (Nat.eqb_spec N 0) as [HN0|_]; [rewrite (Hbs HN0)|]; reflexivity.
Qed.

Ltac run_concrete_in H :=
  cbv -[Rplus Rminus Rmult Rdiv Rinv Ropp IZR exp sqrt Req_dec_T] in H.

Lemma sgd_example_one_feature eta w b E x y :
  sgd_example eta ([w], b, E) ([x], y)
  = let '(w', b', E') :=
      LLS_example_with Rplus Rminus Rmult (1/2) eta (w, b, E) (x, y) in
    ([w'], b', E').
Proof.
  unfold sgd_example, LLS_example_with, dot. cbn [zip_with fold_right].
  repeat f_equal; ring.
Qed.

Lemma sgd_fold_one_feature eta exs w b E :
  fold_left (sgd_example eta) (map (fun ex => ([ex.1], ex.2)) exs) ([w], b, E)
  = let '(w', b', E') :=
      fold_left (LLS_example_with Rplus Rminus Rmult (1/2) eta) exs (w, b, E) in
    ([w'], b', E').
Proof.
  revert w b E. induction exs as [|[x y] exs IH]; intros w b E; [reflexivity|].
  cbn [map fold_left fst snd]. rewrite sgd_example_one_feature.
  destruct (LLS_example_with _ _ _ _ _ _ _) as [[w' b'] E']. apply IH.
Qed.

Lemma sgd_train_one_feature eta exs n :
  sgd_train eta (map (fun ex => ([ex.1], ex.2)) exs) 1 n
  = let '(w, b, hist) := LLS_by_GD_exact eta exs n in ([w], b, hist).
Proof.
  unfold sgd_train, LLS_by_GD_exact, LLS_by_GD_with.
  induction n as [|n IH]; [reflexivity|].
  rewrite !Nat.iter_succ, IH. clear IH.
  generalize (Nat.iter n (LLS_epoch_with Rplus Rminus Rmult Rdiv 0 (1 / 2) INR eta exs)
                (0, 0, [])).
  intros [[w b] hist].
  unfold sgd_one_epoch, LLS_epoch_with. rewrite sgd_fold_one_feature.
  destruct (fold_left _ exs _) as [[w' b'] E']. rewrite length_map. reflexivity.
Qed.

(** C2 as stated fails: on [X = [[1], [2]]], [y = [[1], [2]]],
    [eta = 0.1] and one epoch the loop of the trainer, run in binary64,
    returns the bias 0.27 but the weight 0.44000000000000006, which is
    not the double that 0.44 denotes. *)
Lemma LLS_worked_example_not_exact :
  let '(w, b, _) := LLS_by_GD_binary64 0.1 [(1, 1); (2, 2)]%float 1 in
  (w =? 0.44)%float = false /\ (b =? 0.27)%float = true.
Proof. vm_compute. split; reflexivity. Qed.

(** C2, as the code has it. The linear trainer starts from [w = 0],
    [b = 0] and folds the per-example update over the examples in their
    order, every example seeing the parameters the one before it left;
    for inputs of one feature that fold is the loop of the source over
    the arithmetic it is run in. On [X = [[1], [2]]], [y = [[1], [2]]],
    [eta = 0.1] and one epoch the loop gives [w = 0.44] and [b = 0.27] in
    exact arithmetic, and in binary64, the arithmetic of the code,
    [b = 0.27] and [w = 0.44000000000000006], the double next above the
    one of 0.44. *)
Theorem LLS_by_GD_per_example_updates :
  (forall h m g lX lY X y eta,
     h !! lX = Some (Arr2 X) -> h !! lY = Some (Arr2 y) ->
     LLS_by_GD lX lY eta 0 (mk_state h m g)
     = (Ok (np_zeros (ncols X) 1, PyFloat 0, length h), mk_state (h ++ [Arr1 []]) m g)) /\
  (forall h m g lX lY X y eta (n : Z),
     h !! lX = Some (Arr2 X) -> h !! lY = Some (Arr2 y) ->
     (1 <= nrows X)%nat -> nrows X = nrows y -> ncols y = 1%nat -> (1 <= n)%Z ->
     exists wl bs hist,
       sgd_train eta (examples_of X y) (ncols X) (Z.to_nat n) = (wl, bs, hist) /\
       LLS_by_GD lX lY eta n (mk_state h m g)
       = (Ok (as_column wl, NdArray (scalar1 bs), length h),
          mk_state (h ++ [Arr1 hist]) m g)) /\
  (forall eta examples n,
     sgd_train eta (map (fun ex => ([ex.1], ex.2)) examples) 1 n
     = let '(w, b, hist) := LLS_by_GD_exact eta examples n in ([w], b, hist)) /\
  (exists hist, LLS_by_GD_exact (1/10) [(1, 1); (2, 2)] 1 = (44/100, 27/100, hist)) /\
  (exists hist,
     LLS_by_GD_binary64 0.1 [(1, 1); (2, 2)]%float 1
     = (0.44000000000000006, 0.27, hist)%float /\
     PrimFloat.next_up 0.44 = 0.44000000000000006%float).
Proof.
  split; [|split; [|split; [|split]]].
  - intros h m g lX lY X y eta HX Hy.
    unfold LLS_by_GD.
    erewrite bind_Ok by (apply load2_Ok, HX).
    erewrite bind_Ok by (apply np_zeros1_Ok; lia).
    reflexivity.
  - intros h m g lX lY X y eta n HX Hy HN HNy Hcy Hn.
    destruct (LLS_by_GD_run h m g lX lY X y eta n)
      as (wl & bs & hist & Htrain & Hrun); try assumption; try lia.
    exists wl, bs, hist. split; [exact Htrain|].
    rewrite Hrun. destruct (Nat.eqb_spec (Z.to_nat n) 0); [lia | reflexivity].
  - exact sgd_train_one_feature.
  - eexists. unfold LLS_by_GD_exact, LLS_by_GD_with, LLS_epoch_with, LLS_example_with.
    cbv [Nat.iter nat_rect fold_left length app].
    match goal with
    | |- (?w, ?b, _) = _ => replace w with (44/100) by lra; replace b with (27/100) by lra
    end.
    reflexivity.
  - eexists. split; vm_compute; reflexivity.
Qed.

Lemma LLS_by_GD_per_example_updates_witness :
  LLS_by_GD 0%nat 1%nat (1/10) 0
    (mk_state [Arr2 X_example; Arr2 y_example] ∅ constant_generator)
  = (Ok (np_zeros (ncols X_example) 1, PyFloat 0, 2%nat),
     mk_state ([Arr2 X_example; Arr2 y_example] ++ [Arr1 []]) ∅ constant_generator) /\
  (exists wl bs hist,
     sgd_train (1/10) (examples_of X_example y_example) (ncols X_example) (Z.to_nat 1)
     = (wl, bs, hist) /\
     LLS_by_GD 0%nat 1%nat (1/10) 1
       (mk_state [Arr2 X_example; Arr2 y_example] ∅ constant_generator)
     = (Ok (as_column wl, NdArray (scalar1 bs), 2%nat),
        mk_state ([Arr2 X_example; Arr2 y_example] ++ [Arr1 hist]) ∅ constant_generator)).
Proof.
  split.
  - apply (proj1 LLS_by_GD_per_example_updates
             [Arr2 X_example; Arr2 y_example] ∅ constant_generator
             0%nat 1%nat X_example y_example (1/10)).
    + reflexivity.
    + reflexivity.
  - apply (proj1 (proj2 LLS_by_GD_per_example_updates)
             [Arr2 X_example; Arr2 y_example] ∅ constant_generator
             0%nat 1%nat X_example y_example (1/10) 1%Z).
    + reflexivity.
    + reflexivity.
    + cbn. lia.
    + reflexivity.
    + reflexivity.
    + lia.
Defined.

(** ** Shapes that do not agree *)

Lemma for_each_app {A S} (l1 l2 : list A) (body : A -> S -> M S) (acc : S) s :
  for_each (l1 ++ l2) body acc s
  = (let* acc' := for_each l1 body acc in for_each l2 body acc') s.
Proof.
  revert acc s. induction l1 as [|a l1 IH]; intros acc s.
  - cbn [app for_each]. unfold bind, ret. reflexivity.
  - cbn [app for_each]. unfold bind at 1 2 3.
    destruct (body a acc s) as [[acc'|e] s']; [|reflexivity].
    rewrite IH. reflexivity.
Qed.

Lemma row_Raise A i :
  (nrows A <= i)%nat ->
  row A i = Raise (IndexError "index is out of bounds for axis 0").
Proof. intros Hi. unfold row. destruct (Nat.ltb_spec i (nrows A)); [lia|reflexivity]. Qed.

Lemma LLS_example_missing_target h m g lX lY X y eta wl b E :
  h !! lX = Some (Arr2 X) -> h !! lY = Some (Arr2 y) ->
  (nrows y < nrows X)%nat -> length wl = ncols X ->
  (exists bs, as_operand b = scalar1 bs) ->
  LLS_example lX lY eta (nrows y) (as_column wl, b, E) (mk_state h m g)
  = (Raise (IndexError "index is out of bounds for axis 0"), mk_state h m g).
Proof.
  intros HX Hy Hlt Hwl [bs Hb]. unfold LLS_example.
  erewrite bind_Ok by (apply load2_Ok, HX).
  erewrite bind_Ok by (apply lift_Ok, row_Ok, Hlt).
  erewrite bind_Ok
    by (apply lift_Ok, matmul_row_column; rewrite length_map, length_seq; lia).
  rewrite Hb.
  erewrite bind_Ok by (apply lift_Ok, broadcast_scalars).
  erewrite bind_Ok by (apply load2_Ok, Hy).
  erewrite bind_Raise; [reflexivity|].
  unfold lift. rewrite row_Raise by lia. reflexivity.
Qed.

Lemma LLS_by_GD_missing_targets h m g lX lY X y eta (n : Z) :
  h !! lX = Some (Arr2 X) -> h !! lY = Some (Arr2 y) ->
  (nrows y < nrows X)%nat -> ncols y = 1%nat -> (1 <= n)%Z ->
  LLS_by_GD lX lY eta n (mk_state h m g)
  = (Raise (IndexError "index is out of bounds for axis 0"),
     mk_state (h ++ [Arr1 (repeat 0 (Z.to_nat n))]) m g).
Proof.
  intros HX Hy Hlt Hcy Hn.
  unfold LLS_by_GD.
  erewrite bind_Ok by (apply load2_Ok, HX).
  erewrite bind_Ok by (apply np_zeros1_Ok; lia).
  erewrite bind_Raise; [reflexivity|].
  unfold range. replace (Z.to_nat n) with (Datatypes.S (Z.to_nat n - 1)) at 1 by lia.
  cbn [seq for_each].
  erewrite bind_Raise; [reflexivity|].
  unfold LLS_epoch, range. rewrite Nat2Z.id.
  erewrite bind_Raise; [reflexivity|].
  replace (nrows X) with (nrows y + Datatypes.S (nrows X - nrows y - 1))%nat by lia.
  rewrite seq_app, for_each_app. cbn [seq for_each Nat.add].
  destruct (LLS_examples_run (h ++ [Arr1 (repeat 0 (Z.to_nat n))]) m g lX lY X y eta
              (nrows y) (repeat 0 (ncols X)) 0 0 (PyFloat 0) (PyFloat 0))
    as (wl & bs & Es & b & E & _ & Hlen & Hb & _ & _ & Hrun);
    try (apply heap_lookup_old; assumption); try assumption; try lia;
    try reflexivity; try apply repeat_length.
  rewrite <- np_zeros_column in Hrun.
  erewrite bind_Ok by exact Hrun.
  erewrite bind_Raise; [reflexivity|].
  apply (LLS_example_missing_target _ m g lX lY X y);
    try (apply heap_lookup_old; assumption); eauto.
Qed.

Lemma examples_of_agree X y y' :
  (forall i, (i < nrows X)%nat -> get y i 0%nat = get y' i 0%nat) ->
  examples_of X y = examples_of X y'.
Proof.
  intros Hagree. unfold examples_of. apply map_ext_in.
  intros i Hi. apply in_seq in Hi. rewrite Hagree by lia. reflexivity.
Qed.

Lemma MLP_MSELIN_predict_wrong_features P W1 W2 :
  ncols W1 <> Datatypes.S (ncols P) ->
  MLP_MSELIN_predict P W1 W2 = Raise (ValueError "matmul: mismatch in core dimension").
Proof.
  intros Hne. unfold MLP_MSELIN_predict, MLP_MSELIN_forward, matmul. shapes.
  destruct (Nat.eqb_spec (ncols W1) (Datatypes.S (ncols P))); [contradiction|].
  reflexivity.
Qed.

(** ** The perceptron, entry by entry *)

Lemma MLP_MSELIN_forward_Ok P W1 W2 :
  ncols W1 = Datatypes.S (ncols P) -> ncols W2 = Datatypes.S (nrows W1) ->
  exists rA2 A1 A0 rZ1,
    MLP_MSELIN_forward P W1 W2 = Ok (rA2, A1, A0, rZ1) /\
    A0 = vstack_ones (transpose P) /\
    rZ1 = build (nrows W1) (nrows P)
            (fun h b => sum_upto (Datatypes.S (ncols P)) (fun k => get W1 h k * get A0 k b)) /\
    A1 = vstack_ones (MLP_sigmoid rZ1) /\
    rA2 = build (nrows W2) (nrows P)
            (fun o b => sum_upto (Datatypes.S (nrows W1)) (fun k => get W2 o k * get A1 k b)).
Proof.
  intros H1 H2. unfold MLP_MSELIN_forward.
  rewrite (matmul_Ok W1) by (shapes; lia). cbn [rbind].
  rewrite (matmul_Ok W2) by (shapes; lia). cbn [rbind].
  eexists _, _, _, _. split; [reflexivity|].
  split; [reflexivity|]. rewrite H1, H2.
  repeat split; shapes; reflexivity.
Qed.

Lemma get_MLP_sigmoid Z h b :
  (h < nrows Z)%nat -> (b < ncols Z)%nat ->
  get (MLP_sigmoid Z) h b = sigmoid (get Z h b).
Proof. intros Hh Hb. unfold MLP_sigmoid, map_nd. rewrite get_build by lia. reflexivity. Qed.

Lemma nrows_MLP_sigmoid Z : nrows (MLP_sigmoid Z) = nrows Z.
Proof. reflexivity. Qed.

Lemma ncols_MLP_sigmoid Z : ncols (MLP_sigmoid Z) = ncols Z.
Proof. reflexivity. Qed.

Lemma MLP_sigmoid_derivative_Ok Z :
  exists S', MLP_sigmoid_derivative Z = Ok S' /\
    nrows S' = nrows Z /\ ncols S' = ncols Z /\
    forall h b, (h < nrows Z)%nat -> (b < ncols Z)%nat ->
                get S' h b = sigmoid' (get Z h b).
Proof.
  unfold MLP_sigmoid_derivative.
  rewrite broadcast_same by reflexivity.
  eexists. split; [reflexivity|].
  rewrite nrows_build, ncols_build, nrows_MLP_sigmoid, ncols_MLP_sigmoid.
  split; [reflexivity|]. split; [reflexivity|].
  intros h b Hh Hb. rewrite get_build by lia.
  unfold map_nd at 1. rewrite get_build by (rewrite ?nrows_MLP_sigmoid, ?ncols_MLP_sigmoid; lia).
  rewrite get_MLP_sigmoid by lia. reflexivity.
Qed.

Lemma MLP_MSELIN_backprop_Ok :
  forall P W1 W2 Y,
    ncols W1 = Datatypes.S (ncols P) -> ncols W2 = Datatypes.S (nrows W1) ->
    nrows Y = nrows W2 -> ncols Y = nrows P ->
    exists rA2 A1 A0 rZ1 dW1 dW2,
      MLP_MSELIN_forward P W1 W2 = Ok (rA2, A1, A0, rZ1) /\
      MLP_MSELIN_backprop rA2 A1 A0 rZ1 Y W1 W2 = Ok (dW1, dW2) /\
      nrows dW2 = nrows W2 /\ ncols dW2 = Datatypes.S (nrows W1) /\
      nrows dW1 = nrows W1 /\ ncols dW1 = Datatypes.S (ncols P) /\
      (forall o h, (o < nrows W2)%nat -> (h < Datatypes.S (nrows W1))%nat ->
         get dW2 o h
         = sum_upto (nrows P) (fun b => (get rA2 o b - get Y o b) * get A1 h b)) /\
      (forall h d, (h < nrows W1)%nat -> (d < Datatypes.S (ncols P))%nat ->
         get dW1 h d
         = sum_upto (nrows P) (fun b =>
             (sum_upto (nrows W2)
                (fun o => get W2 o (Datatypes.S h) * (get rA2 o b - get Y o b))
              * sigmoid' (get rZ1 h b))
             * get A0 d b)) /\
      (forall h b, (h < nrows W1)%nat -> (b < nrows P)%nat ->
         get rZ1 h b
         = sum_upto (Datatypes.S (ncols P)) (fun k => get W1 h k * get A0 k b) /\
         get A1 (Datatypes.S h) b = sigmoid (get rZ1 h b)).
Proof.
  intros P W1 W2 Y H1 H2 HY1 HY2.
  destruct (MLP_MSELIN_forward_Ok P W1 W2 H1 H2)
    as (rA2 & A1 & A0 & rZ1 & Hfwd & HA0 & HrZ1 & HA1 & HrA2).
  assert (SrZ1 : nrows rZ1 = nrows W1 /\ ncols rZ1 = nrows P) by (subst rZ1; split; reflexivity).
  assert (SA1 : nrows A1 = Datatypes.S (nrows W1) /\ ncols A1 = nrows P).
  { subst A1. unfold vstack_ones. rewrite nrows_build, ncols_build.
    rewrite nrows_MLP_sigmoid, ncols_MLP_sigmoid. lia. }
  assert (SA0 : nrows A0 = Datatypes.S (ncols P) /\ ncols A0 = nrows P).
  { subst A0. split; reflexivity. }
  assert (SrA2 : nrows rA2 = nrows W2 /\ ncols rA2 = nrows P) by (subst rA2; split; reflexivity).
  destruct SrZ1 as [SrZ1r SrZ1c], SA1 as [SA1r SA1c], SA0 as [SA0r SA0c], SrA2 as [SrA2r SrA2c].
  destruct (MLP_sigmoid_derivative_Ok rZ1) as (S' & HS' & HS'r & HS'c & HS'get).
  exists rA2, A1, A0, rZ1.
  unfold MLP_MSELIN_backprop.
  rewrite (broadcast_same Rminus rA2 Y) by lia. cbn [rbind].
  rewrite matmul_Ok by (shape_goal; lia). cbn [rbind].
  rewrite matmul_Ok by (shape_goal; lia). cbn [rbind].
  rewrite HS'. cbn [rbind].
  rewrite broadcast_same by (shape_goal; lia). cbn [rbind].
  rewrite matmul_Ok by (shape_goal; lia). cbn [rbind].
  eexists _, _. split; [exact Hfwd|]. split; [reflexivity|].
  unfold drop_first_row, transpose. rewrite ?nrows_build, ?ncols_build.
  rewrite SrA2r, SrA2c, SA1r, SA0r, H2.
  replace (Datatypes.S (nrows W1) - 1)%nat with (nrows W1) by lia.
  split; [reflexivity|]. split; [reflexivity|].
  split; [reflexivity|]. split; [reflexivity|].
  split; [|split].
  - intros o h Ho Hh. rewrite get_build by lia.
    apply sum_upto_ext. intros b Hb.
    rewrite !get_build by lia. reflexivity.
  - intros h d Hh Hd. rewrite get_build by lia.
    apply sum_upto_ext. intros b Hb.
    rewrite !get_build by lia.
    rewrite HS'get by lia. f_equal. f_equal.
    apply sum_upto_ext. intros o Ho.
    rewrite !get_build by lia. reflexivity.
  - intros h b Hh Hb. split.
    + rewrite HrZ1 at 1. rewrite get_build by lia. reflexivity.
    + rewrite HA1. unfold vstack_ones.
      rewrite get_build by (rewrite ?nrows_MLP_sigmoid, ?ncols_MLP_sigmoid; lia).
      apply get_MLP_sigmoid; lia.
Qed.

(** C5. On the values the forward pass caches, the backward pass computes
    [delta2 = Yhat - Y], [dJ/dW2 = delta2 . A1^T], [delta1] as the rows
    1.. of [W2^T . delta2] times [sigmoid'] of the pre-activation [Z1]
    (of which [A1] holds the sigmoid under the bias row), and
    [dJ/dW1 = delta1 . A0^T]. *)
Theorem MLP_MSELIN_backprop_gradients :
  forall P W1 W2 Y,
    ncols W1 = Datatypes.S (ncols P) -> ncols W2 = Datatypes.S (nrows W1) ->
    nrows Y = nrows W2 -> ncols Y = nrows P ->
    exists rA2 A1 A0 rZ1 dW1 dW2,
      MLP_MSELIN_forward P W1 W2 = Ok (rA2, A1, A0, rZ1) /\
      MLP_MSELIN_backprop rA2 A1 A0 rZ1 Y W1 W2 = Ok (dW1, dW2) /\
      nrows dW2 = nrows W2 /\ ncols dW2 = Datatypes.S (nrows W1) /\
      nrows dW1 = nrows W1 /\ ncols dW1 = Datatypes.S (ncols P) /\
      (forall o h, (o < nrows W2)%nat -> (h < Datatypes.S (nrows W1))%nat ->
         get dW2 o h
         = sum_upto (nrows P) (fun b => (get rA2 o b - get Y o b) * get A1 h b)) /\
      (forall h d, (h < nrows W1)%nat -> (d < Datatypes.S (ncols P))%nat ->
         get dW1 h d
         = sum_upto (nrows P) (fun b =>
             (sum_upto (nrows W2)
                (fun o => get W2 o (Datatypes.S h) * (get rA2 o b - get Y o b))
              * sigmoid' (get rZ1 h b))
             * get A0 d b)) /\
      (forall h b, (h < nrows W1)%nat -> (b < nrows P)%nat ->
         get rZ1 h b
         = sum_upto (Datatypes.S (ncols P)) (fun k => get W1 h k * get A0 k b) /\
         get A1 (Datatypes.S h) b = sigmoid (get rZ1 h b)).
Proof. exact MLP_MSELIN_backprop_Ok. Qed.

(** ** What a computation leaves alone *)

Section Keeps.
Variables (h0 : list obj) (m0 : gmap string pyval) (K : list string).

Lemma keeps_ret {A} (a : A) (phi : A -> Prop) : phi a -> keeps h0 m0 K (ret a) phi.
Proof. intros Ha s Hs. cbn. auto. Qed.

Lemma keeps_raise {A} e (phi : A -> Prop) : keeps h0 m0 K (raise e) phi.
Proof. intros s Hs. cbn. auto. Qed.

Lemma keeps_lift {A} (r : result A) (phi : A -> Prop) :
  (forall a, r = Ok a -> phi a) -> keeps h0 m0 K (lift r) phi.
Proof. intros Hr s Hs. unfold lift. destruct r; auto. Qed.

Lemma keeps_bind {A B} (m : M A) (f : A -> M B) (phi1 : A -> Prop) (phi : B -> Prop) :
  keeps h0 m0 K m phi1 ->
  (forall a, phi1 a -> keeps h0 m0 K (f a) phi) ->
  keeps h0 m0 K (bind m f) phi.
Proof.
  intros Hm Hf s Hs. unfold bind. specialize (Hm s Hs).
  destruct (m s) as [[a|e] s']; [|exact Hm].
  destruct Hm as [Hs' Ha]. apply (Hf a Ha s' Hs').
Qed.

Lemma keeps_weaken {A} (m : M A) (phi phi' : A -> Prop) :
  keeps h0 m0 K m phi -> (forall a, phi a -> phi' a) -> keeps h0 m0 K m phi'.
Proof.
  intros Hm Hphi s Hs. specialize (Hm s Hs).
  destruct (m s) as [[a|e] s']; [|exact Hm]. destruct Hm; auto.
Qed.

Lemma keeps_for_each {A S} (l : list A) (body : A -> S -> M S) (J : S -> Prop) :
  (forall a acc, J acc -> keeps h0 m0 K (body a acc) J) ->
  forall acc, J acc -> keeps h0 m0 K (for_each l body acc) J.
Proof.
  intros Hbody. induction l as [|a l IH]; intros acc Hacc.
  - apply keeps_ret, Hacc.
  - cbn [for_each]. eapply keeps_bind; [apply Hbody, Hacc | exact IH].
Qed.

(** A computation that only reads the state. *)
Lemma keeps_reader {A} (m : M A) (phi : A -> Prop) :
  (forall s, (m s).2 = s) ->
  (forall s a, frame h0 m0 K s -> (m s).1 = Ok a -> phi a) ->
  keeps h0 m0 K m phi.
Proof.
  intros Hread Hphi s Hs. specialize (Hread s). specialize (Hphi s).
  destruct (m s) as [[a|e] s']; cbn in *; subst s'; auto.
Qed.

Lemma keeps_load2 l : keeps h0 m0 K (load2 l) (fun _ => True).
Proof.
  apply keeps_reader; [|auto]. intros s. unfold load2.
  destruct (heap s !! l) as [[|]|]; reflexivity.
Qed.

Lemma keeps_load l : keeps h0 m0 K (load l) (fun _ => True).
Proof.
  apply keeps_reader; [|auto]. intros s. unfold load.
  destruct (heap s !! l); reflexivity.
Qed.

Lemma keeps_getitem k :
  keeps h0 m0 K (getitem k) (fun v => k ∉ K -> m0 !! k = Some v).
Proof.
  apply keeps_reader.
  - intros s. unfold getitem. destruct (model s !! k); reflexivity.
  - intros s v [_ Hm] Hv Hk. rewrite <- (Hm k Hk).
    unfold getitem in Hv. destruct (model s !! k); cbn in Hv; congruence.
Qed.

Lemma keeps_setitem k v : k ∈ K -> keeps h0 m0 K (setitem k v) (fun _ => True).
Proof.
  intros Hk s [Hh Hm]. unfold setitem, set_model.
  split; [|exact I]. split; cbn [heap model]; [exact Hh|].
  intros k' Hk'. rewrite lookup_insert_ne by (intros ->; contradiction).
  apply Hm, Hk'.
Qed.

Lemma keeps_list_append k x : k ∈ K -> keeps h0 m0 K (list_append k x) (fun _ => True).
Proof.
  intros Hk. unfold list_append.
  eapply keeps_bind; [apply keeps_getitem|].
  intros [| | | |l] _; try apply keeps_raise. apply keeps_setitem, Hk.
Qed.

Lemma keeps_alloc o : keeps h0 m0 K (alloc o) (fun l => (length h0 <= l)%nat).
Proof.
  intros s [Hh Hm]. unfold alloc, set_heap.
  split; [split|]; cbn [heap model].
  - destruct Hh as [extra ->]. rewrite <- app_assoc. apply prefix_app_r. reflexivity.
  - exact Hm.
  - apply prefix_length, Hh.
Qed.

Lemma keeps_np_zeros1 n : keeps h0 m0 K (np_zeros1 n) (fun l => (length h0 <= l)%nat).
Proof.
  unfold np_zeros1. destruct (n <? 0)%Z; [apply keeps_raise | apply keeps_alloc].
Qed.

Lemma keeps_setitem1 l k x :
  (length h0 <= l)%nat -> keeps h0 m0 K (setitem1 l k x) (fun _ => True).
Proof.
  intros Hl s [Hh Hm]. unfold setitem1.
  destruct (heap s !! l) as [[v|a]|]; cbv beta iota; try (split; assumption).
  destruct (k <? length v)%nat; cbv beta iota; [|split; assumption].
  unfold set_heap. split; [|exact I]. split; cbn [heap model]; [|exact Hm].
  destruct Hh as [extra ->].
  rewrite insert_app_r_alt by exact Hl. apply prefix_app_r. reflexivity.
Qed.

Lemma keeps_setitem1_num l k v :
  (length h0 <= l)%nat -> keeps h0 m0 K (setitem1_num l k v) (fun _ => True).
Proof.
  intros Hl. unfold setitem1_num. destruct v as [x|a].
  - apply keeps_setitem1, Hl.
  - destruct (_ =? 1)%nat; [apply keeps_setitem1, Hl | apply keeps_raise].
Qed.

Lemma keeps_random_rand r c : keeps h0 m0 K (random_rand r c) (fun _ => True).
Proof.
  unfold random_rand. destruct (_ || _)%bool; [apply keeps_raise|].
  intros s Hs. split; [exact Hs | exact I].
Qed.

Lemma keeps_random_permutation n :
  keeps h0 m0 K (random_permutation n) (fun _ => True).
Proof. intros s Hs. split; [exact Hs | exact I]. Qed.

Lemma keeps_random_choice a size :
  keeps h0 m0 K (random_choice a size) (fun _ => True).
Proof.
  unfold random_choice. destruct (size <? 0)%Z; [apply keeps_raise|].
  destruct (_ <? size)%Z; [apply keeps_raise|].
  eapply keeps_bind; [apply keeps_random_permutation|].
  intros p _. apply keeps_ret. exact I.
Qed.

End Keeps.

(** One step of a frame proof. *)
Ltac keeps_prim :=
  first
    [ apply keeps_load2 | apply keeps_load | apply keeps_getitem | apply keeps_alloc
    | apply keeps_np_zeros1 | apply keeps_raise
    | apply keeps_random_rand | apply keeps_random_permutation
    | apply keeps_random_choice
    | apply keeps_ret; exact I
    | apply keeps_lift; intros; exact I
    | eapply keeps_weaken; [apply keeps_lift; intros; exact I | intros; exact I] ].

Ltac keeps_go :=
  repeat first
    [ progress intros
    | match goal with
      | x : (_ * _)%type |- _ => destruct x
      | |- keeps _ _ _ (bind _ _) _ => eapply keeps_bind
      | |- keeps _ _ _ (for_each _ _ _) _ =>
          apply (keeps_for_each _ _ _ _ _ (fun _ => True)); [|exact I]
      | |- keeps _ _ _ (if ?b then _ else _) _ => destruct b
      | |- keeps _ _ _ (match ?v with _ => _ end) _ => destruct v
      end
    | keeps_prim ].

Lemma keeps_LLS_by_GD h0 m0 K X y eta n :
  keeps h0 m0 K (LLS_by_GD X y eta n) (fun _ => True).
Proof.
  unfold LLS_by_GD. eapply keeps_bind; [apply keeps_load2|]. intros X_ _.
  eapply keeps_bind; [apply keeps_np_zeros1|]. intros avg Havg.
  eapply keeps_bind; [|keeps_go].
  apply (keeps_for_each _ _ _ _ _ (fun _ => True)); [|exact I].
  intros k [w b] _. unfold LLS_epoch.
  eapply keeps_bind.
  { apply (keeps_for_each _ _ _ _ _ (fun _ => True)); [|exact I].
    intros i [[w' b'] E] _. unfold LLS_example. keeps_go. }
  intros [[w' b'] E] _.
  eapply keeps_bind; [keeps_go|]. intros avg_ _.
  eapply keeps_bind; [apply keeps_setitem1_num, Havg|]. keeps_go.
Qed.

Lemma keeps_MLP_initialize_weights h0 m0 K :
  keeps h0 m0 K MLP_initialize_weights (fun _ => True).
Proof. unfold MLP_initialize_weights. keeps_go. Qed.

Lemma keeps_MLP_MSELIN_train h0 m0 K P y :
  "cost_history" ∈ K -> "W1" ∈ K -> "W2" ∈ K ->
  keeps h0 m0 K (MLP_MSELIN_train P y) (fun _ => True).
Proof.
  intros Hc H1 H2. unfold MLP_MSELIN_train.
  eapply keeps_bind; [apply keeps_MLP_initialize_weights|]. intros [W1 W2] _.
  do 3 (eapply keeps_bind; [apply keeps_getitem|]; intros ? _).
  eapply keeps_bind; [apply keeps_setitem, Hc|]. intros _ _.
  eapply keeps_bind; [apply keeps_load2|]. intros P_ _.
  eapply keeps_bind; [keeps_go|]. intros n_epochs _.
  eapply keeps_bind.
  { apply (keeps_for_each _ _ _ _ _ (fun _ => True)); [|exact I].
    intros e [W1' W2'] _. unfold MLP_epoch.
    do 7 (eapply keeps_bind; [keeps_prim|]; intros ? _).
    apply (keeps_for_each _ _ _ _ _ (fun _ => True)); [|exact I].
    intros idx [W1'' W2''] _. unfold MLP_minibatch.
    do 2 (eapply keeps_bind; [keeps_prim|]; intros ? _).
    eapply keeps_bind; [keeps_prim|]. intros [[[rA2 A1] A0] rZ1] _.
    eapply keeps_bind; [keeps_prim|]. intros cost _.
    eapply keeps_bind; [apply keeps_list_append, Hc|]. keeps_go. }
  intros [W1' W2'] _.
  eapply keeps_bind; [apply keeps_setitem, H1|]. intros _ _.
  eapply keeps_bind; [apply keeps_setitem, H2|]. keeps_go.
Qed.

(** ** Reading a successful run backwards *)

Lemma bind_inv {A B} (m : M A) (f : A -> M B) s b s' :
  bind m f s = (Ok b, s') ->
  exists a s1, m s = (Ok a, s1) /\ f a s1 = (Ok b, s').
Proof.
  unfold bind. destruct (m s) as [[a|e] s1]; [eauto | discriminate].
Qed.

Lemma getitem_inv k s v s' :
  getitem k s = (Ok v, s') -> s' = s /\ model s !! k = Some v.
Proof.
  unfold getitem. destruct (model s !! k); intros [= <- <-]; auto.
Qed.

Lemma getitem_Ok k s v : model s !! k = Some v -> getitem k s = (Ok v, s).
Proof. intros Hk. unfold getitem. rewrite Hk. reflexivity. Qed.

Lemma lift_inv {A} (r : result A) s a s' :
  lift r s = (Ok a, s') -> s' = s /\ r = Ok a.
Proof. unfold lift. intros [= -> <-]. auto. Qed.

Lemma load2_inv l s a s' :
  load2 l s = (Ok a, s') -> s' = s /\ heap s !! l = Some (Arr2 a).
Proof.
  unfold load2. destruct (heap s !! l) as [[v|a']|]; intros [= <- <-]; auto.
Qed.

Lemma load_inv l s o s' :
  load l s = (Ok o, s') -> s' = s /\ heap s !! l = Some o.
Proof.
  unfold load. destruct (heap s !! l) as [o'|]; intros [= <- <-]; auto.
Qed.

Lemma ret_inv {A} (a b : A) s s' : ret a s = (Ok b, s') -> s' = s /\ b = a.
Proof. unfold ret. intros [= <- <-]. auto. Qed.

Lemma Ok_inj {A} (a b : A) : Ok a = Ok b -> a = b.
Proof. intros [= ->]. reflexivity. Qed.

Lemma rbind_inv {A B} (r : result A) (f : A -> result B) b :
  rbind r f = Ok b -> exists a, r = Ok a /\ f a = Ok b.
Proof. destruct r as [a|e]; cbn; [eauto | discriminate]. Qed.

(** The frame of a run, read on its final state. *)
Lemma keeps_final {A} h0 m0 K (m : M A) phi s :
  keeps h0 m0 K m phi -> frame h0 m0 K s -> frame h0 m0 K (m s).2.
Proof.
  intros Hm Hs. specialize (Hm s Hs).
  destruct (m s) as [[a|e] s']; cbn; [apply Hm | exact Hm].
Qed.

Lemma frame_refl s K : frame (heap s) (model s) K s.
Proof. split; [reflexivity | auto]. Qed.

Lemma frame_lookup h0 m0 K s l o :
  frame h0 m0 K s -> h0 !! l = Some o -> heap s !! l = Some o.
Proof. intros [[extra ->] _] Hl. apply lookup_app_l_Some, Hl. Qed.

Section RBF_frames.
Context `{External}.

Lemma keeps_RBF_1D_initialize_centres h0 m0 K X y :
  "W1" ∈ K -> "n_hidden" ∈ K ->
  keeps h0 m0 K (RBF_1D.RBF_initialize_centres X y) (fun _ => True).
Proof.
  intros H1 Hn. unfold RBF_1D.RBF_initialize_centres.
  do 2 (eapply keeps_bind; [apply keeps_getitem|]; intros ? _).
  eapply keeps_bind.
  - destruct (eq_str a "random"); [keeps_go|].
    destruct (eq_str a "clustering"); [keeps_go|].
    destruct (eq_str a "debug"); [|keeps_go].
    eapply keeps_bind.
    { destruct (ne_3 a0); [apply keeps_setitem, Hn | apply keeps_ret; exact I]. }
    keeps_go.
  - intros W1 _. eapply keeps_bind; [apply keeps_setitem, H1|]. keeps_go.
Qed.

(** When the debug policy does not have to force [n_hidden]. *)
Lemma keeps_RBF_1D_initialize_centres_n_hidden h0 m0 K X y method nh :
  "W1" ∈ K -> "n_hidden" ∉ K -> "centres_generation_method" ∉ K ->
  m0 !! "centres_generation_method" = Some method -> m0 !! "n_hidden" = Some nh ->
  (eq_str method "debug" && ne_3 nh)%bool = false ->
  keeps h0 m0 K (RBF_1D.RBF_initialize_centres X y) (fun _ => True).
Proof.
  intros H1 Hn Hm Hmethod Hnh Hcond. unfold RBF_1D.RBF_initialize_centres.
  eapply keeps_bind; [apply keeps_getitem|]. intros a Ha.
  eapply keeps_bind; [apply keeps_getitem|]. intros a0 Ha0.
  specialize (Ha Hm). specialize (Ha0 Hn).
  assert (a = method) as -> by congruence.
  assert (a0 = nh) as -> by congruence.
  eapply keeps_bind.
  - destruct (eq_str method "random"); [keeps_go|].
    destruct (eq_str method "clustering"); [keeps_go|].
    destruct (eq_str method "debug"); [|keeps_go].
    cbn in Hcond. rewrite Hcond. keeps_go.
  - intros W1 _. eapply keeps_bind; [apply keeps_setitem, H1|]. keeps_go.
Qed.

Lemma keeps_RBF_1D_train_tail h0 m0 K X y W1 :
  "W2" ∈ K ->
  keeps h0 m0 K
    (let* n_hidden := getitem "n_hidden" in
     let* ones := lift (RBF_1D.ones_row n_hidden) in
     let* epsilon := getitem "epsilon" in
     let* X_ := load2 X in
     let* (_, A1) := lift (RBF_1D.RBF_forward X_ W1 ones epsilon) in
     let* y_ := load y in
     let y_flat := ravel_of y_ in
     let* W2 := lift (lstsq (transpose A1) y_flat) in
     let W2 := as_row W2 in
     setitem "W2" (VArr W2) ;;;
     ret (W1, W2)) (fun _ => True).
Proof.
  intros H2.
  do 4 (eapply keeps_bind; [keeps_prim|]; intros ? _).
  eapply keeps_bind; [keeps_prim|]. intros [rA2 A1] _.
  do 2 (eapply keeps_bind; [keeps_prim|]; intros ? _).
  eapply keeps_bind; [apply keeps_setitem, H2|]. keeps_go.
Qed.

Lemma keeps_RBF_1D_train_offline h0 m0 K X y :
  "W1" ∈ K -> "W2" ∈ K -> "n_hidden" ∈ K ->
  keeps h0 m0 K (RBF_1D.RBF_train_offline X y) (fun _ => True).
Proof.
  intros H1 H2 Hn. unfold RBF_1D.RBF_train_offline.
  eapply keeps_bind; [apply keeps_RBF_1D_initialize_centres; assumption|].
  intros W1 _. apply keeps_RBF_1D_train_tail, H2.
Qed.

Lemma keeps_RBF_1D_train_offline_n_hidden h0 m0 K X y method nh :
  "W1" ∈ K -> "W2" ∈ K -> "n_hidden" ∉ K -> "centres_generation_method" ∉ K ->
  m0 !! "centres_generation_method" = Some method -> m0 !! "n_hidden" = Some nh ->
  (eq_str method "debug" && ne_3 nh)%bool = false ->
  keeps h0 m0 K (RBF_1D.RBF_train_offline X y) (fun _ => True).
Proof.
  intros H1 H2 Hn Hm Hmethod Hnh Hcond. unfold RBF_1D.RBF_train_offline.
  eapply keeps_bind;
    [eapply keeps_RBF_1D_initialize_centres_n_hidden; eassumption|].
  intros W1 _. apply keeps_RBF_1D_train_tail, H2.
Qed.

Lemma keeps_RBF_2D_train_offline h0 m0 K X y :
  keeps h0 m0 K (RBF_2D.RBF_train_offline X y) (fun _ => True).
Proof.
  unfold RBF_2D.RBF_train_offline.
  do 3 (eapply keeps_bind; [apply keeps_getitem|]; intros ? _).
  eapply keeps_bind.
  { destruct (eq_str a1 "random"); [keeps_go|].
    destruct (eq_str a1 "clustering"); keeps_go. }
  intros W1 _.
  do 2 (eapply keeps_bind; [keeps_prim|]; intros ? _).
  eapply (keeps_bind _ _ _ _ _ (fun _ => True)).
  { destruct W1; [apply keeps_ret; exact I | apply keeps_raise]. }
  keeps_go.
Qed.

End RBF_frames.

(** Membership of a key in a list of string literals. *)
Ltac key_in :=
  solve [repeat first [apply list_elem_of_here | apply list_elem_of_further]].
Ltac key_notin :=
  solve [repeat (apply not_elem_of_cons; split; [discriminate|]); apply not_elem_of_nil].

(** ** The caller's arrays *)

(** C10. Whatever a trainer does, and whether it returns or raises, every
    array that was in the store before the call (the caller's [X] and
    [y] among them) holds the same value after it: the trainers write
    only to arrays they created themselves. *)
Theorem trainers_leave_data_arrays :
  (forall X y eta n s l o,
     heap s !! l = Some o -> heap (LLS_by_GD X y eta n s).2 !! l = Some o) /\
  (forall P y s l o,
     heap s !! l = Some o -> heap (MLP_MSELIN_train P y s).2 !! l = Some o) /\
  (forall (E : External) X y s l o,
     heap s !! l = Some o -> heap (RBF_1D.RBF_train_offline X y s).2 !! l = Some o) /\
  (forall (E : External) X y s l o,
     heap s !! l = Some o -> heap (RBF_2D.RBF_train_offline X y s).2 !! l = Some o).
Proof.
  repeat split.
  - intros X y eta n s l o Hl.
    eapply frame_lookup; [|exact Hl].
    eapply (keeps_final _ _ []); [apply keeps_LLS_by_GD | apply frame_refl].
  - intros P y s l o Hl.
    eapply frame_lookup; [|exact Hl].
    eapply (keeps_final _ _ ["cost_history"; "W1"; "W2"]);
      [apply keeps_MLP_MSELIN_train; key_in | apply frame_refl].
  - intros E X y s l o Hl.
    eapply frame_lookup; [|exact Hl].
    eapply (keeps_final _ _ ["n_hidden"; "W1"; "W2"]);
      [apply keeps_RBF_1D_train_offline; key_in | apply frame_refl].
  - intros E X y s l o Hl.
    eapply frame_lookup; [|exact Hl].
    eapply (keeps_final _ _ []); [apply keeps_RBF_2D_train_offline | apply frame_refl].
Qed.

Lemma trainers_leave_data_arrays_witness :
  heap (LLS_by_GD 0%nat 1%nat (1/10) 1 debug_state).2 !! 0%nat = Some (Arr2 X_example) /\
  heap (MLP_MSELIN_train 0%nat 1%nat debug_state).2 !! 1%nat = Some (Arr2 y_example) /\
  heap (RBF_1D.RBF_train_offline 0%nat 1%nat debug_state).2 !! 0%nat = Some (Arr2 X_example) /\
  heap (RBF_2D.RBF_train_offline 0%nat 1%nat debug_state).2 !! 1%nat = Some (Arr2 y_example).
Proof.
  destruct trainers_leave_data_arrays as (HL & HM & H1 & H2).
  split; [|split; [|split]].
  - apply HL. reflexivity.
  - apply HM. reflexivity.
  - apply H1. reflexivity.
  - apply H2. reflexivity.
Defined.

(** ** The [model] dict *)

(** C3 as stated fails: under the debug policy the 1-D RBF trainer
    overwrites the configured number of hidden units, 5, with 3. *)
Lemma RBF_train_offline_overwrites_n_hidden :
  model debug_state !! "n_hidden" = Some (VInt 5) /\
  model (RBF_1D.RBF_train_offline 0%nat 1%nat debug_state).2 !! "n_hidden"
  = Some (VInt 3).
Proof. split; vm_compute; reflexivity. Qed.

(** C3, as the code has it. The trainers use the [model] dict as their
    result bag: the perceptron trainer writes the keys [cost_history],
    [W1] and [W2], the 1-D RBF trainer [W1], [W2] and, when the debug
    policy has to force it, [n_hidden]; every other key keeps its value,
    whether the run returns or raises. The 2-D RBF trainer leaves the
    dict as it was. *)
Theorem trainers_write_only_result_keys :
  (forall P y s k,
     k ∉ ["cost_history"; "W1"; "W2"] ->
     model (MLP_MSELIN_train P y s).2 !! k = model s !! k) /\
  (forall (E : External) X y s k,
     k ∉ ["n_hidden"; "W1"; "W2"] ->
     model (RBF_1D.RBF_train_offline X y s).2 !! k = model s !! k) /\
  (forall (E : External) X y s method nh,
     model s !! "centres_generation_method" = Some method ->
     model s !! "n_hidden" = Some nh ->
     (eq_str method "debug" && ne_3 nh)%bool = false ->
     model (RBF_1D.RBF_train_offline X y s).2 !! "n_hidden" = Some nh) /\
  (forall (E : External) X y s,
     model (RBF_2D.RBF_train_offline X y s).2 = model s).
Proof.
  repeat split.
  - intros P y s k Hk.
    eapply (keeps_final _ _ ["cost_history"; "W1"; "W2"]);
      [apply keeps_MLP_MSELIN_train; key_in | apply frame_refl | exact Hk].
  - intros E X y s k Hk.
    eapply (keeps_final _ _ ["n_hidden"; "W1"; "W2"]);
      [apply keeps_RBF_1D_train_offline; key_in | apply frame_refl | exact Hk].
  - intros E X y s method nh Hmethod Hnh Hcond.
    rewrite <- Hnh.
    eapply (keeps_final _ _ ["W1"; "W2"]);
      [eapply keeps_RBF_1D_train_offline_n_hidden; try eassumption;
       first [key_in | key_notin]
      | apply frame_refl | key_notin].
  - intros E X y s. apply map_eq. intros k.
    eapply (keeps_final _ _ []);
      [apply keeps_RBF_2D_train_offline | apply frame_refl | key_notin].
Qed.

Lemma trainers_write_only_result_keys_witness :
  model (MLP_MSELIN_train 0%nat 1%nat debug_state).2 !! "epsilon"
  = model debug_state !! "epsilon" /\
  model (RBF_1D.RBF_train_offline 0%nat 1%nat debug_state).2 !! "epsilon"
  = model debug_state !! "epsilon" /\
  model (RBF_1D.RBF_train_offline 0%nat 1%nat
           (set_model (<["n_hidden" := VInt 3]> debug_model) debug_state)).2 !! "n_hidden"
  = Some (VInt 3).
Proof.
  destruct trainers_write_only_result_keys as (HM & H1 & Hn & _).
  split; [|split].
  - apply HM. key_notin.
  - apply H1. key_notin.
  - apply (Hn zero_solver 0%nat 1%nat _ (VStr "debug") (VInt 3)); reflexivity.
Defined.

(** ** The policy for the centres *)

Section RBF_policy.
Context `{External}.

Lemma setitem_Ok k v s : setitem k v s = (Ok tt, set_model (<[k := v]> (model s)) s).
Proof. reflexivity. Qed.

Lemma RBF_initialize_centres_unrecognized X y s method nh :
  model s !! "centres_generation_method" = Some method ->
  model s !! "n_hidden" = Some nh ->
  eq_str method "random" = false -> eq_str method "clustering" = false ->
  eq_str method "debug" = false ->
  RBF_1D.RBF_initialize_centres X y s
  = (Raise (ValueError "Unrecognized center generation method"), s).
Proof.
  intros Hm Hn Hr Hc Hd. unfold RBF_1D.RBF_initialize_centres.
  erewrite bind_Ok by (apply getitem_Ok, Hm).
  erewrite bind_Ok by (apply getitem_Ok, Hn).
  rewrite Hr, Hc, Hd. reflexivity.
Qed.

Lemma RBF_initialize_centres_debug X y s nh Xa :
  model s !! "centres_generation_method" = Some (VStr "debug") ->
  model s !! "n_hidden" = Some nh ->
  heap s !! X = Some (Arr2 Xa) ->
  RBF_1D.RBF_initialize_centres X y s
  = if (ncols Xa =? 1)%nat then
      (Ok RBF_1D.debug_centres_1,
       set_model (<["W1" := VArr RBF_1D.debug_centres_1]> (model (force_n_hidden nh s)))
         (force_n_hidden nh s))
    else if (ncols Xa =? 2)%nat then
      (Ok RBF_1D.debug_centres_2,
       set_model (<["W1" := VArr RBF_1D.debug_centres_2]> (model (force_n_hidden nh s)))
         (force_n_hidden nh s))
    else (Raise (ValueError "Unsupported input dimension for debug mode"),
          force_n_hidden nh s).
Proof.
  intros Hm Hn HX. unfold RBF_1D.RBF_initialize_centres.
  erewrite bind_Ok by (apply getitem_Ok, Hm).
  erewrite bind_Ok by (apply getitem_Ok, Hn).
  change (eq_str (VStr "debug") "random") with false.
  change (eq_str (VStr "debug") "clustering") with false.
  change (eq_str (VStr "debug") "debug") with true. cbv iota.
  assert (Hforce : (if ne_3 nh then setitem "n_hidden" (VInt 3) else ret tt) s
                   = (Ok tt, force_n_hidden nh s)).
  { unfold force_n_hidden. destruct (ne_3 nh); reflexivity. }
  assert (HX' : heap (force_n_hidden nh s) !! X = Some (Arr2 Xa)).
  { unfold force_n_hidden. destruct (ne_3 nh); exact HX. }
  destruct (ncols Xa =? 1)%nat eqn:H1; [|destruct (ncols Xa =? 2)%nat eqn:H2].
  - erewrite bind_Ok; [reflexivity|].
    erewrite bind_Ok by exact Hforce.
    erewrite bind_Ok by (apply load2_Ok, HX').
    rewrite H1. reflexivity.
  - erewrite bind_Ok; [reflexivity|].
    erewrite bind_Ok by exact Hforce.
    erewrite bind_Ok by (apply load2_Ok, HX').
    rewrite H1, H2. reflexivity.
  - erewrite bind_Raise; [reflexivity|].
    erewrite bind_Ok by exact Hforce.
    erewrite bind_Ok by (apply load2_Ok, HX').
    rewrite H1, H2. reflexivity.
Qed.

End RBF_policy.

(** The runs of the examples. *)
Lemma debug_run :
  exists W2 s',
    RBF_1D.RBF_train_offline 0%nat 1%nat debug_state
    = (Ok (RBF_1D.debug_centres_1, W2), s').
Proof.
  destruct (RBF_1D.RBF_train_offline 0%nat 1%nat debug_state)
    as [[[W1 W2]|e] s'] eqn:Hrun.
  - assert (HW1 : W1 = RBF_1D.debug_centres_1).
    { apply (f_equal (fun r => match r.1 with
                               | Ok (W, _) => W
                               | Raise _ => RBF_1D.debug_centres_1
                               end)) in Hrun.
      vm_compute in Hrun. rewrite <- Hrun. vm_compute. reflexivity. }
    subst W1. eauto.
  - apply (f_equal (fun r => is_Ok r.1)) in Hrun. vm_compute in Hrun. discriminate.
Qed.

(** C1 as stated fails: under the debug policy with five hidden units
    configured, training returns its centres and weights; no error is
    raised. *)
Lemma debug_policy_accepts_five_hidden_units :
  model debug_state !! "centres_generation_method" = Some (VStr "debug") /\
  model debug_state !! "n_hidden" = Some (VInt 5) /\
  is_Ok (RBF_1D.RBF_train_offline 0%nat 1%nat debug_state).1 = true.
Proof.
  split; [reflexivity|]. split; [reflexivity|].
  destruct debug_run as (W2 & s' & ->). reflexivity.
Qed.

(** C1, as the code has it. In the 1-D notebook a policy name other than
    [random], [clustering] and [debug] ends training in the [ValueError]
    of the configuration check with the store untouched, and under
    [debug] an input of neither one nor two features ends it in the
    [ValueError] of the dimension check; a number of hidden units other
    than 3 is no error under [debug]: the trainer sets [n_hidden] to 3 in
    the dict and goes on with the three fixed centres. *)
Theorem RBF_configuration_checks :
  (forall (E : External) X y s method nh,
     model s !! "centres_generation_method" = Some method ->
     model s !! "n_hidden" = Some nh ->
     eq_str method "random" = false -> eq_str method "clustering" = false ->
     eq_str method "debug" = false ->
     RBF_1D.RBF_train_offline X y s
     = (Raise (ValueError "Unrecognized center generation method"), s)) /\
  (forall (E : External) X y s nh Xa,
     model s !! "centres_generation_method" = Some (VStr "debug") ->
     model s !! "n_hidden" = Some nh ->
     heap s !! X = Some (Arr2 Xa) ->
     ncols Xa <> 1%nat -> ncols Xa <> 2%nat ->
     RBF_1D.RBF_train_offline X y s
     = (Raise (ValueError "Unsupported input dimension for debug mode"),
        force_n_hidden nh s)) /\
  (forall (E : External) X y s nh Xa,
     model s !! "centres_generation_method" = Some (VStr "debug") ->
     model s !! "n_hidden" = Some nh -> ne_3 nh = true ->
     heap s !! X = Some (Arr2 Xa) ->
     ncols Xa = 1%nat \/ ncols Xa = 2%nat ->
     exists W1 s',
       RBF_1D.RBF_initialize_centres X y s = (Ok W1, s') /\
       W1 = (if (ncols Xa =? 1)%nat then RBF_1D.debug_centres_1
             else RBF_1D.debug_centres_2) /\
       model s' !! "n_hidden" = Some (VInt 3) /\
       model s' !! "W1" = Some (VArr W1)).
Proof.
  split; [|split].
  - intros E X y s method nh Hm Hn Hr Hc Hd. unfold RBF_1D.RBF_train_offline.
    erewrite bind_Raise; [reflexivity|].
    eapply RBF_initialize_centres_unrecognized; eassumption.
  - intros E X y s nh Xa Hm Hn HX H1 H2. unfold RBF_1D.RBF_train_offline.
    erewrite bind_Raise; [reflexivity|].
    rewrite (RBF_initialize_centres_debug X y s nh Xa Hm Hn HX).
    destruct (Nat.eqb_spec (ncols Xa) 1); [contradiction|].
    destruct (Nat.eqb_spec (ncols Xa) 2); [contradiction|]. reflexivity.
  - intros E X y s nh Xa Hm Hn Hne HX HD.
    rewrite (RBF_initialize_centres_debug X y s nh Xa Hm Hn HX).
    unfold force_n_hidden. rewrite Hne.
    destruct (Nat.eqb_spec (ncols Xa) 1) as [H1|H1].
    + eexists _, _. split; [reflexivity|]. split; [reflexivity|].
      cbn [model set_model]. split.
      * rewrite lookup_insert_ne by discriminate. apply lookup_insert_eq.
      * apply lookup_insert_eq.
    + destruct (Nat.eqb_spec (ncols Xa) 2) as [H2|H2]; [|lia].
      eexists _, _. split; [reflexivity|]. split; [reflexivity|].
      cbn [model set_model]. split.
      * rewrite lookup_insert_ne by discriminate. apply lookup_insert_eq.
      * apply lookup_insert_eq.
Qed.

(** ** The RBF networks, entry by entry *)

Section RBF_entries.
Context `{External}.

Lemma RBF_1D_forward_inv P W1 W2 eps rA2 A1 :
  RBF_1D.RBF_forward P W1 W2 eps = Ok (rA2, A1) ->
  exists D e,
    broadcast_dim (ncols W1) (ncols P) = Some D /\
    as_float eps = Ok e /\
    A1 = RBF_1D.RBF_extend
           (map_nd (fun z => exp (- (e ^ 2 * z ^ 2)))
              (build (nrows W1) (nrows P) (fun i j =>
                 sqrt (sum_upto D (fun d =>
                   (get W1 i (if (ncols W1 =? 1)%nat then 0%nat else d)
                    - get (transpose P) (if (ncols P =? 1)%nat then 0%nat else d) j) ^ 2))))) /\
    matmul W2 A1 = Ok rA2.
Proof.
  unfold RBF_1D.RBF_forward, centre_distances.
  change (nrows (transpose P)) with (ncols P).
  change (ncols (transpose P)) with (nrows P).
  destruct (broadcast_dim (ncols W1) (ncols P)) as [D|]; [|discriminate].
  cbn [rbind].
  destruct (as_float eps) as [e|]; [|discriminate]. cbn [rbind].
  intros Hrun. apply rbind_inv in Hrun as (rZ2 & Hmul & [= <- <-]).
  exists D, e. repeat split; assumption.
Qed.

(** The activations do not depend on the output weights. *)
Lemma RBF_1D_forward_weights P W1 W2 W2' eps rA2 A1 :
  RBF_1D.RBF_forward P W1 W2 eps = Ok (rA2, A1) ->
  RBF_1D.RBF_forward P W1 W2' eps = (let? rA2' := matmul W2' A1 in Ok (rA2', A1)).
Proof.
  intros Hrun. apply RBF_1D_forward_inv in Hrun as (D & e & HD & He & -> & _).
  unfold RBF_1D.RBF_forward, centre_distances.
  change (nrows (transpose P)) with (ncols P).
  change (ncols (transpose P)) with (nrows P).
  rewrite HD. cbn [rbind]. rewrite He. cbn [rbind]. reflexivity.
Qed.

(** A run of the 1-D trainer that returns: the row of ones it passes to
    its forward pass, the matrix [A1] that pass returns, and the answer
    of [lstsq] for it and the targets. *)
Lemma RBF_1D_train_offline_inv X y s W1 W2 s' Xa ya eps :
  RBF_1D.RBF_train_offline X y s = (Ok (W1, W2), s') ->
  heap s !! X = Some (Arr2 Xa) -> heap s !! y = Some ya ->
  model s !! "epsilon" = Some eps ->
  exists nh ones rA2 A1 w,
    model s' !! "n_hidden" = Some nh /\
    RBF_1D.ones_row nh = Ok ones /\
    RBF_1D.RBF_forward Xa W1 ones eps = Ok (rA2, A1) /\
    lstsq (transpose A1) (ravel_of ya) = Ok w /\
    W2 = as_row w.
Proof.
  intros Hrun HX Hy Heps. unfold RBF_1D.RBF_train_offline in Hrun.
  apply bind_inv in Hrun as (W1' & s1 & Hinit & Hrun).
  assert (Hframe : frame (heap s) (model s) ["n_hidden"; "W1"] s1).
  { assert (Hk : keeps (heap s) (model s) ["n_hidden"; "W1"]
                    (RBF_1D.RBF_initialize_centres X y) (fun _ => True))
      by (apply keeps_RBF_1D_initialize_centres; key_in).
    pose proof (keeps_final _ _ _ _ _ s Hk (frame_refl _ _)) as Hf.
    rewrite Hinit in Hf. exact Hf. }
  apply bind_inv in Hrun as (nh & s2 & Hg & Hrun). apply getitem_inv in Hg as [-> Hnh].
  apply bind_inv in Hrun as (ones & s2 & Hl & Hrun). apply lift_inv in Hl as [-> Hones].
  apply bind_inv in Hrun as (eps' & s2 & Hg & Hrun). apply getitem_inv in Hg as [-> Heps'].
  apply bind_inv in Hrun as (Xa' & s2 & Hl & Hrun). apply load2_inv in Hl as [-> HX'].
  apply bind_inv in Hrun as ([rA2 A1] & s2 & Hl & Hrun). apply lift_inv in Hl as [-> Hfwd].
  apply bind_inv in Hrun as (ya' & s2 & Hl & Hrun). apply load_inv in Hl as [-> Hy'].
  apply bind_inv in Hrun as (w & s2 & Hl & Hrun). apply lift_inv in Hl as [-> Hw].
  apply bind_inv in Hrun as (u & s2 & Hset & Hrun). apply ret_inv in Hrun as [-> [= -> ->]].
  rewrite setitem_Ok in Hset. injection Hset as _ <-.
  rewrite (frame_lookup _ _ _ _ _ _ Hframe HX) in HX'. injection HX' as <-.
  rewrite (frame_lookup _ _ _ _ _ _ Hframe Hy) in Hy'. injection Hy' as <-.
  destruct Hframe as [_ Hmodel].
  rewrite (Hmodel "epsilon" ltac:(key_notin)), Heps in Heps'. injection Heps' as <-.
  exists nh, ones, rA2, A1, w. split.
  { cbn [model set_model]. rewrite lookup_insert_ne by discriminate. exact Hnh. }
  repeat split; assumption.
Qed.

Lemma RBF_1D_activation_entries Xa W1 e D :
  ncols W1 = ncols Xa -> broadcast_dim (ncols W1) (ncols Xa) = Some D ->
  let A1 := RBF_1D.RBF_extend
              (map_nd (fun z => exp (- (e ^ 2 * z ^ 2)))
                 (build (nrows W1) (nrows Xa) (fun i j =>
                    sqrt (sum_upto D (fun d =>
                      (get W1 i (if (ncols W1 =? 1)%nat then 0%nat else d)
                       - get (transpose Xa)
                           (if (ncols Xa =? 1)%nat then 0%nat else d) j) ^ 2))))) in
  nrows A1 = Datatypes.S (nrows W1) /\ ncols A1 = nrows Xa /\
  (forall j, (j < nrows Xa)%nat -> get A1 0%nat j = 1) /\
  (forall i j, (i < nrows W1)%nat -> (j < nrows Xa)%nat ->
     get A1 (Datatypes.S i) j = gaussian_rbf e Xa W1 j i).
Proof.
  intros Hcols HD A1. rewrite Hcols, broadcast_dim_same in HD. injection HD as <-.
  subst A1. unfold RBF_1D.RBF_extend, vstack_ones, map_nd.
  rewrite !nrows_build, !ncols_build.
  split; [reflexivity|]. split; [reflexivity|]. split.
  - intros j Hj. rewrite get_build by lia. reflexivity.
  - intros i j Hi Hj. rewrite !get_build by lia.
    unfold gaussian_rbf, sq_distance.
    rewrite pow2_sqrt by (apply sum_upto_nonneg; intros; apply pow2_ge_0).
    do 3 apply f_equal.
    apply sum_upto_ext. intros d Hd. rewrite Hcols.
    assert (Hidx : (if (ncols Xa =? 1)%nat then 0%nat else d) = d).
    { destruct (Nat.eqb_spec (ncols Xa) 1); lia. }
    rewrite Hidx. unfold transpose. rewrite get_build by lia. ring.
Qed.

Lemma RBF_2D_hidden_outputs_inv Xa W1 eps Hm :
  hidden_matrix Xa W1 eps = Ok Hm ->
  exists e, as_float eps = Ok e /\
    nrows Hm = nrows Xa /\ ncols Hm = Datatypes.S (nrows W1) /\
    (forall i, (i < nrows Xa)%nat -> get Hm i 0%nat = 1) /\
    (ncols W1 = ncols Xa ->
     forall i j, (i < nrows Xa)%nat -> (j < nrows W1)%nat ->
       get Hm i (Datatypes.S j) = gaussian_rbf e Xa W1 i j).
Proof.
  unfold hidden_matrix, sample_distances.
  destruct (broadcast_dim (ncols Xa) (ncols W1)) as [D|] eqn:HD; [|discriminate].
  cbn [rbind]. destruct (as_float eps) as [e|]; [|discriminate]. cbn [rbind].
  intros Heq. apply Ok_inj in Heq. subst Hm. exists e. split; [reflexivity|].
  unfold column_stack_ones, map_nd. rewrite !nrows_build, !ncols_build.
  split; [reflexivity|]. split; [reflexivity|]. split.
  - intros i Hi. rewrite get_build by lia. reflexivity.
  - intros Hcols i j Hi Hj. rewrite <- Hcols, broadcast_dim_same in HD. injection HD as <-.
    rewrite !get_build by lia.
    unfold gaussian_rbf, sq_distance.
    rewrite Rpow_mult_distr.
    rewrite pow2_sqrt by (apply sum_upto_nonneg; intros; apply pow2_ge_0).
    rewrite Rmult_comm. do 3 apply f_equal. rewrite Hcols.
    apply sum_upto_ext. intros d Hd.
    assert (Hidx : (if (ncols Xa =? 1)%nat then 0%nat else d) = d).
    { destruct (Nat.eqb_spec (ncols Xa) 1); lia. }
    rewrite Hidx. reflexivity.
Qed.

(** A run of the 2-D trainer that returns: the hidden matrix its lines
    compute, the answer of [pinv] for it, and the product of that with
    the column of the targets. *)
Lemma RBF_2D_train_offline_inv X y s W1 W2 s' Xa ya eps :
  RBF_2D.RBF_train_offline X y s = (Ok (W1, W2), s') ->
  heap s !! X = Some (Arr2 Xa) -> heap s !! y = Some ya ->
  model s !! "epsilon" = Some eps ->
  exists Hm Hp,
    hidden_matrix Xa W1 eps = Ok Hm /\
    pinv Hm = Ok Hp /\
    matmul Hp (as_column (ravel_of ya)) = Ok W2.
Proof.
  intros Hrun HX Hy Heps.
  assert (Hframe : frame (heap s) (model s) [] s').
  { pose proof (keeps_final _ _ _ _ _ s
                  (keeps_RBF_2D_train_offline (heap s) (model s) [] X y)
                  (frame_refl _ _)) as Hf.
    rewrite Hrun in Hf. exact Hf. }
  unfold RBF_2D.RBF_train_offline in Hrun.
  apply bind_inv in Hrun as (nh & s1 & Hg & Hrun). apply getitem_inv in Hg as [-> _].
  apply bind_inv in Hrun as (nf & s1 & Hg & Hrun). apply getitem_inv in Hg as [-> _].
  apply bind_inv in Hrun as (method & s1 & Hg & Hrun). apply getitem_inv in Hg as [-> _].
  apply bind_inv in Hrun as (W1o & s1 & _ & Hrun).
  apply bind_inv in Hrun as (eps' & s2 & Hg & Hrun). apply getitem_inv in Hg as [-> Heps'].
  apply bind_inv in Hrun as (Xa' & s2 & Hl & Hrun). apply load2_inv in Hl as [-> HX'].
  apply bind_inv in Hrun as (W1' & s2 & HW1 & Hrun).
  destruct W1o as [W1''|]; [|discriminate].
  apply ret_inv in HW1 as [-> ->].
  apply bind_inv in Hrun as (dist & s2 & Hl & Hrun). apply lift_inv in Hl as [-> Hdist].
  apply bind_inv in Hrun as (e & s2 & Hl & Hrun). apply lift_inv in Hl as [-> He].
  apply bind_inv in Hrun as (Hp & s2 & Hl & Hrun). apply lift_inv in Hl as [-> HHp].
  apply bind_inv in Hrun as (ya' & s2 & Hl & Hrun). apply load_inv in Hl as [-> Hy'].
  apply bind_inv in Hrun as (W2' & s2 & Hl & Hrun). apply lift_inv in Hl as [-> HW2].
  apply ret_inv in Hrun as [<- [= -> ->]].
  rewrite (frame_lookup _ _ _ _ _ _ Hframe HX) in HX'. injection HX' as <-.
  rewrite (frame_lookup _ _ _ _ _ _ Hframe Hy) in Hy'. injection Hy' as <-.
  destruct Hframe as [_ Hmodel].
  rewrite (Hmodel "epsilon" ltac:(key_notin)), Heps in Heps'. injection Heps' as <-.
  eexists _, Hp. split; [|split; [exact HHp | exact HW2]].
  unfold hidden_matrix. rewrite Hdist. cbn [rbind]. rewrite He. reflexivity.
Qed.

(** The predictor of the 2-D notebook computes the same hidden matrix in
    its own lines. *)
Lemma RBF_2D_predict_hidden X W1 W2 eps :
  RBF_2D.RBF_predict X W1 W2 eps
  = (let? Hm := hidden_matrix X W1 eps in matmul Hm W2).
Proof.
  unfold RBF_2D.RBF_predict, hidden_matrix.
  destruct (sample_distances X W1) as [dist|]; [|reflexivity]. cbn [rbind].
  destruct (as_float eps) as [e|]; [|reflexivity]. cbn [rbind].
  destruct (matmul _ W2); reflexivity.
Qed.

End RBF_entries.

Lemma matmul_inv A B C :
  matmul A B = Ok C -> ncols A = nrows B /\ nrows C = nrows A /\ ncols C = ncols B.
Proof.
  unfold matmul. destruct (Nat.eqb_spec (ncols A) (nrows B)); [|discriminate].
  intros Heq. apply Ok_inj in Heq. subst C. auto.
Qed.

(** ** Least squares *)










(** C9. The prediction on the training inputs with the stored centres,
    the same width and the solved weights reproduces the fitted values
    of training. In the 1-D notebook the forward pass of the training
    run, called with a row of ones for the weights, returns the
    activation matrix [H_ext] from which [lstsq] gives [W2], and the
    forward pass of the prediction returns the same matrix beside
    [W2 H_ext]. In the 2-D notebook the trainer and the predictor
    compute the hidden matrix [H_ext] in their own lines, to the same
    value, and the prediction is [H_ext W2] for the [W2] that the
    pseudo-inverse of that matrix gave. *)
Theorem RBF_predict_reproduces_fitted_values :
  (forall (E : External) X y s W1 W2 s' Xa ya eps,
     RBF_1D.RBF_train_offline X y s = (Ok (W1, W2), s') ->
     heap s !! X = Some (Arr2 Xa) -> heap s !! y = Some ya ->
     model s !! "epsilon" = Some eps ->
     exists nh ones out H_ext w fitted,
       model s' !! "n_hidden" = Some nh /\
       RBF_1D.ones_row nh = Ok ones /\
       RBF_1D.RBF_forward Xa W1 ones eps = Ok (out, H_ext) /\
       lstsq (transpose H_ext) (ravel_of ya) = Ok w /\ W2 = as_row w /\
       RBF_1D.RBF_forward Xa W1 W2 eps = Ok (fitted, H_ext) /\
       matmul W2 H_ext = Ok fitted /\
       RBF_1D.RBF_predict Xa W1 W2 eps = Ok fitted /\
       nrows fitted = 1%nat /\ ncols fitted = nrows Xa /\
       forall j, (j < nrows Xa)%nat ->
         get fitted 0%nat j
         = sum_upto (nrows H_ext) (fun i => nth i w 0 * get H_ext i j)) /\
  (forall (E : External) X y s W1 W2 s' Xa ya eps,
     RBF_2D.RBF_train_offline X y s = (Ok (W1, W2), s') ->
     heap s !! X = Some (Arr2 Xa) -> heap s !! y = Some ya ->
     model s !! "epsilon" = Some eps ->
     exists H_ext H_pinv fitted,
       hidden_matrix Xa W1 eps = Ok H_ext /\
       pinv H_ext = Ok H_pinv /\
       matmul H_pinv (as_column (ravel_of ya)) = Ok W2 /\
       matmul H_ext W2 = Ok fitted /\
       RBF_2D.RBF_predict Xa W1 W2 eps = Ok fitted /\
       nrows fitted = nrows Xa /\ ncols fitted = 1%nat /\
       forall i, (i < nrows Xa)%nat ->
         get fitted i 0%nat
         = sum_upto (ncols H_ext) (fun k => get H_ext i k * get W2 k 0%nat)).
Proof.
  split.
  - intros E X y s W1 W2 s' Xa ya eps Hrun HX Hy Heps.
    destruct (RBF_1D_train_offline_inv X y s W1 W2 s' Xa ya eps Hrun HX Hy Heps)
      as (nh & ones & rA2 & A1 & w & Hnh & Hones & Hfwd & Hw & HW2).
    assert (Hshape : ncols W2 = nrows A1).
    { subst W2. unfold as_row. rewrite ncols_build.
      rewrite (lstsq_shape _ _ _ Hw). reflexivity. }
    assert (HA1c : ncols A1 = nrows Xa).
    { pose proof Hfwd as Hf.
      apply RBF_1D_forward_inv in Hf as (D & e & _ & _ & -> & _).
      unfold RBF_1D.RBF_extend, vstack_ones, map_nd.
      rewrite !ncols_build. reflexivity. }
    assert (Hpass : RBF_1D.RBF_forward Xa W1 W2 eps
                    = Ok (build (nrows W2) (ncols A1)
                            (fun i j => sum_upto (ncols W2)
                               (fun k => get W2 i k * get A1 k j)), A1)).
    { rewrite (RBF_1D_forward_weights Xa W1 ones W2 eps rA2 A1 Hfwd).
      rewrite (matmul_Ok W2 A1 Hshape). reflexivity. }
    exists nh, ones, rA2, A1, w. eexists.
    split; [exact Hnh|]. split; [exact Hones|]. split; [exact Hfwd|].
    split; [exact Hw|]. split; [exact HW2|]. split; [exact Hpass|].
    split; [apply matmul_Ok, Hshape|].
    split; [unfold RBF_1D.RBF_predict; rewrite Hpass; reflexivity|].
    rewrite nrows_build, ncols_build.
    split; [subst W2; unfold as_row; apply nrows_build|]. split; [exact HA1c|].
    intros j Hj.
    assert (HW2r : nrows W2 = 1%nat) by (subst W2; unfold as_row; apply nrows_build).
    rewrite get_build by lia. rewrite Hshape.
    apply sum_upto_ext. intros i Hi. f_equal.
    subst W2. unfold as_row in *. rewrite ncols_build in Hshape.
    rewrite get_build by lia. reflexivity.
  - intros E X y s W1 W2 s' Xa ya eps Hrun HX Hy Heps.
    destruct (RBF_2D_train_offline_inv X y s W1 W2 s' Xa ya eps Hrun HX Hy Heps)
      as (Hm & Hp & HHm & HHp & HW2).
    pose proof (matmul_inv _ _ _ HW2) as (_ & HWr & HWc).
    unfold as_column in HWc. rewrite ncols_build in HWc.
    assert (Hshape : ncols Hm = nrows W2).
    { rewrite HWr. symmetry. apply (pinv_shape _ _ HHp). }
    destruct (RBF_2D_hidden_outputs_inv Xa W1 eps Hm HHm) as (e & _ & Hr & _).
    exists Hm, Hp. eexists. split; [exact HHm|]. split; [exact HHp|].
    split; [exact HW2|]. split; [apply matmul_Ok, Hshape|].
    split; [rewrite RBF_2D_predict_hidden, HHm; cbn [rbind]; apply matmul_Ok, Hshape|].
    rewrite nrows_build, ncols_build.
    split; [exact Hr|]. split; [exact HWc|].
    intros i Hi. rewrite get_build by lia. reflexivity.
Qed.

(** ** The split into mini-batches *)

Lemma nth_cumsum_from l acc i :
  (i < length l)%nat ->
  nth i (cumsum_from acc l) 0%nat = (acc + list_sum (firstn (Datatypes.S i) l))%nat.
Proof.
  revert acc i. induction l as [|x l IH]; intros acc i Hi; cbn in Hi; [lia|].
  destruct i as [|i]; cbn [cumsum_from nth].
  - rewrite firstn_cons, firstn_O. cbn. lia.
  - rewrite IH by lia. rewrite (firstn_cons (Datatypes.S i) x l).
    cbn [list_sum fold_right]. unfold list_sum. lia.
Qed.

Lemma list_sum_firstn_repeat a n k :
  list_sum (firstn k (repeat a n)) = (Nat.min k n * a)%nat.
Proof.
  revert k. induction n as [|n IH]; intros [|k]; cbn [repeat]; try reflexivity.
  - rewrite firstn_cons. cbn [list_sum fold_right].
    specialize (IH k). unfold list_sum in IH. rewrite IH.
    rewrite <- Nat.succ_min_distr. lia.
Qed.

Lemma list_sum_app_nat l1 l2 : list_sum (l1 ++ l2) = (list_sum l1 + list_sum l2)%nat.
Proof. apply list_sum_app. Qed.

Lemma div_points_nth q r M i :
  (r <= M)%nat -> (i <= M)%nat ->
  nth i (cumsum_from 0 (0%nat :: repeat (Datatypes.S q) r ++ repeat q (M - r))) 0%nat
  = batch_start q r i.
Proof.
  intros Hr Hi.
  rewrite nth_cumsum_from
    by (cbn [length]; rewrite length_app, !repeat_length; lia).
  cbn [firstn list_sum fold_right Nat.add].
  change (fold_right Nat.add 0%nat ?l) with (list_sum l).
  rewrite firstn_app, list_sum_app_nat, !list_sum_firstn_repeat, repeat_length.
  unfold batch_start. nia.
Qed.

Lemma batch_start_le q r i : (batch_start q r i <= batch_start q r (Datatypes.S i))%nat.
Proof. unfold batch_start. nia. Qed.

Lemma batch_start_size q r i :
  (batch_start q r (Datatypes.S i) - batch_start q r i
   = q + (if (i <? r)%nat then 1 else 0))%nat.
Proof.
  unfold batch_start. destruct (Nat.ltb_spec i r); nia.
Qed.

Lemma batch_start_mono q r i j :
  (i <= j)%nat -> (batch_start q r i <= batch_start q r j)%nat.
Proof. unfold batch_start. nia. Qed.

Lemma array_split_Ok N (M : Z) :
  (1 <= M)%Z ->
  array_split N M
  = Ok (map (fun i => seq (batch_start (N / Z.to_nat M) (N mod Z.to_nat M) i)
                          (N / Z.to_nat M + (if (i <? N mod Z.to_nat M)%nat then 1 else 0)))
            (seq 0 (Z.to_nat M))).
Proof.
  intros HM. unfold array_split.
  destruct (Z.leb_spec M 0); [lia|]. f_equal.
  apply map_ext_in. intros i Hi. apply in_seq in Hi.
  assert (Hr : (N mod Z.to_nat M <= Z.to_nat M)%nat).
  { apply Nat.lt_le_incl, Nat.mod_upper_bound. lia. }
  rewrite !div_points_nth by lia.
  rewrite batch_start_size. reflexivity.
Qed.

Lemma concat_batches q r k :
  concat (map (fun i => seq (batch_start q r i)
                            (q + (if (i <? r)%nat then 1 else 0)))
              (seq 0 k))
  = seq 0 (batch_start q r k).
Proof.
  induction k as [|k IH].
  - reflexivity.
  - rewrite seq_S, map_app, concat_app, IH. cbn [map concat Nat.add].
    rewrite app_nil_r, <- batch_start_size.
    replace (batch_start q r (Datatypes.S k))
      with (batch_start q r k + (batch_start q r (Datatypes.S k) - batch_start q r k))%nat
      at 2 by (pose proof (batch_start_le q r k); lia).
    rewrite seq_app. reflexivity.
Qed.

Lemma batch_start_total N M :
  (0 < M)%nat -> batch_start (N / M) (N mod M) M = N.
Proof.
  intros HM. unfold batch_start.
  pose proof (Nat.mod_upper_bound N M ltac:(lia)).
  rewrite Nat.min_r by lia.
  pose proof (Nat.div_mod_eq N M). lia.
Qed.

(** ** A training run of the perceptron *)

Lemma take_rows_Ok A idx :
  Forall (fun i => (i < nrows A)%nat) idx ->
  take_rows A idx
  = Ok (build (length idx) (ncols A) (fun i j => get A (nth i idx 0%nat) j)).
Proof.
  intros Hidx. unfold take_rows.
  replace (forallb (fun i => (i <? nrows A)%nat) idx) with true; [reflexivity|].
  symmetry. apply forallb_forall. intros i Hi.
  rewrite List.Forall_forall in Hidx. apply Nat.ltb_lt, Hidx, Hi.
Qed.

Lemma MLP_MSE_cost_Ok y rA2 :
  nrows y = nrows rA2 -> ncols y = ncols rA2 ->
  exists c, MLP_MSE_cost y rA2 = Ok c.
Proof.
  intros Hr Hc. unfold MLP_MSE_cost.
  rewrite broadcast_same by assumption. cbn [rbind]. eauto.
Qed.

Lemma list_append_Ok k x h m g l :
  m !! k = Some (VList l) ->
  list_append k x (mk_state h m g)
  = (Ok tt, mk_state h (<[k := VList (l ++ [x])]> m) g).
Proof.
  intros Hk. unfold list_append.
  erewrite bind_Ok by (apply getitem_Ok; exact Hk). reflexivity.
Qed.

Lemma MLP_minibatch_run H D O h m0 g eta_v eta Ps ys idx W hist :
  MLP_shapes H D O W -> ncols Ps = D -> ncols ys = O -> nrows ys = nrows Ps ->
  Forall (fun i => (i < nrows Ps)%nat) idx ->
  as_float eta_v = Ok eta ->
  exists W' c,
    MLP_minibatch eta_v Ps ys idx W
      (mk_state h (<["cost_history" := VList hist]> m0) g)
    = (Ok W', mk_state h (<["cost_history" := VList (hist ++ [c])]> m0) g) /\
    MLP_shapes H D O W'.
Proof.
  intros (HW1r & HW1c & HW2r & HW2c) HPs Hys HN Hidx Heta.
  destruct W as [W1 W2]. cbn [fst snd] in *.
  unfold MLP_minibatch.
  erewrite bind_Ok by (apply lift_Ok, take_rows_Ok, Hidx).
  erewrite bind_Ok by (apply lift_Ok, take_rows_Ok; rewrite HN; exact Hidx).
  set (Pb := build (length idx) (ncols Ps) _).
  set (yb := build (length idx) (ncols ys) _).
  destruct (MLP_MSELIN_backprop_Ok Pb W1 W2 (transpose yb))
    as (rA2 & A1 & A0 & rZ1 & dW1 & dW2 & Hfwd & Hbwd & HdW2r & HdW2c & HdW1r & HdW1c & _);
    try (subst Pb yb; shape_goal; lia).
  erewrite bind_Ok by (apply lift_Ok, Hfwd).
  assert (HrA2 : nrows rA2 = nrows W2 /\ ncols rA2 = length idx).
  { destruct (MLP_MSELIN_forward_Ok Pb W1 W2) as (r & a1 & a0 & z & Hf & _ & _ & _ & Hr);
      try (subst Pb; shape_goal; lia).
    rewrite Hf in Hfwd. apply Ok_inj in Hfwd. injection Hfwd as <- _ _ _.
    subst r. split; reflexivity. }
  destruct (MLP_MSE_cost_Ok (transpose yb) rA2) as [c Hc];
    try (subst yb; shape_goal; lia).
  erewrite bind_Ok by (apply lift_Ok, Hc).
  erewrite bind_Ok by (apply list_append_Ok, lookup_insert_eq).
  rewrite insert_insert_eq.
  erewrite bind_Ok by (apply lift_Ok, Hbwd).
  cbv beta iota.
  erewrite bind_Ok by (apply lift_Ok, Heta).
  assert (HPb : ncols Pb = D) by (subst Pb; rewrite ncols_build; exact HPs).
  rewrite HPb in HdW1c.
  erewrite bind_Ok by (apply lift_Ok, broadcast_same; shape_goal; lia).
  erewrite bind_Ok by (apply lift_Ok, broadcast_same; shape_goal; lia).
  eexists _, c. split; [reflexivity|].
  repeat split; cbn [fst snd]; rewrite ?nrows_build, ?ncols_build; assumption.
Qed.

Lemma batches_in_range N (M : nat) j idx :
  (0 < M)%nat ->
  map (fun i => seq (batch_start (N / M) (N mod M) i)
                    (N / M + (if (i <? N mod M)%nat then 1 else 0)))
      (seq 0 M) !! j = Some idx ->
  Forall (fun i => (i < N)%nat) idx.
Proof.
  intros HM Hj. rewrite list_lookup_fmap in Hj.
  destruct (seq 0 M !! j) as [i|] eqn:Hi; [|discriminate].
  apply lookup_seq in Hi as [-> Hlt].
  cbn [fmap option_fmap option_map Nat.add] in Hj. apply (inj Some) in Hj. subst idx.
  apply List.Forall_forall. intros x Hx. apply in_seq in Hx.
  rewrite <- batch_start_size in Hx.
  pose proof (batch_start_le (N / M) (N mod M) j).
  pose proof (batch_start_mono (N / M) (N mod M) (Datatypes.S j) M ltac:(lia)).
  rewrite batch_start_total in * by lia. lia.
Qed.

Lemma valid_generator_permutation g n :
  valid_generator g ->
  Forall (fun i => (i < n)%nat) (permutation_at g (cursor g) n) /\
  length (permutation_at g (cursor g) n) = n.
Proof.
  intros Hg. specialize (Hg (cursor g) n). split.
  - apply List.Forall_forall. intros i Hi.
    apply (Permutation_in _ Hg), in_seq in Hi. lia.
  - rewrite (Permutation_length Hg). apply length_seq.
Qed.

Lemma random_permutation_Ok n h m g :
  random_permutation n (mk_state h m g)
  = (Ok (permutation_at g (cursor g) n), mk_state h m (advance 1 g)).
Proof. reflexivity. Qed.

Lemma MLP_epoch_run H D O h m0 g lP ly Pa ya eta_v eta (M : Z) e W hist :
  h !! lP = Some (Arr2 Pa) -> h !! ly = Some (Arr2 ya) ->
  ncols Pa = D -> ncols ya = O -> (nrows Pa <= nrows ya)%nat ->
  valid_generator g -> as_float eta_v = Ok eta -> (1 <= M)%Z ->
  MLP_shapes H D O W ->
  exists W' hist',
    MLP_epoch lP ly eta_v (VInt M) (nrows Pa) e W
      (mk_state h (<["cost_history" := VList hist]> m0) g)
    = (Ok W', mk_state h (<["cost_history" := VList (hist ++ hist')]> m0) (advance 1 g)) /\
    MLP_shapes H D O W' /\ length hist' = Z.to_nat M.
Proof.
  intros HP Hy HD HO HN Hg Heta HM HW.
  destruct (valid_generator_permutation g (nrows Pa) Hg) as [Hperm Hlen].
  set (perm := permutation_at g (cursor g) (nrows Pa)) in *.
  unfold MLP_epoch.
  erewrite bind_Ok by apply random_permutation_Ok. fold perm.
  erewrite bind_Ok by (apply load2_Ok, HP).
  erewrite bind_Ok by (apply lift_Ok, take_rows_Ok, Hperm).
  erewrite bind_Ok by (apply load2_Ok, Hy).
  erewrite bind_Ok
    by (apply lift_Ok, take_rows_Ok; eapply List.Forall_impl; [|exact Hperm];
        cbv beta; intros; lia).
  erewrite bind_Ok by (apply lift_Ok; reflexivity).
  erewrite bind_Ok by (apply lift_Ok, array_split_Ok, HM).
  set (Ps := build (length perm) (ncols Pa) _).
  set (ys := build (length perm) (ncols ya) _).
  set (batches := map _ (seq 0 (Z.to_nat M))).
  pose (I := fun (j : nat) (W : ndarray * ndarray) (s : state) =>
    MLP_shapes H D O W /\
    exists hist', length hist' = j /\
      s = mk_state h (<["cost_history" := VList (hist ++ hist')]> m0) (advance 1 g)).
  assert (Hloop : triple (I 0%nat W)
            (for_each batches (MLP_minibatch eta_v Ps ys) W)
            (I (length batches)) (fun _ _ => False)).
  { apply triple_for_each.
    intros j idx W' Hj s (HW' & hist' & Hlen' & ->).
    destruct (MLP_minibatch_run H D O h m0 (advance 1 g) eta_v eta Ps ys idx W'
                (hist ++ hist'))
      as (W'' & c & Hrun & HW''); try assumption; try reflexivity.
    { subst Ps. rewrite nrows_build, Hlen.
      apply (batches_in_range (nrows Pa) (Z.to_nat M) j); [lia | exact Hj]. }
    rewrite Hrun. split; [exact HW''|].
    exists (hist' ++ [c]). split; [rewrite length_app; cbn; lia|].
    rewrite app_assoc. reflexivity. }
  assert (HI0 : I 0%nat W
            (mk_state h (<["cost_history" := VList hist]> m0) (advance 1 g))).
  { split; [exact HW|]. exists []. split; [reflexivity|]. rewrite app_nil_r. reflexivity. }
  specialize (Hloop _ HI0).
  destruct (for_each _ _ _ _) as [[W'|err] s']; [|contradiction].
  destruct Hloop as (HW' & hist' & Hlen' & ->).
  exists W', hist'. split; [reflexivity|]. split; [exact HW'|].
  rewrite Hlen'. subst batches. rewrite length_map, length_seq. reflexivity.
Qed.

Lemma random_rand_Ok (r c : Z) h m g :
  (0 <= r)%Z -> (0 <= c)%Z ->
  random_rand r c (mk_state h m g)
  = (Ok (build (Z.to_nat r) (Z.to_nat c)
           (fun i j => rand_at g (cursor g + i * Z.to_nat c + j))),
     mk_state h m (advance (Z.to_nat r * Z.to_nat c) g)).
Proof.
  intros Hr Hc. unfold random_rand.
  destruct (Z.ltb_spec r 0); [lia|]. destruct (Z.ltb_spec c 0); [lia|]. reflexivity.
Qed.

Lemma valid_generator_advance n g : valid_generator g -> valid_generator (advance n g).
Proof. intros Hg pos k. apply Hg. Qed.

Lemma MLP_initialize_weights_run h m g (Hz Dz Oz : Z) :
  m !! "n_hidden" = Some (VInt Hz) -> m !! "n_features" = Some (VInt Dz) ->
  m !! "n_output" = Some (VInt Oz) ->
  (0 <= Hz)%Z -> (0 <= Dz)%Z -> (0 <= Oz)%Z ->
  exists W n,
    MLP_initialize_weights (mk_state h m g) = (Ok W, mk_state h m (advance n g)) /\
    MLP_shapes (Z.to_nat Hz) (Z.to_nat Dz) (Z.to_nat Oz) W.
Proof.
  intros HH HD HO HHz HDz HOz. unfold MLP_initialize_weights.
  erewrite bind_Ok by (apply getitem_Ok; exact HH).
  erewrite bind_Ok by (apply getitem_Ok; exact HD).
  erewrite bind_Ok by (apply getitem_Ok; exact HO).
  erewrite bind_Ok by (apply lift_Ok; reflexivity).
  erewrite bind_Ok by (apply lift_Ok; reflexivity).
  erewrite bind_Ok by (apply random_rand_Ok; lia).
  erewrite bind_Ok by (apply lift_Ok; reflexivity).
  erewrite bind_Ok by (apply random_rand_Ok; lia).
  eexists _, (Z.to_nat Hz * Z.to_nat (Dz + 1) + Z.to_nat Oz * Z.to_nat (Hz + 1))%nat.
  split.
  - unfold ret. do 2 f_equal. unfold advance. cbn [rand_at permutation_at cursor].
    f_equal. lia.
  - repeat split; cbn [fst snd]; shape_goal; lia.
Qed.

Lemma MLP_MSELIN_train_run h m g lP ly Pa ya (Hz Dz Oz E M : Z) eta_v eta :
  m !! "n_hidden" = Some (VInt Hz) -> m !! "n_features" = Some (VInt Dz) ->
  m !! "n_output" = Some (VInt Oz) -> m !! "eta" = Some eta_v ->
  m !! "epochs" = Some (VInt E) -> m !! "minibatches" = Some (VInt M) ->
  (0 <= Hz)%Z -> (0 <= Dz)%Z -> (0 <= Oz)%Z ->
  as_float eta_v = Ok eta -> (1 <= M)%Z ->
  h !! lP = Some (Arr2 Pa) -> h !! ly = Some (Arr2 ya) ->
  ncols Pa = Z.to_nat Dz -> ncols ya = Z.to_nat Oz -> (nrows Pa <= nrows ya)%nat ->
  valid_generator g ->
  exists W1 W2 hist g',
    MLP_MSELIN_train lP ly (mk_state h m g)
    = (Ok (W1, W2),
       mk_state h (<["W2" := VArr W2]> (<["W1" := VArr W1]>
                     (<["cost_history" := VList hist]> m))) g') /\
    length hist = (Z.to_nat E * Z.to_nat M)%nat.
Proof.
  intros HH HD HO Heta_v HE HM HHz HDz HOz Heta HM1 HP Hy HcP Hcy HN Hg.
  destruct (MLP_initialize_weights_run h m g Hz Dz Oz) as (W0 & n & Hinit & HW0);
    try assumption.
  set (H := Z.to_nat Hz) in *. set (D := Z.to_nat Dz) in *. set (O := Z.to_nat Oz) in *.
  pose (I := fun (k : nat) (W : ndarray * ndarray) (s : state) =>
    MLP_shapes H D O W /\
    exists hist g', length hist = (k * Z.to_nat M)%nat /\ valid_generator g' /\
      s = mk_state h (<["cost_history" := VList hist]> m) g').
  assert (Hloop : triple (I 0%nat W0)
            (for_each (range E) (MLP_epoch lP ly eta_v (VInt M) (nrows Pa)) W0)
            (I (length (range E))) (fun _ _ => False)).
  { apply triple_for_each.
    intros k e W Hk s (HW & hist & g' & Hlen & Hg' & ->).
    destruct (MLP_epoch_run H D O h m g' lP ly Pa ya eta_v eta M e W hist)
      as (W' & hist' & Hrun & HW' & Hlen'); try assumption.
    rewrite Hrun. split; [exact HW'|].
    exists (hist ++ hist'), (advance 1 g'). split; [rewrite length_app; lia|].
    split; [apply valid_generator_advance, Hg' | reflexivity]. }
  assert (HI0 : I 0%nat W0 (mk_state h (<["cost_history" := VList []]> m) (advance n g))).
  { split; [exact HW0|]. exists [], (advance n g).
    split; [reflexivity|]. split; [apply valid_generator_advance, Hg | reflexivity]. }
  specialize (Hloop _ HI0).
  unfold MLP_MSELIN_train.
  erewrite bind_Ok by exact Hinit. destruct W0 as [W1_0 W2_0].
  erewrite bind_Ok by (apply getitem_Ok; exact Heta_v).
  erewrite bind_Ok by (apply getitem_Ok; exact HE).
  erewrite bind_Ok by (apply getitem_Ok; exact HM).
  erewrite bind_Ok by apply setitem_Ok.
  unfold set_model. cbn [heap model rng].
  erewrite bind_Ok by (apply load2_Ok, HP).
  erewrite bind_Ok by (apply lift_Ok; reflexivity).
  unfold bind at 1.
  destruct (for_each _ _ _ _) as [[[W1 W2]|err] s']; [|contradiction].
  destruct Hloop as (_ & hist & g' & Hlen & _ & ->).
  unfold range in Hlen. rewrite length_seq in Hlen.
  exists W1, W2, hist, g'. split; [reflexivity | exact Hlen].
Qed.

Lemma valid_constant_generator : valid_generator constant_generator.
Proof. intros pos n. reflexivity. Qed.

(** C8 as stated fails: seven examples in three mini-batches are split
    into sizes 3, 2 and 2, so the second batch, which is not the last, is
    smaller than the first. *)
Lemma array_split_two_smaller_batches :
  array_split 7 3 = Ok [[0; 1; 2]; [3; 4]; [5; 6]]%nat /\
  (length [3; 4] < length [0; 1; 2])%nat.
Proof. split; [reflexivity | cbn; lia]. Qed.

(** C8, as the code has it. [np.array_split] cuts the shuffled indices
    into exactly [minibatches] contiguous runs that cover them in order;
    the first [N mod minibatches] runs have one index more than the
    others, so that sizes differ by at most one. A training run on
    well-shaped data with at least one mini-batch returns without error,
    and its cost history has one entry for every mini-batch of every
    epoch: [epochs * minibatches] entries, for [minibatches = 1] and
    [minibatches = N] as for every value between. *)
Theorem MLP_minibatch_training :
  (forall N (M : Z), (1 <= M)%Z ->
     exists batches,
       array_split N M = Ok batches /\
       length batches = Z.to_nat M /\
       concat batches = seq 0 N /\
       forall i, (i < Z.to_nat M)%nat ->
         exists st,
           batches !! i
           = Some (seq st (N / Z.to_nat M
                           + (if (i <? N mod Z.to_nat M)%nat then 1 else 0)))) /\
  (forall h m g lP ly Pa ya (Hz Dz Oz E M : Z) eta_v eta,
     m !! "n_hidden" = Some (VInt Hz) -> m !! "n_features" = Some (VInt Dz) ->
     m !! "n_output" = Some (VInt Oz) -> m !! "eta" = Some eta_v ->
     m !! "epochs" = Some (VInt E) -> m !! "minibatches" = Some (VInt M) ->
     (0 <= Hz)%Z -> (0 <= Dz)%Z -> (0 <= Oz)%Z -> (0 <= E)%Z ->
     as_float eta_v = Ok eta ->
     (1 <= M <= Z.of_nat (nrows Pa))%Z ->
     h !! lP = Some (Arr2 Pa) -> h !! ly = Some (Arr2 ya) ->
     ncols Pa = Z.to_nat Dz -> ncols ya = Z.to_nat Oz -> nrows ya = nrows Pa ->
     valid_generator g ->
     exists W1 W2 s' hist,
       MLP_MSELIN_train lP ly (mk_state h m g) = (Ok (W1, W2), s') /\
       model s' !! "cost_history" = Some (VList hist) /\
       Z.of_nat (length hist) = (E * M)%Z).
Proof.
  split.
  - intros N M HM. eexists. split; [apply array_split_Ok, HM|].
    split; [rewrite length_map, length_seq; reflexivity|].
    split.
    + rewrite concat_batches. f_equal. apply batch_start_total. lia.
    + intros i Hi. eexists.
      rewrite list_lookup_fmap, lookup_seq_lt by lia. reflexivity.
  - intros h m g lP ly Pa ya Hz Dz Oz E M eta_v eta
      HH HD HO Heta_v HE HM HHz HDz HOz HE0 Heta HM1 HP Hy HcP Hcy HN Hg.
    destruct (MLP_MSELIN_train_run h m g lP ly Pa ya Hz Dz Oz E M eta_v eta)
      as (W1 & W2 & hist & g' & Hrun & Hlen); try assumption; try lia.
    exists W1, W2. eexists _, hist. split; [exact Hrun|]. split.
    + cbn [model]. rewrite !lookup_insert_ne by discriminate. apply lookup_insert_eq.
    + rewrite Hlen. lia.
Qed.

Lemma MLP_minibatch_training_witness :
  (exists batches,
     array_split 7 3 = Ok batches /\
     length batches = Z.to_nat 3 /\
     concat batches = seq 0 7 /\
     forall i, (i < Z.to_nat 3)%nat ->
       exists st,
         batches !! i
         = Some (seq st (7 / Z.to_nat 3 + (if (i <? 7 mod Z.to_nat 3)%nat then 1 else 0)))) /\
  (exists W1 W2 s' hist,
     MLP_MSELIN_train 0%nat 1%nat mlp_state = (Ok (W1, W2), s') /\
     model s' !! "cost_history" = Some (VList hist) /\
     Z.of_nat (length hist) = (2 * 2)%Z).
Proof.
  destruct MLP_minibatch_training as [Hsplit Hrun].
  split.
  - apply (Hsplit 7%nat 3%Z). lia.
  - apply (Hrun [Arr2 X_example; Arr2 y_example] mlp_model constant_generator
             0%nat 1%nat X_example y_example 2%Z 1%Z 1%Z 2%Z 2%Z (VFloat (1/10)) (1/10));
      try reflexivity; try lia.
    + cbn. lia.
    + exact valid_constant_generator.
Defined.

(** ** Runs of the RBF trainers *)

Lemma valid_generator_take g n k :
  valid_generator g ->
  let idx := firstn k (permutation_at g (cursor g) n) in
  NoDup idx /\ length idx = Nat.min k n /\ Forall (fun i => (i < n)%nat) idx.
Proof.
  intros Hg idx. pose proof (Hg (cursor g) n) as Hperm.
  destruct (valid_generator_permutation g n Hg) as [Hall Hlen].
  split; [|split].
  - assert (Hnd : NoDup (permutation_at g (cursor g) n)).
    { rewrite Hperm. apply NoDup_seq. }
    rewrite <- (take_drop k) in Hnd. apply NoDup_app in Hnd as [Hnd _]. exact Hnd.
  - unfold idx. rewrite length_firstn, Hlen. reflexivity.
  - apply Forall_take, Hall.
Qed.

Lemma take_rows_inv A idx B :
  take_rows A idx = Ok B ->
  Forall (fun i => (i < nrows A)%nat) idx /\
  B = build (length idx) (ncols A) (fun i j => get A (nth i idx 0%nat) j).
Proof.
  unfold take_rows.
  destruct (forallb (fun i => (i <? nrows A)%nat) idx) eqn:Hall; [|discriminate].
  intros Heq. apply Ok_inj in Heq. split; [|auto].
  apply List.Forall_forall. intros i Hi.
  rewrite forallb_forall in Hall. apply Nat.ltb_lt, Hall, Hi.
Qed.

Lemma RBF_1D_random_centres `{External} X y h m g (k : Z) Xa :
  m !! "centres_generation_method" = Some (VStr "random") ->
  m !! "n_hidden" = Some (VInt k) -> (0 <= k)%Z ->
  h !! X = Some (Arr2 Xa) -> valid_generator g ->
  exists W1 idx,
    RBF_1D.RBF_initialize_centres X y (mk_state h m g)
    = (Ok W1, mk_state h (<["W1" := VArr W1]> m) (advance 1 g)) /\
    NoDup idx /\ length idx = Nat.min (Z.to_nat k) (nrows Xa) /\
    nrows W1 = length idx /\ ncols W1 = ncols Xa /\
    forall i, (i < length idx)%nat ->
      (nth i idx 0 < nrows Xa)%nat /\
      forall j, (j < ncols Xa)%nat -> get W1 i j = get Xa (nth i idx 0%nat) j.
Proof.
  intros Hm Hn Hk HX Hg.
  destruct (valid_generator_take g (nrows Xa) (Z.to_nat k) Hg) as (Hnd & Hlen & Hall).
  set (idx := firstn (Z.to_nat k) (permutation_at g (cursor g) (nrows Xa))) in *.
  exists (build (length idx) (ncols Xa) (fun i j => get Xa (nth i idx 0%nat) j)), idx.
  split; [|split; [exact Hnd|split; [exact Hlen|]]].
  + unfold RBF_1D.RBF_initialize_centres.
    erewrite bind_Ok by (apply getitem_Ok; exact Hm).
    erewrite bind_Ok by (apply getitem_Ok; exact Hn).
    change (eq_str (VStr "random") "random") with true. cbv iota.
    erewrite bind_Ok; cycle 1.
    { erewrite bind_Ok by (apply load2_Ok; exact HX).
      erewrite bind_Ok by apply random_permutation_Ok.
      erewrite bind_Ok by (apply lift_Ok; reflexivity).
      erewrite bind_Ok by (apply load2_Ok; exact HX).
      unfold lift, slice_to.
      destruct (Z.leb_spec 0 k); [|lia]. fold idx.
      rewrite (take_rows_Ok Xa idx Hall). reflexivity. }
    reflexivity.
  + rewrite nrows_build, ncols_build.
    split; [reflexivity|]. split; [reflexivity|].
    intros i Hi. split.
    * rewrite List.Forall_forall in Hall. apply Hall, nth_In, Hi.
    * intros j Hj. rewrite get_build by lia. reflexivity.
Qed.

Section RBF_runs.
Context `{External}.

Lemma RBF_1D_forward_Ok P W1 W2 eps e :
  ncols W1 = ncols P -> as_float eps = Ok e ->
  ncols W2 = Datatypes.S (nrows W1) ->
  exists rA2 A1,
    RBF_1D.RBF_forward P W1 W2 eps = Ok (rA2, A1) /\
    nrows A1 = Datatypes.S (nrows W1) /\ ncols A1 = nrows P /\
    (forall j, (j < nrows P)%nat -> get A1 0%nat j = 1) /\
    (forall i j, (i < nrows W1)%nat -> (j < nrows P)%nat ->
       get A1 (Datatypes.S i) j = gaussian_rbf e P W1 j i).
Proof.
  intros Hc He HW2.
  assert (HD : broadcast_dim (ncols W1) (ncols P) = Some (ncols W1))
    by (rewrite <- Hc; apply broadcast_dim_same).
  unfold RBF_1D.RBF_forward, centre_distances.
  change (nrows (transpose P)) with (ncols P).
  change (ncols (transpose P)) with (nrows P).
  rewrite HD. cbn [rbind]. rewrite He. cbn [rbind].
  rewrite matmul_Ok
    by (rewrite HW2; unfold RBF_1D.RBF_extend, vstack_ones, map_nd;
        rewrite !nrows_build; reflexivity).
  cbn [rbind]. eexists _, _. split; [reflexivity|].
  exact (RBF_1D_activation_entries P W1 e (ncols W1) Hc HD).
Qed.

(** The 1-D trainer from the centres on: it returns what [lstsq]
    answers for the activation matrix and the flattened targets. *)
Lemma RBF_1D_train_offline_run X y s W1 s1 (k : Z) eps e Xa ya :
  RBF_1D.RBF_initialize_centres X y s = (Ok W1, s1) ->
  model s1 !! "n_hidden" = Some (VInt k) -> nrows W1 = Z.to_nat k -> (0 <= k)%Z ->
  model s1 !! "epsilon" = Some eps -> as_float eps = Ok e ->
  heap s1 !! X = Some (Arr2 Xa) -> heap s1 !! y = Some ya ->
  ncols W1 = ncols Xa ->
  exists A1,
    nrows A1 = Datatypes.S (nrows W1) /\ ncols A1 = nrows Xa /\
    (forall j, (j < nrows Xa)%nat -> get A1 0%nat j = 1) /\
    (forall i j, (i < nrows W1)%nat -> (j < nrows Xa)%nat ->
       get A1 (Datatypes.S i) j = gaussian_rbf e Xa W1 j i) /\
    RBF_1D.RBF_train_offline X y s
    = match lstsq (transpose A1) (ravel_of ya) with
      | Ok w => (Ok (W1, as_row w),
                 set_model (<["W2" := VArr (as_row w)]> (model s1)) s1)
      | Raise err => (Raise err, s1)
      end.
Proof.
  intros Hinit Hn Hr Hk Heps He HX Hy Hc.
  destruct (RBF_1D_forward_Ok Xa W1 (np_ones 1 (Z.to_nat (k + 1))) eps e Hc He)
    as (rA2 & A1 & Hfwd & HA1); [unfold np_ones; rewrite ncols_build; lia|].
  exists A1. destruct HA1 as (H1 & H2 & H3 & H4).
  do 4 (split; [assumption|]).
  unfold RBF_1D.RBF_train_offline.
  erewrite bind_Ok by exact Hinit.
  erewrite bind_Ok by (apply getitem_Ok; exact Hn).
  erewrite bind_Ok.
  2:{ apply lift_Ok. unfold RBF_1D.ones_row. cbn [as_int rbind].
      destruct (Z.ltb_spec (k + 1) 0); [lia | reflexivity]. }
  erewrite bind_Ok by (apply getitem_Ok; exact Heps).
  erewrite bind_Ok by (apply load2_Ok; exact HX).
  erewrite bind_Ok by (apply lift_Ok; exact Hfwd).
  cbv beta iota.
  erewrite bind_Ok by (apply load_Ok; exact Hy).
  cbv zeta. unfold bind at 1, lift at 1.
  destruct (lstsq (transpose A1) (ravel_of ya)) as [w|err]; reflexivity.
Qed.

(** The hidden matrix of the 2-D network for centres of the width of
    the inputs. *)
Lemma hidden_matrix_Ok X W1 eps e :
  ncols W1 = ncols X -> as_float eps = Ok e ->
  exists Hm, hidden_matrix X W1 eps = Ok Hm /\
    nrows Hm = nrows X /\ ncols Hm = Datatypes.S (nrows W1).
Proof.
  intros Hc He. unfold hidden_matrix, sample_distances.
  rewrite Hc, broadcast_dim_same. cbn [rbind]. rewrite He. cbn [rbind].
  eexists. split; [reflexivity|].
  unfold column_stack_ones, map_nd. rewrite !nrows_build, !ncols_build. auto.
Qed.

(** The 2-D trainer under the policy [random]: the centres are the rows
    of the inputs at the head of one permutation, and the result is the
    product of what [pinv] answers for the hidden matrix with the column
    of the targets. *)
Lemma RBF_2D_random_run X y h m g (k : Z) nf eps e Xa ya :
  m !! "centres_generation_method" = Some (VStr "random") ->
  m !! "n_hidden" = Some (VInt k) -> m !! "n_features" = Some nf ->
  m !! "epsilon" = Some eps -> as_float eps = Ok e ->
  h !! X = Some (Arr2 Xa) -> h !! y = Some ya -> valid_generator g ->
  (0 <= k <= Z.of_nat (nrows Xa))%Z ->
  let idx := firstn (Z.to_nat k) (permutation_at g (cursor g) (nrows Xa)) in
  let W1 := build (length idx) (ncols Xa) (fun i j => get Xa (nth i idx 0%nat) j) in
  exists Hm,
    hidden_matrix Xa W1 eps = Ok Hm /\
    RBF_2D.RBF_train_offline X y (mk_state h m g)
    = match (let? Hp := pinv Hm in matmul Hp (as_column (ravel_of ya))) with
      | Ok W2 => (Ok (W1, W2), mk_state h m (advance 1 g))
      | Raise err => (Raise err, mk_state h m (advance 1 g))
      end.
Proof.
  intros Hm Hn Hnf Heps He HX Hy Hg Hk idx W1.
  destruct (valid_generator_take g (nrows Xa) (Z.to_nat k) Hg) as (_ & _ & Hall).
  fold idx in Hall.
  destruct (hidden_matrix_Ok Xa W1 eps e) as (Hmat & HHm & _);
    [reflexivity | exact He |].
  exists Hmat. split; [exact HHm|].
  unfold RBF_2D.RBF_train_offline.
  erewrite bind_Ok by (apply getitem_Ok; exact Hn).
  erewrite bind_Ok by (apply getitem_Ok; exact Hnf).
  erewrite bind_Ok by (apply getitem_Ok; exact Hm).
  change (eq_str (VStr "random") "random") with true. cbv iota.
  erewrite bind_Ok; cycle 1.
  { erewrite bind_Ok by (apply load2_Ok; exact HX).
    erewrite bind_Ok by (apply lift_Ok; reflexivity).
    erewrite bind_Ok; cycle 1.
    { unfold random_choice.
      destruct (Z.ltb_spec k 0); [lia|].
      destruct (Z.ltb_spec (Z.of_nat (nrows Xa)) k); [lia|].
      erewrite bind_Ok by apply random_permutation_Ok. reflexivity. }
    erewrite bind_Ok by (apply load2_Ok; exact HX).
    erewrite bind_Ok by (apply lift_Ok, take_rows_Ok; exact Hall).
    reflexivity. }
  fold idx W1.
  erewrite bind_Ok by (apply getitem_Ok; exact Heps).
  erewrite bind_Ok by (apply load2_Ok; exact HX).
  erewrite bind_Ok by reflexivity.
  unfold hidden_matrix in HHm.
  destruct (sample_distances Xa W1) as [dist|] eqn:Hdist; [|discriminate].
  cbn [rbind] in HHm. rewrite He in HHm. cbn [rbind] in HHm.
  apply Ok_inj in HHm. subst Hmat.
  erewrite bind_Ok by (apply lift_Ok; reflexivity).
  erewrite bind_Ok by (apply lift_Ok; exact He).
  cbv zeta. unfold bind at 1, lift at 1.
  destruct (pinv _) as [Hp|err]; [|reflexivity].
  cbn [rbind].
  erewrite bind_Ok by (apply load_Ok; exact Hy).
  unfold bind at 1, lift at 1.
  destruct (matmul Hp _) as [W2|err]; reflexivity.
Qed.

End RBF_runs.

(** ** Shapes that do not agree, function by function *)

Lemma take_rows_Raise A idx i :
  In i idx -> (nrows A <= i)%nat ->
  take_rows A idx = Raise (IndexError "index is out of bounds for axis 0").
Proof.
  intros Hin Hi. unfold take_rows.
  destruct (forallb (fun i => (i <? nrows A)%nat) idx) eqn:Hall; [|reflexivity].
  rewrite forallb_forall in Hall. specialize (Hall i Hin).
  apply Nat.ltb_lt in Hall. lia.
Qed.

(** The perceptron with fewer target rows than input rows: the first
    epoch fails when it selects the shuffled targets. *)
Lemma MLP_MSELIN_train_missing_targets h m g lP ly Pa ya (Hz Dz Oz E : Z) eta_v M_v :
  m !! "n_hidden" = Some (VInt Hz) -> m !! "n_features" = Some (VInt Dz) ->
  m !! "n_output" = Some (VInt Oz) -> m !! "eta" = Some eta_v ->
  m !! "epochs" = Some (VInt E) -> m !! "minibatches" = Some M_v ->
  (0 <= Hz)%Z -> (0 <= Dz)%Z -> (0 <= Oz)%Z -> (1 <= E)%Z ->
  h !! lP = Some (Arr2 Pa) -> h !! ly = Some (Arr2 ya) ->
  (nrows ya < nrows Pa)%nat -> valid_generator g ->
  exists n,
    MLP_MSELIN_train lP ly (mk_state h m g)
    = (Raise (IndexError "index is out of bounds for axis 0"),
       mk_state h (<["cost_history" := VList []]> m) (advance 1 (advance n g))).
Proof.
  intros HH HD HO Heta_v HE HM HHz HDz HOz HE1 HP Hy Hlt Hg.
  destruct (MLP_initialize_weights_run h m g Hz Dz Oz) as (W0 & n & Hinit & _);
    try assumption.
  exists n. unfold MLP_MSELIN_train.
  erewrite bind_Ok by exact Hinit. destruct W0 as [W1_0 W2_0].
  erewrite bind_Ok by (apply getitem_Ok; exact Heta_v).
  erewrite bind_Ok by (apply getitem_Ok; exact HE).
  erewrite bind_Ok by (apply getitem_Ok; exact HM).
  erewrite bind_Ok by apply setitem_Ok.
  unfold set_model. cbn [heap model rng].
  erewrite bind_Ok by (apply load2_Ok, HP).
  erewrite bind_Ok by (apply lift_Ok; reflexivity).
  erewrite bind_Raise; [reflexivity|].
  unfold range. replace (Z.to_nat E) with (Datatypes.S (Z.to_nat E - 1)) by lia.
  cbn [seq for_each].
  erewrite bind_Raise; [reflexivity|].
  pose proof (valid_generator_advance n g Hg) as Hg'.
  destruct (valid_generator_permutation (advance n g) (nrows Pa) Hg') as [Hperm _].
  unfold MLP_epoch.
  erewrite bind_Ok by apply random_permutation_Ok.
  erewrite bind_Ok by (apply load2_Ok, HP).
  erewrite bind_Ok by (apply lift_Ok, take_rows_Ok, Hperm).
  erewrite bind_Ok by (apply load2_Ok, Hy).
  erewrite bind_Raise; [reflexivity|].
  unfold lift. f_equal.
  apply (take_rows_Raise ya _ (nrows Pa - 1)); [|lia].
  apply (Permutation_in _ (Permutation_sym (Hg' (cursor (advance n g)) (nrows Pa)))).
  apply in_seq. lia.
Qed.

Section RBF_shapes.
Context `{External}.

(** The 1-D trainer with a number of targets other than the number of
    input rows: [lstsq] refuses the system after the centres were drawn
    and stored. *)
Lemma RBF_1D_train_wrong_target_count X y h m g (k : Z) eps e Xa ya :
  m !! "centres_generation_method" = Some (VStr "random") ->
  m !! "n_hidden" = Some (VInt k) -> m !! "epsilon" = Some eps ->
  as_float eps = Ok e ->
  h !! X = Some (Arr2 Xa) -> h !! y = Some ya -> valid_generator g ->
  (0 <= k <= Z.of_nat (nrows Xa))%Z ->
  length (ravel_of ya) <> nrows Xa ->
  exists W1,
    RBF_1D.RBF_train_offline X y (mk_state h m g)
    = (Raise LinAlgError, mk_state h (<["W1" := VArr W1]> m) (advance 1 g)).
Proof.
  intros Hm Hn Heps He HX Hy Hg Hk Hne.
  destruct (RBF_1D_random_centres X y h m g k Xa)
    as (W1 & idx & Hinit & _ & Hlen & Hr & Hc & _); try assumption; try lia.
  destruct (RBF_1D_train_offline_run X y _ W1 _ k eps e Xa ya Hinit)
    as (A1 & _ & HA1c & _ & _ & Hrun); try assumption; try lia.
  { cbn [model]. rewrite lookup_insert_ne by discriminate. exact Hn. }
  { cbn [model]. rewrite lookup_insert_ne by discriminate. exact Heps. }
  exists W1. rewrite Hrun, lstsq_dims; [reflexivity|].
  change (nrows (transpose A1)) with (ncols A1). rewrite HA1c. exact Hne.
Qed.

(** The 2-D trainer in the same situation: the centres are drawn, the
    pseudo-inverse is computed, and its product with the column of the
    targets fails. *)
Lemma RBF_2D_train_wrong_target_count X y h m g (k : Z) nf eps e Xa ya :
  m !! "centres_generation_method" = Some (VStr "random") ->
  m !! "n_hidden" = Some (VInt k) -> m !! "n_features" = Some nf ->
  m !! "epsilon" = Some eps -> as_float eps = Ok e ->
  h !! X = Some (Arr2 Xa) -> h !! y = Some ya -> valid_generator g ->
  (0 <= k <= Z.of_nat (nrows Xa))%Z ->
  length (ravel_of ya) <> nrows Xa ->
  exists W1 H_ext,
    hidden_matrix Xa W1 eps = Ok H_ext /\
    RBF_2D.RBF_train_offline X y (mk_state h m g)
    = (Raise (match pinv H_ext with
              | Ok _ => ValueError "matmul: mismatch in core dimension"
              | Raise err => err
              end),
       mk_state h m (advance 1 g)).
Proof.
  intros Hm Hn Hnf Heps He HX Hy Hg Hk Hne.
  destruct (RBF_2D_random_run X y h m g k nf eps e Xa ya)
    as (Hmat & HHm & Hrun); try assumption.
  eexists _, Hmat. split; [exact HHm|]. rewrite Hrun.
  destruct (RBF_2D_hidden_outputs_inv _ _ _ _ HHm) as (_ & _ & Hr & _).
  destruct (pinv Hmat) as [Hp|err] eqn:HHp; cbn [rbind]; [|reflexivity].
  destruct (pinv_shape _ _ HHp) as [_ HPc].
  unfold matmul, as_column. rewrite nrows_build.
  destruct (Nat.eqb_spec (ncols Hp) (length (ravel_of ya))); [congruence|].
  reflexivity.
Qed.

(** The predictors on inputs whose number of features is not that of the
    centres. *)
Lemma RBF_predict_features_refused X W1 W2 eps :
  ncols X <> ncols W1 -> ncols X <> 1%nat -> ncols W1 <> 1%nat ->
  RBF_1D.RBF_predict X W1 W2 eps
  = Raise (ValueError "operands could not be broadcast together") /\
  RBF_2D.RBF_predict X W1 W2 eps
  = Raise (ValueError "operands could not be broadcast together").
Proof.
  intros Hne HX HW. split.
  - unfold RBF_1D.RBF_predict, RBF_1D.RBF_forward, centre_distances, broadcast_dim.
    change (nrows (transpose X)) with (ncols X).
    destruct (Nat.eqb_spec (ncols W1) (ncols X)); [congruence|].
    destruct (Nat.eqb_spec (ncols W1) 1); [contradiction|].
    destruct (Nat.eqb_spec (ncols X) 1); [contradiction|]. reflexivity.
  - unfold RBF_2D.RBF_predict, sample_distances, broadcast_dim.
    destruct (Nat.eqb_spec (ncols X) (ncols W1)); [contradiction|].
    destruct (Nat.eqb_spec (ncols X) 1); [contradiction|].
    destruct (Nat.eqb_spec (ncols W1) 1); [contradiction|]. reflexivity.
Qed.

Lemma broadcast_dim_one a b :
  a = 1%nat \/ b = 1%nat -> exists D, broadcast_dim a b = Some D.
Proof.
  intros Hab. unfold broadcast_dim.
  destruct (Nat.eqb_spec a b); [eauto|].
  destruct (Nat.eqb_spec a 1); [eauto|].
  destruct (Nat.eqb_spec b 1); [eauto|]. lia.
Qed.

Lemma RBF_predict_features_broadcast X W1 W2 eps e :
  as_float eps = Ok e -> ncols X = 1%nat \/ ncols W1 = 1%nat ->
  (ncols W2 = Datatypes.S (nrows W1) ->
   exists y_pred, RBF_1D.RBF_predict X W1 W2 eps = Ok y_pred /\
     nrows y_pred = nrows W2 /\ ncols y_pred = nrows X) /\
  (nrows W2 = Datatypes.S (nrows W1) ->
   exists y_pred, RBF_2D.RBF_predict X W1 W2 eps = Ok y_pred /\
     nrows y_pred = nrows X /\ ncols y_pred = ncols W2).
Proof.
  intros He Hone. split; intros HW2.
  - destruct (broadcast_dim_one (ncols W1) (ncols X)) as [D HD]; [tauto|].
    unfold RBF_1D.RBF_predict, RBF_1D.RBF_forward, centre_distances.
    change (nrows (transpose X)) with (ncols X).
    change (ncols (transpose X)) with (nrows X).
    rewrite HD. cbn [rbind]. rewrite He. cbn [rbind].
    rewrite matmul_Ok
      by (rewrite HW2; unfold RBF_1D.RBF_extend, vstack_ones, map_nd;
          rewrite !nrows_build; reflexivity).
    cbn [rbind]. eexists. split; [reflexivity|].
    unfold RBF_1D.RBF_extend, vstack_ones, map_nd.
    rewrite !nrows_build, !ncols_build. auto.
  - destruct (broadcast_dim_one (ncols X) (ncols W1)) as [D HD]; [tauto|].
    unfold RBF_2D.RBF_predict, sample_distances.
    rewrite HD. cbn [rbind]. rewrite He. cbn [rbind].
    rewrite matmul_Ok
      by (rewrite HW2; unfold column_stack_ones, map_nd;
          rewrite !ncols_build; reflexivity).
    cbn [rbind]. eexists. split; [reflexivity|].
    unfold column_stack_ones, map_nd.
    rewrite !nrows_build, !ncols_build. auto.
Qed.

End RBF_shapes.

(** C4, as the code has it. No trainer and no predictor checks shapes
    before it starts: a mismatch is met where a numpy operation meets
    it, after whatever the function did before, or not at all.
    The linear trainer and the perceptron never read the target rows
    beyond the rows of the input and complete; with fewer target rows
    than input rows and at least one epoch the linear trainer ends in an
    [IndexError] at the first missing row, and the perceptron in the
    [IndexError] of the selection of the shuffled targets, after it has
    drawn its weights and the permutation and emptied the cost history
    of the dict. With a number of targets other than the number of input
    rows, the 1-D RBF trainer ends in the [LinAlgError] of [lstsq] after
    it has drawn its centres and stored them in the dict, and the 2-D
    RBF trainer in the [ValueError] of its last matrix product after it
    has drawn its centres and computed the pseudo-inverse (whose own
    failure, if any, comes first). A prediction of the perceptron on
    inputs of another feature count ends in the [ValueError] of the
    first matrix product. A prediction of an RBF network on inputs whose
    feature count differs from that of the centres ends in the
    [ValueError] of the broadcast difference when neither count is 1,
    and returns a prediction for every input row when one of them is 1. *)
Theorem shape_mismatch_met_where_it_occurs :
  (forall h m g lX lY lY' X y y' eta (n : Z),
     h !! lX = Some (Arr2 X) -> h !! lY = Some (Arr2 y) -> h !! lY' = Some (Arr2 y') ->
     (1 <= nrows X)%nat -> (nrows X <= nrows y)%nat -> (nrows X <= nrows y')%nat ->
     ncols y = 1%nat -> ncols y' = 1%nat -> (0 <= n)%Z ->
     (forall i, (i < nrows X)%nat -> get y i 0%nat = get y' i 0%nat) ->
     is_Ok (LLS_by_GD lX lY eta n (mk_state h m g)).1 = true /\
     LLS_by_GD lX lY eta n (mk_state h m g) = LLS_by_GD lX lY' eta n (mk_state h m g)) /\
  (forall h m g lX lY X y eta (n : Z),
     h !! lX = Some (Arr2 X) -> h !! lY = Some (Arr2 y) ->
     (nrows y < nrows X)%nat -> ncols y = 1%nat -> (1 <= n)%Z ->
     (LLS_by_GD lX lY eta n (mk_state h m g)).1
     = Raise (IndexError "index is out of bounds for axis 0")) /\
  (forall P W1 W2,
     ncols W1 <> Datatypes.S (ncols P) ->
     MLP_MSELIN_predict P W1 W2 = Raise (ValueError "matmul: mismatch in core dimension")) /\
  (forall h m g lP ly Pa ya (Hz Dz Oz E M : Z) eta_v eta,
     m !! "n_hidden" = Some (VInt Hz) -> m !! "n_features" = Some (VInt Dz) ->
     m !! "n_output" = Some (VInt Oz) -> m !! "eta" = Some eta_v ->
     m !! "epochs" = Some (VInt E) -> m !! "minibatches" = Some (VInt M) ->
     (0 <= Hz)%Z -> (0 <= Dz)%Z -> (0 <= Oz)%Z -> (0 <= E)%Z ->
     as_float eta_v = Ok eta -> (1 <= M)%Z ->
     h !! lP = Some (Arr2 Pa) -> h !! ly = Some (Arr2 ya) ->
     ncols Pa = Z.to_nat Dz -> ncols ya = Z.to_nat Oz ->
     (nrows Pa < nrows ya)%nat -> valid_generator g ->
     is_Ok (MLP_MSELIN_train lP ly (mk_state h m g)).1 = true) /\
  (forall h m g lP ly Pa ya (Hz Dz Oz E : Z) eta_v M_v,
     m !! "n_hidden" = Some (VInt Hz) -> m !! "n_features" = Some (VInt Dz) ->
     m !! "n_output" = Some (VInt Oz) -> m !! "eta" = Some eta_v ->
     m !! "epochs" = Some (VInt E) -> m !! "minibatches" = Some M_v ->
     (0 <= Hz)%Z -> (0 <= Dz)%Z -> (0 <= Oz)%Z -> (1 <= E)%Z ->
     h !! lP = Some (Arr2 Pa) -> h !! ly = Some (Arr2 ya) ->
     (nrows ya < nrows Pa)%nat -> valid_generator g ->
     exists n,
       MLP_MSELIN_train lP ly (mk_state h m g)
       = (Raise (IndexError "index is out of bounds for axis 0"),
          mk_state h (<["cost_history" := VList []]> m) (advance 1 (advance n g)))) /\
  (forall (E : External) X y h m g (k : Z) eps e Xa ya,
     m !! "centres_generation_method" = Some (VStr "random") ->
     m !! "n_hidden" = Some (VInt k) -> m !! "epsilon" = Some eps ->
     as_float eps = Ok e ->
     h !! X = Some (Arr2 Xa) -> h !! y = Some ya -> valid_generator g ->
     (0 <= k <= Z.of_nat (nrows Xa))%Z ->
     length (ravel_of ya) <> nrows Xa ->
     exists W1,
       RBF_1D.RBF_train_offline X y (mk_state h m g)
       = (Raise LinAlgError, mk_state h (<["W1" := VArr W1]> m) (advance 1 g))) /\
  (forall (E : External) X y h m g (k : Z) nf eps e Xa ya,
     m !! "centres_generation_method" = Some (VStr "random") ->
     m !! "n_hidden" = Some (VInt k) -> m !! "n_features" = Some nf ->
     m !! "epsilon" = Some eps -> as_float eps = Ok e ->
     h !! X = Some (Arr2 Xa) -> h !! y = Some ya -> valid_generator g ->
     (0 <= k <= Z.of_nat (nrows Xa))%Z ->
     length (ravel_of ya) <> nrows Xa ->
     exists W1 H_ext,
       hidden_matrix Xa W1 eps = Ok H_ext /\
       RBF_2D.RBF_train_offline X y (mk_state h m g)
       = (Raise (match pinv H_ext with
                 | Ok _ => ValueError "matmul: mismatch in core dimension"
                 | Raise err => err
                 end),
          mk_state h m (advance 1 g))) /\
  (forall (E : External) X W1 W2 eps,
     ncols X <> ncols W1 -> ncols X <> 1%nat -> ncols W1 <> 1%nat ->
     RBF_1D.RBF_predict X W1 W2 eps
     = Raise (ValueError "operands could not be broadcast together") /\
     RBF_2D.RBF_predict X W1 W2 eps
     = Raise (ValueError "operands could not be broadcast together")) /\
  (forall (E : External) X W1 W2 eps e,
     ncols X <> ncols W1 -> as_float eps = Ok e ->
     ncols X = 1%nat \/ ncols W1 = 1%nat ->
     (ncols W2 = Datatypes.S (nrows W1) ->
      exists y_pred, RBF_1D.RBF_predict X W1 W2 eps = Ok y_pred /\
        nrows y_pred = nrows W2 /\ ncols y_pred = nrows X) /\
     (nrows W2 = Datatypes.S (nrows W1) ->
      exists y_pred, RBF_2D.RBF_predict X W1 W2 eps = Ok y_pred /\
        nrows y_pred = nrows X /\ ncols y_pred = ncols W2)).
Proof.
  repeat apply conj.
  - intros h m g lX lY lY' X y y' eta n HX Hy Hy' HN HNy HNy' Hcy Hcy' Hn Hagree.
    destruct (LLS_by_GD_run h m g lX lY X y eta n)
      as (wl & bs & hist & Htrain & Hrun); try assumption.
    destruct (LLS_by_GD_run h m g lX lY' X y' eta n)
      as (wl' & bs' & hist' & Htrain' & Hrun'); try assumption.
    rewrite (examples_of_agree X y y' Hagree) in Htrain.
    rewrite Htrain in Htrain'. injection Htrain' as <- <- <-.
    rewrite Hrun, Hrun'. split; reflexivity.
  - intros h m g lX lY X y eta n HX Hy Hlt Hcy Hn.
    rewrite (LLS_by_GD_missing_targets h m g lX lY X y eta n) by assumption.
    reflexivity.
  - apply MLP_MSELIN_predict_wrong_features.
  - intros h m g lP ly Pa ya Hz Dz Oz E M eta_v eta
      HH HD HO Heta_v HE HM HHz HDz HOz HE0 Heta HM1 HP Hy HcP Hcy HN Hg.
    destruct (MLP_MSELIN_train_run h m g lP ly Pa ya Hz Dz Oz E M eta_v eta)
      as (W1 & W2 & hist & g' & Hrun & _); try assumption; try lia.
    rewrite Hrun. reflexivity.
  - intros h m g lP ly Pa ya Hz Dz Oz E eta_v M_v.
    apply MLP_MSELIN_train_missing_targets.
  - intros E. apply RBF_1D_train_wrong_target_count.
  - intros E. apply RBF_2D_train_wrong_target_count.
  - intros E. apply RBF_predict_features_refused.
  - intros E X W1 W2 eps e _. apply RBF_predict_features_broadcast.
Qed.

Lemma shape_mismatch_met_where_it_occurs_witness :
  (is_Ok (LLS_by_GD 0%nat 1%nat (1/10) 1
            (mk_state [Arr2 X_example; Arr2 y_long; Arr2 y_example] ∅ constant_generator)).1
   = true /\
   LLS_by_GD 0%nat 1%nat (1/10) 1
     (mk_state [Arr2 X_example; Arr2 y_long; Arr2 y_example] ∅ constant_generator)
   = LLS_by_GD 0%nat 2%nat (1/10) 1
       (mk_state [Arr2 X_example; Arr2 y_long; Arr2 y_example] ∅ constant_generator)) /\
  (LLS_by_GD 0%nat 1%nat (1/10) 1
     (mk_state [Arr2 y_long; Arr2 X_example] ∅ constant_generator)).1
  = Raise (IndexError "index is out of bounds for axis 0") /\
  MLP_MSELIN_predict X_three_features (np_zeros 2 2) (np_zeros 1 3)
  = Raise (ValueError "matmul: mismatch in core dimension") /\
  is_Ok (MLP_MSELIN_train 0%nat 1%nat
           (mk_state [Arr2 X_example; Arr2 y_long] mlp_model constant_generator)).1 = true /\
  (exists n,
     MLP_MSELIN_train 0%nat 1%nat
       (mk_state [Arr2 y_long; Arr2 y_example] mlp_model constant_generator)
     = (Raise (IndexError "index is out of bounds for axis 0"),
        mk_state [Arr2 y_long; Arr2 y_example]
          (<["cost_history" := VList []]> mlp_model)
          (advance 1 (advance n constant_generator)))) /\
  (exists W1,
     RBF_1D.RBF_train_offline 0%nat 1%nat
       (mk_state [Arr2 X_example; Arr2 y_long] one_centre_model constant_generator)
     = (Raise LinAlgError,
        mk_state [Arr2 X_example; Arr2 y_long]
          (<["W1" := VArr W1]> one_centre_model) (advance 1 constant_generator))) /\
  (exists W1 H_ext,
     hidden_matrix X_example W1 (VFloat 1) = Ok H_ext /\
     RBF_2D.RBF_train_offline 0%nat 1%nat
       (mk_state [Arr2 X_example; Arr2 y_long] one_centre_model constant_generator)
     = (Raise (match pinv H_ext with
               | Ok _ => ValueError "matmul: mismatch in core dimension"
               | Raise err => err
               end),
        mk_state [Arr2 X_example; Arr2 y_long] one_centre_model
          (advance 1 constant_generator))) /\
  (RBF_1D.RBF_predict X_three_features RBF_1D.debug_centres_2 (np_ones 1 4) (VFloat 1)
   = Raise (ValueError "operands could not be broadcast together") /\
   RBF_2D.RBF_predict X_three_features RBF_1D.debug_centres_2 (np_ones 4 1) (VFloat 1)
   = Raise (ValueError "operands could not be broadcast together")) /\
  (exists y_pred,
     RBF_1D.RBF_predict X_three_features first_row_centre (np_ones 1 2) (VFloat 1)
     = Ok y_pred /\
     nrows y_pred = 1%nat /\ ncols y_pred = 1%nat) /\
  (exists y_pred,
     RBF_2D.RBF_predict X_three_features first_row_centre (np_ones 2 1) (VFloat 1)
     = Ok y_pred /\
     nrows y_pred = 1%nat /\ ncols y_pred = 1%nat).
Proof.
  destruct shape_mismatch_met_where_it_occurs
    as (Hlong & Hshort & Hmlp & Hmlp_long & Hmlp_short & H1D & H2D & Hrefused & Hbroadcast).
  split; [|split; [|split; [|split; [|split; [|split; [|split; [|split; [|split]]]]]]]].
  - apply (Hlong [Arr2 X_example; Arr2 y_long; Arr2 y_example] ∅ constant_generator
             0%nat 1%nat 2%nat X_example y_long y_example (1/10) 1%Z);
      try reflexivity; try (cbn; lia).
    intros [|[|i]] Hi; [reflexivity | reflexivity | cbn in Hi; lia].
  - apply (Hshort [Arr2 y_long; Arr2 X_example] ∅ constant_generator 0%nat 1%nat
             y_long X_example (1/10) 1%Z); try reflexivity; try (cbn; lia).
  - apply Hmlp. cbn. lia.
  - apply (Hmlp_long [Arr2 X_example; Arr2 y_long] mlp_model constant_generator
             0%nat 1%nat X_example y_long 2%Z 1%Z 1%Z 2%Z 2%Z (VFloat (1/10)) (1/10));
      try reflexivity; try lia; try (cbn; lia).
    exact valid_constant_generator.
  - apply (Hmlp_short [Arr2 y_long; Arr2 y_example] mlp_model constant_generator
             0%nat 1%nat y_long y_example 2%Z 1%Z 1%Z 2%Z (VFloat (1/10)) (VInt 2));
      try reflexivity; try lia; try (cbn; lia).
    exact valid_constant_generator.
  - apply (H1D zero_solver 0%nat 1%nat [Arr2 X_example; Arr2 y_long] one_centre_model
             constant_generator 1%Z (VFloat 1) 1 X_example (Arr2 y_long));
      try reflexivity; try (cbn; lia).
    exact valid_constant_generator.
  - apply (H2D zero_solver 0%nat 1%nat [Arr2 X_example; Arr2 y_long] one_centre_model
             constant_generator 1%Z (VInt 1) (VFloat 1) 1 X_example (Arr2 y_long));
      try reflexivity; try (cbn; lia).
    exact valid_constant_generator.
  - split.
    + apply (Hrefused zero_solver X_three_features RBF_1D.debug_centres_2 (np_ones 1 4));
        cbn; lia.
    + apply (Hrefused zero_solver X_three_features RBF_1D.debug_centres_2 (np_ones 4 1));
        cbn; lia.
  - destruct (Hbroadcast zero_solver X_three_features first_row_centre (np_ones 1 2)
                (VFloat 1) 1) as [H1 _]; try reflexivity; [cbn; lia | now right |].
    apply H1. reflexivity.
  - destruct (Hbroadcast zero_solver X_three_features first_row_centre (np_ones 2 1)
                (VFloat 1) 1) as [_ H2]; try reflexivity; [cbn; lia | now right |].
    apply H2. reflexivity.
Defined.

(** C4 as stated fails: two input rows and three target rows, and the
    linear trainer returns its result without any error. *)
Lemma LLS_by_GD_accepts_longer_target :
  nrows X_example <> nrows y_long /\
  exists hist s',
    LLS_by_GD 0%nat 1%nat (1/10) 1
      (mk_state [Arr2 X_example; Arr2 y_long] ∅ constant_generator)
    = (Ok (mk_nd 1 1 [[44/100]], NdArray (mk_nd 1 1 [[27/100]]), hist), s').
Proof.
  split; [cbn; lia|].
  destruct (LLS_by_GD_run [Arr2 X_example; Arr2 y_long] ∅ constant_generator
              0%nat 1%nat X_example y_long (1/10) 1)
    as (wl & bs & hist & Htrain & Hrun); try reflexivity; try (cbn; lia).
  eexists _, _. rewrite Hrun.
  run_concrete_in Htrain. injection Htrain as <- <- _.
  change (Z.to_nat 1 =? 0)%nat with false. cbv iota.
  unfold as_column, scalar1. cbv [length build seq map nth].
  repeat f_equal; lra.
Qed.

(** ** The theorems at concrete inputs *)

Lemma RBF_configuration_checks_witness :
  RBF_1D.RBF_train_offline 0%nat 1%nat unknown_policy_state
  = (Raise (ValueError "Unrecognized center generation method"), unknown_policy_state) /\
  RBF_1D.RBF_train_offline 0%nat 1%nat three_features_state
  = (Raise (ValueError "Unsupported input dimension for debug mode"),
     force_n_hidden (VInt 5) three_features_state) /\
  (exists W1 s',
     RBF_1D.RBF_initialize_centres 0%nat 1%nat debug_state = (Ok W1, s') /\
     W1 = (if (ncols X_example =? 1)%nat then RBF_1D.debug_centres_1
           else RBF_1D.debug_centres_2) /\
     model s' !! "n_hidden" = Some (VInt 3) /\
     model s' !! "W1" = Some (VArr W1)).
Proof.
  destruct RBF_configuration_checks as (Hunknown & Hdim & Hforce).
  split; [|split].
  - apply (Hunknown zero_solver 0%nat 1%nat unknown_policy_state (VStr "grid") (VInt 5));
      reflexivity.
  - apply (Hdim zero_solver 0%nat 1%nat three_features_state (VInt 5) X_three_features);
      try reflexivity; cbn; lia.
  - apply (Hforce zero_solver 0%nat 1%nat debug_state (VInt 5) X_example);
      try reflexivity. left. reflexivity.
Defined.

Lemma MLP_MSELIN_backprop_gradients_witness :
  exists rA2 A1 A0 rZ1 dW1 dW2,
    MLP_MSELIN_forward X_example (np_ones 2 2) (np_ones 1 3) = Ok (rA2, A1, A0, rZ1) /\
    MLP_MSELIN_backprop rA2 A1 A0 rZ1 (transpose y_example) (np_ones 2 2) (np_ones 1 3)
    = Ok (dW1, dW2) /\
    nrows dW2 = 1%nat /\ ncols dW2 = 3%nat /\ nrows dW1 = 2%nat /\ ncols dW1 = 2%nat.
Proof.
  destruct (MLP_MSELIN_backprop_gradients X_example (np_ones 2 2) (np_ones 1 3)
              (transpose y_example))
    as (rA2 & A1 & A0 & rZ1 & dW1 & dW2 & Hfwd & Hbwd & H1 & H2 & H3 & H4 & _);
    try reflexivity.
  exists rA2, A1, A0, rZ1, dW1, dW2. repeat split; assumption.
Defined.

(** The runs of the two trainers with one centre and the exact solver. *)
Lemma one_centre_activations j :
  (j < 2)%nat ->
  gaussian_rbf 1 X_example first_row_centre j 0
  = match j with O => 1 | _ => exp (- 1) end.
Proof.
  intros Hj. unfold gaussian_rbf, sq_distance.
  change (ncols X_example) with 1%nat. rewrite sum_upto_1.
  destruct j as [|[|j]]; [| |lia]; unfold get; cbn [nth data X_example first_row_centre].
  - replace (- (1 ^ 2 * (1 - 1) ^ 2)) with 0 by ring. apply exp_0.
  - f_equal. ring.
Qed.

Lemma exp_minus_1_lt_1 : exp (- 1) < 1.
Proof. rewrite <- exp_0. apply exp_increasing. lra. Qed.

Lemma one_centre_run_1D :
  exists H_ext w s',
    @RBF_1D.RBF_train_offline exact_solver 0%nat 1%nat one_centre_state
    = (Ok (first_row_centre, as_row w), s') /\
    @lstsq exact_solver (transpose H_ext) [1; 2] = Ok w.
Proof.
  destruct (@RBF_1D_train_offline_run exact_solver 0%nat 1%nat one_centre_state
              first_row_centre
              (mk_state [Arr2 X_example; Arr2 y_example; Arr1 [1; 2]]
                 (<["W1" := VArr first_row_centre]> one_centre_model)
                 (advance 1 constant_generator))
              1%Z (VFloat 1) 1 X_example (Arr2 y_example))
    as (A1 & Hr & Hc & H0 & Hij & Hrun); try reflexivity; try lia.
  assert (Hreg : regular2 (transpose A1) = true).
  { unfold regular2. change (nrows (transpose A1)) with (ncols A1).
    change (ncols (transpose A1)) with (nrows A1). rewrite Hr, Hc.
    change (nrows first_row_centre) with 1%nat. change (nrows X_example) with 2%nat.
    cbn [Nat.eqb andb].
    destruct (Req_dec_T (det2 (transpose A1)) 0) as [Hdet|_]; [exfalso|reflexivity].
    unfold det2, transpose in Hdet.
    rewrite Hr, Hc in Hdet.
    change (nrows first_row_centre) with 1%nat in Hdet.
    change (nrows X_example) with 2%nat in Hdet.
    rewrite !get_build in Hdet by lia.
    rewrite !H0 in Hdet by (cbn; lia).
    rewrite !Hij in Hdet by (cbn; lia).
    rewrite !one_centre_activations in Hdet by lia.
    pose proof exp_minus_1_lt_1. lra. }
  exists A1. eexists _, _. split.
  - rewrite Hrun. change (ravel_of (Arr2 y_example)) with [1; 2].
    cbn [lstsq exact_solver]. rewrite Hreg. reflexivity.
  - cbn [lstsq exact_solver]. rewrite Hreg. reflexivity.
Qed.

Lemma one_centre_run_2D :
  exists W2 s',
    @RBF_2D.RBF_train_offline exact_solver 0%nat 2%nat one_centre_state
    = (Ok (first_row_centre, W2), s').
Proof.
  destruct (@RBF_2D_random_run exact_solver 0%nat 2%nat
              [Arr2 X_example; Arr2 y_example; Arr1 [1; 2]] one_centre_model
              constant_generator 1%Z (VInt 1) (VFloat 1) 1 X_example (Arr1 [1; 2]))
    as (Hm & HHm & Hrun); try reflexivity; try (cbn; lia).
  { exact valid_constant_generator. }
  change (build _ _ _) with first_row_centre in HHm, Hrun.
  destruct (RBF_2D_hidden_outputs_inv _ _ _ _ HHm) as (e & He & Hr & Hc & H0 & Hij).
  apply Ok_inj in He. subst e. specialize (Hij eq_refl).
  assert (Hreg : regular2 Hm = true).
  { unfold regular2. rewrite Hr, Hc.
    change (nrows first_row_centre) with 1%nat. change (nrows X_example) with 2%nat.
    cbn [Nat.eqb andb].
    destruct (Req_dec_T (det2 Hm) 0) as [Hdet|_]; [exfalso|reflexivity].
    unfold det2 in Hdet.
    rewrite !H0 in Hdet by (cbn; lia).
    rewrite !Hij in Hdet by (cbn; lia).
    rewrite !one_centre_activations in Hdet by lia.
    pose proof exp_minus_1_lt_1. lra. }
  change (mk_state _ one_centre_model constant_generator) with one_centre_state in Hrun.
  rewrite Hrun. cbn [pinv exact_solver]. rewrite Hreg. cbn [rbind].
  rewrite matmul_Ok by reflexivity. eauto.
Qed.


Lemma RBF_predict_reproduces_fitted_values_witness :
  (exists W2 s' ones out H_ext fitted,
     @RBF_1D.RBF_train_offline exact_solver 0%nat 1%nat one_centre_state
     = (Ok (first_row_centre, W2), s') /\
     @RBF_1D.RBF_forward X_example first_row_centre ones (VFloat 1) = Ok (out, H_ext) /\
     @RBF_1D.RBF_forward X_example first_row_centre W2 (VFloat 1) = Ok (fitted, H_ext) /\
     matmul W2 H_ext = Ok fitted /\
     RBF_1D.RBF_predict X_example first_row_centre W2 (VFloat 1) = Ok fitted) /\
  (exists W2 s' H_ext H_pinv fitted,
     @RBF_2D.RBF_train_offline exact_solver 0%nat 2%nat one_centre_state
     = (Ok (first_row_centre, W2), s') /\
     hidden_matrix X_example first_row_centre (VFloat 1) = Ok H_ext /\
     @pinv exact_solver H_ext = Ok H_pinv /\
     matmul H_pinv (as_column [1; 2]) = Ok W2 /\
     matmul H_ext W2 = Ok fitted /\
     RBF_2D.RBF_predict X_example first_row_centre W2 (VFloat 1) = Ok fitted).
Proof.
  destruct RBF_predict_reproduces_fitted_values as [H1D H2D].
  split.
  - destruct one_centre_run_1D as (A1 & w0 & s' & Hrun & _).
    destruct (H1D exact_solver 0%nat 1%nat one_centre_state first_row_centre
                (as_row w0) s' X_example (Arr2 y_example) (VFloat 1) Hrun)
      as (nh & ones & out & H_ext & w & fitted & _ & _ & Hfwd & _ & _ & Hpass & Hfit
          & Hpred & _); try reflexivity.
    exists (as_row w0), s', ones, out, H_ext, fitted. repeat split; assumption.
  - destruct one_centre_run_2D as (W2 & s' & Hrun).
    destruct (H2D exact_solver 0%nat 2%nat one_centre_state first_row_centre
                W2 s' X_example (Arr1 [1; 2]) (VFloat 1) Hrun)
      as (H_ext & Hp & fitted & HHm & HHp & HW2 & Hfit & Hpred & _); try reflexivity.
    exists W2, s', H_ext, Hp, fitted. repeat split; assumption.
Defined.

(** * Further properties of the code *)

(** ** Degenerate runs of the two gradient descents *)

Lemma gd_iterate_stationary grad eta x0 k :
  eta * grad x0 = 0 -> gd_iterate grad eta x0 k = x0.
Proof.
  intros Hstat. induction k as [|k IH]; [reflexivity|].
  cbn [gd_iterate]. rewrite IH. lra.
Qed.

Lemma map_const_seq {A} (a : A) (f : nat -> A) s n :
  (forall k, f k = a) -> map f (seq s n) = repeat a n.
Proof.
  intros Hf. revert s. induction n as [|n IH]; intros s; [reflexivity|].
  cbn [seq map repeat]. rewrite Hf, IH. reflexivity.
Qed.

(** X1. The linear trainer refuses a negative number of epochs where it
    allocates the error history, and on a data set without rows it ends
    its first epoch in the division of the accumulated error, the float
    [0.0], by [N = 0]; the targets are not looked at in either case. *)
Theorem LLS_by_GD_degenerate_inputs :
  (forall h m g lX lY X eta (n : Z),
     h !! lX = Some (Arr2 X) -> (n < 0)%Z ->
     LLS_by_GD lX lY eta n (mk_state h m g)
     = (Raise (ValueError "negative dimensions are not allowed"), mk_state h m g)) /\
  (forall h m g lX lY X eta (n : Z),
     h !! lX = Some (Arr2 X) -> nrows X = 0%nat -> (1 <= n)%Z ->
     (LLS_by_GD lX lY eta n (mk_state h m g)).1 = Raise ZeroDivisionError).
Proof.
  split.
  - intros h m g lX lY X eta n HX Hn. unfold LLS_by_GD.
    erewrite bind_Ok by (apply load2_Ok, HX).
    erewrite bind_Raise; [reflexivity|].
    unfold np_zeros1. destruct (Z.ltb_spec n 0); [reflexivity | lia].
  - intros h m g lX lY X eta n HX HN Hn. unfold LLS_by_GD.
    erewrite bind_Ok by (apply load2_Ok, HX).
    erewrite bind_Ok by (apply np_zeros1_Ok; lia).
    erewrite bind_Raise; [reflexivity|].
    unfold range. replace (Z.to_nat n) with (Datatypes.S (Z.to_nat n - 1)) by lia.
    cbn [seq for_each].
    erewrite bind_Raise; [reflexivity|].
    unfold LLS_epoch. rewrite HN. cbn [Z.of_nat range Z.to_nat seq for_each].
    reflexivity.
Qed.

Lemma LLS_by_GD_degenerate_inputs_witness :
  LLS_by_GD 0%nat 1%nat (1/10) (-1)
    (mk_state [Arr2 (np_zeros 0 1)] ∅ constant_generator)
  = (Raise (ValueError "negative dimensions are not allowed"),
     mk_state [Arr2 (np_zeros 0 1)] ∅ constant_generator) /\
  (LLS_by_GD 0%nat 1%nat (1/10) 1
     (mk_state [Arr2 (np_zeros 0 1)] ∅ constant_generator)).1
  = Raise ZeroDivisionError.
Proof.
  split.
  - apply (proj1 LLS_by_GD_degenerate_inputs
             [Arr2 (np_zeros 0 1)] ∅ constant_generator 0%nat 1%nat (np_zeros 0 1)).
    + reflexivity.
    + lia.
  - apply (proj2 LLS_by_GD_degenerate_inputs
             [Arr2 (np_zeros 0 1)] ∅ constant_generator 0%nat 1%nat (np_zeros 0 1)).
    + reflexivity.
    + reflexivity.
    + lia.
Defined.

(** X2. The scalar minimizer with a negative number of iterations: for [-1]
    the two histories are empty and the first write into them is out of
    bounds; below [-1] their allocation is refused. *)
Theorem minimization_using_GD_negative_iterations :
  forall pol grad x0 eta (T : Z) s, (T < 0)%Z ->
    (minimization_using_GD pol x0 grad eta T s).1
    = if (T =? -1)%Z then Raise (IndexError "index is out of bounds for axis 0")
      else Raise (ValueError "negative dimensions are not allowed").
Proof.
  intros pol grad x0 eta T [h m g] HT. unfold minimization_using_GD.
  destruct (Z.eqb_spec T (-1)) as [->|Hne].
  - erewrite bind_Ok by (apply np_zeros1_Ok; lia).
    erewrite bind_Ok by (apply np_zeros1_Ok; lia).
    erewrite bind_Raise; [reflexivity|].
    unfold setitem1. cbn [heap Z.add Z.to_nat repeat].
    rewrite lookup_app_l by (rewrite length_app; cbn; lia).
    rewrite heap_lookup_last. reflexivity.
  - erewrite bind_Raise; [reflexivity|].
    unfold np_zeros1. destruct (Z.ltb_spec (T + 1) 0); [reflexivity | lia].
Qed.

Lemma minimization_using_GD_negative_iterations_witness :
  (minimization_using_GD (fun x => x ^ 2) 10 (fun x => 2 * x) (1/10) (-1)
     (mk_state [] ∅ constant_generator)).1
  = Raise (IndexError "index is out of bounds for axis 0").
Proof.
  apply (minimization_using_GD_negative_iterations
           (fun x => x ^ 2) (fun x => 2 * x) 10 (1/10) (-1)%Z
           (mk_state [] ∅ constant_generator)).
  lia.
Defined.

(** X3. A start at a critical point, or a learning rate of zero, never moves:
    every entry of the history of [x] is the start and every entry of the
    history of values is the value there. *)
Theorem minimization_using_GD_stationary :
  forall pol grad x0 eta (T : Z) h m g,
    (0 <= T)%Z -> eta * grad x0 = 0 ->
    exists s',
      minimization_using_GD pol x0 grad eta T (mk_state h m g)
      = (Ok (length h, Datatypes.S (length h)), s') /\
      heap s' !! length h = Some (Arr1 (repeat x0 (Z.to_nat (T + 1)))) /\
      heap s' !! Datatypes.S (length h)
      = Some (Arr1 (repeat (pol x0) (Z.to_nat (T + 1)))).
Proof.
  intros pol grad x0 eta T h m g HT Hstat.
  eexists. split; [apply minimization_using_GD_run, HT|].
  cbn [heap]. rewrite heap_lookup_fst, heap_lookup_snd.
  replace (Z.to_nat (T + 1)) with (Datatypes.S (Z.to_nat T)) by lia.
  rewrite (map_const_seq x0), (map_const_seq (pol x0)); [auto | |];
    intros k; rewrite gd_iterate_stationary by exact Hstat; reflexivity.
Qed.

Lemma minimization_using_GD_stationary_witness :
  exists s',
    minimization_using_GD (fun x => x ^ 2) 0 (fun x => 2 * x) (1/10) 3
      (mk_state [] ∅ constant_generator)
    = (Ok (0%nat, 1%nat), s') /\
    heap s' !! 0%nat = Some (Arr1 (repeat 0 (Z.to_nat (3 + 1)))) /\
    heap s' !! 1%nat = Some (Arr1 (repeat (0 ^ 2) (Z.to_nat (3 + 1)))).
Proof.
  apply (minimization_using_GD_stationary
           (fun x => x ^ 2) (fun x => 2 * x) 0 (1/10) 3%Z [] ∅ constant_generator).
  - lia.
  - lra.
Defined.

(** ** The perceptron *)

Lemma sigmoid_range z : 0 < sigmoid z < 1.
Proof.
  unfold sigmoid. pose proof (exp_pos (- z)) as He.
  assert (H1 : 0 < 1 + exp (- z)) by lra.
  split.
  - apply Rdiv_lt_0_compat; lra.
  - apply (Rmult_lt_reg_r (1 + exp (- z))); [exact H1|].
    unfold Rdiv. rewrite Rmult_assoc, Rinv_l by lra. lra.
Qed.

Lemma sigmoid'_range z : 0 < sigmoid' z <= 1/4.
Proof.
  unfold sigmoid'. pose proof (sigmoid_range z) as [H0 H1]. split.
  - apply Rmult_lt_0_compat; lra.
  - pose proof (pow2_ge_0 (sigmoid z - 1/2)) as Hsq. cbn [pow] in Hsq. lra.
Qed.

(** X4. The activation squashes every entry into [0, 1], and its
    derivative lies in [0, 1/4] at every entry; both keep the shape of
    their argument. *)
Theorem MLP_sigmoid_bounds :
  forall Z, exists S',
    MLP_sigmoid_derivative Z = Ok S' /\
    nrows (MLP_sigmoid Z) = nrows Z /\ ncols (MLP_sigmoid Z) = ncols Z /\
    nrows S' = nrows Z /\ ncols S' = ncols Z /\
    forall h b, (h < nrows Z)%nat -> (b < ncols Z)%nat ->
      0 <= get (MLP_sigmoid Z) h b <= 1 /\ 0 <= get S' h b <= 1/4.
Proof.
  intros Z. destruct (MLP_sigmoid_derivative_Ok Z) as (S' & HS & Hr & Hc & Hget).
  exists S'. repeat split; try assumption; try reflexivity;
    rewrite ?get_MLP_sigmoid, ?Hget by assumption;
    first [ pose proof (sigmoid_range (get Z h b)); lra
          | pose proof (sigmoid'_range (get Z h b)); lra ].
Qed.

Lemma MLP_sigmoid_bounds_witness :
  exists S',
    MLP_sigmoid_derivative X_example = Ok S' /\
    nrows (MLP_sigmoid X_example) = nrows X_example /\
    ncols (MLP_sigmoid X_example) = ncols X_example /\
    nrows S' = nrows X_example /\ ncols S' = ncols X_example /\
    forall h b, (h < nrows X_example)%nat -> (b < ncols X_example)%nat ->
      0 <= get (MLP_sigmoid X_example) h b <= 1 /\ 0 <= get S' h b <= 1/4.
Proof. exact (MLP_sigmoid_bounds X_example). Defined.

(** X5. The cost of a mini-batch is the sum of the squared differences over
    twice the batch size: it is never negative, and it is zero when the
    prediction meets the target at every entry. *)
Theorem MLP_MSE_cost_of_a_batch :
  forall y_true y_pred,
    nrows y_true = nrows y_pred -> ncols y_true = ncols y_pred ->
    (0 < ncols y_true)%nat ->
    exists c,
      MLP_MSE_cost y_true y_pred = Ok c /\
      c = sum_upto (nrows y_true) (fun i => sum_upto (ncols y_true) (fun j =>
            (get y_true i j - get y_pred i j) ^ 2)) / (2 * INR (ncols y_true)) /\
      0 <= c /\
      ((forall i j, (i < nrows y_true)%nat -> (j < ncols y_true)%nat ->
          get y_pred i j = get y_true i j) -> c = 0).
Proof.
  intros y_true y_pred Hr Hc HB. unfold MLP_MSE_cost.
  rewrite broadcast_same by assumption. cbn [rbind].
  set (sq i j := (get y_true i j - get y_pred i j) ^ 2).
  assert (Hsum : np_sum (map_nd (fun v => v ^ 2)
                    (build (nrows y_true) (ncols y_true)
                       (fun i j => get y_true i j - get y_pred i j)))
                 = sum_upto (nrows y_true) (fun i => sum_upto (ncols y_true) (sq i))).
  { unfold np_sum, map_nd. rewrite !nrows_build, !ncols_build.
    apply sum_upto_ext. intros i Hi. apply sum_upto_ext. intros j Hj.
    rewrite !get_build by lia. reflexivity. }
  rewrite Hsum.
  assert (Hsq : forall i j, 0 <= sq i j) by (intros; unfold sq; apply pow2_ge_0).
  assert (Hrow : forall i, 0 <= sum_upto (ncols y_true) (sq i))
    by (intros; apply sum_upto_nonneg; intros; apply Hsq).
  assert (Htot : 0 <= sum_upto (nrows y_true) (fun i => sum_upto (ncols y_true) (sq i)))
    by (apply sum_upto_nonneg; intros; apply Hrow).
  assert (HB' : 0 < 2 * INR (ncols y_true)).
  { apply lt_INR in HB. cbn in HB. lra. }
  eexists. split; [reflexivity|]. split; [reflexivity|]. split.
  - apply Rmult_le_pos; [exact Htot | left; apply Rinv_0_lt_compat, HB'].
  - intros Heq. rewrite sum_upto_zero; [unfold Rdiv; lra|].
    intros i Hi. apply sum_upto_zero. intros j Hj.
    unfold sq. rewrite Heq by assumption. lra.
Qed.

Lemma MLP_MSE_cost_of_a_batch_witness :
  exists c,
    MLP_MSE_cost y_example X_example = Ok c /\
    c = sum_upto (nrows y_example) (fun i => sum_upto (ncols y_example) (fun j =>
          (get y_example i j - get X_example i j) ^ 2)) / (2 * INR (ncols y_example)) /\
    0 <= c /\
    ((forall i j, (i < nrows y_example)%nat -> (j < ncols y_example)%nat ->
        get X_example i j = get y_example i j) -> c = 0).
Proof.
  apply (MLP_MSE_cost_of_a_batch y_example X_example).
  - reflexivity.
  - reflexivity.
  - cbn. lia.
Defined.

(** X6. The initial weights: [W1] has one row for every hidden unit and one
    column for the bias and every feature, [W2] one row for every output
    and one column for the bias and every hidden unit; every entry is
    [2u - 1] for a draw [u] of its own, so that draws in [0, 1) give
    weights in [-1, 1); the dict and the arrays of the store are as they
    were. *)
Theorem MLP_initialize_weights_range :
  forall h m g (Hz Dz Oz : Z),
    m !! "n_hidden" = Some (VInt Hz) -> m !! "n_features" = Some (VInt Dz) ->
    m !! "n_output" = Some (VInt Oz) ->
    (0 <= Hz)%Z -> (0 <= Dz)%Z -> (0 <= Oz)%Z ->
    (forall k, 0 <= rand_at g k < 1) ->
    let H := Z.to_nat Hz in
    let D := Z.to_nat Dz in
    let O := Z.to_nat Oz in
    exists W1 W2,
      MLP_initialize_weights (mk_state h m g)
      = (Ok (W1, W2),
         mk_state h m (advance (H * Datatypes.S D + O * Datatypes.S H) g)) /\
      MLP_shapes H D O (W1, W2) /\
      (forall i j, (i < H)%nat -> (j < Datatypes.S D)%nat ->
         get W1 i j = 2 * rand_at g (cursor g + i * Datatypes.S D + j) - 1 /\
         -1 <= get W1 i j < 1) /\
      (forall i j, (i < O)%nat -> (j < Datatypes.S H)%nat ->
         get W2 i j
         = 2 * rand_at g (cursor g + H * Datatypes.S D + i * Datatypes.S H + j) - 1 /\
         -1 <= get W2 i j < 1).
Proof.
  intros h m g Hz Dz Oz HH HD HO HHz HDz HOz Hrand H D O.
  unfold MLP_initialize_weights.
  erewrite bind_Ok by (apply getitem_Ok; exact HH).
  erewrite bind_Ok by (apply getitem_Ok; exact HD).
  erewrite bind_Ok by (apply getitem_Ok; exact HO).
  erewrite bind_Ok by (apply lift_Ok; reflexivity).
  erewrite bind_Ok by (apply lift_Ok; reflexivity).
  erewrite bind_Ok by (apply random_rand_Ok; lia).
  erewrite bind_Ok by (apply lift_Ok; reflexivity).
  erewrite bind_Ok by (apply random_rand_Ok; lia).
  replace (Z.to_nat (Dz + 1)) with (Datatypes.S D) by (unfold D; lia).
  replace (Z.to_nat (Hz + 1)) with (Datatypes.S H) by (unfold H; lia).
  fold H O.
  eexists _, _. split; [|split; [|split]].
  - unfold ret. do 2 f_equal. unfold advance. cbn [rand_at permutation_at cursor].
    f_equal. lia.
  - repeat split; cbn [fst snd]; shape_goal; reflexivity.
  - intros i j Hi Hj. unfold map_nd. rewrite nrows_build, ncols_build.
    rewrite !get_build by lia.
    split; [reflexivity|].
    specialize (Hrand (cursor g + i * Datatypes.S D + j)%nat). lra.
  - intros i j Hi Hj. unfold map_nd. rewrite nrows_build, ncols_build.
    rewrite !get_build by lia. cbn [rand_at cursor advance].
    replace (cursor g + H * Datatypes.S D + i * Datatypes.S H + j)%nat
      with (cursor g + H * Datatypes.S D + i * Datatypes.S H + j)%nat by reflexivity.
    split; [reflexivity|].
    specialize (Hrand (cursor g + H * Datatypes.S D + i * Datatypes.S H + j)%nat). lra.
Qed.

Lemma MLP_initialize_weights_range_witness :
  exists W1 W2,
    MLP_initialize_weights mlp_state
    = (Ok (W1, W2),
       mk_state [Arr2 X_example; Arr2 y_example] mlp_model
         (advance (2 * 2 + 1 * 3) constant_generator)) /\
    MLP_shapes 2 1 1 (W1, W2) /\
    (forall i j, (i < 2)%nat -> (j < 2)%nat ->
       get W1 i j = 2 * rand_at constant_generator (0 + i * 2 + j) - 1 /\
       -1 <= get W1 i j < 1) /\
    (forall i j, (i < 1)%nat -> (j < 3)%nat ->
       get W2 i j = 2 * rand_at constant_generator (0 + 2 * 2 + i * 3 + j) - 1 /\
       -1 <= get W2 i j < 1).
Proof.
  apply (MLP_initialize_weights_range
           [Arr2 X_example; Arr2 y_example] mlp_model constant_generator 2%Z 1%Z 1%Z);
    try reflexivity; try lia.
  intros k. cbn. lra.
Defined.

(** X7. A prediction treats the rows of its input one by one: the shape of
    the result is (outputs, rows), and its column for row [b] is what
    the network predicts for that row alone. *)
Theorem MLP_MSELIN_predict_row_by_row :
  forall P W1 W2 b,
    ncols W1 = Datatypes.S (ncols P) -> ncols W2 = Datatypes.S (nrows W1) ->
    (b < nrows P)%nat ->
    exists Y Pb Yb,
      MLP_MSELIN_predict P W1 W2 = Ok Y /\
      take_rows P [b] = Ok Pb /\
      MLP_MSELIN_predict Pb W1 W2 = Ok Yb /\
      nrows Y = nrows W2 /\ ncols Y = nrows P /\
      nrows Yb = nrows W2 /\ ncols Yb = 1%nat /\
      forall o, (o < nrows W2)%nat -> get Y o b = get Yb o 0%nat.
Proof.
  intros P W1 W2 b H1 H2 Hb.
  destruct (MLP_MSELIN_forward_Ok P W1 W2 H1 H2)
    as (rA2 & A1 & A0 & rZ1 & Hfwd & HA0 & HrZ1 & HA1 & HrA2).
  set (Pb := build 1 (ncols P) (fun i j => get P (nth i [b] 0%nat) j)).
  assert (HPb : take_rows P [b] = Ok Pb).
  { apply take_rows_Ok. repeat constructor. exact Hb. }
  assert (HcPb : ncols Pb = ncols P) by reflexivity.
  destruct (MLP_MSELIN_forward_Ok Pb W1 W2)
    as (rA2' & A1' & A0' & rZ1' & Hfwd' & HA0' & HrZ1' & HA1' & HrA2');
    [rewrite HcPb; exact H1 | exact H2 |].
  exists rA2, Pb, rA2'.
  unfold MLP_MSELIN_predict. rewrite Hfwd, Hfwd'. cbn [rbind].
  split; [reflexivity|]. split; [exact HPb|]. split; [reflexivity|].
  rewrite HrA2, HrA2'. rewrite !nrows_build, !ncols_build.
  split; [reflexivity|]. split; [reflexivity|].
  split; [reflexivity|]. split; [reflexivity|].
  intros o Ho. rewrite !get_build by (cbn; lia).
  assert (HA0e : forall k, (k < Datatypes.S (ncols P))%nat ->
                   get A0 k b = get A0' k 0%nat).
  { intros k Hk. rewrite HA0, HA0'. unfold vstack_ones, transpose.
    rewrite !nrows_build, !ncols_build. rewrite HcPb.
    rewrite !get_build by (cbn; lia).
    destruct k as [|k]; [reflexivity|].
    rewrite !get_build by (cbn; lia).
    unfold Pb. rewrite get_build by (cbn; lia). reflexivity. }
  assert (HZe : forall k, (k < nrows W1)%nat -> get rZ1 k b = get rZ1' k 0%nat).
  { intros k Hk. rewrite HrZ1, HrZ1'. rewrite !get_build by (cbn; lia).
    rewrite HcPb. apply sum_upto_ext. intros d Hd. rewrite HA0e by lia. reflexivity. }
  apply sum_upto_ext. intros k Hk. f_equal.
  rewrite HA1, HA1'. unfold vstack_ones.
  rewrite !nrows_MLP_sigmoid, !ncols_MLP_sigmoid.
  rewrite HrZ1 at 1 2. rewrite HrZ1' at 1 2. rewrite !nrows_build, !ncols_build.
  rewrite !get_build by (cbn; lia).
  destruct k as [|k]; [reflexivity|].
  rewrite !get_MLP_sigmoid
    by (rewrite ?HrZ1, ?HrZ1', ?nrows_build, ?ncols_build; cbn; lia).
  rewrite HZe by lia. reflexivity.
Qed.

Lemma MLP_MSELIN_predict_row_by_row_witness :
  exists Y Pb Yb,
    MLP_MSELIN_predict X_example (np_zeros 2 2) (np_zeros 1 3) = Ok Y /\
    take_rows X_example [1%nat] = Ok Pb /\
    MLP_MSELIN_predict Pb (np_zeros 2 2) (np_zeros 1 3) = Ok Yb /\
    nrows Y = nrows (np_zeros 1 3) /\ ncols Y = nrows X_example /\
    nrows Yb = nrows (np_zeros 1 3) /\ ncols Yb = 1%nat /\
    forall o, (o < nrows (np_zeros 1 3))%nat -> get Y o 1%nat = get Yb o 0%nat.
Proof.
  apply (MLP_MSELIN_predict_row_by_row X_example (np_zeros 2 2) (np_zeros 1 3) 1%nat).
  - reflexivity.
  - reflexivity.
  - cbn. lia.
Defined.

(** ** The configuration of the perceptron *)

Lemma keeps_model_eq {A} (c : M A) (phi : A -> Prop) s :
  keeps (heap s) (model s) [] c phi -> model (c s).2 = model s.
Proof.
  intros Hc. apply map_eq. intros k.
  apply (keeps_final _ _ [] c phi s Hc (frame_refl s [])). apply not_elem_of_nil.
Qed.

Lemma MLP_initialize_weights_keys s W s1 :
  MLP_initialize_weights s = (Ok W, s1) ->
  model s1 = model s /\
  is_Some (model s !! "n_hidden") /\ is_Some (model s !! "n_features") /\
  is_Some (model s !! "n_output").
Proof.
  intros Hrun. split.
  - pose proof (keeps_model_eq MLP_initialize_weights (fun _ => True) s
                  (keeps_MLP_initialize_weights _ _ _)) as Hm.
    rewrite Hrun in Hm. exact Hm.
  - unfold MLP_initialize_weights in Hrun.
    apply bind_inv in Hrun as (v1 & t1 & Hg1 & Hrun). apply getitem_inv in Hg1 as [-> Hk1].
    apply bind_inv in Hrun as (v2 & t2 & Hg2 & Hrun). apply getitem_inv in Hg2 as [-> Hk2].
    apply bind_inv in Hrun as (v3 & t3 & Hg3 & Hrun). apply getitem_inv in Hg3 as [-> Hk3].
    eauto.
Qed.

(** X8. A dict without one of the six configuration keys ends the training
    of the perceptron in an exception before anything is written into
    the dict: no cost history, no weights. Without [n_hidden], the first
    key read, it is the [KeyError] of that key and the store is as it
    was. *)
Theorem MLP_MSELIN_train_missing_key :
  (forall P y s k,
     k ∈ ["n_hidden"; "n_features"; "n_output"; "eta"; "epochs"; "minibatches"] ->
     model s !! k = None ->
     is_Ok (MLP_MSELIN_train P y s).1 = false /\
     model (MLP_MSELIN_train P y s).2 = model s) /\
  (forall P y s,
     model s !! "n_hidden" = None ->
     MLP_MSELIN_train P y s = (Raise (KeyError "n_hidden"), s)).
Proof.
  split.
  - intros P y s k Hk Hnone.
    assert (Hrun : exists e s', MLP_MSELIN_train P y s = (Raise e, s') /\ model s' = model s).
    { unfold MLP_MSELIN_train.
      destruct (MLP_initialize_weights s) as [[[W1 W2]|e] s1] eqn:Hinit.
      - erewrite bind_Ok by exact Hinit.
        apply MLP_initialize_weights_keys in Hinit as (Hm & H1 & H2 & H3).
        assert (Hget : forall key, getitem key s1
                       = match model s !! key with
                         | Some v => (Ok v, s1)
                         | None => (Raise (KeyError key), s1)
                         end).
        { intros key. unfold getitem. rewrite Hm. reflexivity. }
        destruct (model s !! "eta") as [eta|] eqn:Heta.
        2:{ erewrite bind_Raise by (rewrite Hget, Heta; reflexivity). eauto. }
        erewrite bind_Ok by (rewrite Hget, Heta; reflexivity).
        destruct (model s !! "epochs") as [epochs|] eqn:Hep.
        2:{ erewrite bind_Raise by (rewrite Hget, Hep; reflexivity). eauto. }
        erewrite bind_Ok by (rewrite Hget, Hep; reflexivity).
        destruct (model s !! "minibatches") as [mb|] eqn:Hmb.
        2:{ erewrite bind_Raise by (rewrite Hget, Hmb; reflexivity). eauto. }
        exfalso.
        repeat (apply elem_of_cons in Hk as [-> | Hk];
                [rewrite Hnone in *;
                 first [discriminate | apply is_Some_None in H1; contradiction
                       | apply is_Some_None in H2; contradiction
                       | apply is_Some_None in H3; contradiction]|]).
        apply elem_of_nil in Hk. contradiction.
      - erewrite bind_Raise by exact Hinit. exists e, s1. split; [reflexivity|].
        pose proof (keeps_model_eq MLP_initialize_weights (fun _ => True) s
                      (keeps_MLP_initialize_weights _ _ _)) as Hm.
        rewrite Hinit in Hm. exact Hm. }
    destruct Hrun as (e & s' & -> & Hm). split; [reflexivity | exact Hm].
  - intros P y s Hnone. unfold MLP_MSELIN_train.
    erewrite bind_Raise; [reflexivity|].
    unfold MLP_initialize_weights.
    erewrite bind_Raise; [reflexivity|].
    unfold getitem. rewrite Hnone. reflexivity.
Qed.

Lemma MLP_MSELIN_train_missing_key_witness :
  (is_Ok (MLP_MSELIN_train 0%nat 1%nat debug_state).1 = false /\
   model (MLP_MSELIN_train 0%nat 1%nat debug_state).2 = model debug_state) /\
  MLP_MSELIN_train 0%nat 1%nat (mk_state [] ∅ constant_generator)
  = (Raise (KeyError "n_hidden"), mk_state [] ∅ constant_generator).
Proof.
  split.
  - apply (proj1 MLP_MSELIN_train_missing_key 0%nat 1%nat debug_state "eta").
    + key_in.
    + reflexivity.
  - apply (proj2 MLP_MSELIN_train_missing_key 0%nat 1%nat
             (mk_state [] ∅ constant_generator)).
    reflexivity.
Defined.

(** X9. A number of mini-batches that is not positive is met only inside the
    first epoch, where [np.array_split] refuses it: by then the cost
    history of the dict has been replaced by an empty list, and no
    weights are stored. *)
Theorem MLP_MSELIN_train_no_minibatches :
  forall h m g lP ly Pa ya (Hz Dz Oz E M : Z) eta_v,
    m !! "n_hidden" = Some (VInt Hz) -> m !! "n_features" = Some (VInt Dz) ->
    m !! "n_output" = Some (VInt Oz) -> m !! "eta" = Some eta_v ->
    m !! "epochs" = Some (VInt E) -> m !! "minibatches" = Some (VInt M) ->
    (0 <= Hz)%Z -> (0 <= Dz)%Z -> (0 <= Oz)%Z -> (1 <= E)%Z -> (M <= 0)%Z ->
    h !! lP = Some (Arr2 Pa) -> h !! ly = Some (Arr2 ya) ->
    (nrows Pa <= nrows ya)%nat -> valid_generator g ->
    exists g',
      MLP_MSELIN_train lP ly (mk_state h m g)
      = (Raise (ValueError "number sections must be larger than 0."),
         mk_state h (<["cost_history" := VList []]> m) g').
Proof.
  intros h m g lP ly Pa ya Hz Dz Oz E M eta_v
    HH HD HO Heta HE HM HHz HDz HOz HE1 HM0 HP Hy HN Hg.
  destruct (MLP_initialize_weights_run h m g Hz Dz Oz) as (W & n & Hinit & _);
    try assumption.
  destruct W as [W1 W2].
  unfold MLP_MSELIN_train.
  erewrite bind_Ok by exact Hinit. cbv beta iota.
  erewrite bind_Ok by (apply getitem_Ok; exact Heta).
  erewrite bind_Ok by (apply getitem_Ok; exact HE).
  erewrite bind_Ok by (apply getitem_Ok; exact HM).
  erewrite bind_Ok by apply setitem_Ok.
  cbn [model set_model heap rng].
  erewrite bind_Ok by (apply load2_Ok; exact HP).
  erewrite bind_Ok by (apply lift_Ok; reflexivity).
  eexists. erewrite bind_Raise; [reflexivity|].
  unfold range. replace (Z.to_nat E) with (Datatypes.S (Z.to_nat E - 1)) by lia.
  cbn [seq for_each].
  erewrite bind_Raise; [reflexivity|].
  unfold MLP_epoch.
  erewrite bind_Ok by apply random_permutation_Ok.
  erewrite bind_Ok by (apply load2_Ok; exact HP).
  pose proof (valid_generator_permutation (advance n g) (nrows Pa)
                (valid_generator_advance n g Hg)) as [Hperm _].
  erewrite bind_Ok by (apply lift_Ok, take_rows_Ok, Hperm).
  erewrite bind_Ok by (apply load2_Ok; exact Hy).
  erewrite bind_Ok.
  2:{ apply lift_Ok, take_rows_Ok. eapply Forall_impl; [exact Hperm|].
      cbv beta. intros i Hi. lia. }
  erewrite bind_Ok by (apply lift_Ok; reflexivity).
  erewrite bind_Raise; [reflexivity|].
  unfold lift, array_split. destruct (Z.leb_spec M 0); [reflexivity | lia].
Qed.

Lemma MLP_MSELIN_train_no_minibatches_witness :
  exists g',
    MLP_MSELIN_train 0%nat 1%nat no_minibatches_state
    = (Raise (ValueError "number sections must be larger than 0."),
       mk_state [Arr2 X_example; Arr2 y_example]
         (<["cost_history" := VList []]> (<["minibatches" := VInt 0]> mlp_model)) g').
Proof.
  apply (MLP_MSELIN_train_no_minibatches
           [Arr2 X_example; Arr2 y_example] (<["minibatches" := VInt 0]> mlp_model)
           constant_generator 0%nat 1%nat X_example y_example
           2%Z 1%Z 1%Z 2%Z 0%Z (VFloat (1/10)));
    try reflexivity; try lia.
  intros pos n. reflexivity.
Defined.

(** ** The centres of the RBF networks *)

(** X10. Under the policy [random] the centres are rows of the training
    inputs, no row taken twice. The 1-D notebook takes the head of a
    permutation, so it returns [min(n_hidden, N)] centres and stores them
    in the dict; a run of the 2-D notebook that returns, on targets that
    are a column or a 1-D array, has drawn exactly [n_hidden <= N] of
    them. *)
Theorem RBF_random_centres_are_training_rows :
  (forall (E : External) X y h m g (k : Z) Xa,
     m !! "centres_generation_method" = Some (VStr "random") ->
     m !! "n_hidden" = Some (VInt k) -> (0 <= k)%Z ->
     h !! X = Some (Arr2 Xa) -> valid_generator g ->
     exists W1 idx,
       RBF_1D.RBF_initialize_centres X y (mk_state h m g)
       = (Ok W1, mk_state h (<["W1" := VArr W1]> m) (advance 1 g)) /\
       NoDup idx /\ length idx = Nat.min (Z.to_nat k) (nrows Xa) /\
       nrows W1 = length idx /\ ncols W1 = ncols Xa /\
       forall i, (i < length idx)%nat ->
         (nth i idx 0 < nrows Xa)%nat /\
         forall j, (j < ncols Xa)%nat -> get W1 i j = get Xa (nth i idx 0%nat) j) /\
  (forall (E : External) X y s W1 W2 s' (k : Z) Xa,
     RBF_2D.RBF_train_offline X y s = (Ok (W1, W2), s') ->
     model s !! "centres_generation_method" = Some (VStr "random") ->
     model s !! "n_hidden" = Some (VInt k) ->
     heap s !! X = Some (Arr2 Xa) -> valid_generator (rng s) ->
     (0 <= k <= Z.of_nat (nrows Xa))%Z /\
     exists idx,
       NoDup idx /\ length idx = Z.to_nat k /\
       nrows W1 = Z.to_nat k /\ ncols W1 = ncols Xa /\
       forall i, (i < Z.to_nat k)%nat ->
         (nth i idx 0 < nrows Xa)%nat /\
         forall j, (j < ncols Xa)%nat -> get W1 i j = get Xa (nth i idx 0%nat) j).
Proof.
  split.
  - intros E. apply RBF_1D_random_centres.
  - intros E X y s W1 W2 s' k Xa Hrun Hm Hn HX Hg.
    unfold RBF_2D.RBF_train_offline in Hrun.
    apply bind_inv in Hrun as (nh & s1 & Hg1 & Hrun). apply getitem_inv in Hg1 as [-> Hnh].
    apply bind_inv in Hrun as (nf & s1 & Hg1 & Hrun). apply getitem_inv in Hg1 as [-> _].
    apply bind_inv in Hrun as (method & s1 & Hg1 & Hrun).
    apply getitem_inv in Hg1 as [-> Hmethod].
    rewrite Hn in Hnh. injection Hnh as <-.
    rewrite Hm in Hmethod. injection Hmethod as <-.
    change (eq_str (VStr "random") "random") with true in Hrun. cbv iota in Hrun.
    apply bind_inv in Hrun as (W1o & s1 & Hc & Hrun).
    apply bind_inv in Hc as (Xa' & s2 & Hl & Hc). apply load2_inv in Hl as [-> HX'].
    rewrite HX in HX'. injection HX' as <-.
    apply bind_inv in Hc as (size & s2 & Hl & Hc). apply lift_inv in Hl as [-> Hsize].
    apply Ok_inj in Hsize. subst size.
    apply bind_inv in Hc as (idx & s2 & Hch & Hc).
    unfold random_choice in Hch.
    destruct (Z.ltb_spec k 0) as [|Hk0]; [discriminate|].
    destruct (Z.ltb_spec (Z.of_nat (nrows Xa)) k) as [|HkN]; [discriminate|].
    apply bind_inv in Hch as (p & s3 & Hp & Hch).
    apply ret_inv in Hch as [-> ->].
    unfold random_permutation in Hp. injection Hp as <- <-.
    apply bind_inv in Hc as (Xa' & s3 & Hl & Hc). apply load2_inv in Hl as [-> HX'].
    cbn [heap set_rng] in HX'. rewrite HX in HX'. injection HX' as <-.
    apply bind_inv in Hc as (W1' & s3 & Hl & Hc). apply lift_inv in Hl as [-> Htake].
    apply ret_inv in Hc as [-> ->].
    apply bind_inv in Hrun as (eps' & s2 & Hg1 & Hrun). apply getitem_inv in Hg1 as [-> _].
    apply bind_inv in Hrun as (Xa' & s2 & Hl & Hrun). apply load2_inv in Hl as [-> _].
    apply bind_inv in Hrun as (W1'' & s2 & HW1 & Hrun). apply ret_inv in HW1 as [-> ->].
    apply bind_inv in Hrun as (dist & s2 & Hl & Hrun). apply lift_inv in Hl as [-> _].
    apply bind_inv in Hrun as (e' & s2 & Hl & Hrun). apply lift_inv in Hl as [-> _].
    apply bind_inv in Hrun as (Hp & s2 & Hl & Hrun). apply lift_inv in Hl as [-> _].
    apply bind_inv in Hrun as (ya' & s2 & Hl & Hrun). apply load_inv in Hl as [-> _].
    apply bind_inv in Hrun as (W2' & s2 & Hl & Hrun). apply lift_inv in Hl as [-> _].
    apply ret_inv in Hrun as [_ [= -> _]].
    destruct (valid_generator_take (rng s) (nrows Xa) (Z.to_nat k) Hg)
      as (Hnd & Hlen & Hall).
    set (idx := firstn (Z.to_nat k) (permutation_at (rng s) (cursor (rng s)) (nrows Xa))) in *.
    apply take_rows_inv in Htake as [_ ->].
    assert (Hlen' : length idx = Z.to_nat k) by lia.
    split; [lia|]. exists idx.
    rewrite nrows_build, ncols_build.
    split; [exact Hnd|]. split; [exact Hlen'|]. split; [exact Hlen'|].
    split; [reflexivity|].
    intros i Hi. split.
    + rewrite List.Forall_forall in Hall. apply Hall, nth_In. lia.
    + intros j Hj. rewrite get_build by lia. reflexivity.
Qed.

Lemma RBF_random_centres_are_training_rows_witness :
  (exists W1 idx,
     RBF_1D.RBF_initialize_centres 0%nat 1%nat random_policy_state
     = (Ok W1, mk_state [Arr2 X_example; Arr2 y_example]
                 (<["W1" := VArr W1]> random_model) (advance 1 constant_generator)) /\
     NoDup idx /\ length idx = Nat.min (Z.to_nat 2) (nrows X_example) /\
     nrows W1 = length idx /\ ncols W1 = ncols X_example /\
     forall i, (i < length idx)%nat ->
       (nth i idx 0 < nrows X_example)%nat /\
       forall j, (j < ncols X_example)%nat ->
         get W1 i j = get X_example (nth i idx 0%nat) j) /\
  (exists W2 s',
     @RBF_2D.RBF_train_offline exact_solver 0%nat 2%nat one_centre_state
     = (Ok (first_row_centre, W2), s') /\
     heap one_centre_state !! 2%nat = Some (Arr1 [1; 2]) /\
     (0 <= 1 <= Z.of_nat (nrows X_example))%Z /\
     exists idx,
       NoDup idx /\ length idx = Z.to_nat 1 /\
       nrows first_row_centre = Z.to_nat 1 /\
       ncols first_row_centre = ncols X_example /\
       forall i, (i < Z.to_nat 1)%nat ->
         (nth i idx 0 < nrows X_example)%nat /\
         forall j, (j < ncols X_example)%nat ->
           get first_row_centre i j = get X_example (nth i idx 0%nat) j).
Proof.
  split.
  - apply (proj1 RBF_random_centres_are_training_rows zero_solver 0%nat 1%nat
             [Arr2 X_example; Arr2 y_example] random_model constant_generator
             2%Z X_example).
    + reflexivity.
    + reflexivity.
    + lia.
    + reflexivity.
    + intros pos n. reflexivity.
  - destruct one_centre_run_2D as (W2 & s' & Hrun).
    exists W2, s'. split; [exact Hrun|]. split; [reflexivity|].
    apply (proj2 RBF_random_centres_are_training_rows exact_solver 0%nat 2%nat
             one_centre_state first_row_centre W2 s' 1%Z X_example Hrun).
    + reflexivity.
    + reflexivity.
    + reflexivity.
    + intros pos n. reflexivity.
Defined.

(** X11. More hidden units than training rows under the policy [random]: the
    2-D notebook is refused the sample by [np.random.choice] with the
    store as it was; the 1-D notebook takes all [N] rows as centres,
    stores them in the dict, and fails in the forward pass, where the
    row of [n_hidden + 1] ones meets [N + 1] rows of activations. *)
Theorem RBF_random_too_many_centres :
  (forall (E : External) X y h m g (k : Z) Xa eps e,
     m !! "centres_generation_method" = Some (VStr "random") ->
     m !! "n_hidden" = Some (VInt k) -> m !! "epsilon" = Some eps ->
     as_float eps = Ok e ->
     h !! X = Some (Arr2 Xa) -> valid_generator g ->
     (Z.of_nat (nrows Xa) < k)%Z ->
     exists W1,
       nrows W1 = nrows Xa /\
       RBF_1D.RBF_train_offline X y (mk_state h m g)
       = (Raise (ValueError "matmul: mismatch in core dimension"),
          mk_state h (<["W1" := VArr W1]> m) (advance 1 g))) /\
  (forall (E : External) X y s (k : Z) nf Xa,
     model s !! "centres_generation_method" = Some (VStr "random") ->
     model s !! "n_hidden" = Some (VInt k) -> model s !! "n_features" = Some nf ->
     heap s !! X = Some (Arr2 Xa) ->
     (Z.of_nat (nrows Xa) < k)%Z ->
     RBF_2D.RBF_train_offline X y s
     = (Raise (ValueError "Cannot take a larger sample than population when replace is False"),
        s)).
Proof.
  split.
  - intros E X y h m g k Xa eps e Hm Hn Heps He HX Hg Hk.
    destruct (RBF_1D_random_centres X y h m g k Xa)
      as (W1 & idx & Hinit & _ & Hlen & Hr & Hc & _); try assumption; try lia.
    exists W1. split; [lia|].
    unfold RBF_1D.RBF_train_offline.
    erewrite bind_Ok by exact Hinit.
    erewrite bind_Ok.
    2:{ apply getitem_Ok. cbn [model]. rewrite lookup_insert_ne by discriminate. exact Hn. }
    erewrite bind_Ok.
    2:{ apply lift_Ok. unfold RBF_1D.ones_row. cbn [as_int rbind].
        destruct (Z.ltb_spec (k + 1) 0); [lia | reflexivity]. }
    erewrite bind_Ok.
    2:{ apply getitem_Ok. cbn [model]. rewrite lookup_insert_ne by discriminate. exact Heps. }
    erewrite bind_Ok by (apply load2_Ok; exact HX).
    erewrite bind_Raise; [reflexivity|].
    unfold lift. f_equal.
    unfold RBF_1D.RBF_forward, centre_distances.
    change (nrows (transpose Xa)) with (ncols Xa).
    rewrite Hc, broadcast_dim_same. cbn [rbind]. rewrite He. cbn [rbind].
    unfold matmul, RBF_1D.RBF_extend, vstack_ones, map_nd, np_ones.
    rewrite !nrows_build, !ncols_build.
    destruct (Nat.eqb_spec (Z.to_nat (k + 1)) (Datatypes.S (nrows W1))); [lia|].
    reflexivity.
  - intros E X y s k nf Xa Hm Hn Hnf HX Hk.
    unfold RBF_2D.RBF_train_offline.
    erewrite bind_Ok by (apply getitem_Ok; exact Hn).
    erewrite bind_Ok by (apply getitem_Ok; exact Hnf).
    erewrite bind_Ok by (apply getitem_Ok; exact Hm).
    change (eq_str (VStr "random") "random") with true. cbv iota.
    erewrite bind_Raise; [reflexivity|].
    erewrite bind_Ok by (apply load2_Ok; exact HX).
    erewrite bind_Ok by (apply lift_Ok; reflexivity).
    erewrite bind_Raise; [reflexivity|].
    unfold random_choice.
    destruct (Z.ltb_spec k 0); [lia|].
    destruct (Z.ltb_spec (Z.of_nat (nrows Xa)) k); [reflexivity | lia].
Qed.

Lemma RBF_random_too_many_centres_witness :
  (exists W1,
     nrows W1 = nrows X_example /\
     RBF_1D.RBF_train_offline 0%nat 1%nat crowded_state
     = (Raise (ValueError "matmul: mismatch in core dimension"),
        mk_state [Arr2 X_example; Arr2 y_example]
          (<["W1" := VArr W1]> (<["n_hidden" := VInt 5]> random_model))
          (advance 1 constant_generator))) /\
  RBF_2D.RBF_train_offline 0%nat 1%nat crowded_state
  = (Raise (ValueError "Cannot take a larger sample than population when replace is False"),
     crowded_state).
Proof.
  split.
  - apply (proj1 RBF_random_too_many_centres zero_solver 0%nat 1%nat
             [Arr2 X_example; Arr2 y_example] (<["n_hidden" := VInt 5]> random_model)
             constant_generator 5%Z X_example (VFloat (1/10)) (1/10)).
    + reflexivity.
    + reflexivity.
    + reflexivity.
    + reflexivity.
    + reflexivity.
    + intros pos n. reflexivity.
    + cbn. lia.
  - apply (proj2 RBF_random_too_many_centres zero_solver 0%nat 1%nat crowded_state
             5%Z (VInt 1) X_example).
    + reflexivity.
    + reflexivity.
    + reflexivity.
    + reflexivity.
    + cbn. lia.
Defined.

(** ** The configuration of the RBF networks *)

(** X12. The 2-D notebook knows the policies [random] and [clustering] only
    and has no branch for another name, [debug] included: the centres
    are then never assigned, and the first use of [W1] ends training in
    an [UnboundLocalError] with the store as it was. *)
Theorem RBF_2D_unknown_policy :
  forall (E : External) X y s nh nf method eps Xa,
    model s !! "n_hidden" = Some nh -> model s !! "n_features" = Some nf ->
    model s !! "centres_generation_method" = Some method ->
    eq_str method "random" = false -> eq_str method "clustering" = false ->
    model s !! "epsilon" = Some eps -> heap s !! X = Some (Arr2 Xa) ->
    RBF_2D.RBF_train_offline X y s = (Raise (UnboundLocalError "W1"), s).
Proof.
  intros E X y s nh nf method eps Xa Hn Hnf Hm Hr Hc Heps HX.
  unfold RBF_2D.RBF_train_offline.
  erewrite bind_Ok by (apply getitem_Ok; exact Hn).
  erewrite bind_Ok by (apply getitem_Ok; exact Hnf).
  erewrite bind_Ok by (apply getitem_Ok; exact Hm).
  rewrite Hr, Hc.
  erewrite bind_Ok by reflexivity.
  erewrite bind_Ok by (apply getitem_Ok; exact Heps).
  erewrite bind_Ok by (apply load2_Ok; exact HX).
  reflexivity.
Qed.

Lemma RBF_2D_unknown_policy_witness :
  RBF_2D.RBF_train_offline 0%nat 1%nat debug_state
  = (Raise (UnboundLocalError "W1"), debug_state).
Proof.
  apply (RBF_2D_unknown_policy zero_solver 0%nat 1%nat debug_state
           (VInt 5) (VInt 1) (VStr "debug") (VFloat (3/10)) X_example);
    reflexivity.
Defined.

(** X13. Keys that are missing from the dict. The 2-D trainer reads
    [n_features], which it never uses, before anything else is done, and
    fails without it. The 1-D trainer reads [epsilon] only after the
    centres are initialised: without it the run ends in a [KeyError],
    but the dict already holds the centres under [W1] and, under the
    debug policy, the forced [n_hidden]. *)
Theorem RBF_missing_keys :
  (forall (E : External) X y s nh,
     model s !! "n_hidden" = Some nh -> model s !! "n_features" = None ->
     RBF_2D.RBF_train_offline X y s = (Raise (KeyError "n_features"), s)) /\
  (forall (E : External) X y s (k : Z) Xa,
     model s !! "centres_generation_method" = Some (VStr "debug") ->
     model s !! "n_hidden" = Some (VInt k) -> model s !! "epsilon" = None ->
     heap s !! X = Some (Arr2 Xa) -> ncols Xa = 1%nat ->
     exists s',
       RBF_1D.RBF_train_offline X y s = (Raise (KeyError "epsilon"), s') /\
       model s' = <["W1" := VArr RBF_1D.debug_centres_1]>
                    (<["n_hidden" := VInt 3]> (model s))).
Proof.
  split.
  - intros E X y s nh Hn Hnf. unfold RBF_2D.RBF_train_offline.
    erewrite bind_Ok by (apply getitem_Ok; exact Hn).
    erewrite bind_Raise; [reflexivity|].
    unfold getitem. rewrite Hnf. reflexivity.
  - intros E X y s k Xa Hm Hn Heps HX HD.
    assert (Hforce : model (force_n_hidden (VInt k) s) = <["n_hidden" := VInt 3]> (model s)).
    { unfold force_n_hidden, ne_3. destruct (Z.eqb_spec k 3) as [->|Hne]; cbn.
      - symmetry. apply insert_id, Hn.
      - reflexivity. }
    eexists. split.
    + unfold RBF_1D.RBF_train_offline.
      erewrite bind_Ok.
      2:{ rewrite (RBF_initialize_centres_debug X y s (VInt k) Xa Hm Hn HX).
          rewrite HD. reflexivity. }
      erewrite bind_Ok.
      2:{ apply getitem_Ok. cbn [model set_model].
          rewrite lookup_insert_ne by discriminate.
          rewrite Hforce. apply lookup_insert_eq. }
      erewrite bind_Ok by (apply lift_Ok; reflexivity).
      erewrite bind_Raise; [reflexivity|].
      unfold getitem. cbn [model set_model].
      rewrite lookup_insert_ne by discriminate.
      rewrite Hforce, lookup_insert_ne by discriminate. rewrite Heps. reflexivity.
    + reflexivity.
Qed.

Lemma RBF_missing_keys_witness :
  RBF_2D.RBF_train_offline 0%nat 1%nat no_features_state
  = (Raise (KeyError "n_features"), no_features_state) /\
  exists s',
    RBF_1D.RBF_train_offline 0%nat 1%nat no_epsilon_state
    = (Raise (KeyError "epsilon"), s') /\
    model s' = <["W1" := VArr RBF_1D.debug_centres_1]>
                 (<["n_hidden" := VInt 3]> (model no_epsilon_state)).
Proof.
  split.
  - apply (proj1 RBF_missing_keys zero_solver 0%nat 1%nat no_features_state (VInt 5));
      reflexivity.
  - apply (proj2 RBF_missing_keys zero_solver 0%nat 1%nat no_epsilon_state 5%Z X_example);
      reflexivity.
Defined.

(** ** The hidden layer of the RBF networks *)

Lemma exp_neg_range x : 0 <= x -> 0 < exp (- x) <= 1.
Proof.
  intros Hx. split; [apply exp_pos|].
  destruct Hx as [Hx | <-].
  - left. rewrite <- exp_0. apply exp_increasing. lra.
  - rewrite Ropp_0, exp_0. lra.
Qed.

(** X14. Every activation of a hidden unit lies in [0, 1], and it is 1 where
    the input is the centre of the unit; the bias entries are 1. The 1-D
    notebook holds the units in the rows below a row of ones, the 2-D
    notebook in the columns beside a column of ones, and its prediction
    is the product of that matrix with the output weights. *)
Theorem RBF_hidden_activations_range :
  (forall P W1 W2 eps rA2 A1,
     RBF_1D.RBF_forward P W1 W2 eps = Ok (rA2, A1) ->
     nrows A1 = Datatypes.S (nrows W1) /\ ncols A1 = nrows P /\
     forall i j, (i < nrows W1)%nat -> (j < nrows P)%nat ->
       get A1 0%nat j = 1 /\
       0 <= get A1 (Datatypes.S i) j <= 1 /\
       (ncols W1 = ncols P ->
        (forall d, (d < ncols P)%nat -> get P j d = get W1 i d) ->
        get A1 (Datatypes.S i) j = 1)) /\
  (forall X W1 eps Hm,
     hidden_matrix X W1 eps = Ok Hm ->
     (forall W2, RBF_2D.RBF_predict X W1 W2 eps = matmul Hm W2) /\
     nrows Hm = nrows X /\ ncols Hm = Datatypes.S (nrows W1) /\
     forall i j, (i < nrows X)%nat -> (j < nrows W1)%nat ->
       get Hm i 0%nat = 1 /\
       0 <= get Hm i (Datatypes.S j) <= 1 /\
       (ncols W1 = ncols X ->
        (forall d, (d < ncols X)%nat -> get X i d = get W1 j d) ->
        get Hm i (Datatypes.S j) = 1)).
Proof.
  split.
  - intros P W1 W2 eps rA2 A1 Hrun.
    apply RBF_1D_forward_inv in Hrun as (D & e & HD & He & -> & _).
    unfold RBF_1D.RBF_extend, vstack_ones, map_nd.
    rewrite !nrows_build, !ncols_build.
    split; [reflexivity|]. split; [reflexivity|].
    intros i j Hi Hj. rewrite !get_build by lia.
    split; [reflexivity|]. split.
    + match goal with
      | |- 0 <= exp (- ?x) <= 1 =>
          pose proof (exp_neg_range x
                        ltac:(apply Rmult_le_pos; apply pow2_ge_0)); lra
      end.
    + intros Hcols Heq. rewrite Hcols, broadcast_dim_same in HD. injection HD as <-.
      rewrite (sum_upto_zero (ncols P)).
      * rewrite sqrt_0. replace (- (e ^ 2 * 0 ^ 2)) with 0 by ring. apply exp_0.
      * intros d Hd. rewrite Hcols.
        assert (Hidx : (if (ncols P =? 1)%nat then 0%nat else d) = d).
        { destruct (Nat.eqb_spec (ncols P) 1); lia. }
        rewrite Hidx. unfold transpose. rewrite get_build by lia.
        rewrite Heq by exact Hd. ring.
  - intros X W1 eps Hm Hrun.
    split; [intros W2; rewrite RBF_2D_predict_hidden, Hrun; reflexivity|].
    unfold hidden_matrix, sample_distances in Hrun.
    destruct (broadcast_dim (ncols X) (ncols W1)) as [D|] eqn:HD; [|discriminate].
    cbn [rbind] in Hrun. destruct (as_float eps) as [e|]; [|discriminate].
    cbn [rbind] in Hrun. apply Ok_inj in Hrun. subst Hm.
    unfold column_stack_ones, map_nd. rewrite !nrows_build, !ncols_build.
    split; [reflexivity|]. split; [reflexivity|].
    intros i j Hi Hj. rewrite !get_build by lia.
    split; [reflexivity|]. split.
    + match goal with
      | |- 0 <= exp (- ?x) <= 1 =>
          pose proof (exp_neg_range x ltac:(apply pow2_ge_0)); lra
      end.
    + intros Hcols Heq. rewrite <- Hcols, broadcast_dim_same in HD. injection HD as <-.
      rewrite (sum_upto_zero (ncols W1)).
      * rewrite sqrt_0. replace (- (0 * e) ^ 2) with 0 by ring. apply exp_0.
      * intros d Hd. rewrite <- Hcols.
        assert (Hidx : (if (ncols W1 =? 1)%nat then 0%nat else d) = d).
        { destruct (Nat.eqb_spec (ncols W1) 1); lia. }
        rewrite Hidx. rewrite Heq by lia. ring.
Qed.

Lemma RBF_hidden_activations_range_witness :
  (exists rA2 A1,
     RBF_1D.RBF_forward X_example X_example (np_ones 1 3) (VFloat (1/10)) = Ok (rA2, A1) /\
     nrows A1 = Datatypes.S (nrows X_example) /\ ncols A1 = nrows X_example /\
     forall i j, (i < nrows X_example)%nat -> (j < nrows X_example)%nat ->
       get A1 0%nat j = 1 /\
       0 <= get A1 (Datatypes.S i) j <= 1 /\
       (ncols X_example = ncols X_example ->
        (forall d, (d < ncols X_example)%nat -> get X_example j d = get X_example i d) ->
        get A1 (Datatypes.S i) j = 1)) /\
  (exists Hm,
     hidden_matrix X_example X_example (VFloat (1/10)) = Ok Hm /\
     (forall W2, RBF_2D.RBF_predict X_example X_example W2 (VFloat (1/10)) = matmul Hm W2) /\
     nrows Hm = nrows X_example /\ ncols Hm = Datatypes.S (nrows X_example) /\
     forall i j, (i < nrows X_example)%nat -> (j < nrows X_example)%nat ->
       get Hm i 0%nat = 1 /\
       0 <= get Hm i (Datatypes.S j) <= 1 /\
       (ncols X_example = ncols X_example ->
        (forall d, (d < ncols X_example)%nat -> get X_example i d = get X_example j d) ->
        get Hm i (Datatypes.S j) = 1)).
Proof.
  split.
  - eexists _, _. split; [reflexivity|].
    eapply (proj1 RBF_hidden_activations_range X_example X_example (np_ones 1 3)
              (VFloat (1/10))).
    reflexivity.
  - eexists. split; [reflexivity|].
    apply (proj2 RBF_hidden_activations_range X_example X_example (VFloat (1/10))).
    reflexivity.
Defined.

(** ** The report of the iterations *)

Lemma range2_bounds a b i : i ∈ range2 a b -> (a <= i < b)%Z.
Proof.
  unfold range2. intros Hi. apply list_elem_of_fmap in Hi as (k & -> & Hk).
  apply list_elem_of_In, in_seq in Hk. lia.
Qed.

Lemma range2_empty a b : (b <= a)%Z -> range2 a b = [].
Proof. intros Hab. unfold range2. replace (Z.to_nat (b - a)) with 0%nat by lia. reflexivity. Qed.

Lemma range2_app a b c : (a <= b <= c)%Z -> range2 a b ++ range2 b c = range2 a c.
Proof.
  intros Habc. unfold range2.
  replace (Z.to_nat (c - a)) with (Z.to_nat (b - a) + Z.to_nat (c - b))%nat by lia.
  rewrite seq_app, map_app. f_equal.
  rewrite Nat.add_0_l.
  rewrite <- (Nat.add_0_r (Z.to_nat (b - a))) at 1.
  rewrite <- fmap_add_seq. change fmap with (@map nat nat). rewrite map_map.
  apply map_ext. intros k. lia.
Qed.

Lemma index1_Ok v i :
  (0 <= i < Z.of_nat (length v))%Z -> index1 v i = Ok (nth (Z.to_nat i) v 0).
Proof.
  intros Hi. unfold index1.
  destruct (Z.ltb_spec i 0); [lia|].
  destruct (Z.leb_spec 0 i); [|lia].
  destruct (Z.ltb_spec i (Z.of_nat (length v))); [reflexivity | lia].
Qed.

Lemma print_rows_Ok x_his pol_his idx :
  (length x_his <= length pol_his)%nat ->
  (forall i, i ∈ idx -> (0 <= i < Z.of_nat (length x_his))%Z) ->
  print_rows x_his pol_his idx = (rows_of x_his pol_his idx, Ok tt).
Proof.
  intros Hlen. induction idx as [|i idx IH]; intros Hidx; [reflexivity|].
  cbn [print_rows rows_of map].
  assert (Hi : (0 <= i < Z.of_nat (length x_his))%Z) by (apply Hidx; left).
  rewrite (index1_Ok x_his) by exact Hi.
  rewrite (index1_Ok pol_his) by lia.
  rewrite IH by (intros j Hj; apply Hidx; right; exact Hj). reflexivity.
Qed.

(** X16. The report begins with its header and shows no iteration twice. A
    history of at most [2n + 1] entries is shown in full, every
    iteration once and in order, without an ellipsis; a longer one shows
    the first [n + 1] iterations, an ellipsis and the last [n]. With a
    negative [n] nothing but the ellipsis follows the header. *)
Theorem displayIterations_rows :
  forall x_his pol_his (n : Z) x0,
    (length x_his <= length pol_his)%nat ->
    let L := Z.of_nat (length x_his) in
    ((0 <= n)%Z -> (L <= 2 * n + 1)%Z ->
     displayIterations x_his pol_his n x0
     = (Header n x0 :: rows_of x_his pol_his (range2 0 L), Ok tt)) /\
    ((0 <= n)%Z -> (2 * n + 1 < L)%Z ->
     displayIterations x_his pol_his n x0
     = (Header n x0 :: rows_of x_his pol_his (range2 0 (n + 1)) ++ [Ellipsis]
                    ++ rows_of x_his pol_his (range2 (L - n) L), Ok tt)) /\
    ((n < 0)%Z ->
     displayIterations x_his pol_his n x0 = ([Header n x0; Ellipsis], Ok tt)).
Proof.
  intros x_his pol_his n x0 Hlen L.
  assert (Hrows : forall a b, (0 <= a)%Z -> (b <= L)%Z ->
            print_rows x_his pol_his (range2 a b)
            = (rows_of x_his pol_his (range2 a b), Ok tt)).
  { intros a b Ha Hb. apply print_rows_Ok; [exact Hlen|].
    intros i Hi. apply range2_bounds in Hi. unfold L in Hb. lia. }
  unfold displayIterations. fold L.
  rewrite !Hrows by lia.
  split; [|split].
  - intros Hn HL. destruct (Z.ltb_spec (2 * n + 1) L); [lia|].
    cbn [app]. unfold rows_of. rewrite <- map_app. do 3 f_equal.
    destruct (Z.le_gt_cases L (n + 1)) as [Hshort|Hlong].
    + rewrite Z.min_r by lia. rewrite (range2_empty (Z.max _ _)) by lia.
      apply app_nil_r.
    + rewrite Z.min_l, Z.max_l by lia. apply range2_app. lia.
  - intros Hn HL. destruct (Z.ltb_spec (2 * n + 1) L); [|lia].
    rewrite Z.min_l, Z.max_r by lia. reflexivity.
  - intros Hn. destruct (Z.ltb_spec (2 * n + 1) L); [|lia].
    rewrite !range2_empty by lia. reflexivity.
Qed.

Lemma displayIterations_rows_witness :
  displayIterations [10; 8] [100; 64] 1 10
  = (Header 1 10 :: rows_of [10; 8] [100; 64] (range2 0 (Z.of_nat 2)), Ok tt) /\
  displayIterations [10; 8; 6; 5] [100; 64; 36; 25] 1 10
  = (Header 1 10 :: rows_of [10; 8; 6; 5] [100; 64; 36; 25] (range2 0 (1 + 1))
                 ++ [Ellipsis]
                 ++ rows_of [10; 8; 6; 5] [100; 64; 36; 25]
                      (range2 (Z.of_nat 4 - 1) (Z.of_nat 4)), Ok tt) /\
  displayIterations [10; 8] [100; 64] (-1) 10 = ([Header (-1) 10; Ellipsis], Ok tt).
Proof.
  split; [|split].
  - apply (proj1 (displayIterations_rows [10; 8] [100; 64] 1%Z 10 ltac:(cbn; lia)));
      cbn; lia.
  - apply (proj1 (proj2 (displayIterations_rows [10; 8; 6; 5] [100; 64; 36; 25] 1%Z 10
                           ltac:(cbn; lia)))); cbn; lia.
  - apply (proj2 (proj2 (displayIterations_rows [10; 8] [100; 64] (-1)%Z 10
                           ltac:(cbn; lia)))). lia.
Defined.

(** ** The polynomial and its gradient *)

Lemma fold_horner (p : list R) (x acc : R) :
  fold_left (fun y pv => y * x + pv) p acc
  = acc * x ^ length p + fold_left (fun y pv => y * x + pv) p 0.
Proof.
  revert acc. induction p as [|a p IH]; intros acc.
  - cbn. lra.
  - cbn [fold_left length]. rewrite IH, (IH (0 * x + a)). cbn [pow]. ring.
Qed.

Lemma polyval_cons a p x :
  Sixtic.polyval (a :: p) x = a * x ^ length p + Sixtic.polyval p x.
Proof.
  unfold Sixtic.polyval. cbn [fold_left]. rewrite fold_horner. ring.
Qed.

Lemma polyval_trim c x :
  Sixtic.polyval (Sixtic.trim_zeros_front c) x = Sixtic.polyval c x.
Proof.
  induction c as [|a c IH]; [reflexivity|].
  cbn [Sixtic.trim_zeros_front]. destruct (Req_dec_T a 0) as [->|Ha]; [|reflexivity].
  rewrite IH, polyval_cons. ring.
Qed.

Lemma polyval_poly1d c x : Sixtic.polyval (Sixtic.poly1d c) x = Sixtic.polyval c x.
Proof.
  unfold Sixtic.poly1d. rewrite <- (polyval_trim c).
  destruct (Sixtic.trim_zeros_front c); [|reflexivity].
  unfold Sixtic.polyval. cbn. lra.
Qed.

Lemma polyder_cons a b p :
  Sixtic.polyder (a :: b :: p)
  = a * INR (Datatypes.S (length p)) :: Sixtic.polyder (b :: p).
Proof.
  unfold Sixtic.polyder. cbn [length Nat.sub].
  rewrite !Nat.sub_0_r.
  change (removelast (a :: b :: p)) with (a :: removelast (b :: p)).
  rewrite (seq_S (length p) 1), rev_app_distr. cbn [rev app map zip_with].
  do 2 f_equal.
Qed.

Lemma length_polyder p : length (Sixtic.polyder p) = (length p - 1)%nat.
Proof.
  induction p as [|a [|b p] IH]; [reflexivity | reflexivity |].
  rewrite polyder_cons. cbn [length] in *. rewrite IH. lia.
Qed.

Lemma derivable_pt_lim_ext f g x l :
  (forall y, f y = g y) -> derivable_pt_lim f x l -> derivable_pt_lim g x l.
Proof.
  intros Hfg Hf eps Heps. destruct (Hf eps Heps) as [delta Hdelta].
  exists delta. intros h Hh0 Hh. rewrite <- !Hfg. apply Hdelta; assumption.
Qed.

Lemma polyval_polyder_derivative p x :
  derivable_pt_lim (Sixtic.polyval p) x (Sixtic.polyval (Sixtic.polyder p) x).
Proof.
  induction p as [|a [|b p] IH].
  - apply (derivable_pt_lim_ext (fun _ => 0)); [reflexivity|].
    replace (Sixtic.polyval (Sixtic.polyder []) x) with 0 by reflexivity.
    apply derivable_pt_lim_const.
  - apply (derivable_pt_lim_ext (fun _ => a)).
    { intros y. rewrite polyval_cons. unfold Sixtic.polyval. cbn. ring. }
    replace (Sixtic.polyval (Sixtic.polyder [a]) x) with 0 by reflexivity.
    apply derivable_pt_lim_const.
  - set (n := Datatypes.S (length p)).
    apply (derivable_pt_lim_ext
             (fun y => a * (fun z => z ^ n) y + Sixtic.polyval (b :: p) y)%R).
    { intros y. rewrite (polyval_cons a). reflexivity. }
    rewrite polyder_cons, polyval_cons, length_polyder. cbn [length Nat.sub].
    rewrite Nat.sub_0_r. fold n.
    replace (a * INR n * x ^ length p) with (a * (INR n * x ^ pred n))
      by (unfold n; cbn [pred]; ring).
    apply (derivable_pt_lim_plus (fun y => a * (fun z => z ^ n) y)%R).
    + apply (derivable_pt_lim_scal (fun z => z ^ n)), derivable_pt_lim_pow.
    + exact IH.
Qed.

(** X17. [p.deriv()] is the derivative of [p]: for every list of
    coefficients, the value of the polynomial [np.poly1d(c).deriv()] at
    [x] is the derivative at [x] of the function that [np.poly1d(c)]
    evaluates. *)
Theorem poly1d_deriv_is_derivative :
  forall c x,
    derivable_pt_lim (Sixtic.polyval (Sixtic.poly1d c)) x
      (Sixtic.polyval (Sixtic.deriv (Sixtic.poly1d c)) x).
Proof.
  intros c x. unfold Sixtic.deriv. rewrite polyval_poly1d.
  apply polyval_polyder_derivative.
Qed.

(** ** The synthetic data sets *)

Lemma linspace_Ok a b (num : Z) :
  (0 <= num)%Z ->
  linspace a b num = Ok (map (grid a b (Z.to_nat num)) (seq 0 (Z.to_nat num))).
Proof.
  intros Hnum. unfold linspace. destruct (Z.ltb_spec num 0); [lia|].
  f_equal. set (n := Z.to_nat num). apply map_ext_in. intros i Hi.
  apply in_seq in Hi. unfold grid.
  destruct (Nat.ltb_spec 1 n) as [Hn|Hn]; cbn [andb].
  - assert (Hdiv : INR (n - 1) <> 0) by (apply not_0_INR; lia).
    destruct (Nat.eqb_spec i (n - 1)) as [->|Hne].
    + field. exact Hdiv.
    + destruct (Nat.ltb_spec 0 (n - 1)); [|lia].
      destruct (Req_dec_T ((b - a) / INR (n - 1)) 0); field; exact Hdiv.
  - destruct (Nat.ltb_spec 0 (n - 1)); [lia|].
    assert (i = 0%nat) as -> by lia. cbn [INR]. ring.
Qed.

Lemma grid_range a b n i : a <= b -> (i < n)%nat -> a <= grid a b n i <= b.
Proof.
  intros Hab Hi. unfold grid.
  destruct (Nat.eq_dec n 1%nat) as [->|Hn].
  - assert (i = 0%nat) as -> by lia. cbn [INR]. lra.
  - assert (Hdiv : 0 < INR (n - 1)) by (apply lt_0_INR; lia).
    assert (Hi' : 0 <= INR i <= INR (n - 1)).
    { split; [apply pos_INR | apply le_INR; lia]. }
    assert (Ht : 0 <= INR i / INR (n - 1) <= 1).
    { split.
      - apply Rmult_le_pos; [lra | left; apply Rinv_0_lt_compat, Hdiv].
      - apply (Rmult_le_reg_r (INR (n - 1))); [exact Hdiv|].
        unfold Rdiv. rewrite Rmult_assoc, Rinv_l by lra. lra. }
    replace (INR i * ((b - a) / INR (n - 1))) with ((b - a) * (INR i / INR (n - 1)))
      by (field; lra).
    split; nra.
Qed.

Lemma sinc_bound v : -1 <= sinc v <= 1.
Proof.
  unfold sinc. destruct (Req_dec_T v 0) as [_|Hv]; [lra|].
  assert (Habs : forall x, 0 < x -> - x <= sin x <= x).
  { intros x Hx. split; [|left; apply sin_lt_x, Hx].
    destruct (Rlt_le_dec x 1) as [Hx1|Hx1].
    - assert (HPI : 1 < PI) by (pose proof PI_RGT_0; pose proof PI2_1; lra).
      pose proof (sin_gt_0 x Hx ltac:(lra)). lra.
    - pose proof (SIN_bound x). lra. }
  destruct (Rdichotomy v 0 Hv) as [Hneg|Hpos].
  - destruct (Habs (- v) ltac:(lra)) as [H1 H2]. rewrite sin_neg in H1, H2.
    assert (Hinv : / v < 0) by (apply Rinv_lt_0_compat, Hneg).
    unfold Rdiv. split.
    + apply (Rmult_le_reg_r (- v)); [lra|].
      replace (sin v * / v * - v) with (- sin v) by (field; lra). lra.
    + apply (Rmult_le_reg_r (- v)); [lra|].
      replace (sin v * / v * - v) with (- sin v) by (field; lra). lra.
  - destruct (Habs v Hpos) as [H1 H2]. unfold Rdiv. split.
    + apply (Rmult_le_reg_r v); [lra|].
      replace (sin v * / v * v) with (sin v) by (field; lra). lra.
    + apply (Rmult_le_reg_r v); [lra|].
      replace (sin v * / v * v) with (sin v) by (field; lra). lra.
Qed.

Lemma int_sqrt_Ok (N : Z) : (0 <= N)%Z -> int_sqrt N = Ok (Z.sqrt N).
Proof. intros HN. unfold int_sqrt. destruct (Z.ltb_spec N 0); [lia | reflexivity]. Qed.

Lemma sinc2D_gen_run (N : Z) :
  (0 <= N)%Z ->
  let side := Z.to_nat (Z.sqrt N) in
  let xs := map (grid (-5) 5 side) (seq 0 side) in
  let XX1 := build side side (fun _ j => nth j xs 0) in
  let XX2 := build side side (fun i _ => nth i xs 0) in
  let YY := build side side (fun i j =>
              10 * get (safe_sinc_val XX1) i j * get (safe_sinc_val XX2) i j) in
  sinc2D_gen N
  = Ok (build (side * side) 2
          (fun r c => match c with
                      | O => nth r (ravel XX1) 0
                      | _ => nth r (ravel XX2) 0
                      end),
        as_column (ravel YY), XX1, XX2, YY).
Proof.
  intros HN side xs XX1 XX2 YY. unfold sinc2D_gen.
  rewrite int_sqrt_Ok by exact HN. cbn [rbind].
  rewrite linspace_Ok by apply Z.sqrt_nonneg. cbn [rbind].
  fold side. fold xs. unfold meshgrid.
  assert (Hlen : length xs = side) by (unfold xs; rewrite length_map, length_seq; reflexivity).
  rewrite Hlen. fold XX1 XX2.
  rewrite broadcast_same by reflexivity. cbn [rbind].
  assert (HYY : build (nrows (map_nd (fun v => 10 * v) (safe_sinc_val XX1)))
                  (ncols (map_nd (fun v => 10 * v) (safe_sinc_val XX1)))
                  (fun i j => get (map_nd (fun v => 10 * v) (safe_sinc_val XX1)) i j
                              * get (safe_sinc_val XX2) i j) = YY).
  { unfold YY, map_nd at 1 2. rewrite !nrows_build, !ncols_build.
    unfold safe_sinc_val at 1 2. unfold map_nd at 1 2. rewrite !nrows_build, !ncols_build.
    unfold XX1 at 1 2. rewrite !nrows_build, !ncols_build.
    apply build_ext. intros i j Hi Hj.
    unfold map_nd at 1. rewrite get_build; [reflexivity | |];
      unfold safe_sinc_val, map_nd; rewrite ?nrows_build, ?ncols_build;
      unfold XX1; rewrite ?nrows_build, ?ncols_build; lia. }
  rewrite HYY.
  unfold hstack, as_column. rewrite !nrows_build, !ncols_build, !length_ravel.
  unfold XX1 at 1 2, XX2 at 1. rewrite !nrows_build, !ncols_build.
  rewrite Nat.eqb_refl. cbn [rbind]. do 5 f_equal.
  apply build_ext. intros r c Hr Hc.
  destruct c as [|[|c]]; [| |lia].
  - cbn [Nat.ltb Nat.leb]. rewrite get_build by (rewrite ?length_ravel; cbn; lia).
    reflexivity.
  - cbn [Nat.ltb Nat.leb Nat.sub]. rewrite get_build by (rewrite ?length_ravel; cbn; lia).
    reflexivity.
Qed.

(** X19. The 2-D sinc data set is a square grid: [floor(sqrt(Npatterns))]
    points a side, so [floor(sqrt(Npatterns))^2] rows, which is no more
    than [Npatterns]; the rows are in row-major order of the grid, the
    first feature running fastest, and the target of a row is
    [10 sinc(x1) sinc(x2)]. Inputs lie in [-5, 5], targets in [-10, 10].
    A negative [Npatterns] is refused. *)
Theorem sinc2D_gen_grid :
  (forall N : Z, (N < 0)%Z ->
     sinc2D_gen N = Raise (ValueError "cannot convert float NaN to integer")) /\
  (forall N : Z, (0 <= N)%Z ->
     let side := Z.to_nat (Z.sqrt N) in
     exists X y XX1 XX2 YY,
       sinc2D_gen N = Ok (X, y, XX1, XX2, YY) /\
       nrows X = (side * side)%nat /\ ncols X = 2%nat /\
       nrows y = (side * side)%nat /\ ncols y = 1%nat /\
       (side * side <= Z.to_nat N)%nat /\
       forall i j, (i < side)%nat -> (j < side)%nat ->
         let r := (i * side + j)%nat in
         get X r 0%nat = grid (-5) 5 side j /\
         get X r 1%nat = grid (-5) 5 side i /\
         get y r 0%nat = 10 * sinc (get X r 0%nat) * sinc (get X r 1%nat) /\
         get YY i j = get y r 0%nat /\
         -5 <= get X r 0%nat <= 5 /\ -5 <= get X r 1%nat <= 5 /\
         -10 <= get y r 0%nat <= 10).
Proof.
  split.
  - intros N HN. unfold sinc2D_gen, int_sqrt.
    destruct (Z.ltb_spec N 0); [reflexivity | lia].
  - intros N HN side.
    pose proof (sinc2D_gen_run N HN) as Hrun. cbv zeta in Hrun. fold side in Hrun.
    set (xs := map (grid (-5) 5 side) (seq 0 side)) in *.
    set (XX1 := build side side (fun _ j => nth j xs 0)) in *.
    set (XX2 := build side side (fun i _ => nth i xs 0)) in *.
    set (YY := build side side (fun i j =>
                 10 * get (safe_sinc_val XX1) i j * get (safe_sinc_val XX2) i j)) in *.
    eexists _, _, XX1, XX2, YY. split; [exact Hrun|].
    split; [apply nrows_build|]. split; [apply ncols_build|].
    split.
    { unfold as_column. rewrite nrows_build, length_ravel.
      unfold YY. rewrite nrows_build, ncols_build. reflexivity. }
    split; [reflexivity|]. split.
    { pose proof (Z.sqrt_spec N HN) as [Hlo _]. unfold side. nia. }
    intros i j Hi Hj. cbv zeta. set (r := (i * side + j)%nat).
    assert (Hr : (r < side * side)%nat) by (unfold r; nia).
    assert (HX0 : get (build (side * side) 2
                         (fun r c => match c with
                                     | O => nth r (ravel XX1) 0
                                     | _ => nth r (ravel XX2) 0
                                     end)) r 0%nat = grid (-5) 5 side j).
    { rewrite get_build by lia. unfold r.
      replace (i * side + j)%nat with (i * ncols XX1 + j)%nat by reflexivity.
      rewrite nth_ravel by (unfold XX1; rewrite ?nrows_build, ?ncols_build; lia).
      unfold XX1. rewrite get_build by lia. unfold xs. apply nth_map_seq, Hj. }
    assert (HX1 : get (build (side * side) 2
                         (fun r c => match c with
                                     | O => nth r (ravel XX1) 0
                                     | _ => nth r (ravel XX2) 0
                                     end)) r 1%nat = grid (-5) 5 side i).
    { rewrite get_build by lia. unfold r.
      replace (i * side + j)%nat with (i * ncols XX2 + j)%nat by reflexivity.
      rewrite nth_ravel by (unfold XX2; rewrite ?nrows_build, ?ncols_build; lia).
      unfold XX2. rewrite get_build by lia. unfold xs. apply nth_map_seq, Hi. }
    assert (Hy : get (build (length (ravel YY)) 1 (fun i _ => nth i (ravel YY) 0)) r 0%nat
                 = 10 * sinc (grid (-5) 5 side j) * sinc (grid (-5) 5 side i)).
    { rewrite get_build by (rewrite ?length_ravel; unfold YY;
                            rewrite ?nrows_build, ?ncols_build; lia).
      unfold r. replace (i * side + j)%nat with (i * ncols YY + j)%nat by reflexivity.
      rewrite nth_ravel by (unfold YY; rewrite ?nrows_build, ?ncols_build; lia).
      unfold YY. rewrite get_build by lia.
      unfold safe_sinc_val, map_nd. unfold XX1 at 1 2, XX2 at 1 2.
      rewrite !nrows_build, !ncols_build. rewrite !get_build by lia.
      unfold XX1, XX2. rewrite !get_build by lia.
      unfold xs. rewrite !nth_map_seq by lia. reflexivity. }
    assert (HYY : get YY i j = 10 * sinc (grid (-5) 5 side j) * sinc (grid (-5) 5 side i)).
    { unfold YY. rewrite get_build by lia.
      unfold safe_sinc_val, map_nd. unfold XX1 at 1 2, XX2 at 1 2.
      rewrite !nrows_build, !ncols_build. rewrite !get_build by lia.
      unfold XX1, XX2. rewrite !get_build by lia.
      unfold xs. rewrite !nth_map_seq by lia. reflexivity. }
    rewrite HX0, HX1. unfold as_column. rewrite Hy, HYY.
    pose proof (grid_range (-5) 5 side i ltac:(lra) Hi).
    pose proof (grid_range (-5) 5 side j ltac:(lra) Hj).
    pose proof (sinc_bound (grid (-5) 5 side i)).
    pose proof (sinc_bound (grid (-5) 5 side j)).
    repeat split; try reflexivity; try lra; nra.
Qed.

Lemma sinc2D_gen_grid_witness :
  sinc2D_gen (-1) = Raise (ValueError "cannot convert float NaN to integer") /\
  exists X y XX1 XX2 YY,
    sinc2D_gen 5 = Ok (X, y, XX1, XX2, YY) /\
    nrows X = (Z.to_nat (Z.sqrt 5) * Z.to_nat (Z.sqrt 5))%nat /\ ncols X = 2%nat /\
    nrows y = (Z.to_nat (Z.sqrt 5) * Z.to_nat (Z.sqrt 5))%nat /\ ncols y = 1%nat /\
    (Z.to_nat (Z.sqrt 5) * Z.to_nat (Z.sqrt 5) <= Z.to_nat 5)%nat /\
    forall i j, (i < Z.to_nat (Z.sqrt 5))%nat -> (j < Z.to_nat (Z.sqrt 5))%nat ->
      let r := (i * Z.to_nat (Z.sqrt 5) + j)%nat in
      get X r 0%nat = grid (-5) 5 (Z.to_nat (Z.sqrt 5)) j /\
      get X r 1%nat = grid (-5) 5 (Z.to_nat (Z.sqrt 5)) i /\
      get y r 0%nat = 10 * sinc (get X r 0%nat) * sinc (get X r 1%nat) /\
      get YY i j = get y r 0%nat /\
      -5 <= get X r 0%nat <= 5 /\ -5 <= get X r 1%nat <= 5 /\
      -10 <= get y r 0%nat <= 10.
Proof.
  split.
  - apply (proj1 sinc2D_gen_grid (-1)%Z). lia.
  - apply (proj2 sinc2D_gen_grid 5%Z). lia.
Defined.

Lemma mog1D_gen_run (N : Z) :
  (0 <= N)%Z ->
  let n := Z.to_nat N in
  let xs := map (grid (-10) 10 n) (seq 0 n) in
  mog1D_gen N
  = Ok (as_column xs,
        build n 1 (fun i _ =>
          3 * exp (- (((nth i xs 0 - -8) * (3/10)) ^ 2))
          + -5 * exp (- (((nth i xs 0 - -1) * (3/10)) ^ 2))
          + 9 * exp (- (((nth i xs 0 - 7) * (3/10)) ^ 2)))).
Proof.
  intros HN n xs. unfold mog1D_gen.
  rewrite linspace_Ok by exact HN. cbn [rbind]. fold n. fold xs.
  assert (Hlen : length xs = n) by (unfold xs; rewrite length_map, length_seq; reflexivity).
  cbv beta iota.
  rewrite broadcast_same by reflexivity. cbn [rbind].
  rewrite broadcast_same by reflexivity. cbn [rbind].
  unfold map_nd, as_column. rewrite !nrows_build, !ncols_build, Hlen.
  do 2 f_equal. apply build_ext. intros i j Hi Hj.
  rewrite !get_build by lia. reflexivity.
Qed.

(** X20. The 1-D data set: [Npatterns] inputs evenly spaced over [-10, 10],
    the first at -10 and, if there are two or more, the last at 10, each
    with a target strictly between -5 and 12; both arrays are columns. A
    negative [Npatterns] is refused. *)
Theorem mog1D_gen_samples :
  (forall N : Z, (N < 0)%Z ->
     mog1D_gen N = Raise (ValueError "Number of samples must be non-negative.")) /\
  (forall N : Z, (0 <= N)%Z ->
     let n := Z.to_nat N in
     exists X y,
       mog1D_gen N = Ok (X, y) /\
       nrows X = n /\ ncols X = 1%nat /\ nrows y = n /\ ncols y = 1%nat /\
       ((1 <= n)%nat -> get X 0%nat 0%nat = -10) /\
       ((2 <= n)%nat -> get X (n - 1)%nat 0%nat = 10) /\
       forall i, (i < n)%nat ->
         get X i 0%nat = grid (-10) 10 n i /\
         -10 <= get X i 0%nat <= 10 /\ -5 < get y i 0%nat < 12).
Proof.
  split.
  - intros N HN. unfold mog1D_gen, linspace.
    destruct (Z.ltb_spec N 0); [reflexivity | lia].
  - intros N HN n. pose proof (mog1D_gen_run N HN) as Hrun. cbv zeta in Hrun.
    fold n in Hrun. set (xs := map (grid (-10) 10 n) (seq 0 n)) in *.
    assert (Hlen : length xs = n) by (unfold xs; rewrite length_map, length_seq; reflexivity).
    assert (HX : forall i, (i < n)%nat -> get (as_column xs) i 0%nat = grid (-10) 10 n i).
    { intros i Hi. unfold as_column. rewrite get_build by lia.
      unfold xs. apply nth_map_seq, Hi. }
    eexists _, _. split; [exact Hrun|].
    unfold as_column at 1 2. rewrite !nrows_build, !ncols_build.
    split; [exact Hlen|]. split; [reflexivity|].
    split; [reflexivity|]. split; [reflexivity|].
    split; [|split].
    + intros Hn. rewrite HX by lia. unfold grid. cbn [INR]. lra.
    + intros Hn. rewrite HX by lia. unfold grid.
      assert (Hdiv : INR (n - 1) <> 0) by (apply not_0_INR; lia).
      field. exact Hdiv.
    + intros i Hi. rewrite HX by exact Hi.
      split; [reflexivity|]. split; [apply grid_range; [lra | exact Hi]|].
      rewrite get_build by lia.
      pose proof (exp_neg_range (((nth i xs 0 - -8) * (3 / 10)) ^ 2) (pow2_ge_0 _)).
      pose proof (exp_neg_range (((nth i xs 0 - -1) * (3 / 10)) ^ 2) (pow2_ge_0 _)).
      pose proof (exp_neg_range (((nth i xs 0 - 7) * (3 / 10)) ^ 2) (pow2_ge_0 _)).
      lra.
Qed.

Lemma mog1D_gen_samples_witness :
  mog1D_gen (-1) = Raise (ValueError "Number of samples must be non-negative.") /\
  exists X y,
    mog1D_gen 3 = Ok (X, y) /\
    nrows X = Z.to_nat 3 /\ ncols X = 1%nat /\ nrows y = Z.to_nat 3 /\ ncols y = 1%nat /\
    ((1 <= Z.to_nat 3)%nat -> get X 0%nat 0%nat = -10) /\
    ((2 <= Z.to_nat 3)%nat -> get X (Z.to_nat 3 - 1)%nat 0%nat = 10) /\
    forall i, (i < Z.to_nat 3)%nat ->
      get X i 0%nat = grid (-10) 10 (Z.to_nat 3) i /\
      -10 <= get X i 0%nat <= 10 /\ -5 < get y i 0%nat < 12.
Proof.
  split.
  - apply (proj1 mog1D_gen_samples (-1)%Z). lia.
  - apply (proj2 mog1D_gen_samples 3%Z). lia.
Defined.

Lemma mog2D_gen_run (N : Z) :
  (0 <= N)%Z ->
  let n := Z.to_nat (Z.sqrt N) in
  let xs := map (grid (-10) 10 n) (seq 0 n) in
  let XX1 := build n n (fun _ j => nth j xs 0) in
  let XX2 := build n n (fun i _ => nth i xs 0) in
  let kernel ampl centre i j :=
    ampl * exp (- (((get XX1 i j - centre) * (3/10)) ^ 2))
         * exp (- (((get XX2 i j - centre) * (3/10)) ^ 2)) in
  let YY := build n n (fun i j =>
              kernel 3 (-8) i j + kernel (-5) (-1) i j + kernel 9 7 i j) in
  mog2D_gen N
  = Ok (build (n * n) 2
          (fun r c => match c with
                      | O => nth r (ravel XX1) 0
                      | _ => nth r (ravel XX2) 0
                      end),
        ravel YY, XX1, XX2, YY).
Proof.
  intros HN n xs XX1 XX2 kernel YY. unfold mog2D_gen.
  rewrite int_sqrt_Ok by exact HN. cbn [rbind].
  rewrite linspace_Ok by apply Z.sqrt_nonneg. cbn [rbind].
  fold n. fold xs. unfold meshgrid.
  assert (Hlen : length xs = n) by (unfold xs; rewrite length_map, length_seq; reflexivity).
  rewrite Hlen. fold XX1 XX2. cbv beta iota.
  assert (Hk : forall ampl centre,
            broadcast Rmult
              (map_nd (fun x => ampl * exp (- (((x - centre) * (3/10)) ^ 2))) XX1)
              (map_nd (fun x => exp (- (((x - centre) * (3/10)) ^ 2))) XX2)
            = Ok (build n n (kernel ampl centre))).
  { intros ampl centre. rewrite broadcast_same by reflexivity. f_equal.
    unfold map_nd. rewrite !nrows_build, !ncols_build.
    unfold XX1 at 1 2, XX2 at 1 2. rewrite !nrows_build, !ncols_build.
    apply build_ext. intros i j Hi Hj.
    rewrite !get_build by (unfold XX1, XX2; rewrite ?nrows_build, ?ncols_build; lia).
    reflexivity. }
  rewrite !Hk. cbn [rbind].
  rewrite broadcast_same by reflexivity. cbn [rbind].
  rewrite broadcast_same by reflexivity. cbn [rbind].
  rewrite !nrows_build, !ncols_build.
  assert (HYY : build n n (fun i j =>
                  get (build n n (fun i0 j0 =>
                         get (build n n (kernel 3 (-8))) i0 j0
                         + get (build n n (kernel (-5) (-1))) i0 j0)) i j
                  + get (build n n (kernel 9 7)) i j) = YY).
  { unfold YY. apply build_ext. intros i j Hi Hj. rewrite !get_build by lia. reflexivity. }
  rewrite HYY.
  unfold column_stack2. rewrite !length_ravel.
  unfold XX1 at 1 2 3, XX2 at 1 2. rewrite !nrows_build, !ncols_build.
  rewrite Nat.eqb_refl. cbn [rbind]. reflexivity.
Qed.

Lemma nth_ravel_div A r :
  (r < nrows A * ncols A)%nat ->
  nth r (ravel A) 0 = get A (r / ncols A) (r mod ncols A).
Proof.
  intros Hr. assert (Hc : ncols A <> 0%nat) by lia.
  rewrite (Nat.div_mod r (ncols A) Hc) at 1.
  rewrite (Nat.mul_comm (ncols A)). apply nth_ravel.
  - apply Nat.Div0.div_lt_upper_bound. lia.
  - apply Nat.mod_upper_bound, Hc.
Qed.

(** X21. The 2-D data set: [floor(sqrt(Npatterns))^2] inputs of two
    features on a square grid over [-10, 10], the first feature running
    fastest, with the targets as a 1-D array of the same length, each
    strictly between -5 and 12; a negative [Npatterns] is refused. The
    trainer of the notebook takes this data set as it is: under the
    policy [random] with at most as many centres as inputs, it draws its
    centres, builds the hidden matrix, and returns the product of the
    pseudo-inverse with the column of the targets; only a failure of
    [pinv] itself can end the run. *)
Theorem mog2D_gen_data_set :
  (forall N : Z, (N < 0)%Z ->
     mog2D_gen N = Raise (ValueError "cannot convert float NaN to integer")) /\
  (forall N : Z, (0 <= N)%Z ->
     let n := Z.to_nat (Z.sqrt N) in
     exists X y XX1 XX2 YY,
       mog2D_gen N = Ok (X, y, XX1, XX2, YY) /\
       nrows X = (n * n)%nat /\ ncols X = 2%nat /\ length y = (n * n)%nat /\
       forall r, (r < n * n)%nat ->
         get X r 0%nat = grid (-10) 10 n (r mod n) /\
         get X r 1%nat = grid (-10) 10 n (r / n) /\
         -10 <= get X r 0%nat <= 10 /\ -10 <= get X r 1%nat <= 10 /\
         -5 < nth r y 0 < 12) /\
  (forall (E : External) (N : Z) X y XX1 XX2 YY lX ly h m g (k : Z) nf eps e,
     mog2D_gen N = Ok (X, y, XX1, XX2, YY) ->
     h !! lX = Some (Arr2 X) -> h !! ly = Some (Arr1 y) ->
     m !! "centres_generation_method" = Some (VStr "random") ->
     m !! "n_hidden" = Some (VInt k) -> m !! "n_features" = Some nf ->
     m !! "epsilon" = Some eps -> as_float eps = Ok e ->
     valid_generator g -> (0 <= k <= Z.of_nat (nrows X))%Z ->
     exists W1 H_ext,
       hidden_matrix X W1 eps = Ok H_ext /\
       match pinv H_ext with
       | Ok H_pinv =>
           exists W2,
             matmul H_pinv (as_column y) = Ok W2 /\
             RBF_2D.RBF_train_offline lX ly (mk_state h m g)
             = (Ok (W1, W2), mk_state h m (advance 1 g))
       | Raise err =>
           RBF_2D.RBF_train_offline lX ly (mk_state h m g)
           = (Raise err, mk_state h m (advance 1 g))
       end).
Proof.
  assert (Hdata : forall N : Z, (0 <= N)%Z ->
     let n := Z.to_nat (Z.sqrt N) in
     exists X y XX1 XX2 YY,
       mog2D_gen N = Ok (X, y, XX1, XX2, YY) /\
       nrows X = (n * n)%nat /\ ncols X = 2%nat /\ length y = (n * n)%nat /\
       forall r, (r < n * n)%nat ->
         get X r 0%nat = grid (-10) 10 n (r mod n) /\
         get X r 1%nat = grid (-10) 10 n (r / n) /\
         -10 <= get X r 0%nat <= 10 /\ -10 <= get X r 1%nat <= 10 /\
         -5 < nth r y 0 < 12).
  { intros N HN n. pose proof (mog2D_gen_run N HN) as Hrun. cbv zeta in Hrun.
    fold n in Hrun.
    set (xs := map (grid (-10) 10 n) (seq 0 n)) in *.
    set (A := build n n (fun _ j => nth j xs 0)) in *.
    set (B := build n n (fun i _ => nth i xs 0)) in *.
    set (YY := build n n (fun i j => _ + _ + _)) in *.
    eexists _, _, _, _, _. split; [exact Hrun|].
    rewrite nrows_build, ncols_build, length_ravel.
    split; [reflexivity|]. split; [reflexivity|].
    split; [unfold YY; rewrite nrows_build, ncols_build; reflexivity|].
    intros r Hr.
    assert (Hn : n <> 0%nat) by lia.
    assert (Hi : (r / n < n)%nat) by (apply Nat.Div0.div_lt_upper_bound; lia).
    assert (Hj : (r mod n < n)%nat) by (apply Nat.mod_upper_bound, Hn).
    assert (HrA : (r < nrows A * ncols A)%nat) by exact Hr.
    assert (HrB : (r < nrows B * ncols B)%nat) by exact Hr.
    assert (HrY : (r < nrows YY * ncols YY)%nat)
      by (unfold YY; rewrite nrows_build, ncols_build; exact Hr).
    assert (HX0 : get (build (n * n) 2
                         (fun r c => match c with
                                     | O => nth r (ravel A) 0
                                     | _ => nth r (ravel B) 0
                                     end)) r 0%nat = grid (-10) 10 n (r mod n)).
    { rewrite get_build by lia. rewrite (nth_ravel_div A r HrA).
      change (ncols A) with n. unfold A. rewrite get_build by lia.
      unfold xs. apply nth_map_seq, Hj. }
    assert (HX1 : get (build (n * n) 2
                         (fun r c => match c with
                                     | O => nth r (ravel A) 0
                                     | _ => nth r (ravel B) 0
                                     end)) r 1%nat = grid (-10) 10 n (r / n)).
    { rewrite get_build by lia. rewrite (nth_ravel_div B r HrB).
      change (ncols B) with n. unfold B. rewrite get_build by lia.
      unfold xs. apply nth_map_seq, Hi. }
    rewrite HX0, HX1.
    split; [reflexivity|]. split; [reflexivity|].
    split; [apply grid_range; [lra | exact Hj]|].
    split; [apply grid_range; [lra | exact Hi]|].
    rewrite (nth_ravel_div YY r HrY). change (ncols YY) with n.
    unfold YY. rewrite get_build by lia.
    set (x1 := get A (r / n) (r mod n)). set (x2 := get B (r / n) (r mod n)).
    pose proof (exp_neg_range (((x1 - -8) * (3 / 10)) ^ 2) (pow2_ge_0 _)) as Ha1.
    pose proof (exp_neg_range (((x2 - -8) * (3 / 10)) ^ 2) (pow2_ge_0 _)) as Ha2.
    pose proof (exp_neg_range (((x1 - -1) * (3 / 10)) ^ 2) (pow2_ge_0 _)) as Hb1.
    pose proof (exp_neg_range (((x2 - -1) * (3 / 10)) ^ 2) (pow2_ge_0 _)) as Hb2.
    pose proof (exp_neg_range (((x1 - 7) * (3 / 10)) ^ 2) (pow2_ge_0 _)) as Hc1.
    pose proof (exp_neg_range (((x2 - 7) * (3 / 10)) ^ 2) (pow2_ge_0 _)) as Hc2.
    set (a1 := exp (- ((x1 - -8) * (3 / 10)) ^ 2)) in *.
    set (a2 := exp (- ((x2 - -8) * (3 / 10)) ^ 2)) in *.
    set (b1 := exp (- ((x1 - -1) * (3 / 10)) ^ 2)) in *.
    set (b2 := exp (- ((x2 - -1) * (3 / 10)) ^ 2)) in *.
    set (c1 := exp (- ((x1 - 7) * (3 / 10)) ^ 2)) in *.
    set (c2 := exp (- ((x2 - 7) * (3 / 10)) ^ 2)) in *.
    assert (Ha : 0 < a1 * a2 <= 1) by nra.
    assert (Hb : 0 < b1 * b2 <= 1) by nra.
    assert (Hc : 0 < c1 * c2 <= 1) by nra.
    lra. }
  split; [|split; [exact Hdata|]].
  - intros N HN. unfold mog2D_gen, int_sqrt.
    destruct (Z.ltb_spec N 0); [reflexivity | lia].
  - intros E N X y XX1 XX2 YY lX ly h m g k nf eps e Hgen HX Hy Hm Hn Hnf Heps He Hg Hk.
    assert (HN : (0 <= N)%Z).
    { destruct (Z.ltb_spec N 0) as [Hneg|]; [|assumption].
      unfold mog2D_gen, int_sqrt in Hgen.
      destruct (Z.ltb_spec N 0); [discriminate | lia]. }
    destruct (Hdata N HN) as (X' & y' & A & B & YY' & Hgen' & HXr & _ & Hlen & _).
    rewrite Hgen in Hgen'. injection Hgen' as <- <- <- <- <-.
    destruct (RBF_2D_random_run lX ly h m g k nf eps e X (Arr1 y))
      as (Hmat & HHm & Hrun); try assumption.
    eexists _, Hmat. split; [exact HHm|].
    destruct (RBF_2D_hidden_outputs_inv _ _ _ _ HHm) as (_ & _ & Hr & _).
    destruct (pinv Hmat) as [Hp|err] eqn:HHp; cbn [rbind] in Hrun; [|exact Hrun].
    destruct (pinv_shape _ _ HHp) as [_ HPc].
    change (ravel_of (Arr1 y)) with y in Hrun.
    assert (Hshape : ncols Hp = nrows (as_column y)).
    { unfold as_column. rewrite nrows_build. congruence. }
    rewrite (matmul_Ok _ _ Hshape) in Hrun.
    eexists. split; [apply matmul_Ok, Hshape | exact Hrun].
Qed.

Lemma mog2D_gen_data_set_witness :
  mog2D_gen (-1) = Raise (ValueError "cannot convert float NaN to integer") /\
  (exists X y XX1 XX2 YY,
     mog2D_gen 5 = Ok (X, y, XX1, XX2, YY) /\
     nrows X = 4%nat /\ ncols X = 2%nat /\ length y = 4%nat /\
     forall r, (r < 4)%nat ->
       get X r 0%nat = grid (-10) 10 2 (r mod 2) /\
       get X r 1%nat = grid (-10) 10 2 (r / 2) /\
       -10 <= get X r 0%nat <= 10 /\ -10 <= get X r 1%nat <= 10 /\
       -5 < nth r y 0 < 12) /\
  (exists X y XX1 XX2 YY W1 H_ext,
     mog2D_gen 5 = Ok (X, y, XX1, XX2, YY) /\
     hidden_matrix X W1 (VFloat 1) = Ok H_ext /\
     match pinv H_ext with
     | Ok H_pinv =>
         exists W2,
           matmul H_pinv (as_column y) = Ok W2 /\
           RBF_2D.RBF_train_offline 0%nat 1%nat
             (mk_state [Arr2 X; Arr1 y] one_centre_model constant_generator)
           = (Ok (W1, W2),
              mk_state [Arr2 X; Arr1 y] one_centre_model (advance 1 constant_generator))
     | Raise err =>
         RBF_2D.RBF_train_offline 0%nat 1%nat
           (mk_state [Arr2 X; Arr1 y] one_centre_model constant_generator)
         = (Raise err,
            mk_state [Arr2 X; Arr1 y] one_centre_model (advance 1 constant_generator))
     end).
Proof.
  destruct mog2D_gen_data_set as (Hneg & Hdata & Htrain).
  split; [|split].
  - apply Hneg. lia.
  - apply (Hdata 5%Z). lia.
  - destruct (Hdata 5%Z ltac:(lia)) as (X & y & XX1 & XX2 & YY & Hgen & HXr & _).
    destruct (Htrain zero_solver 5%Z X y XX1 XX2 YY 0%nat 1%nat [Arr2 X; Arr1 y]
                one_centre_model constant_generator 1%Z (VInt 1) (VFloat 1) 1 Hgen)
      as (W1 & H_ext & HH & Hrun); try reflexivity.
    + exact valid_constant_generator.
    + rewrite HXr. cbn. lia.
    + exists X, y, XX1, XX2, YY, W1, H_ext. split; [exact Hgen|]. split; [exact HH|].
      exact Hrun.
Defined.

(** ** What the trainers store *)

(** X22. A training run that returns has stored in the dict what it returns:
    the weights of the perceptron under [W1] and [W2], and the centres
    and output weights of the 1-D RBF network under [W1] and [W2]. *)
Theorem trainers_store_returned_weights :
  (forall P y s W1 W2 s',
     MLP_MSELIN_train P y s = (Ok (W1, W2), s') ->
     model s' !! "W1" = Some (VArr W1) /\ model s' !! "W2" = Some (VArr W2)) /\
  (forall (E : External) X y s W1 W2 s',
     RBF_1D.RBF_train_offline X y s = (Ok (W1, W2), s') ->
     model s' !! "W1" = Some (VArr W1) /\ model s' !! "W2" = Some (VArr W2)).
Proof.
  split.
  - intros P y s W1 W2 s' Hrun. unfold MLP_MSELIN_train in Hrun.
    apply bind_inv in Hrun as ([W1i W2i] & s1 & _ & Hrun).
    apply bind_inv in Hrun as (eta & s2 & _ & Hrun).
    apply bind_inv in Hrun as (epochs & s3 & _ & Hrun).
    apply bind_inv in Hrun as (mb & s4 & _ & Hrun).
    apply bind_inv in Hrun as (u & s5 & _ & Hrun).
    apply bind_inv in Hrun as (P_ & s6 & _ & Hrun).
    apply bind_inv in Hrun as (n_epochs & s7 & _ & Hrun).
    apply bind_inv in Hrun as ([W1f W2f] & s8 & _ & Hrun).
    apply bind_inv in Hrun as (u1 & s9 & Hset1 & Hrun).
    apply bind_inv in Hrun as (u2 & s10 & Hset2 & Hrun).
    apply ret_inv in Hrun as [-> [= -> ->]].
    rewrite setitem_Ok in Hset1, Hset2.
    injection Hset1 as _ <-. injection Hset2 as _ <-.
    cbn [model set_model]. split.
    + rewrite lookup_insert_ne by discriminate. apply lookup_insert_eq.
    + apply lookup_insert_eq.
  - intros E X y s W1 W2 s' Hrun. unfold RBF_1D.RBF_train_offline in Hrun.
    apply bind_inv in Hrun as (W1' & s1 & Hinit & Hrun).
    assert (HW1 : model s1 !! "W1" = Some (VArr W1')).
    { unfold RBF_1D.RBF_initialize_centres in Hinit.
      apply bind_inv in Hinit as (method & t1 & _ & Hinit).
      apply bind_inv in Hinit as (nh & t2 & _ & Hinit).
      apply bind_inv in Hinit as (W & t3 & _ & Hinit).
      apply bind_inv in Hinit as (u & t4 & Hset & Hinit).
      apply ret_inv in Hinit as [-> ->].
      rewrite setitem_Ok in Hset. injection Hset as _ <-.
      cbn [model set_model]. apply lookup_insert_eq. }
    apply bind_inv in Hrun as (nh & s2 & Hg & Hrun). apply getitem_inv in Hg as [-> _].
    apply bind_inv in Hrun as (ones & s2 & Hl & Hrun). apply lift_inv in Hl as [-> _].
    apply bind_inv in Hrun as (eps & s2 & Hg & Hrun). apply getitem_inv in Hg as [-> _].
    apply bind_inv in Hrun as (Xa & s2 & Hl & Hrun). apply load2_inv in Hl as [-> _].
    apply bind_inv in Hrun as ([rA2 A1] & s2 & Hl & Hrun). apply lift_inv in Hl as [-> _].
    apply bind_inv in Hrun as (ya & s2 & Hl & Hrun). apply load_inv in Hl as [-> _].
    apply bind_inv in Hrun as (w & s2 & Hl & Hrun). apply lift_inv in Hl as [-> _].
    apply bind_inv in Hrun as (u & s2 & Hset & Hrun).
    apply ret_inv in Hrun as [-> [= -> ->]].
    rewrite setitem_Ok in Hset. injection Hset as _ <-.
    cbn [model set_model]. split.
    + rewrite lookup_insert_ne by discriminate. exact HW1.
    + apply lookup_insert_eq.
Qed.

Lemma mlp_run :
  exists W1 W2 s', MLP_MSELIN_train 0%nat 1%nat mlp_state = (Ok (W1, W2), s').
Proof.
  destruct (MLP_MSELIN_train_run [Arr2 X_example; Arr2 y_example] mlp_model
              constant_generator 0%nat 1%nat X_example y_example
              2%Z 1%Z 1%Z 2%Z 2%Z (VFloat (1/10)) (1/10))
    as (W1 & W2 & hist & g' & Hrun & _); try reflexivity; try lia.
  - intros pos n. reflexivity.
  - eauto.
Qed.

Lemma trainers_store_returned_weights_witness :
  (exists W1 W2 s',
     MLP_MSELIN_train 0%nat 1%nat mlp_state = (Ok (W1, W2), s') /\
     model s' !! "W1" = Some (VArr W1) /\ model s' !! "W2" = Some (VArr W2)) /\
  (exists W2 s',
     RBF_1D.RBF_train_offline 0%nat 1%nat debug_state
     = (Ok (RBF_1D.debug_centres_1, W2), s') /\
     model s' !! "W1" = Some (VArr RBF_1D.debug_centres_1) /\
     model s' !! "W2" = Some (VArr W2)).
Proof.
  split.
  - destruct mlp_run as (W1 & W2 & s' & Hrun). exists W1, W2, s'. split; [exact Hrun|].
    apply (proj1 trainers_store_returned_weights 0%nat 1%nat mlp_state W1 W2 s' Hrun).
  - destruct debug_run as (W2 & s' & Hrun). exists W2, s'. split; [exact Hrun|].
    apply (proj2 trainers_store_returned_weights zero_solver 0%nat 1%nat debug_state
             RBF_1D.debug_centres_1 W2 s' Hrun).
Defined.

(** ** The updates are gradient steps *)

Lemma derivable_pt_lim_eq f x l l' :
  l = l' -> derivable_pt_lim f x l -> derivable_pt_lim f x l'.
Proof. intros ->. auto. Qed.

Lemma derivable_pt_lim_sq u x u' :
  derivable_pt_lim u x u' -> derivable_pt_lim (fun t => u t ^ 2) x (2 * u x * u').
Proof.
  intros Hu. apply (derivable_pt_lim_ext (fun t => u t * u t)%R); [intros; ring|].
  apply (derivable_pt_lim_eq _ _ (u' * u x + u x * u')); [ring|].
  apply (derivable_pt_lim_mult u u x u' u' Hu Hu).
Qed.

Lemma derivable_pt_lim_sum_upto n (f : nat -> R -> R) (l : nat -> R) x :
  (forall k, (k < n)%nat -> derivable_pt_lim (f k) x (l k)) ->
  derivable_pt_lim (fun t => sum_upto n (fun k => f k t)) x (sum_upto n l).
Proof.
  induction n as [|n IH]; intros Hf.
  - apply (derivable_pt_lim_ext (fun _ => 0)); [reflexivity|].
    apply derivable_pt_lim_const.
  - rewrite sum_upto_S.
    apply (derivable_pt_lim_ext (fun t => sum_upto n (fun k => f k t) + f n t)%R).
    { intros t. rewrite sum_upto_S. reflexivity. }
    apply (derivable_pt_lim_plus (fun t => sum_upto n (fun k => f k t)) (f n)).
    + apply IH. intros k Hk. apply Hf. lia.
    + apply Hf. lia.
Qed.

Lemma derivable_pt_lim_sigmoid z : derivable_pt_lim sigmoid z (sigmoid' z).
Proof.
  assert (Hexp : derivable_pt_lim (fun t => exp (- t)) z (- exp (- z))).
  { apply (derivable_pt_lim_eq _ _ (exp (- z) * -1)); [ring|].
    apply (derivable_pt_lim_comp Ropp exp z (-1) (exp (- z))).
    - apply (derivable_pt_lim_opp id z 1), derivable_pt_lim_id.
    - apply derivable_pt_lim_exp. }
  assert (Hden : derivable_pt_lim (fun t => 1 + exp (- t)) z (0 + - exp (- z))).
  { apply (derivable_pt_lim_plus (fun _ => 1) (fun t => exp (- t))).
    - apply derivable_pt_lim_const.
    - exact Hexp. }
  pose proof (exp_pos (- z)) as Hpos.
  assert (Hnz : 1 + exp (- z) <> 0) by lra.
  unfold sigmoid', sigmoid.
  apply (derivable_pt_lim_eq _ _
           ((0 * (1 + exp (- z)) - (0 + - exp (- z)) * 1) / Rsqr (1 + exp (- z)))).
  { unfold Rsqr. field. exact Hnz. }
  apply (derivable_pt_lim_div (fun _ => 1) (fun t => 1 + exp (- t)) z 0 (0 + - exp (- z))).
  - apply derivable_pt_lim_const.
  - exact Hden.
  - exact Hnz.
Qed.

Lemma get_with_entry W i j t i' j' :
  (i' < nrows W)%nat -> (j' < ncols W)%nat ->
  get (with_entry W i j t) i' j'
  = if ((i' =? i)%nat && (j' =? j)%nat)%bool then t else get W i' j'.
Proof. intros Hi Hj. unfold with_entry. apply get_build; assumption. Qed.

(** X23. [MLP_sigmoid_derivative] is the derivative of [MLP_sigmoid]: the
    entry of the activation as a function of the same entry of its
    argument has, at every point, the entry of
    [MLP_sigmoid_derivative] as its derivative. *)
Theorem MLP_sigmoid_derivative_is_derivative :
  forall Z h b, (h < nrows Z)%nat -> (b < ncols Z)%nat ->
    exists S',
      MLP_sigmoid_derivative Z = Ok S' /\
      derivable_pt_lim (fun t => get (MLP_sigmoid (with_entry Z h b t)) h b)
        (get Z h b) (get S' h b).
Proof.
  intros Z h b Hh Hb.
  destruct (MLP_sigmoid_derivative_Ok Z) as (S' & HS & _ & _ & Hget).
  exists S'. split; [exact HS|].
  rewrite Hget by assumption.
  apply (derivable_pt_lim_ext sigmoid); [|apply derivable_pt_lim_sigmoid].
  intros t. rewrite get_MLP_sigmoid by (unfold with_entry; rewrite ?nrows_build, ?ncols_build; lia).
  rewrite get_with_entry by assumption.
  rewrite !Nat.eqb_refl. reflexivity.
Qed.

Lemma MLP_sigmoid_derivative_is_derivative_witness :
  exists S',
    MLP_sigmoid_derivative X_example = Ok S' /\
    derivable_pt_lim (fun t => get (MLP_sigmoid (with_entry X_example 1 0 t)) 1%nat 0%nat)
      (get X_example 1%nat 0%nat) (get S' 1%nat 0%nat).
Proof.
  apply (MLP_sigmoid_derivative_is_derivative X_example 1%nat 0%nat); cbn; lia.
Defined.

Lemma dot_insert x w j t :
  length x = length w -> (j < length w)%nat ->
  dot x (<[j := t]> w) = dot x w + (t - nth j w 0) * nth j x 0.
Proof.
  revert w j. induction x as [|a x IH]; intros [|c w] j Hlen Hj; cbn [length] in *; try lia.
  unfold dot in *. destruct j as [|j]; cbn [zip_with fold_right nth].
  - change (<[0%nat := t]> (c :: w)) with (t :: w). cbn [zip_with fold_right]. ring.
  - change (<[Datatypes.S j := t]> (c :: w)) with (c :: <[j := t]> w).
    cbn [zip_with fold_right]. rewrite IH by lia. ring.
Qed.

Lemma nth_zip_with_R (f : R -> R -> R) a b j :
  (j < length a)%nat -> (j < length b)%nat ->
  nth j (zip_with f a b) 0 = f (nth j a 0) (nth j b 0).
Proof.
  revert b j. induction a as [|x a IH]; intros [|y b] j Ha Hb; cbn [length] in *; try lia.
  destruct j as [|j]; cbn [zip_with nth]; [reflexivity|]. apply IH; lia.
Qed.

(** X24. One pass of the loop of the linear trainer over an example adds the
    loss [(x.w + b - y)^2 / 2] of the example to the error of the epoch
    and moves every weight and the bias against the partial derivative
    of that loss, scaled by the learning rate. *)
Theorem LLS_example_is_gradient_step :
  forall h m g lX lY X y eta i wl bs Es b E,
    h !! lX = Some (Arr2 X) -> h !! lY = Some (Arr2 y) ->
    (i < nrows X)%nat -> (i < nrows y)%nat -> ncols y = 1%nat ->
    length wl = ncols X ->
    as_operand b = scalar1 bs -> as_operand E = scalar1 Es ->
    let x := map (fun j => get X i j) (seq 0 (ncols X)) in
    let loss := example_loss x (get y i 0%nat) in
    exists wl' bs' Es',
      LLS_example lX lY eta i (as_column wl, b, E) (mk_state h m g)
      = (Ok (as_column wl', NdArray (scalar1 bs'), NdArray (scalar1 Es')), mk_state h m g) /\
      Es' = Es + loss wl bs /\
      length wl' = length wl /\
      (forall j, (j < length wl)%nat ->
         exists dw,
           derivable_pt_lim (fun t => loss (<[j := t]> wl) bs) (nth j wl 0) dw /\
           nth j wl' 0 = nth j wl 0 - eta * dw) /\
      (exists db,
         derivable_pt_lim (fun t => loss wl t) bs db /\ bs' = bs - eta * db).
Proof.
  intros h m g lX lY X y eta i wl bs Es b E HX Hy Hi Hiy Hcy Hwl Hb HE x loss.
  destruct (LLS_example_step h m g lX lY X y eta i wl bs Es b E)
    as (wl' & bs' & Es' & Hstep & Hlen' & Hrun); try assumption.
  fold x in Hstep. unfold sgd_example in Hstep. injection Hstep as <- <- <-.
  assert (Hx : length x = length wl)
    by (unfold x; rewrite length_map, length_seq; lia).
  set (r := dot x wl + bs - get y i 0%nat) in *.
  eexists _, _, _. split; [exact Hrun|].
  split; [unfold loss, example_loss; fold r; lra|].
  split; [rewrite length_zip_with; lia|]. split.
  - intros j Hj. exists (r * nth j x 0). split.
    + unfold loss, example_loss.
      apply (derivable_pt_lim_ext
               (fun t => (fun t => (r + (t - nth j wl 0) * nth j x 0) ^ 2) t * / 2)%R).
      { intros t. rewrite dot_insert by assumption. unfold r, Rdiv. f_equal. f_equal. ring. }
      apply (derivable_pt_lim_eq _ _
               (2 * (r + (nth j wl 0 - nth j wl 0) * nth j x 0)
                  * ((0 + (1 - 0) * nth j x 0)) * / 2)); [field|].
      apply (derivable_pt_lim_scal_right
               (fun t => (r + (t - nth j wl 0) * nth j x 0) ^ 2)).
      apply (derivable_pt_lim_sq (fun t => r + (t - nth j wl 0) * nth j x 0)).
      apply (derivable_pt_lim_plus (fun _ => r) (fun t => (t - nth j wl 0) * nth j x 0)).
      * apply derivable_pt_lim_const.
      * apply (derivable_pt_lim_scal_right (fun t => t - nth j wl 0)).
        apply (derivable_pt_lim_minus id (fun _ => nth j wl 0)).
        -- apply derivable_pt_lim_id.
        -- apply derivable_pt_lim_const.
    + rewrite nth_zip_with_R by lia. reflexivity.
  - exists r. split; [|reflexivity].
    unfold loss, example_loss.
    apply (derivable_pt_lim_ext
             (fun t => (fun t => (dot x wl + t - get y i 0%nat) ^ 2) t * / 2)%R).
    { intros t. reflexivity. }
    apply (derivable_pt_lim_eq _ _ (2 * r * (0 + 1 - 0) * / 2)); [field|].
    apply (derivable_pt_lim_scal_right (fun t => (dot x wl + t - get y i 0%nat) ^ 2)).
    apply (derivable_pt_lim_sq (fun t => dot x wl + t - get y i 0%nat)).
    apply (derivable_pt_lim_minus (fun t => dot x wl + t) (fun _ => get y i 0%nat)).
    + apply (derivable_pt_lim_plus (fun _ => dot x wl) id).
      * apply derivable_pt_lim_const.
      * apply derivable_pt_lim_id.
    + apply derivable_pt_lim_const.
Qed.

Lemma LLS_example_is_gradient_step_witness :
  let x := map (fun j => get X_example 0%nat j) (seq 0 (ncols X_example)) in
  let loss := example_loss x (get y_example 0%nat 0%nat) in
  exists wl' bs' Es',
    LLS_example 0%nat 1%nat (1/10) 0 (as_column [0], PyFloat 0, PyFloat 0)
      (mk_state [Arr2 X_example; Arr2 y_example] ∅ constant_generator)
    = (Ok (as_column wl', NdArray (scalar1 bs'), NdArray (scalar1 Es')),
       mk_state [Arr2 X_example; Arr2 y_example] ∅ constant_generator) /\
    Es' = 0 + loss [0] 0 /\
    length wl' = length [0] /\
    (forall j, (j < length [0])%nat ->
       exists dw,
         derivable_pt_lim (fun t => loss (<[j := t]> [0]) 0) (nth j [0] 0) dw /\
         nth j wl' 0 = nth j [0] 0 - 1/10 * dw) /\
    (exists db,
       derivable_pt_lim (fun t => loss [0] t) 0 db /\ bs' = 0 - 1/10 * db).
Proof.
  apply (LLS_example_is_gradient_step
           [Arr2 X_example; Arr2 y_example] ∅ constant_generator 0%nat 1%nat
           X_example y_example (1/10) 0%nat [0] 0 0 (PyFloat 0) (PyFloat 0));
    try reflexivity; cbn; lia.
Defined.

(** ** Backpropagation computes the gradient *)

Lemma with_entry_same W i j i' j' :
  (i' < nrows W)%nat -> (j' < ncols W)%nat ->
  get (with_entry W i j (get W i j)) i' j' = get W i' j'.
Proof.
  intros Hi Hj. rewrite get_with_entry by assumption.
  destruct (Nat.eqb_spec i' i) as [->|]; [|reflexivity].
  destruct (Nat.eqb_spec j' j) as [->|]; reflexivity.
Qed.

Lemma derivable_pt_lim_entry W i j i' j' x :
  (i' < nrows W)%nat -> (j' < ncols W)%nat ->
  derivable_pt_lim (fun t => get (with_entry W i j t) i' j') x
    (if ((i' =? i)%nat && (j' =? j)%nat)%bool then 1 else 0).
Proof.
  intros Hi Hj.
  apply (derivable_pt_lim_ext
           (fun t => if ((i' =? i)%nat && (j' =? j)%nat)%bool then t else get W i' j')).
  { intros t. symmetry. apply get_with_entry; assumption. }
  destruct ((i' =? i)%nat && (j' =? j)%nat)%bool.
  - apply derivable_pt_lim_id.
  - apply derivable_pt_lim_const.
Qed.

(** The loss of a batch in terms of the entries of the output. *)
Lemma MLP_loss_explicit P W1 W2 Y :
  ncols W1 = Datatypes.S (ncols P) -> ncols W2 = Datatypes.S (nrows W1) ->
  nrows Y = nrows W2 -> ncols Y = nrows P ->
  MLP_loss P W1 W2 Y
  = sum_upto (nrows W2) (fun o => sum_upto (nrows P) (fun b =>
      (network_output P W1 W2 o b - get Y o b) ^ 2 / 2)).
Proof.
  intros H1 H2 HY1 HY2. unfold MLP_loss, MLP_MSELIN_predict.
  destruct (MLP_MSELIN_forward_Ok P W1 W2 H1 H2)
    as (rA2 & A1 & A0 & rZ1 & Hfwd & HA0 & HrZ1 & HA1 & HrA2).
  rewrite Hfwd. cbn [rbind]. unfold half_sse. rewrite HY1, HY2.
  unfold Rdiv at 1. rewrite sum_upto_mult_r.
  apply sum_upto_ext. intros o Ho. rewrite sum_upto_mult_r.
  apply sum_upto_ext. intros b Hb. unfold Rdiv. do 3 f_equal.
  rewrite HrA2. rewrite get_build by assumption.
  unfold network_output. rewrite H2. apply sum_upto_ext. intros k Hk. f_equal.
  rewrite HA1. unfold vstack_ones. rewrite nrows_MLP_sigmoid, ncols_MLP_sigmoid.
  rewrite HrZ1 at 1 2. rewrite nrows_build, ncols_build.
  rewrite get_build by lia.
  destruct k as [|h]; [reflexivity|]. cbn [hidden_output].
  rewrite get_MLP_sigmoid by (rewrite HrZ1, ?nrows_build, ?ncols_build; lia).
  f_equal. rewrite HrZ1. rewrite get_build by lia.
  unfold hidden_input. rewrite HA0. reflexivity.
Qed.

Lemma derivable_pt_lim_loss (y : R -> nat -> nat -> R) (y' : nat -> nat -> R) Y O B x :
  (forall o b, (o < O)%nat -> (b < B)%nat ->
     derivable_pt_lim (fun t => y t o b) x (y' o b)) ->
  derivable_pt_lim
    (fun t => sum_upto O (fun o => sum_upto B (fun b => (y t o b - get Y o b) ^ 2 / 2))) x
    (sum_upto O (fun o => sum_upto B (fun b => (y x o b - get Y o b) * y' o b))).
Proof.
  intros Hy.
  apply (derivable_pt_lim_sum_upto O
           (fun o t => sum_upto B (fun b => (y t o b - get Y o b) ^ 2 / 2))
           (fun o => sum_upto B (fun b => (y x o b - get Y o b) * y' o b))).
  intros o Ho.
  apply (derivable_pt_lim_sum_upto B
           (fun b t => (y t o b - get Y o b) ^ 2 / 2)
           (fun b => (y x o b - get Y o b) * y' o b)).
  intros b Hb.
  apply (derivable_pt_lim_eq _ _ (2 * (y x o b - get Y o b) * (y' o b - 0) * / 2));
    [field|].
  apply (derivable_pt_lim_scal_right (fun t => (y t o b - get Y o b) ^ 2)).
  apply (derivable_pt_lim_sq (fun t => y t o b - get Y o b)).
  apply (derivable_pt_lim_minus (fun t => y t o b) (fun _ => get Y o b)).
  - apply Hy; assumption.
  - apply derivable_pt_lim_const.
Qed.

Lemma hidden_input_same P W1 h0 d0 h b :
  ncols W1 = Datatypes.S (ncols P) -> (h < nrows W1)%nat ->
  hidden_input P (with_entry W1 h0 d0 (get W1 h0 d0)) h b = hidden_input P W1 h b.
Proof.
  intros H1 Hh. unfold hidden_input. apply sum_upto_ext. intros k Hk.
  rewrite with_entry_same by lia. reflexivity.
Qed.

Lemma hidden_output_same P W1 h0 d0 k b :
  ncols W1 = Datatypes.S (ncols P) -> (k < Datatypes.S (nrows W1))%nat ->
  hidden_output P (with_entry W1 h0 d0 (get W1 h0 d0)) k b = hidden_output P W1 k b.
Proof.
  intros H1 Hk. destruct k as [|h]; [reflexivity|]. cbn [hidden_output].
  rewrite hidden_input_same by (assumption || lia). reflexivity.
Qed.

Lemma derivable_pt_lim_output_W2 P W1 W2 o0 k0 o b x :
  (o < nrows W2)%nat ->
  derivable_pt_lim (fun t => network_output P W1 (with_entry W2 o0 k0 t) o b) x
    (sum_upto (ncols W2) (fun k =>
       (if ((o =? o0)%nat && (k =? k0)%nat)%bool then 1 else 0) * hidden_output P W1 k b)).
Proof.
  intros Ho. unfold network_output.
  apply (derivable_pt_lim_sum_upto (ncols W2)
           (fun k t => get (with_entry W2 o0 k0 t) o k * hidden_output P W1 k b)
           (fun k => (if ((o =? o0)%nat && (k =? k0)%nat)%bool then 1 else 0)
                     * hidden_output P W1 k b)).
  intros k Hk.
  apply (derivable_pt_lim_scal_right (fun t => get (with_entry W2 o0 k0 t) o k)).
  apply derivable_pt_lim_entry; assumption.
Qed.

Lemma derivable_pt_lim_hidden_input P W1 h0 d0 h b x :
  ncols W1 = Datatypes.S (ncols P) -> (h < nrows W1)%nat ->
  derivable_pt_lim (fun t => hidden_input P (with_entry W1 h0 d0 t) h b) x
    (sum_upto (Datatypes.S (ncols P)) (fun d =>
       (if ((h =? h0)%nat && (d =? d0)%nat)%bool then 1 else 0)
       * get (vstack_ones (transpose P)) d b)).
Proof.
  intros H1 Hh. unfold hidden_input.
  apply (derivable_pt_lim_sum_upto (Datatypes.S (ncols P))
           (fun d t => get (with_entry W1 h0 d0 t) h d * get (vstack_ones (transpose P)) d b)
           (fun d => (if ((h =? h0)%nat && (d =? d0)%nat)%bool then 1 else 0)
                     * get (vstack_ones (transpose P)) d b)).
  intros d Hd.
  apply (derivable_pt_lim_scal_right (fun t => get (with_entry W1 h0 d0 t) h d)).
  apply derivable_pt_lim_entry; [assumption | lia].
Qed.

Lemma derivable_pt_lim_hidden_output P W1 h0 d0 k b :
  ncols W1 = Datatypes.S (ncols P) -> (k < Datatypes.S (nrows W1))%nat ->
  (d0 < Datatypes.S (ncols P))%nat ->
  derivable_pt_lim (fun t => hidden_output P (with_entry W1 h0 d0 t) k b) (get W1 h0 d0)
    (match k with
     | O => 0
     | Datatypes.S h =>
         (if (h =? h0)%nat
          then sigmoid' (hidden_input P W1 h0 b) * get (vstack_ones (transpose P)) d0 b
          else 0)
     end).
Proof.
  intros H1 Hk Hd0. destruct k as [|h]; cbn [hidden_output].
  - apply derivable_pt_lim_const.
  - pose proof (derivable_pt_lim_hidden_input P W1 h0 d0 h b (get W1 h0 d0) H1
                  ltac:(lia)) as Hz.
    rewrite (sum_upto_delta (Datatypes.S (ncols P)) d0 (h =? h0)%nat
               (fun d => get (vstack_ones (transpose P)) d b) Hd0) in Hz.
    pose proof (derivable_pt_lim_comp
                  (fun t => hidden_input P (with_entry W1 h0 d0 t) h b) sigmoid
                  (get W1 h0 d0) _ _ Hz (derivable_pt_lim_sigmoid _)) as Hs.
    rewrite hidden_input_same in Hs by (assumption || lia).
    eapply derivable_pt_lim_eq; [|exact Hs].
    destruct (Nat.eqb_spec h h0) as [->|]; ring.
Qed.

Lemma derivable_pt_lim_output_W1 P W1 W2 h0 d0 o b :
  ncols W1 = Datatypes.S (ncols P) -> ncols W2 = Datatypes.S (nrows W1) ->
  (h0 < nrows W1)%nat -> (d0 < Datatypes.S (ncols P))%nat ->
  derivable_pt_lim (fun t => network_output P (with_entry W1 h0 d0 t) W2 o b)
    (get W1 h0 d0)
    (get W2 o (Datatypes.S h0)
     * (sigmoid' (hidden_input P W1 h0 b) * get (vstack_ones (transpose P)) d0 b)).
Proof.
  intros H1 H2 Hh0 Hd0. unfold network_output.
  set (dk := fun k => match k with
                      | O => 0
                      | Datatypes.S h =>
                          if (h =? h0)%nat
                          then sigmoid' (hidden_input P W1 h0 b)
                               * get (vstack_ones (transpose P)) d0 b
                          else 0
                      end).
  apply (derivable_pt_lim_eq _ _ (sum_upto (ncols W2) (fun k => get W2 o k * dk k))).
  { rewrite H2, sum_upto_shift. unfold dk at 1. rewrite Rmult_0_r, Rplus_0_l.
    rewrite (sum_upto_ext _ _
               (fun h => (if (true && (h =? h0)%nat)%bool then 1 else 0)
                         * (get W2 o (Datatypes.S h)
                            * (sigmoid' (hidden_input P W1 h0 b)
                               * get (vstack_ones (transpose P)) d0 b)))).
    - rewrite (sum_upto_delta (nrows W1) h0 true) by exact Hh0. reflexivity.
    - intros h Hh. unfold dk. cbn [andb]. destruct (h =? h0)%nat; ring. }
  apply (derivable_pt_lim_sum_upto (ncols W2)
           (fun k t => get W2 o k * hidden_output P (with_entry W1 h0 d0 t) k b)
           (fun k => get W2 o k * dk k)).
  intros k Hk.
  apply (derivable_pt_lim_scal
           (fun t => hidden_output P (with_entry W1 h0 d0 t) k b) (get W2 o k)).
  apply derivable_pt_lim_hidden_output; [assumption | lia | assumption].
Qed.

Lemma MLP_backprop_gradient :
  forall P W1 W2 Y,
    ncols W1 = Datatypes.S (ncols P) -> ncols W2 = Datatypes.S (nrows W1) ->
    nrows Y = nrows W2 -> ncols Y = nrows P ->
    exists rA2 A1 A0 rZ1 dW1 dW2 cost,
      MLP_MSELIN_forward P W1 W2 = Ok (rA2, A1, A0, rZ1) /\
      MLP_MSELIN_backprop rA2 A1 A0 rZ1 Y W1 W2 = Ok (dW1, dW2) /\
      MLP_MSE_cost Y rA2 = Ok cost /\
      cost = MLP_loss P W1 W2 Y / INR (nrows P) /\
      (forall o k, (o < nrows W2)%nat -> (k < ncols W2)%nat ->
         derivable_pt_lim (fun t => MLP_loss P W1 (with_entry W2 o k t) Y)
           (get W2 o k) (get dW2 o k)) /\
      (forall h d, (h < nrows W1)%nat -> (d < ncols W1)%nat ->
         derivable_pt_lim (fun t => MLP_loss P (with_entry W1 h d t) W2 Y)
           (get W1 h d) (get dW1 h d)).
Proof.
  intros P W1 W2 Y H1 H2 HY1 HY2.
  destruct (MLP_MSELIN_backprop_Ok P W1 W2 Y H1 H2 HY1 HY2)
    as (rA2 & A1 & A0 & rZ1 & dW1 & dW2 & Hfwd & Hback & _ & _ & _ & _
        & HdW2 & HdW1 & Hhid).
  destruct (MLP_MSELIN_forward_Ok P W1 W2 H1 H2)
    as (rA2' & A1' & A0' & rZ1' & Hfwd' & HA0 & HrZ1 & HA1 & HrA2).
  rewrite Hfwd in Hfwd'. apply Ok_inj in Hfwd'. injection Hfwd' as <- <- <- <-.
  assert (Hout : forall o b, (o < nrows W2)%nat -> (b < nrows P)%nat ->
            get rA2 o b = network_output P W1 W2 o b).
  { intros o b Ho Hb. rewrite HrA2, get_build by assumption.
    unfold network_output. rewrite H2. apply sum_upto_ext. intros k Hk. f_equal.
    destruct k as [|h]; cbn [hidden_output].
    - rewrite HA1. unfold vstack_ones. rewrite get_build; [reflexivity | |];
        rewrite ?nrows_MLP_sigmoid, ?ncols_MLP_sigmoid, HrZ1, ?nrows_build, ?ncols_build; lia.
    - destruct (Hhid h b ltac:(lia) Hb) as [Hz ->]. f_equal. rewrite Hz.
      unfold hidden_input. rewrite HA0. reflexivity. }
  assert (Hz : forall h b, (h < nrows W1)%nat -> (b < nrows P)%nat ->
            get rZ1 h b = hidden_input P W1 h b).
  { intros h b Hh Hb. destruct (Hhid h b Hh Hb) as [-> _].
    unfold hidden_input. rewrite HA0. reflexivity. }
  assert (Hact : forall k b, (k < Datatypes.S (nrows W1))%nat -> (b < nrows P)%nat ->
            get A1 k b = hidden_output P W1 k b).
  { intros k b Hk Hb. destruct k as [|h]; cbn [hidden_output].
    - rewrite HA1. unfold vstack_ones. rewrite get_build; [reflexivity | |];
        rewrite ?nrows_MLP_sigmoid, ?ncols_MLP_sigmoid, HrZ1, ?nrows_build, ?ncols_build; lia.
    - destruct (Hhid h b ltac:(lia) Hb) as [_ ->]. rewrite Hz by lia. reflexivity. }
  exists rA2, A1, A0, rZ1, dW1, dW2.
  assert (SrA2 : nrows rA2 = nrows W2 /\ ncols rA2 = nrows P)
    by (rewrite HrA2, nrows_build, ncols_build; auto).
  destruct SrA2 as [SrA2r SrA2c].
  unfold MLP_MSE_cost. rewrite broadcast_same by lia. cbn [rbind].
  eexists. split; [exact Hfwd|]. split; [exact Hback|]. split; [reflexivity|].
  split; [|split].
  - rewrite MLP_loss_explicit by assumption.
    set (S := sum_upto (nrows W2) (fun o => sum_upto (nrows P) (fun b =>
                (network_output P W1 W2 o b - get Y o b) ^ 2))).
    assert (Hsum : np_sum (map_nd (fun v => v ^ 2)
                      (build (nrows Y) (ncols Y) (fun i j => get Y i j - get rA2 i j))) = S).
    { unfold np_sum, map_nd. rewrite !nrows_build, !ncols_build, HY1, HY2.
      apply sum_upto_ext. intros o Ho. apply sum_upto_ext. intros b Hb.
      rewrite !get_build by lia. rewrite Hout by assumption. ring. }
    assert (Hhalf : sum_upto (nrows W2) (fun o => sum_upto (nrows P) (fun b =>
                      (network_output P W1 W2 o b - get Y o b) ^ 2 / 2)) = S * / 2).
    { unfold S. rewrite sum_upto_mult_r. apply sum_upto_ext. intros o Ho.
      rewrite sum_upto_mult_r. reflexivity. }
    rewrite Hsum, Hhalf, HY2. unfold Rdiv. rewrite Rinv_mult. ring.
  - intros o0 k0 Ho0 Hk0.
    apply (derivable_pt_lim_ext
             (fun t => sum_upto (nrows W2) (fun o => sum_upto (nrows P) (fun b =>
                (network_output P W1 (with_entry W2 o0 k0 t) o b - get Y o b) ^ 2 / 2)))).
    { intros t. symmetry. apply (MLP_loss_explicit P W1 (with_entry W2 o0 k0 t) Y);
        assumption. }
    eapply derivable_pt_lim_eq;
      [|apply (derivable_pt_lim_loss
                 (fun t o b => network_output P W1 (with_entry W2 o0 k0 t) o b)
                 (fun o b => sum_upto (ncols W2) (fun k =>
                    (if ((o =? o0)%nat && (k =? k0)%nat)%bool then 1 else 0)
                    * hidden_output P W1 k b)));
        intros o b Ho Hb; apply derivable_pt_lim_output_W2; exact Ho].
    rewrite HdW2 by lia.
    rewrite (sum_upto_ext (nrows W2) _
               (fun o => (if (true && (o =? o0)%nat)%bool then 1 else 0)
                         * sum_upto (nrows P) (fun b =>
                             (get rA2 o b - get Y o b) * get A1 k0 b))).
    { rewrite (sum_upto_delta (nrows W2) o0 true) by exact Ho0. reflexivity. }
    intros o Ho. rewrite Rmult_comm, sum_upto_mult_r.
    apply sum_upto_ext. intros b Hb.
    rewrite (sum_upto_delta (ncols W2) k0 (o =? o0)%nat) by exact Hk0.
    assert (Hsame : network_output P W1 (with_entry W2 o0 k0 (get W2 o0 k0)) o b
                    = network_output P W1 W2 o b).
    { unfold network_output. apply sum_upto_ext. intros k Hk.
      rewrite with_entry_same by assumption. reflexivity. }
    rewrite Hsame, <- Hout by assumption. rewrite Hact by lia.
    cbn [andb]. destruct (o =? o0)%nat; ring.
  - intros h0 d0 Hh0 Hd0. rewrite H1 in Hd0.
    apply (derivable_pt_lim_ext
             (fun t => sum_upto (nrows W2) (fun o => sum_upto (nrows P) (fun b =>
                (network_output P (with_entry W1 h0 d0 t) W2 o b - get Y o b) ^ 2 / 2)))).
    { intros t. symmetry. apply (MLP_loss_explicit P (with_entry W1 h0 d0 t) W2 Y);
        assumption. }
    eapply derivable_pt_lim_eq;
      [|apply (derivable_pt_lim_loss
                 (fun t o b => network_output P (with_entry W1 h0 d0 t) W2 o b)
                 (fun o b => get W2 o (Datatypes.S h0)
                             * (sigmoid' (hidden_input P W1 h0 b)
                                * get (vstack_ones (transpose P)) d0 b)));
        intros o b Ho Hb; apply derivable_pt_lim_output_W1; assumption].
    rewrite HdW1 by lia. rewrite sum_upto_swap.
    apply sum_upto_ext. intros b Hb.
    rewrite Hz by assumption. rewrite HA0.
    rewrite !sum_upto_mult_r. apply sum_upto_ext. intros o Ho.
    assert (Hsame : network_output P (with_entry W1 h0 d0 (get W1 h0 d0)) W2 o b
                    = network_output P W1 W2 o b).
    { unfold network_output. apply sum_upto_ext. intros k Hk.
      rewrite hidden_output_same by (assumption || lia). reflexivity. }
    rewrite Hsame, <- Hout by assumption. ring.
Qed.

(** X25. The gradients of the backward pass are the partial derivatives of
    half the summed squared error of the batch: as a function of one
    entry of [W2] (of [W1]), the other weights fixed, the loss of what
    the forward pass predicts has the matching entry of [dL_dW2] (of
    [dL_dW1]) as its derivative at the current weights. The cost that
    training records is this loss divided by the batch size, so that a
    step moves along the gradient of the cost scaled by the batch size. *)
Theorem MLP_MSELIN_backprop_is_gradient :
  forall P W1 W2 Y,
    ncols W1 = Datatypes.S (ncols P) -> ncols W2 = Datatypes.S (nrows W1) ->
    nrows Y = nrows W2 -> ncols Y = nrows P ->
    exists rA2 A1 A0 rZ1 dW1 dW2 cost,
      MLP_MSELIN_forward P W1 W2 = Ok (rA2, A1, A0, rZ1) /\
      MLP_MSELIN_backprop rA2 A1 A0 rZ1 Y W1 W2 = Ok (dW1, dW2) /\
      MLP_MSE_cost Y rA2 = Ok cost /\
      cost = MLP_loss P W1 W2 Y / INR (nrows P) /\
      (forall o k, (o < nrows W2)%nat -> (k < ncols W2)%nat ->
         derivable_pt_lim (fun t => MLP_loss P W1 (with_entry W2 o k t) Y)
           (get W2 o k) (get dW2 o k)) /\
      (forall h d, (h < nrows W1)%nat -> (d < ncols W1)%nat ->
         derivable_pt_lim (fun t => MLP_loss P (with_entry W1 h d t) W2 Y)
           (get W1 h d) (get dW1 h d)).
Proof. exact MLP_backprop_gradient. Qed.

Lemma MLP_MSELIN_backprop_is_gradient_witness :
  exists rA2 A1 A0 rZ1 dW1 dW2 cost,
    MLP_MSELIN_forward X_example (np_zeros 2 2) (np_zeros 1 3) = Ok (rA2, A1, A0, rZ1) /\
    MLP_MSELIN_backprop rA2 A1 A0 rZ1 (transpose y_example) (np_zeros 2 2) (np_zeros 1 3)
    = Ok (dW1, dW2) /\
    MLP_MSE_cost (transpose y_example) rA2 = Ok cost /\
    cost = MLP_loss X_example (np_zeros 2 2) (np_zeros 1 3) (transpose y_example)
           / INR (nrows X_example) /\
    (forall o k, (o < nrows (np_zeros 1 3))%nat -> (k < ncols (np_zeros 1 3))%nat ->
       derivable_pt_lim
         (fun t => MLP_loss X_example (np_zeros 2 2) (with_entry (np_zeros 1 3) o k t)
                     (transpose y_example))
         (get (np_zeros 1 3) o k) (get dW2 o k)) /\
    (forall h d, (h < nrows (np_zeros 2 2))%nat -> (d < ncols (np_zeros 2 2))%nat ->
       derivable_pt_lim
         (fun t => MLP_loss X_example (with_entry (np_zeros 2 2) h d t) (np_zeros 1 3)
                     (transpose y_example))
         (get (np_zeros 2 2) h d) (get dW1 h d)).
Proof.
  apply (MLP_MSELIN_backprop_is_gradient X_example (np_zeros 2 2) (np_zeros 1 3)
           (transpose y_example)); reflexivity.
Defined.

(** X26. One pass of the loop over the mini-batches is a step of gradient
    descent on the batch: the cost appended to the history is the loss
    of the batch at the weights before the step, divided by the batch
    size, and every weight moves against the partial derivative of that
    loss, scaled by the learning rate. *)
Theorem MLP_minibatch_is_descent_step :
  forall H D O h m0 g eta_v eta Ps ys idx W1 W2 hist,
    MLP_shapes H D O (W1, W2) -> ncols Ps = D -> ncols ys = O -> nrows ys = nrows Ps ->
    Forall (fun i => (i < nrows Ps)%nat) idx ->
    as_float eta_v = Ok eta ->
    exists Pb yb W1' W2' c,
      take_rows Ps idx = Ok Pb /\ take_rows ys idx = Ok yb /\
      MLP_minibatch eta_v Ps ys idx (W1, W2)
        (mk_state h (<["cost_history" := VList hist]> m0) g)
      = (Ok (W1', W2'), mk_state h (<["cost_history" := VList (hist ++ [c])]> m0) g) /\
      c = MLP_loss Pb W1 W2 (transpose yb) / INR (length idx) /\
      MLP_shapes H D O (W1', W2') /\
      (forall i j, (i < nrows W1)%nat -> (j < ncols W1)%nat ->
         exists dw,
           derivable_pt_lim (fun t => MLP_loss Pb (with_entry W1 i j t) W2 (transpose yb))
             (get W1 i j) dw /\
           get W1' i j = get W1 i j - eta * dw) /\
      (forall i j, (i < nrows W2)%nat -> (j < ncols W2)%nat ->
         exists dw,
           derivable_pt_lim (fun t => MLP_loss Pb W1 (with_entry W2 i j t) (transpose yb))
             (get W2 i j) dw /\
           get W2' i j = get W2 i j - eta * dw).
Proof.
  intros H D O h m0 g eta_v eta Ps ys idx W1 W2 hist
    (HW1r & HW1c & HW2r & HW2c) HPs Hys HN Hidx Heta.
  cbn [fst snd] in *.
  set (Pb := build (length idx) (ncols Ps) (fun i j => get Ps (nth i idx 0%nat) j)).
  set (yb := build (length idx) (ncols ys) (fun i j => get ys (nth i idx 0%nat) j)).
  assert (HPb : take_rows Ps idx = Ok Pb) by (apply take_rows_Ok, Hidx).
  assert (Hyb : take_rows ys idx = Ok yb) by (apply take_rows_Ok; rewrite HN; exact Hidx).
  assert (HcPb : ncols Pb = D) by (unfold Pb; rewrite ncols_build; exact HPs).
  destruct (MLP_backprop_gradient Pb W1 W2 (transpose yb))
    as (rA2 & A1 & A0 & rZ1 & dW1 & dW2 & c & Hfwd & Hbwd & Hc & Hcost & HgW2 & HgW1);
    try (subst Pb yb; shape_goal; lia).
  destruct (MLP_MSELIN_backprop_Ok Pb W1 W2 (transpose yb))
    as (rA2' & A1' & A0' & rZ1' & dW1' & dW2' & Hfwd' & Hbwd'
        & HdW2r & HdW2c & HdW1r & HdW1c & _);
    try (subst Pb yb; shape_goal; lia).
  rewrite Hfwd in Hfwd'. apply Ok_inj in Hfwd'. injection Hfwd' as <- <- <- <-.
  rewrite Hbwd in Hbwd'. apply Ok_inj in Hbwd'. injection Hbwd' as <- <-.
  rewrite HcPb in HdW1c.
  exists Pb, yb.
  eexists _, _, c. split; [exact HPb|]. split; [exact Hyb|].
  split; [|split; [|split; [|split]]].
  - unfold MLP_minibatch.
    erewrite bind_Ok by (apply lift_Ok, HPb).
    erewrite bind_Ok by (apply lift_Ok, Hyb).
    erewrite bind_Ok by (apply lift_Ok, Hfwd). cbv beta iota.
    erewrite bind_Ok by (apply lift_Ok, Hc).
    erewrite bind_Ok by (apply list_append_Ok, lookup_insert_eq).
    rewrite insert_insert_eq.
    erewrite bind_Ok by (apply lift_Ok, Hbwd).
    cbv beta iota.
    erewrite bind_Ok by (apply lift_Ok, Heta).
    erewrite bind_Ok by (apply lift_Ok, broadcast_same; shape_goal; lia).
    erewrite bind_Ok by (apply lift_Ok, broadcast_same; shape_goal; lia).
    reflexivity.
  - rewrite Hcost. unfold Pb. rewrite nrows_build. reflexivity.
  - repeat split; cbn [fst snd]; rewrite ?nrows_build, ?ncols_build; assumption.
  - intros i j Hi Hj. exists (get dW1 i j). split; [apply HgW1; assumption|].
    rewrite get_build by assumption. unfold map_nd. rewrite get_build by lia.
    reflexivity.
  - intros i j Hi Hj. exists (get dW2 i j). split; [apply HgW2; assumption|].
    rewrite get_build by assumption. unfold map_nd. rewrite get_build by lia.
    reflexivity.
Qed.

Lemma MLP_minibatch_is_descent_step_witness :
  exists Pb yb W1' W2' c,
    take_rows X_example [0%nat; 1%nat] = Ok Pb /\
    take_rows y_example [0%nat; 1%nat] = Ok yb /\
    MLP_minibatch (VFloat (1/10)) X_example y_example [0%nat; 1%nat]
      (np_zeros 2 2, np_zeros 1 3)
      (mk_state [] (<["cost_history" := VList []]> ∅) constant_generator)
    = (Ok (W1', W2'),
       mk_state [] (<["cost_history" := VList ([] ++ [c])]> ∅) constant_generator) /\
    c = MLP_loss Pb (np_zeros 2 2) (np_zeros 1 3) (transpose yb)
        / INR (length [0%nat; 1%nat]) /\
    MLP_shapes 2 1 1 (W1', W2') /\
    (forall i j, (i < nrows (np_zeros 2 2))%nat -> (j < ncols (np_zeros 2 2))%nat ->
       exists dw,
         derivable_pt_lim
           (fun t => MLP_loss Pb (with_entry (np_zeros 2 2) i j t) (np_zeros 1 3)
                       (transpose yb))
           (get (np_zeros 2 2) i j) dw /\
         get W1' i j = get (np_zeros 2 2) i j - 1/10 * dw) /\
    (forall i j, (i < nrows (np_zeros 1 3))%nat -> (j < ncols (np_zeros 1 3))%nat ->
       exists dw,
         derivable_pt_lim
           (fun t => MLP_loss Pb (np_zeros 2 2) (with_entry (np_zeros 1 3) i j t)
                       (transpose yb))
           (get (np_zeros 1 3) i j) dw /\
         get W2' i j = get (np_zeros 1 3) i j - 1/10 * dw).
Proof.
  apply (MLP_minibatch_is_descent_step 2%nat 1%nat 1%nat [] ∅ constant_generator
           (VFloat (1/10)) (1/10) X_example y_example [0%nat; 1%nat]
           (np_zeros 2 2) (np_zeros 1 3) []).
  - repeat split.
  - reflexivity.
  - reflexivity.
  - reflexivity.
  - repeat constructor.
  - reflexivity.
Defined.

(** ** The use of [np.random] *)

Lemma quiet_ret {A} (a : A) : draws_nothing (ret a).
Proof. intros s. reflexivity. Qed.

Lemma quiet_raise {A} e : draws_nothing (@raise A e).
Proof. intros s. reflexivity. Qed.

Lemma quiet_lift {A} (r : result A) : draws_nothing (lift r).
Proof. intros s. reflexivity. Qed.

Lemma quiet_bind {A B} (c : M A) (f : A -> M B) :
  draws_nothing c -> (forall a, draws_nothing (f a)) -> draws_nothing (bind c f).
Proof.
  intros Hc Hf s. unfold bind. specialize (Hc s).
  destruct (c s) as [[a|e] s1]; cbn [snd] in *; [|exact Hc].
  rewrite Hf. exact Hc.
Qed.

Lemma quiet_for_each {A S} (l : list A) (body : A -> S -> M S) acc :
  (forall a acc', draws_nothing (body a acc')) -> draws_nothing (for_each l body acc).
Proof.
  intros Hbody. revert acc. induction l as [|a l IH]; intros acc; cbn [for_each].
  - apply quiet_ret.
  - apply quiet_bind; [apply Hbody | intros acc'; apply IH].
Qed.

Lemma quiet_load2 l : draws_nothing (load2 l).
Proof. intros s. unfold load2. destruct (heap s !! l) as [[v|a]|]; reflexivity. Qed.

Lemma quiet_load l : draws_nothing (load l).
Proof. intros s. unfold load. destruct (heap s !! l); reflexivity. Qed.

Lemma quiet_getitem k : draws_nothing (getitem k).
Proof. intros s. unfold getitem. destruct (model s !! k); reflexivity. Qed.

Lemma quiet_setitem k v : draws_nothing (setitem k v).
Proof. intros s. reflexivity. Qed.

Lemma quiet_alloc o : draws_nothing (alloc o).
Proof. intros s. reflexivity. Qed.

Lemma quiet_np_zeros1 n : draws_nothing (np_zeros1 n).
Proof. unfold np_zeros1. destruct (n <? 0)%Z; [apply quiet_raise | apply quiet_alloc]. Qed.

Lemma quiet_setitem1 l k x : draws_nothing (setitem1 l k x).
Proof.
  intros s. unfold setitem1. destruct (heap s !! l) as [[v|a]|]; try reflexivity.
  destruct (k <? length v)%nat; reflexivity.
Qed.

Lemma quiet_setitem1_num l k v : draws_nothing (setitem1_num l k v).
Proof.
  unfold setitem1_num. destruct v as [x|a]; [apply quiet_setitem1|].
  destruct (nrows a * ncols a =? 1)%nat; [apply quiet_setitem1 | apply quiet_raise].
Qed.

Ltac quiet :=
  repeat first
    [ progress intros
    | match goal with
      | x : (_ * _)%type |- _ => destruct x
      | |- draws_nothing (bind _ _) => apply quiet_bind
      | |- draws_nothing (for_each _ _ _) => apply quiet_for_each
      | |- draws_nothing (if ?b then _ else _) => destruct b
      | |- draws_nothing (match ?v with _ => _ end) => destruct v
      end
    | apply quiet_ret | apply quiet_raise | apply quiet_lift | apply quiet_load2
    | apply quiet_load
    | apply quiet_getitem | apply quiet_setitem | apply quiet_np_zeros1
    | apply quiet_setitem1_num | apply quiet_setitem1 | apply quiet_alloc ].

Lemma quiet_at {A B} (c : M A) (f : A -> M B) s :
  rng (c s).2 = rng s -> (forall a, draws_nothing (f a)) -> rng (bind c f s).2 = rng s.
Proof.
  intros Hc Hf. unfold bind. destruct (c s) as [[a|e] s1]; cbn [snd] in *; [|exact Hc].
  rewrite Hf. exact Hc.
Qed.

(** X27. Which functions draw random numbers. The scalar minimizer and the
    linear trainer never touch the generator, whatever their arguments
    and whether they return or raise. The RBF trainers draw only under
    the policy [random]: with any other policy the generator is left as
    it was, so that a run does not depend on the seed. *)
Theorem deterministic_trainers_draw_nothing :
  (forall pol x0 grad eta T, draws_nothing (minimization_using_GD pol x0 grad eta T)) /\
  (forall X y eta n, draws_nothing (LLS_by_GD X y eta n)) /\
  (forall (E : External) X y s method,
     model s !! "centres_generation_method" = Some method ->
     eq_str method "random" = false ->
     rng (RBF_1D.RBF_train_offline X y s).2 = rng s /\
     rng (RBF_2D.RBF_train_offline X y s).2 = rng s).
Proof.
  split; [|split].
  - intros pol x0 grad eta T. unfold minimization_using_GD. quiet.
  - intros X y eta n. unfold LLS_by_GD, LLS_epoch, LLS_example. quiet.
  - intros E X y s method Hm Hr. split.
    + unfold RBF_1D.RBF_train_offline. apply quiet_at; [|quiet].
      unfold RBF_1D.RBF_initialize_centres.
      erewrite bind_Ok by (apply getitem_Ok; exact Hm).
      rewrite Hr.
      match goal with
      | |- rng (?c s).2 = rng s => assert (Hq : draws_nothing c) by quiet; apply Hq
      end.
    + unfold RBF_2D.RBF_train_offline.
      destruct (model s !! "n_hidden") as [nh|] eqn:Hnh.
      2:{ erewrite bind_Raise; [reflexivity|]. unfold getitem. rewrite Hnh. reflexivity. }
      erewrite bind_Ok by (apply getitem_Ok; exact Hnh).
      destruct (model s !! "n_features") as [nf|] eqn:Hnf.
      2:{ erewrite bind_Raise; [reflexivity|]. unfold getitem. rewrite Hnf. reflexivity. }
      erewrite bind_Ok by (apply getitem_Ok; exact Hnf).
      erewrite bind_Ok by (apply getitem_Ok; exact Hm).
      rewrite Hr.
      match goal with
      | |- rng (?c s).2 = rng s => assert (Hq : draws_nothing c) by quiet; apply Hq
      end.
Qed.

Lemma deterministic_trainers_draw_nothing_witness :
  rng (RBF_1D.RBF_train_offline 0%nat 1%nat debug_state).2 = rng debug_state /\
  rng (RBF_2D.RBF_train_offline 0%nat 1%nat debug_state).2 = rng debug_state.
Proof.
  apply (proj2 (proj2 deterministic_trainers_draw_nothing)
           zero_solver 0%nat 1%nat debug_state (VStr "debug")); reflexivity.
Defined.

(** X28. The cell that reports the result of [LLS_by_GD] formats the learned
    bias with [:.4f].  The bias is the float [0.0] only as long as no
    example has been processed; the first update rebinds it to an array
    of shape (1, 1).  So on a data set with at least one row the report
    is printed when the trainer ran for no epoch, and it raises
    [TypeError] as soon as it ran for one epoch or more, which is the
    case for the [num_iters = 100] of the notebook. *)
Theorem LLS_report_bias_is_an_array :
  forall h m g lX lY X y eta (n : Z),
    h !! lX = Some (Arr2 X) -> h !! lY = Some (Arr2 y) ->
    (1 <= nrows X)%nat -> (nrows X <= nrows y)%nat -> ncols y = 1%nat ->
    (0 <= n)%Z ->
    (LLS_report lX lY eta n (mk_state h m g)).1
    = if (n =? 0)%Z then Ok tt
      else Raise (TypeError "unsupported format string passed to numpy.ndarray.__format__").
Proof.
  intros h m g lX lY X y eta n HX Hy HN HNy Hcy Hn.
  destruct (LLS_by_GD_run h m g lX lY X y eta n HX Hy HN HNy Hcy Hn)
    as (wl & bs & hist & _ & Hrun).
  unfold LLS_report. erewrite bind_Ok by exact Hrun. cbv beta iota.
  destruct (Z.eqb_spec n 0) as [->|Hn0].
  - reflexivity.
  - destruct (Nat.eqb_spec (Z.to_nat n) 0) as [H0|_]; [lia|]. reflexivity.
Qed.

Lemma LLS_report_bias_is_an_array_witness :
  (LLS_report 0%nat 1%nat (1/10) 100
     (mk_state [Arr2 X_example; Arr2 y_example] ∅ constant_generator)).1
  = Raise (TypeError "unsupported format string passed to numpy.ndarray.__format__").
Proof.
  apply (LLS_report_bias_is_an_array
           [Arr2 X_example; Arr2 y_example] ∅ constant_generator 0%nat 1%nat
           X_example y_example (1/10) 100).
  - reflexivity.
  - reflexivity.
  - cbn; lia.
  - cbn; lia.
  - reflexivity.
  - lia.
Defined.
